(** * Simulador Industrial 3D (src/script.js)

    A shallow embedding of the [IndustrialSimulator] class and the
    properties of its glue code.

    - JavaScript numbers are IEEE 754 binary64 values: they are modelled by
      Rocq's primitive [float], whose operations are the same binary64
      operations (round to nearest, ties to even).
    - JavaScript objects that are shared by reference (physics bodies,
      meshes, arrows, the robot group) live in a heap indexed by handles;
      the simulator's lists hold handles, as the source holds references.
    - Three.js and Cannon.js are not part of the repository: what they
      compute is a parameter of the development (class [Platform]). *)

From Stdlib Require Import ZArith Lia List Bool String Floats.
From stdpp Require Import base option list gmap strings.

#[local] Set Warnings "-inexact-float".
#[local] Open Scope string_scope.
#[local] Open Scope Z_scope.

(* ===================================================================== *)
(** ** JavaScript numbers and strings *)
(* ===================================================================== *)

(** [Math.PI], the binary64 number nearest to pi. *)
Definition Math_PI : float := 0x1.921fb54442d18p+1%float.

(** The value [±m·2^e] of a finite number as an integer quotient:
    the numerator over [2^(-e)] when [e < 0]. *)
Definition SFfloor (x : spec_float) : spec_float :=
  match x with
  | S754_finite s m e =>
      if 0 <=? e then x
      else binary_normalize prec emax (cond_Zopp s (Zpos m) / 2 ^ (- e)) 0 s
  | _ => x
  end.

(** [Math.floor]: the greatest integral number not above [x];
    NaN, the infinities and the zeros are returned as they are. *)
Definition Math_floor (x : float) : float := SF2Prim (SFfloor (Prim2SF x)).

(** [Math.round]: the nearest integral number, a tie going up. *)
Definition SFround (x : spec_float) : spec_float :=
  match x with
  | S754_finite s m e =>
      if 0 <=? e then x
      else
        let d := 2 ^ (- e) in
        binary_normalize prec emax ((2 * cond_Zopp s (Zpos m) + d) / (2 * d)) 0 s
  | _ => x
  end.

Definition Math_round (x : float) : float := SF2Prim (SFround (Prim2SF x)).

(** The [%] operator on numbers: the remainder of the truncated division,
    computed exactly, with the sign of the dividend. *)
Definition SFrem (x y : spec_float) : spec_float :=
  match x, y with
  | S754_nan, _ | _, S754_nan => S754_nan
  | S754_infinity _, _ => S754_nan
  | _, S754_zero _ => S754_nan
  | S754_zero _, _ => x
  | S754_finite _ _ _, S754_infinity _ => x
  | S754_finite sx mx ex, S754_finite sy my ey =>
      let e := Z.min ex ey in
      let X := Zpos mx * 2 ^ (ex - e) in
      let Y := Zpos my * 2 ^ (ey - e) in
      binary_normalize prec emax (cond_Zopp sx (X mod Y)) e sx
  end.

Definition js_rem (x y : float) : float := SF2Prim (SFrem (Prim2SF x) (Prim2SF y)).

(** The number of an integer (exact below [2^53]). *)
Definition of_Z (n : Z) : float := SF2Prim (binary_normalize prec emax n 0 false).

(** [x > y] and [x === y] on numbers. *)
Definition gtb (x y : float) : bool := (y <? x)%float.

(** Strings built from numbers. Number-to-string conversions are kept as
    terms: [NumStr f] is [String(f)], [Fixed f d] is [f.toFixed(d)],
    [PadStart s n c] is [s.padStart(n, c)]. *)
Inductive jsstr : Type :=
  | Lit (s : string)
  | NumStr (f : float)
  | Fixed (f : float) (digits : Z)
  | PadStart (s : jsstr) (n : Z) (fill : string)
  | Cat (a b : jsstr).

(** A statistics field holds a number, or a string once [toFixed] has been
    stored in it. *)
Inductive jsval : Type :=
  | VNum (f : float)
  | VStr (s : jsstr).

Definition toStr (v : jsval) : jsstr :=
  match v with VNum f => NumStr f | VStr s => s end.

(** [v + ' unit'] *)
Definition withUnit (v : jsval) (u : string) : jsstr := Cat (toStr v) (Lit u).

(* ===================================================================== *)
(** ** Three.js and Cannon.js objects *)
(* ===================================================================== *)

(** A handle is the identity of a JavaScript object created by [new]. *)
Abbreviation handle := nat (only parsing).

Record Vec3 : Type := mkVec3 { vx : float; vy : float; vz : float }.
Record Quat : Type := mkQuat { qx : float; qy : float; qz : float; qw : float }.

Definition vec0 : Vec3 := mkVec3 0 0 0.
Definition quat1 : Quat := mkQuat 0 0 0 1.

(** [CANNON.Box], [CANNON.Sphere], [CANNON.Cylinder], [CANNON.Plane]. *)
Inductive Shape : Type :=
  | ShBox (halfExtents : Vec3)
  | ShSphere (radius : float)
  | ShCylinder (radiusTop radiusBottom height : float) (numSegments : Z)
  | ShPlane.

(** [CANNON.Body]. The source writes [body.material.friction] and
    [body.material.restitution]: the body is taken to carry a material. *)
Record Body : Type := mkBody {
  b_mass : float;
  b_shapes : list Shape;
  b_position : Vec3;
  b_velocity : Vec3;
  b_quaternion : Quat;
  b_friction : float;
  b_restitution : float
}.

(** [new CANNON.Body({ mass })] *)
Definition newBody (m : float) : Body :=
  mkBody m [] vec0 vec0 quat1 0 0.

Definition body_addShape (sh : Shape) (b : Body) : Body :=
  mkBody (b_mass b) (b_shapes b ++ [sh]) (b_position b) (b_velocity b)
         (b_quaternion b) (b_friction b) (b_restitution b).
Definition body_setPosition (p : Vec3) (b : Body) : Body :=
  mkBody (b_mass b) (b_shapes b) p (b_velocity b)
         (b_quaternion b) (b_friction b) (b_restitution b).
Definition body_setQuaternion (q : Quat) (b : Body) : Body :=
  mkBody (b_mass b) (b_shapes b) (b_position b) (b_velocity b)
         q (b_friction b) (b_restitution b).
Definition body_setMaterial (f r : float) (b : Body) : Body :=
  mkBody (b_mass b) (b_shapes b) (b_position b) (b_velocity b)
         (b_quaternion b) f r.

(** [CANNON.World]: its settings and the bodies added to it. *)
Record World : Type := mkWorld {
  w_gravity : Vec3;
  w_naiveBroadphase : bool;
  w_iterations : Z;
  w_friction : float;
  w_restitution : float;
  w_bodies : list handle
}.

(** Geometries of [THREE.Mesh]. *)
Inductive Geometry : Type :=
  | GBox (w h d : float)
  | GSphere (radius : float) (widthSegments heightSegments : Z)
  | GCylinder (radiusTop radiusBottom height : float) (radialSegments : Z)
  | GPlane (w h : float).

Record Mesh : Type := mkMesh {
  m_geometry : Geometry;
  m_color : Z;
  m_position : Vec3;
  m_quaternion : Quat;
  m_rotation_x : float;
  m_castShadow : bool;
  m_receiveShadow : bool
}.

(** [new THREE.Mesh(geometry, new THREE.MeshLambertMaterial({ color }))] *)
Definition newMesh (g : Geometry) (color : Z) : Mesh :=
  mkMesh g color vec0 quat1 0 false false.

Definition mesh_setShadow (c r : bool) (m : Mesh) : Mesh :=
  mkMesh (m_geometry m) (m_color m) (m_position m) (m_quaternion m) (m_rotation_x m) c r.
Definition mesh_setPosY (y : float) (m : Mesh) : Mesh :=
  mkMesh (m_geometry m) (m_color m) (mkVec3 (vx (m_position m)) y (vz (m_position m)))
         (m_quaternion m) (m_rotation_x m) (m_castShadow m) (m_receiveShadow m).
Definition mesh_setRotX (a : float) (m : Mesh) : Mesh :=
  mkMesh (m_geometry m) (m_color m) (m_position m) (m_quaternion m) a
         (m_castShadow m) (m_receiveShadow m).
(** [mesh.position.copy(p); mesh.quaternion.copy(q)] *)
Definition mesh_copyTransform (p : Vec3) (q : Quat) (m : Mesh) : Mesh :=
  mkMesh (m_geometry m) (m_color m) p q (m_rotation_x m) (m_castShadow m) (m_receiveShadow m).

(** [new THREE.ArrowHelper(dir.normalize(), origin, length, color)]:
    [a_dir] is the vector on which [normalize] is called. *)
Record Arrow : Type := mkArrow {
  a_dir : Vec3;
  a_origin : Vec3;
  a_length : float;
  a_color : Z
}.

(** [THREE.Group]: the robot's base. *)
Record Group : Type := mkGroup {
  g_children : list handle;
  g_rotation_y : float
}.

(** What [scene.add] is called with. *)
Inductive Child : Type :=
  | ChMesh (h : handle)
  | ChArrow (h : handle)
  | ChGroup (h : handle)
  | ChAmbientLight (color : Z) (intensity : float)
  | ChDirectionalLight (color : Z) (intensity : float) (position : Vec3)
  | ChPointLight (color : Z) (intensity distance : float) (position : Vec3)
  | ChGridHelper (size divisions : float) (color1 color2 : Z).

Definition Child_eqb (a b : Child) : bool :=
  match a, b with
  | ChMesh h, ChMesh k | ChArrow h, ChArrow k | ChGroup h, ChGroup k => Nat.eqb h k
  | _, _ => false
  end.

Record Scene : Type := mkScene {
  sc_background : Z;
  sc_children : list Child
}.

Definition scene_add (c : Child) (sc : Scene) : Scene :=
  mkScene (sc_background sc) (sc_children sc ++ [c]).
(** [scene.remove(x)]: [x] leaves the children. *)
Definition scene_remove (c : Child) (sc : Scene) : Scene :=
  mkScene (sc_background sc) (List.filter (fun d => negb (Child_eqb c d)) (sc_children sc)).

Record Camera : Type := mkCamera {
  cam_fov : float; cam_aspect : float; cam_near : float; cam_far : float;
  cam_position : Vec3; cam_target : Vec3
}.

Record Renderer : Type := mkRenderer {
  r_width : float; r_height : float; r_shadowMap : bool
}.

(** The objects shared by reference. *)
Record Heap : Type := mkHeap {
  h_bodies : gmap nat Body;
  h_meshes : gmap nat Mesh;
  h_arrows : gmap nat Arrow;
  h_groups : gmap nat Group
}.

Definition heap0 : Heap := mkHeap ∅ ∅ ∅ ∅.

Definition heap_setBodies (f : gmap nat Body -> gmap nat Body) (h : Heap) : Heap :=
  mkHeap (f (h_bodies h)) (h_meshes h) (h_arrows h) (h_groups h).
Definition heap_setMeshes (f : gmap nat Mesh -> gmap nat Mesh) (h : Heap) : Heap :=
  mkHeap (h_bodies h) (f (h_meshes h)) (h_arrows h) (h_groups h).
Definition heap_setArrows (f : gmap nat Arrow -> gmap nat Arrow) (h : Heap) : Heap :=
  mkHeap (h_bodies h) (h_meshes h) (f (h_arrows h)) (h_groups h).
Definition heap_setGroups (f : gmap nat Group -> gmap nat Group) (h : Heap) : Heap :=
  mkHeap (h_bodies h) (h_meshes h) (h_arrows h) (f (h_groups h)).

(** What the libraries and the browser compute, as far as the simulator
    is concerned. *)
Class Platform : Type := mkPlatform {
  (** [parseFloat] on the value of an input element *)
  parseFloat : string -> float;
  (** [world.step(dt)]: the bodies after the step *)
  worldStep : float -> World -> gmap nat Body -> gmap nat Body;
  (** a step neither creates nor destroys a body *)
  worldStep_dom : forall dt w bs, dom (worldStep dt w bs) = dom bs;
  (** [body.applyImpulse(impulse, worldPoint)] *)
  applyImpulse : Vec3 -> Vec3 -> Body -> Body;
  (** [quaternion.setFromAxisAngle(axis, angle)] *)
  setFromAxisAngle : Vec3 -> float -> Quat;
  (** [new THREE.Color().setHSL(h, s, l).getHex()] *)
  hslHex : float -> float -> float -> Z;
  (** [raycaster.setFromCamera(mouse, camera); raycaster.intersectObjects(meshes)]:
      the meshes hit, the nearest first *)
  intersectObjects : float * float -> Camera -> list (nat * Mesh) -> list nat
}.

(* ===================================================================== *)
(** ** The simulator's state *)
(* ===================================================================== *)

(** [this.config]: the values of the sliders. *)
Record Config : Type := mkConfig {
  gravity : float;
  restitution : float;
  friction : float;
  mass : float;
  impulse : float;
  angularVelocity : float;
  rotation : float
}.

(** [this.robot]. [base] is the [THREE.Group] of the robot, [null] before [setupRobot]. *)
Record Robot : Type := mkRobot {
  base : option nat;
  segments : list nat;
  targetAngle : float;
  currentAngle : float;
  isActive : bool
}.

(** [this.stats]. [stats_currentAngle] is the field [stats.currentAngle]. *)
Record Stats : Type := mkStats {
  activeObjects : float;
  collisionCount : float;
  totalEnergy : jsval;
  maxVelocity : jsval;
  avgVelocity : jsval;
  stats_currentAngle : jsval;
  angularAcceleration : float;
  damageReduction : float;
  trajectoryEfficiency : float
}.

(** The record the constructor and [reset] store in [this.stats]. *)
Definition stats0 : Stats :=
  mkStats 0 0 (VNum 0) (VNum 0) (VNum 0) (VNum 0) 0 0 0.

Inductive ObjType : Type := TBox | TSphere | TCylinder.

(** An entry of [this.objects]: [{ body, mesh, type, mass }]. *)
Record SimObject : Type := mkObj {
  o_body : nat;
  o_mesh : nat;
  o_type : ObjType;
  o_mass : float
}.

Inductive VecType : Type := TVelocity | TMomentum.

(** An entry of [this.vectors]: [{ arrow, type }]. *)
Record VectorEntry : Type := mkVector {
  v_arrow : nat;
  v_type : VecType
}.

(** An element of the page, as far as the simulator reads or writes it. *)
Record Element : Type := mkElement {
  textContent : jsstr;
  el_value : jsstr;
  el_display : string;
  classList : list string
}.

(** What the simulator does to the outside, in order. *)
Inductive Effect : Type :=
  | ConsoleLog (m : string)
  | ConsoleError (m : string)
  | Alert (m : string)
  | WorldStep (dt : float)
  | Render
  | PreventDefault.

(** The callbacks given to [setTimeout]. *)
Inductive Timer : Type :=
  | TimerInit          (* the set-up callback of [init], after 1000 ms *)
  | TimerHideLoading.  (* hides the loading screen, after 500 ms *)

(** The browser side: the heap of shared objects, the allocator of handles, the
    page, the size of the window, whether the globals [THREE] and [CANNON] are
    defined, the effects so far, the pending timers, the targets that have an
    event listener, and whether the animation loop runs. *)
Record Host : Type := mkHost {
  heap : Heap;
  nextId : nat;
  document : gmap string Element;
  innerWidth : float;
  innerHeight : float;
  hasTHREE : bool;
  hasCANNON : bool;
  effects : list Effect;
  timers : list Timer;
  listeners : list string;
  looping : bool
}.

(** The fields of an [IndustrialSimulator], and the browser it runs in. *)
Record Sim : Type := mkSim {
  scene : option Scene;
  camera : option Camera;
  renderer : option Renderer;
  world : option World;
  objects : list SimObject;
  vectors : list VectorEntry;
  isRunning : bool;
  deltaTime : float;
  simulationTime : float;
  frameCount : Z;
  config : Config;
  robot : Robot;
  stats : Stats;
  showVelocityVectors : bool;
  showMomentumVectors : bool;
  canvas : option string;
  host : Host
}.

(** Field updates. *)
Definition set_gravity (v : float) (c : Config) : Config :=
  mkConfig v (restitution c) (friction c) (mass c) (impulse c) (angularVelocity c)
    (rotation c).
Definition set_restitution (v : float) (c : Config) : Config :=
  mkConfig (gravity c) v (friction c) (mass c) (impulse c) (angularVelocity c) (rotation
    c).
Definition set_friction (v : float) (c : Config) : Config :=
  mkConfig (gravity c) (restitution c) v (mass c) (impulse c) (angularVelocity c)
    (rotation c).
Definition set_mass (v : float) (c : Config) : Config :=
  mkConfig (gravity c) (restitution c) (friction c) v (impulse c) (angularVelocity c)
    (rotation c).
Definition set_impulse (v : float) (c : Config) : Config :=
  mkConfig (gravity c) (restitution c) (friction c) (mass c) v (angularVelocity c)
    (rotation c).
Definition set_angularVelocity (v : float) (c : Config) : Config :=
  mkConfig (gravity c) (restitution c) (friction c) (mass c) (impulse c) v (rotation c).
Definition set_rotation (v : float) (c : Config) : Config :=
  mkConfig (gravity c) (restitution c) (friction c) (mass c) (impulse c)
    (angularVelocity c) v.

Definition set_base (v : option nat) (r : Robot) : Robot :=
  mkRobot v (segments r) (targetAngle r) (currentAngle r) (isActive r).
Definition set_segments (v : list nat) (r : Robot) : Robot :=
  mkRobot (base r) v (targetAngle r) (currentAngle r) (isActive r).
Definition set_targetAngle (v : float) (r : Robot) : Robot :=
  mkRobot (base r) (segments r) v (currentAngle r) (isActive r).
Definition set_currentAngle (v : float) (r : Robot) : Robot :=
  mkRobot (base r) (segments r) (targetAngle r) v (isActive r).
Definition set_isActive (v : bool) (r : Robot) : Robot :=
  mkRobot (base r) (segments r) (targetAngle r) (currentAngle r) v.

Definition set_activeObjects (v : float) (st : Stats) : Stats :=
  mkStats v (collisionCount st) (totalEnergy st) (maxVelocity st) (avgVelocity st)
    (stats_currentAngle st) (angularAcceleration st) (damageReduction st)
    (trajectoryEfficiency st).
Definition set_collisionCount (v : float) (st : Stats) : Stats :=
  mkStats (activeObjects st) v (totalEnergy st) (maxVelocity st) (avgVelocity st)
    (stats_currentAngle st) (angularAcceleration st) (damageReduction st)
    (trajectoryEfficiency st).
Definition set_totalEnergy (v : jsval) (st : Stats) : Stats :=
  mkStats (activeObjects st) (collisionCount st) v (maxVelocity st) (avgVelocity st)
    (stats_currentAngle st) (angularAcceleration st) (damageReduction st)
    (trajectoryEfficiency st).
Definition set_maxVelocity (v : jsval) (st : Stats) : Stats :=
  mkStats (activeObjects st) (collisionCount st) (totalEnergy st) v (avgVelocity st)
    (stats_currentAngle st) (angularAcceleration st) (damageReduction st)
    (trajectoryEfficiency st).
Definition set_avgVelocity (v : jsval) (st : Stats) : Stats :=
  mkStats (activeObjects st) (collisionCount st) (totalEnergy st) (maxVelocity st) v
    (stats_currentAngle st) (angularAcceleration st) (damageReduction st)
    (trajectoryEfficiency st).
Definition set_stats_currentAngle (v : jsval) (st : Stats) : Stats :=
  mkStats (activeObjects st) (collisionCount st) (totalEnergy st) (maxVelocity st)
    (avgVelocity st) v (angularAcceleration st) (damageReduction st)
    (trajectoryEfficiency st).
Definition set_angularAcceleration (v : float) (st : Stats) : Stats :=
  mkStats (activeObjects st) (collisionCount st) (totalEnergy st) (maxVelocity st)
    (avgVelocity st) (stats_currentAngle st) v (damageReduction st)
    (trajectoryEfficiency st).
Definition set_damageReduction (v : float) (st : Stats) : Stats :=
  mkStats (activeObjects st) (collisionCount st) (totalEnergy st) (maxVelocity st)
    (avgVelocity st) (stats_currentAngle st) (angularAcceleration st) v
    (trajectoryEfficiency st).
Definition set_trajectoryEfficiency (v : float) (st : Stats) : Stats :=
  mkStats (activeObjects st) (collisionCount st) (totalEnergy st) (maxVelocity st)
    (avgVelocity st) (stats_currentAngle st) (angularAcceleration st) (damageReduction
    st) v.

Definition set_heap (v : Heap) (h : Host) : Host :=
  mkHost v (nextId h) (document h) (innerWidth h) (innerHeight h) (hasTHREE h)
    (hasCANNON h) (effects h) (timers h) (listeners h) (looping h).
Definition set_nextId (v : nat) (h : Host) : Host :=
  mkHost (heap h) v (document h) (innerWidth h) (innerHeight h) (hasTHREE h) (hasCANNON
    h) (effects h) (timers h) (listeners h) (looping h).
Definition set_document (v : gmap string Element) (h : Host) : Host :=
  mkHost (heap h) (nextId h) v (innerWidth h) (innerHeight h) (hasTHREE h) (hasCANNON h)
    (effects h) (timers h) (listeners h) (looping h).
Definition set_innerWidth (v : float) (h : Host) : Host :=
  mkHost (heap h) (nextId h) (document h) v (innerHeight h) (hasTHREE h) (hasCANNON h)
    (effects h) (timers h) (listeners h) (looping h).
Definition set_innerHeight (v : float) (h : Host) : Host :=
  mkHost (heap h) (nextId h) (document h) (innerWidth h) v (hasTHREE h) (hasCANNON h)
    (effects h) (timers h) (listeners h) (looping h).
Definition set_hasTHREE (v : bool) (h : Host) : Host :=
  mkHost (heap h) (nextId h) (document h) (innerWidth h) (innerHeight h) v (hasCANNON h)
    (effects h) (timers h) (listeners h) (looping h).
Definition set_hasCANNON (v : bool) (h : Host) : Host :=
  mkHost (heap h) (nextId h) (document h) (innerWidth h) (innerHeight h) (hasTHREE h) v
    (effects h) (timers h) (listeners h) (looping h).
Definition set_effects (v : list Effect) (h : Host) : Host :=
  mkHost (heap h) (nextId h) (document h) (innerWidth h) (innerHeight h) (hasTHREE h)
    (hasCANNON h) v (timers h) (listeners h) (looping h).
Definition set_timers (v : list Timer) (h : Host) : Host :=
  mkHost (heap h) (nextId h) (document h) (innerWidth h) (innerHeight h) (hasTHREE h)
    (hasCANNON h) (effects h) v (listeners h) (looping h).
Definition set_listeners (v : list string) (h : Host) : Host :=
  mkHost (heap h) (nextId h) (document h) (innerWidth h) (innerHeight h) (hasTHREE h)
    (hasCANNON h) (effects h) (timers h) v (looping h).
Definition set_looping (v : bool) (h : Host) : Host :=
  mkHost (heap h) (nextId h) (document h) (innerWidth h) (innerHeight h) (hasTHREE h)
    (hasCANNON h) (effects h) (timers h) (listeners h) v.

Definition set_scene (v : option Scene) (s : Sim) : Sim :=
  mkSim v (camera s) (renderer s) (world s) (objects s) (vectors s) (isRunning s)
    (deltaTime s) (simulationTime s) (frameCount s) (config s) (robot s) (stats s)
    (showVelocityVectors s) (showMomentumVectors s) (canvas s) (host s).
Definition set_camera (v : option Camera) (s : Sim) : Sim :=
  mkSim (scene s) v (renderer s) (world s) (objects s) (vectors s) (isRunning s)
    (deltaTime s) (simulationTime s) (frameCount s) (config s) (robot s) (stats s)
    (showVelocityVectors s) (showMomentumVectors s) (canvas s) (host s).
Definition set_renderer (v : option Renderer) (s : Sim) : Sim :=
  mkSim (scene s) (camera s) v (world s) (objects s) (vectors s) (isRunning s)
    (deltaTime s) (simulationTime s) (frameCount s) (config s) (robot s) (stats s)
    (showVelocityVectors s) (showMomentumVectors s) (canvas s) (host s).
Definition set_world (v : option World) (s : Sim) : Sim :=
  mkSim (scene s) (camera s) (renderer s) v (objects s) (vectors s) (isRunning s)
    (deltaTime s) (simulationTime s) (frameCount s) (config s) (robot s) (stats s)
    (showVelocityVectors s) (showMomentumVectors s) (canvas s) (host s).
Definition set_objects (v : list SimObject) (s : Sim) : Sim :=
  mkSim (scene s) (camera s) (renderer s) (world s) v (vectors s) (isRunning s)
    (deltaTime s) (simulationTime s) (frameCount s) (config s) (robot s) (stats s)
    (showVelocityVectors s) (showMomentumVectors s) (canvas s) (host s).
Definition set_vectors (v : list VectorEntry) (s : Sim) : Sim :=
  mkSim (scene s) (camera s) (renderer s) (world s) (objects s) v (isRunning s)
    (deltaTime s) (simulationTime s) (frameCount s) (config s) (robot s) (stats s)
    (showVelocityVectors s) (showMomentumVectors s) (canvas s) (host s).
Definition set_isRunning (v : bool) (s : Sim) : Sim :=
  mkSim (scene s) (camera s) (renderer s) (world s) (objects s) (vectors s) v (deltaTime
    s) (simulationTime s) (frameCount s) (config s) (robot s) (stats s)
    (showVelocityVectors s) (showMomentumVectors s) (canvas s) (host s).
Definition set_deltaTime (v : float) (s : Sim) : Sim :=
  mkSim (scene s) (camera s) (renderer s) (world s) (objects s) (vectors s) (isRunning
    s) v (simulationTime s) (frameCount s) (config s) (robot s) (stats s)
    (showVelocityVectors s) (showMomentumVectors s) (canvas s) (host s).
Definition set_simulationTime (v : float) (s : Sim) : Sim :=
  mkSim (scene s) (camera s) (renderer s) (world s) (objects s) (vectors s) (isRunning
    s) (deltaTime s) v (frameCount s) (config s) (robot s) (stats s)
    (showVelocityVectors s) (showMomentumVectors s) (canvas s) (host s).
Definition set_frameCount (v : Z) (s : Sim) : Sim :=
  mkSim (scene s) (camera s) (renderer s) (world s) (objects s) (vectors s) (isRunning
    s) (deltaTime s) (simulationTime s) v (config s) (robot s) (stats s)
    (showVelocityVectors s) (showMomentumVectors s) (canvas s) (host s).
Definition set_config (v : Config) (s : Sim) : Sim :=
  mkSim (scene s) (camera s) (renderer s) (world s) (objects s) (vectors s) (isRunning
    s) (deltaTime s) (simulationTime s) (frameCount s) v (robot s) (stats s)
    (showVelocityVectors s) (showMomentumVectors s) (canvas s) (host s).
Definition set_robot (v : Robot) (s : Sim) : Sim :=
  mkSim (scene s) (camera s) (renderer s) (world s) (objects s) (vectors s) (isRunning
    s) (deltaTime s) (simulationTime s) (frameCount s) (config s) v (stats s)
    (showVelocityVectors s) (showMomentumVectors s) (canvas s) (host s).
Definition set_stats (v : Stats) (s : Sim) : Sim :=
  mkSim (scene s) (camera s) (renderer s) (world s) (objects s) (vectors s) (isRunning
    s) (deltaTime s) (simulationTime s) (frameCount s) (config s) (robot s) v
    (showVelocityVectors s) (showMomentumVectors s) (canvas s) (host s).
Definition set_showVelocityVectors (v : bool) (s : Sim) : Sim :=
  mkSim (scene s) (camera s) (renderer s) (world s) (objects s) (vectors s) (isRunning
    s) (deltaTime s) (simulationTime s) (frameCount s) (config s) (robot s) (stats s) v
    (showMomentumVectors s) (canvas s) (host s).
Definition set_showMomentumVectors (v : bool) (s : Sim) : Sim :=
  mkSim (scene s) (camera s) (renderer s) (world s) (objects s) (vectors s) (isRunning
    s) (deltaTime s) (simulationTime s) (frameCount s) (config s) (robot s) (stats s)
    (showVelocityVectors s) v (canvas s) (host s).
Definition set_canvas (v : option string) (s : Sim) : Sim :=
  mkSim (scene s) (camera s) (renderer s) (world s) (objects s) (vectors s) (isRunning
    s) (deltaTime s) (simulationTime s) (frameCount s) (config s) (robot s) (stats s)
    (showVelocityVectors s) (showMomentumVectors s) v (host s).
Definition set_host (v : Host) (s : Sim) : Sim :=
  mkSim (scene s) (camera s) (renderer s) (world s) (objects s) (vectors s) (isRunning
    s) (deltaTime s) (simulationTime s) (frameCount s) (config s) (robot s) (stats s)
    (showVelocityVectors s) (showMomentumVectors s) (canvas s) v.

(* ===================================================================== *)
(** ** Exceptions and small helpers *)
(* ===================================================================== *)

Inductive exn : Type :=
  | TypeError (m : string)
  | ReferenceError (m : string).

(** The outcome of a method: it returns, or an exception leaves it with the
    state as it was when the exception was thrown. *)
Inductive res : Type :=
  | Ok (s : Sim)
  | Throw (e : exn) (s : Sim).

Definition bind (r : res) (k : Sim -> res) : res :=
  match r with
  | Ok s => k s
  | Throw e s => Throw e s
  end.

Notation "r >>= k" := (bind r k) (at level 50, left associativity).

(** The state a method leaves, whichever way it ends. *)
Definition state_of (r : res) : Sim :=
  match r with Ok s => s | Throw _ s => s end.

Definition returns (r : res) : bool :=
  match r with Ok _ => true | Throw _ _ => false end.

(** [l.forEach(f)] for an [f] that may throw. *)
Fixpoint forEach {A : Type} (f : A -> Sim -> res) (l : list A) (s : Sim) : res :=
  match l with
  | [] => Ok s
  | x :: l' => f x s >>= forEach f l'
  end.

Definition with_host (f : Host -> Host) (s : Sim) : Sim := set_host (f (host s)) s.
Definition with_heap (f : Heap -> Heap) (s : Sim) : Sim :=
  with_host (fun h => set_heap (f (heap h)) h) s.
Definition with_stats (f : Stats -> Stats) (s : Sim) : Sim := set_stats (f (stats s)) s.
Definition with_robot (f : Robot -> Robot) (s : Sim) : Sim := set_robot (f (robot s)) s.

Definition emit (e : Effect) (s : Sim) : Sim :=
  with_host (fun h => set_effects (effects h ++ [e]) h) s.

(** [console.log(m)] *)
Definition log (m : string) (s : Sim) : Sim := emit (ConsoleLog m) s.

(** [new]: the handle of the object created. *)
Definition alloc (s : Sim) : nat * Sim :=
  (nextId (host s), with_host (fun h => set_nextId (S (nextId h)) h) s).

(** [document.getElementById(id)], [None] for [null]. *)
Definition getElementById (id : string) (s : Sim) : option Element :=
  document (host s) !! id.

Definition with_element (id : string) (f : Element -> Element) (s : Sim) : Sim :=
  with_host (fun h => set_document (alter f id (document h)) h) s.

Definition el_setText (t : jsstr) (e : Element) : Element :=
  mkElement t (el_value e) (el_display e) (classList e).
Definition el_setValue (v : jsstr) (e : Element) : Element :=
  mkElement (textContent e) v (el_display e) (classList e).
Definition el_setDisplay (d : string) (e : Element) : Element :=
  mkElement (textContent e) (el_value e) d (classList e).
Definition el_setClasses (c : list string) (e : Element) : Element :=
  mkElement (textContent e) (el_value e) (el_display e) c.

Definition class_contains (c : string) (e : Element) : bool :=
  existsb (String.eqb c) (classList e).
Definition class_remove (c : string) (e : Element) : Element :=
  el_setClasses (List.filter (fun d => negb (String.eqb c d)) (classList e)) e.
Definition class_add (c : string) (e : Element) : Element :=
  if class_contains c e then e else el_setClasses (classList e ++ [c]) e.
Definition class_toggle (c : string) (e : Element) : Element :=
  if class_contains c e then class_remove c e else class_add c e.

(** [if (el) el.textContent = t] *)
Definition setTextIfPresent (id : string) (t : jsstr) (s : Sim) : Sim :=
  match getElementById id s with
  | Some _ => with_element id (el_setText t) s
  | None => s
  end.

(** [target.addEventListener(...)] *)
Definition addListener (target : string) (s : Sim) : Sim :=
  with_host (fun h => set_listeners (listeners h ++ [target]) h) s.

(** [document.getElementById(id).addEventListener(...)], which throws when
    the element is missing. *)
Definition listenOn (id : string) (s : Sim) : res :=
  match getElementById id s with
  | Some _ => Ok (addListener id s)
  | None => Throw (TypeError "Cannot read properties of null (reading 'addEventListener')") s
  end.

(** [if (el) el.addEventListener(...)] *)
Definition listenIfPresent (id : string) (s : Sim) : Sim :=
  match getElementById id s with
  | Some _ => addListener id s
  | None => s
  end.

Definition has_listener (target : string) (s : Sim) : bool :=
  existsb (String.eqb target) (listeners (host s)).

Definition getBody (h : nat) (s : Sim) : option Body := h_bodies (heap (host s)) !! h.
Definition getMesh (h : nat) (s : Sim) : option Mesh := h_meshes (heap (host s)) !! h.
Definition getArrow (h : nat) (s : Sim) : option Arrow := h_arrows (heap (host s)) !! h.
Definition getGroup (h : nat) (s : Sim) : option Group := h_groups (heap (host s)) !! h.

Definition world_add (h : nat) (w : World) : World :=
  mkWorld (w_gravity w) (w_naiveBroadphase w) (w_iterations w) (w_friction w)
          (w_restitution w) (w_bodies w ++ [h]).
Definition world_remove (h : nat) (w : World) : World :=
  mkWorld (w_gravity w) (w_naiveBroadphase w) (w_iterations w) (w_friction w)
          (w_restitution w) (List.filter (fun k => negb (Nat.eqb h k)) (w_bodies w)).
Definition world_setGravity (g : Vec3) (w : World) : World :=
  mkWorld g (w_naiveBroadphase w) (w_iterations w) (w_friction w)
          (w_restitution w) (w_bodies w).

(** [this.scene.add(c)] and [this.scene.remove(c)]: [this.scene] may be [null]. *)
Definition sceneAdd (c : Child) (s : Sim) : res :=
  match scene s with
  | Some sc => Ok (set_scene (Some (scene_add c sc)) s)
  | None => Throw (TypeError "Cannot read properties of null (reading 'add')") s
  end.
Definition sceneRemove (c : Child) (s : Sim) : res :=
  match scene s with
  | Some sc => Ok (set_scene (Some (scene_remove c sc)) s)
  | None => Throw (TypeError "Cannot read properties of null (reading 'remove')") s
  end.
(** [this.world.add(body)] and [this.world.remove(body)] *)
Definition worldAdd (h : nat) (s : Sim) : res :=
  match world s with
  | Some w => Ok (set_world (Some (world_add h w)) s)
  | None => Throw (TypeError "Cannot read properties of null (reading 'add')") s
  end.
Definition worldRemove (h : nat) (s : Sim) : res :=
  match world s with
  | Some w => Ok (set_world (Some (world_remove h w)) s)
  | None => Throw (TypeError "Cannot read properties of null (reading 'remove')") s
  end.

(** The draws of [Math.random()] during one call: [rnd k] is the result of
    the call number [k], counted from 0. *)
Abbreviation Draws := (nat -> float) (only parsing).
(* ===================================================================== *)
(** ** The methods of [IndustrialSimulator] *)
(* ===================================================================== *)

Section Simulator.

Context {P : Platform}.

#[local] Open Scope float_scope.

Definition config0 : Config := mkConfig (-9.8) 0.6 0.3 5 10 2 45.
Definition robot0 : Robot := mkRobot None [] 0 0 false.

(** [checkDependencies]: whether [THREE] and [CANNON] are defined. *)
Definition checkDependencies (h : Host) : bool * Host :=
  if negb (hasTHREE h) then
    (false, set_effects (effects h ++ [ConsoleError "Three.js no está cargado";
                                       Alert "Error: Three.js no está disponible"]) h)
  else if negb (hasCANNON h) then
    (false, set_effects (effects h ++ [ConsoleError "Cannon.js no está cargado";
                                       Alert "Error: Cannon.js no está disponible"]) h)
  else (true, h).

Definition showLoadingScreen (s : Sim) : Sim :=
  match getElementById "loadingScreen" s with
  | Some _ => with_element "loadingScreen" (el_setDisplay "flex") s
  | None => s
  end.

Definition setTimeout (t : Timer) (s : Sim) : Sim :=
  with_host (fun h => set_timers (timers h ++ [t]) h) s.

(** [init]: the set-up itself runs later, from the timer. [setTimeout] does
    not throw, so the [catch] of the source is never entered. *)
Definition init (s : Sim) : Sim :=
  let s := log "🚀 Inicializando Simulador Industrial 3D..." s in
  let s := showLoadingScreen s in
  setTimeout TimerInit s.

(** The fields as the constructor sets them, before [init]. *)
Definition fields0 (h : Host) : Sim :=
  mkSim None None None None [] [] false (1 / 60) 0 0%Z config0 robot0 stats0
        true true None h.

(** [new IndustrialSimulator()]: the result of [checkDependencies] is
    dropped. *)
Definition constructor (h : Host) : Sim :=
  let '(_, h1) := checkDependencies h in
  init (fields0 h1).

Definition needTHREE (s : Sim) : res :=
  if hasTHREE (host s) then Ok s else Throw (ReferenceError "THREE is not defined") s.
Definition needCANNON (s : Sim) : res :=
  if hasCANNON (host s) then Ok s else Throw (ReferenceError "CANNON is not defined") s.

Definition setupScene (s : Sim) : res :=
  let s := log "📦 Configurando escena 3D..." s in
  let s := set_canvas (match getElementById "canvas3d" s with
                       | Some _ => Some "canvas3d" | None => None end) s in
  needTHREE s >>= fun s =>
  let w := innerWidth (host s) in
  let h := innerHeight (host s) in
  let s := set_renderer (Some (mkRenderer w h true)) s in
  let s := set_scene (Some (mkScene 0x000000%Z [])) s in
  Ok (set_camera (Some (mkCamera 75 (w / h) 0.1 1000 (mkVec3 15 10 15) vec0)) s).

Definition setupPhysics (s : Sim) : res :=
  let s := log "⚛️ Configurando física..." s in
  needCANNON s >>= fun s =>
  Ok (set_world (Some (mkWorld (mkVec3 0 (gravity (config s)) 0) true 10%Z
                               (friction (config s)) (restitution (config s)) [])) s).

Definition setupLighting (s : Sim) : res :=
  let s := log "💡 Configurando iluminación..." s in
  needTHREE s >>= fun s =>
  sceneAdd (ChAmbientLight 0x404040%Z 0.6) s >>= fun s =>
  sceneAdd (ChDirectionalLight 0xffffff%Z 0.8 (mkVec3 10 20 10)) s >>= fun s =>
  sceneAdd (ChPointLight 0x0091ff%Z 0.3 50 (mkVec3 (-10) 5 (-10))) s.

(** [new CANNON.Body(...)] and [new THREE.Mesh(...)] put an object in the
    heap. *)
Definition allocBody (b : Body) (s : Sim) : nat * Sim :=
  let '(h, s) := alloc s in
  (h, with_heap (heap_setBodies (insert h b)) s).
Definition allocMesh (m : Mesh) (s : Sim) : nat * Sim :=
  let '(h, s) := alloc s in
  (h, with_heap (heap_setMeshes (insert h m)) s).
Definition allocArrow (a : Arrow) (s : Sim) : nat * Sim :=
  let '(h, s) := alloc s in
  (h, with_heap (heap_setArrows (insert h a)) s).
Definition allocGroup (g : Group) (s : Sim) : nat * Sim :=
  let '(h, s) := alloc s in
  (h, with_heap (heap_setGroups (insert h g)) s).

Definition setupGround (s : Sim) : res :=
  let s := log "🏗️ Configurando suelo..." s in
  needCANNON s >>= fun s =>
  let groundBody :=
    body_setQuaternion (setFromAxisAngle (mkVec3 1 0 0) (- Math_PI / 2))
      (body_addShape ShPlane (newBody 0)) in
  let '(hb, s) := allocBody groundBody s in
  worldAdd hb s >>= fun s =>
  needTHREE s >>= fun s =>
  let groundMesh :=
    mesh_setShadow false true
      (mesh_setRotX (- Math_PI / 2) (newMesh (GPlane 40 40) 0x1a1a1a%Z)) in
  let '(hm, s) := allocMesh groundMesh s in
  sceneAdd (ChMesh hm) s >>= fun s =>
  sceneAdd (ChGridHelper 40 20 0x0091ff%Z 0x333333%Z) s.

Definition group_add (h : nat) (g : Group) : Group :=
  mkGroup (g_children g ++ [h]) (g_rotation_y g).
Definition group_setRotY (a : float) (g : Group) : Group :=
  mkGroup (g_children g) a.

Definition setupRobot (s : Sim) : res :=
  let s := log "🤖 Configurando brazo robótico..." s in
  needTHREE s >>= fun s =>
  let '(g, s) := allocGroup (mkGroup [] 0) s in
  let s := with_robot (set_base (Some g)) s in
  let baseMesh :=
    mesh_setShadow true true
      (mesh_setPosY 0.25 (newMesh (GCylinder 1 1.5 0.5 8%Z) 0x333333%Z)) in
  let '(h1, s) := allocMesh baseMesh s in
  let s := with_heap (heap_setGroups (alter (group_add h1) g)) s in
  let segmentMesh :=
    mesh_setShadow true false
      (mesh_setPosY 1.75 (newMesh (GCylinder 0.2 0.3 3 8%Z) 0x0091ff%Z)) in
  let '(h2, s) := allocMesh segmentMesh s in
  let s := with_heap (heap_setGroups (alter (group_add h2) g)) s in
  let s := with_robot (fun r => set_segments (segments r ++ [h2]) r) s in
  let toolMesh :=
    mesh_setShadow true false
      (mesh_setPosY 4.0 (newMesh (GBox 0.3 0.3 0.3) 0xffaa00%Z)) in
  let '(h3, s) := allocMesh toolMesh s in
  let s := with_heap (heap_setGroups (alter (group_add h3) g)) s in
  let s := with_robot (fun r => set_segments (segments r ++ [h3]) r) s in
  sceneAdd (ChGroup g) s.

(** The sliders and the number boxes next to them: element ids and the
    field of [config] they set. *)
Inductive Prop_ : Type :=
  | PMass | PFriction | PGravity | PRestitution | PImpulse | PAngularVelocity | PRotation.

Definition sliders : list (string * string * Prop_) :=
  [ ("massSlider", "massValue", PMass);
    ("frictionSlider", "frictionValue", PFriction);
    ("gravitySlider", "gravityValue", PGravity);
    ("restitutionSlider", "restitutionValue", PRestitution);
    ("impulseSlider", "impulseValue", PImpulse);
    ("angularVelocitySlider", "angularVelocityValue", PAngularVelocity);
    ("rotationSlider", "rotationValue", PRotation) ].

Definition setupSliders (s : Sim) : Sim :=
  fold_left
    (fun s '(sl, va, _) =>
       match getElementById sl s, getElementById va s with
       | Some _, Some _ => addListener va (addListener sl s)
       | _, _ => s
       end)
    sliders s.

Definition buttons : list string :=
  [ "addBox"; "addSphere"; "addCylinder";
    "playBtn"; "pauseBtn"; "resetBtn"; "stepBtn";
    "activateRobot"; "resetRobot";
    "optimizeLayout"; "optimizeTrajectory" ].

Definition setupEventListeners (s : Sim) : res :=
  let s := log "🎮 Configurando controles..." s in
  let s := listenIfPresent "toggleControl" s in
  let s := listenIfPresent "toggleAnalysis" s in
  forEach listenOn buttons s >>= fun s =>
  let s := setupSliders s in
  listenOn "showVelocityVectors" s >>= fun s =>
  listenOn "showMomentumVectors" s >>= fun s =>
  let s := addListener "window" s in
  match canvas s with
  | None => Throw (TypeError "Cannot read properties of null (reading 'addEventListener')") s
  | Some c =>
      let s := addListener c s in
      let s := addListener "document" s in
      Ok (log "✅ Controles configurados" s)
  end.

(** *** Spawning objects *)

(** The part the three spawn methods share: the body gets its shape, its
    random position and the material settings and joins the world; the mesh
    joins the scene; the pair is pushed on [this.objects]; the body gets an
    initial impulse. [k] is the number of draws made before the position. *)
Definition spawn (shape : Shape) (geometry : Geometry) (color : Z) (ty : ObjType)
    (k : nat) (rnd : nat -> float) (s : Sim) : res :=
  let body :=
    body_setMaterial (friction (config s)) (restitution (config s))
      (body_setPosition
         (mkVec3 ((rnd k - 0.5) * 15) (8 + rnd (k + 1)%nat * 5) ((rnd (k + 2)%nat - 0.5) * 15))
         (body_addShape shape (newBody (mass (config s))))) in
  let '(hb, s) := allocBody body s in
  worldAdd hb s >>= fun s =>
  let mesh := mesh_setShadow true true (newMesh geometry color) in
  let '(hm, s) := allocMesh mesh s in
  sceneAdd (ChMesh hm) s >>= fun s =>
  let obj := mkObj hb hm ty (mass (config s)) in
  let s := set_objects (objects s ++ [obj]) s in
  let s := with_stats (fun st => set_activeObjects (activeObjects st + 1) st) s in
  let impulse := mkVec3 ((rnd (k + 3)%nat - 0.5) * 5) 2 ((rnd (k + 4)%nat - 0.5) * 5) in
  Ok (with_heap (heap_setBodies (alter (fun b => applyImpulse impulse (b_position b) b) hb)) s).

Definition addBox (rnd : nat -> float) (s : Sim) : res :=
  let s := log "📦 Añadiendo caja..." s in
  let size := 1 + rnd 0%nat * 2 in
  needTHREE s >>= fun s =>
  let color := hslHex (rnd 1%nat) 0.7 0.6 in
  needCANNON s >>= fun s =>
  spawn (ShBox (mkVec3 (size / 2) (size / 2) (size / 2))) (GBox size size size)
        color TBox 2 rnd s.

Definition addSphere (rnd : nat -> float) (s : Sim) : res :=
  let s := log "⚪ Añadiendo esfera..." s in
  let radius := 0.5 + rnd 0%nat * 1 in
  needTHREE s >>= fun s =>
  let color := hslHex (rnd 1%nat) 0.7 0.6 in
  needCANNON s >>= fun s =>
  spawn (ShSphere radius) (GSphere radius 16%Z 12%Z) color TSphere 2 rnd s.

Definition addCylinder (rnd : nat -> float) (s : Sim) : res :=
  let s := log "🥫 Añadiendo cilindro..." s in
  let radius := 0.3 + rnd 0%nat * 0.8 in
  let height := 1 + rnd 1%nat * 2 in
  needTHREE s >>= fun s =>
  let color := hslHex (rnd 2%nat) 0.7 0.6 in
  needCANNON s >>= fun s =>
  spawn (ShCylinder radius radius height 8%Z) (GCylinder radius radius height 16%Z)
        color TCylinder 3 rnd s.

(** *** The physics step and the robot *)

Definition updateRobot (s : Sim) : res :=
  if negb (isActive (robot s)) then Ok s
  else
    let s := with_robot (set_targetAngle (rotation (config s) * Math_PI / 180)) s in
    let angleDiff := targetAngle (robot s) - currentAngle (robot s) in
    let s := with_robot (fun r => set_currentAngle (currentAngle r + angleDiff * 0.05) r) s in
    match base (robot s) with
    | None => Throw (TypeError "Cannot read properties of null (reading 'rotation')") s
    | Some g =>
        let s := with_heap (heap_setGroups (alter (group_setRotY (currentAngle (robot s))) g)) s in
        Ok (with_stats
              (set_stats_currentAngle
                 (VStr (Fixed (currentAngle (robot s) * 180 / Math_PI) 1))) s)
    end.

(** [obj.mesh.position.copy(obj.body.position);
     obj.mesh.quaternion.copy(obj.body.quaternion)] *)
Definition copyTransform (obj : SimObject) (s : Sim) : Sim :=
  match getBody (o_body obj) s with
  | Some b =>
      with_heap (heap_setMeshes
                   (alter (mesh_copyTransform (b_position b) (b_quaternion b)) (o_mesh obj))) s
  | None => s
  end.

Definition updatePhysics (s : Sim) : res :=
  match world s with
  | None => Ok s
  | Some w =>
      let s := emit (WorldStep (deltaTime s)) s in
      let s := with_heap (heap_setBodies (worldStep (deltaTime s) w)) s in
      let s := fold_left (fun s obj => copyTransform obj s) (objects s) s in
      updateRobot s
  end.

(** *** The arrows *)

Definition speedOf (v : Vec3) : float :=
  sqrt (vx v * vx v + vy v * vy v + vz v * vz v).

Definition velocityArrow (b : Body) : Arrow :=
  let v := b_velocity b in
  let p := b_position b in
  mkArrow (mkVec3 (vx v) (vy v) (vz v)) (mkVec3 (vx p) (vy p) (vz p))
          (speedOf v * 0.5) 0x00ffd1%Z.

Definition momentumArrow (b : Body) (m : float) : Arrow :=
  let v := b_velocity b in
  let p := b_position b in
  let momentum := mkVec3 (vx v * m) (vy v * m) (vz v * m) in
  let momentumMag := speedOf momentum in
  mkArrow momentum (mkVec3 (vx p) (vy p) (vz p)) (momentumMag * 0.02) 0xffaa00%Z.

(** [const arrow = new THREE.ArrowHelper(...); this.scene.add(arrow);
     this.vectors.push({ arrow, type })] *)
Definition pushArrow (a : Arrow) (ty : VecType) (s : Sim) : res :=
  needTHREE s >>= fun s =>
  let '(h, s) := allocArrow a s in
  sceneAdd (ChArrow h) s >>= fun s =>
  Ok (set_vectors (vectors s ++ [mkVector h ty]) s).

Definition removeVectors (s : Sim) : res :=
  forEach (fun v s => sceneRemove (ChArrow (v_arrow v)) s) (vectors s) s >>= fun s =>
  Ok (set_vectors [] s).

Definition vectorsFor (obj : SimObject) (s : Sim) : res :=
  match getBody (o_body obj) s with
  | None => Ok s
  | Some b =>
      if gtb (speedOf (b_velocity b)) 0.1 then
        (if showVelocityVectors s then pushArrow (velocityArrow b) TVelocity s else Ok s)
        >>= fun s =>
        (if showMomentumVectors s then pushArrow (momentumArrow b (o_mass obj)) TMomentum s
         else Ok s)
      else Ok s
  end.

Definition updateVectors (s : Sim) : res :=
  removeVectors s >>= fun s =>
  forEach vectorsFor (objects s) s.

(** *** Statistics and the text of the page *)

(** The three accumulators of [updateStatistics]. *)
Definition accumulate (g : float) (s : Sim) (acc : float * float * float)
    (obj : SimObject) : float * float * float :=
  let '(totalSpeed, maxSpeed, totalEnergy) := acc in
  match getBody (o_body obj) s with
  | None => acc
  | Some b =>
      let speed := speedOf (b_velocity b) in
      let kineticEnergy := 0.5 * o_mass obj * speed * speed in
      let potentialEnergy := o_mass obj * abs g * vy (b_position b) in
      (totalSpeed + speed,
       if gtb speed maxSpeed then speed else maxSpeed,
       totalEnergy + (kineticEnergy + potentialEnergy))
  end.

Definition updateStatistics (s : Sim) : Sim :=
  match objects s with
  | [] => s
  | _ =>
      let '(totalSpeed, maxSpeed, totalEnergy) :=
        fold_left (accumulate (gravity (config s)) s) (objects s) (0, 0, 0) in
      let n := of_Z (Z.of_nat (length (objects s))) in
      with_stats (fun st =>
        set_activeObjects n
          (set_totalEnergy (VStr (Fixed totalEnergy 2))
             (set_avgVelocity (VStr (Fixed (totalSpeed / n) 2))
                (set_maxVelocity (VStr (Fixed maxSpeed 2)) st)))) s
  end.

Definition updateAnalysisDisplay (s : Sim) : Sim :=
  let st := stats s in
  fold_left (fun s '(id, value) => setTextIfPresent id value s)
    [ ("activeObjects", NumStr (activeObjects st));
      ("collisionCount", NumStr (collisionCount st));
      ("totalEnergy", withUnit (totalEnergy st) " J");
      ("maxVelocity", withUnit (maxVelocity st) " m/s");
      ("avgVelocity", withUnit (avgVelocity st) " m/s");
      ("currentAngle", withUnit (stats_currentAngle st) "°");
      ("angularAcceleration", Cat (Fixed (angularAcceleration st) 2) (Lit " rad/s²"));
      ("damageReduction", Cat (NumStr (damageReduction st)) (Lit "%"));
      ("trajectoryEfficiency", Cat (NumStr (trajectoryEfficiency st)) (Lit "%"));
      ("optimalTrajectory",
        Lit (if gtb (trajectoryEfficiency st) 80 then "Calculada" else "No calculada"));
      ("optimizationStatus",
        Lit (if gtb (damageReduction st) 80 then "Optimizada" else "En progreso")) ]
    s.

Definition updateUI (s : Sim) : Sim :=
  let t := simulationTime s in
  let minutes := Math_floor (t / 60) in
  let seconds := Math_floor (js_rem t 60) in
  let tenths := Math_floor (js_rem t 1 * 10) in
  let s := setTextIfPresent "timeDisplay"
             (Cat (PadStart (NumStr minutes) 2 "0")
                (Cat (Lit ":") (Cat (PadStart (NumStr seconds) 2 "0")
                   (Cat (Lit ".") (NumStr tenths))))) s in
  let s := setTextIfPresent "fpsCounter"
             (NumStr (Math_round (1000 / (deltaTime s * 1000)))) s in
  let s := setTextIfPresent "deltaTime"
             (Cat (Fixed (deltaTime s * 1000) 1) (Lit "ms")) s in
  updateAnalysisDisplay (updateStatistics s).

(** *** Controls *)

Definition play (s : Sim) : Sim :=
  log "▶️ Reproduciendo simulación" (set_isRunning true s).

Definition pause (s : Sim) : Sim :=
  log "⏸️ Pausando simulación" (set_isRunning false s).

Definition resetRobot (s : Sim) : Sim :=
  let s := with_robot (set_currentAngle 0) s in
  let s := with_robot (set_targetAngle 0) s in
  let s := with_robot (set_isActive false) s in
  match getElementById "activateRobot" s with
  | Some _ =>
      with_element "activateRobot"
        (fun b => class_remove "btn-secondary"
                    (class_add "btn-primary" (el_setText (Lit "Activar Robot") b))) s
  | None => s
  end.

(** [this.scene.remove(obj.mesh); this.world.remove(obj.body)] *)
Definition removeObject (obj : SimObject) (s : Sim) : res :=
  sceneRemove (ChMesh (o_mesh obj)) s >>= worldRemove (o_body obj).

Definition reset (s : Sim) : res :=
  let s := pause s in
  let s := set_simulationTime 0 s in
  forEach removeObject (objects s) s >>= fun s =>
  let s := set_objects [] s in
  removeVectors s >>= fun s =>
  let s := set_stats stats0 s in
  let s := resetRobot s in
  Ok (log "🔄 Simulación reiniciada" s).

Definition step (s : Sim) : res :=
  if negb (isRunning s) then
    updatePhysics s >>= fun s =>
    Ok (set_simulationTime (simulationTime s + deltaTime s) s)
  else Ok s.

Definition toggleRobot (s : Sim) : Sim :=
  let s := with_robot (fun r => set_isActive (negb (isActive r)) r) s in
  match getElementById "activateRobot" s with
  | Some _ =>
      with_element "activateRobot"
        (fun b => class_toggle "btn-secondary"
                    (class_toggle "btn-primary"
                       (el_setText (Lit (if isActive (robot s) then "Desactivar Robot"
                                         else "Activar Robot")) b))) s
  | None => s
  end.

Definition optimizeLayout (rnd : nat -> float) (s : Sim) : Sim :=
  let s := log "🔧 Optimizando disposición..." s in
  let s := with_stats (set_damageReduction (Math_floor (rnd 0%nat * 30 + 70))) s in
  updateAnalysisDisplay s.

Definition optimizeTrajectory (rnd : nat -> float) (s : Sim) : Sim :=
  let s := log "🛤️ Optimizando trayectoria..." s in
  let s := with_stats (set_trajectoryEfficiency (Math_floor (rnd 0%nat * 30 + 70))) s in
  updateAnalysisDisplay s.

(** [togglePanel(panelId)]. The button is looked up under
    ['toggle' + panelId.replace('Panel', '')], which [buttonId] gives for the
    two panels of the page. *)
Definition togglePanel (panelId buttonId : string) (s : Sim) : Sim :=
  match getElementById panelId s with
  | Some _ =>
      let s := with_element panelId (class_toggle "collapsed") s in
      match getElementById buttonId s, getElementById panelId s with
      | Some _, Some panel =>
          with_element buttonId
            (el_setText (Lit (if class_contains "collapsed" panel then "+" else "−"))) s
      | _, _ => s
      end
  | None => s
  end.

Definition onWindowResize (s : Sim) : res :=
  let w := innerWidth (host s) in
  let h := innerHeight (host s) in
  match camera s with
  | None => Throw (TypeError "Cannot set properties of null (setting 'aspect')") s
  | Some c =>
      let s := set_camera (Some (mkCamera (cam_fov c) (w / h) (cam_near c) (cam_far c)
                                          (cam_position c) (cam_target c))) s in
      match renderer s with
      | None => Throw (TypeError "Cannot read properties of null (reading 'setSize')") s
      | Some r => Ok (set_renderer (Some (mkRenderer w h (r_shadowMap r))) s)
      end
  end.

(** The meshes of [this.objects], with their state, for the ray caster. *)
Definition objectMeshes (s : Sim) : list (nat * Mesh) :=
  omap (fun obj => match getMesh (o_mesh obj) s with
                   | Some m => Some (o_mesh obj, m)
                   | None => None
                   end) (objects s).

Definition onCanvasClick (clientX clientY : float) (rnd : nat -> float) (s : Sim) : res :=
  if negb (isRunning s) then Ok s
  else
    needTHREE s >>= fun s =>
    let mouse := (clientX / innerWidth (host s) * 2 - 1,
                  - (clientY / innerHeight (host s)) * 2 + 1) in
    match camera s with
    | None => Throw (TypeError "Cannot read properties of null (reading 'isPerspectiveCamera')") s
    | Some cam =>
        match intersectObjects mouse cam (objectMeshes s) with
        | [] => Ok s
        | hit :: _ =>
            match find (fun obj => Nat.eqb (o_mesh obj) hit) (objects s) with
            | None => Ok s
            | Some clickedObject =>
                needCANNON s >>= fun s =>
                let i := impulse (config s) in
                let imp := mkVec3 ((rnd 0%nat - 0.5) * i) i ((rnd 1%nat - 0.5) * i) in
                let s := with_heap
                           (heap_setBodies
                              (alter (fun b => applyImpulse imp (b_position b) b)
                                     (o_body clickedObject))) s in
                Ok (log "💥 Impulso aplicado" s)
            end
        end
    end.

Definition onKeyPress (code : string) (ctrlKey : bool) (rnd : nat -> float) (s : Sim) : res :=
  if String.eqb code "Space" then
    let s := emit PreventDefault s in
    Ok (if isRunning s then pause s else play s)
  else if String.eqb code "KeyR" then
    if ctrlKey then reset (emit PreventDefault s) else Ok s
  else if String.eqb code "KeyO" then
    if ctrlKey then Ok (optimizeLayout rnd (emit PreventDefault s)) else Ok s
  else if String.eqb code "KeyT" then
    if ctrlKey then Ok (optimizeTrajectory rnd (emit PreventDefault s)) else Ok s
  else Ok s.

(** *** Sliders and checkboxes *)

Definition setConfig (p : Prop_) (v : float) (c : Config) : Config :=
  match p with
  | PMass => set_mass v c
  | PFriction => set_friction v c
  | PGravity => set_gravity v c
  | PRestitution => set_restitution v c
  | PImpulse => set_impulse v c
  | PAngularVelocity => set_angularVelocity v c
  | PRotation => set_rotation v c
  end.

(** The [input] handler of a slider or of its number box: [other] is the
    element that mirrors the value. *)
Definition onSliderInput (other : string) (p : Prop_) (value : string) (s : Sim) : Sim :=
  let s := with_element other (el_setValue (Lit value)) s in
  let s := set_config (setConfig p (parseFloat value) (config s)) s in
  match p, world s with
  | PGravity, Some w =>
      set_world (Some (world_setGravity (mkVec3 0 (gravity (config s)) 0) w)) s
  | _, _ => s
  end.

Definition onShowVelocityVectors (checked : bool) (s : Sim) : res :=
  updateVectors (set_showVelocityVectors checked s).

Definition onShowMomentumVectors (checked : bool) (s : Sim) : res :=
  updateVectors (set_showMomentumVectors checked s).

(** *** The animation loop *)

(** One call of [animate]; [t0] and [t1] are the two readings of
    [performance.now()]. The counter [frameCount] is an integer (it is exact
    as a number below [2^53] frames). *)
Definition animate (t0 t1 : float) (s : Sim) : res :=
  (if isRunning s then
     updatePhysics s >>= fun s =>
     let s := set_simulationTime (simulationTime s + deltaTime s) s in
     if (Z.rem (frameCount s) 10 =? 0)%Z then updateVectors s else Ok s
   else Ok s) >>= fun s =>
  match renderer s with
  | None => Throw (TypeError "Cannot read properties of null (reading 'render')") s
  | Some _ =>
      let s := emit Render s in
      let s := set_deltaTime ((t1 - t0) / 1000) s in
      let s := updateUI s in
      Ok (set_frameCount (frameCount s + 1)%Z s)
  end.

(** [startLoop] calls [animate] once itself; the later calls come from
    [requestAnimationFrame]. *)
Definition startLoop (t0 t1 : float) (s : Sim) : res :=
  let s := log "🎬 Iniciando bucle de animación..." s in
  let s := with_host (set_looping true) s in
  animate t0 t1 s.

Definition hideLoadingScreen (s : Sim) : Sim :=
  match getElementById "loadingScreen" s with
  | Some _ => setTimeout TimerHideLoading s
  | None => s
  end.

(** The callback [init] gave to [setTimeout]. *)
Definition setup (t0 t1 : float) (s : Sim) : res :=
  setupScene s >>= setupPhysics >>= setupLighting >>= setupGround >>= setupRobot
    >>= setupEventListeners >>= startLoop t0 t1 >>= fun s =>
  Ok (log "✅ Simulador inicializado correctamente" (hideLoadingScreen s)).

(** *** The browser's events *)

Inductive Event : Type :=
  | Click (id : string) (rnd : nat -> float)
  | Input (id : string) (value : string)
  | Change (id : string) (checked : bool)
  | Resize (w h : float)
  | CanvasClick (clientX clientY : float) (rnd : nat -> float)
  | KeyDown (code : string) (ctrlKey : bool) (rnd : nat -> float)
  | AnimationFrame (t0 t1 : float)
  | TimeoutInit (t0 t1 : float)
  | TimeoutHideLoading.

(** The [click] listeners of [setupEventListeners], by element id. *)
Definition onClick (id : string) (rnd : nat -> float) (s : Sim) : res :=
  if String.eqb id "toggleControl" then Ok (togglePanel "controlPanel" "togglecontrol" s)
  else if String.eqb id "toggleAnalysis" then Ok (togglePanel "analysisPanel" "toggleanalysis" s)
  else if String.eqb id "addBox" then addBox rnd s
  else if String.eqb id "addSphere" then addSphere rnd s
  else if String.eqb id "addCylinder" then addCylinder rnd s
  else if String.eqb id "playBtn" then Ok (play s)
  else if String.eqb id "pauseBtn" then Ok (pause s)
  else if String.eqb id "resetBtn" then reset s
  else if String.eqb id "stepBtn" then step s
  else if String.eqb id "activateRobot" then Ok (toggleRobot s)
  else if String.eqb id "resetRobot" then Ok (resetRobot s)
  else if String.eqb id "optimizeLayout" then Ok (optimizeLayout rnd s)
  else if String.eqb id "optimizeTrajectory" then Ok (optimizeTrajectory rnd s)
  else Ok s.

(** The [input] listeners of [setupSliders]. *)
Definition onInput (id : string) (value : string) (s : Sim) : Sim :=
  match find (fun '(sl, va, _) => String.eqb id sl || String.eqb id va) sliders with
  | Some (sl, va, p) =>
      onSliderInput (if String.eqb id sl then va else sl) p value s
  | None => s
  end.

Definition onChange (id : string) (checked : bool) (s : Sim) : res :=
  if String.eqb id "showVelocityVectors" then onShowVelocityVectors checked s
  else if String.eqb id "showMomentumVectors" then onShowMomentumVectors checked s
  else Ok s.

Fixpoint remove_first (t : Timer) (l : list Timer) : list Timer :=
  match l with
  | [] => []
  | u :: l' =>
      match t, u with
      | TimerInit, TimerInit | TimerHideLoading, TimerHideLoading => l'
      | _, _ => u :: remove_first t l'
      end
  end.

Definition pending (t : Timer) (s : Sim) : bool :=
  existsb (fun u => match t, u with
                    | TimerInit, TimerInit | TimerHideLoading, TimerHideLoading => true
                    | _, _ => false
                    end) (timers (host s)).

Definition clearTimer (t : Timer) (s : Sim) : Sim :=
  with_host (fun h => set_timers (remove_first t (timers h)) h) s.

(** The browser delivers an event: a listener runs if one is installed. *)
Definition dispatch (ev : Event) (s : Sim) : res :=
  match ev with
  | Click id rnd =>
      if has_listener id s then onClick id rnd s else Ok s
  | Input id value =>
      let s' := with_element id (el_setValue (Lit value)) s in
      if has_listener id s then Ok (onInput id value s') else Ok s'
  | Change id checked =>
      if has_listener id s then onChange id checked s else Ok s
  | Resize w h =>
      let s' := with_host (fun o => set_innerHeight h (set_innerWidth w o)) s in
      if has_listener "window" s then onWindowResize s' else Ok s'
  | CanvasClick x y rnd =>
      match canvas s with
      | Some c => if has_listener c s then onCanvasClick x y rnd s else Ok s
      | None => Ok s
      end
  | KeyDown code ctrl rnd =>
      if has_listener "document" s then onKeyPress code ctrl rnd s else Ok s
  | AnimationFrame t0 t1 =>
      if looping (host s) then animate t0 t1 s else Ok s
  | TimeoutInit t0 t1 =>
      if pending TimerInit s then setup t0 t1 (clearTimer TimerInit s) else Ok s
  | TimeoutHideLoading =>
      if pending TimerHideLoading s then
        Ok (with_element "loadingScreen" (el_setDisplay "none")
              (clearTimer TimerHideLoading s))
      else Ok s
  end.

(** An exception that leaves a listener is reported by the browser and the
    page goes on with the state as it is. *)
Definition run (evs : list Event) (s : Sim) : Sim :=
  fold_left (fun s ev => state_of (dispatch ev s)) evs s.

(** The browser before the page's script runs. *)
Definition host0 (page : gmap string Element) (w h : float) (three cannon : bool) : Host :=
  mkHost heap0 0 page w h three cannon [] [] [] false.

(** The states the simulator can be in. *)
Definition reachable (s : Sim) : Prop :=
  exists page w h three cannon evs,
    s = run evs (constructor (host0 page w h three cannon)).

(** A sequence of spawn operations. *)
Inductive SpawnOp : Type := SpawnBox | SpawnSphere | SpawnCylinder.

Definition spawnOp (op : SpawnOp) (rnd : nat -> float) (s : Sim) : res :=
  match op with
  | SpawnBox => addBox rnd s
  | SpawnSphere => addSphere rnd s
  | SpawnCylinder => addCylinder rnd s
  end.

Definition typeOf (op : SpawnOp) : ObjType :=
  match op with
  | SpawnBox => TBox
  | SpawnSphere => TSphere
  | SpawnCylinder => TCylinder
  end.


(** A sequence of [pause()], [play()] and presses of the space key. *)
Inductive RunOp : Type := OpPause | OpPlay | OpSpace.

Definition runOp (op : RunOp) (s : Sim) : res :=
  match op with
  | OpPause => Ok (pause s)
  | OpPlay => Ok (play s)
  | OpSpace => onKeyPress "Space" false (fun _ => 0) s
  end.

(** The first five steps of [setup]: the objects the methods rely on. *)
Definition setup5 (s : Sim) : res :=
  setupScene s >>= setupPhysics >>= setupLighting >>= setupGround >>= setupRobot.

(** [n] calls of [updateRobot]. *)
Fixpoint updateRobotN (n : nat) (s : Sim) : res :=
  match n with
  | O => Ok s
  | S n' => updateRobot s >>= updateRobotN n'
  end.
End Simulator.

(* ===================================================================== *)
(** ** A small platform for running the model *)
(* ===================================================================== *)

(** A stand-in for the two libraries: a step moves every body along its
    velocity under the world's gravity, an impulse changes the velocity by
    [impulse / mass], the ray caster hits nothing. *)
Definition toyStepBody (dt : float) (w : World) (b : Body) : Body :=
  if (b_mass b =? 0)%float then b
  else
    let v := b_velocity b in
    let g := w_gravity w in
    let v' := mkVec3 (vx v + vx g * dt) (vy v + vy g * dt) (vz v + vz g * dt) in
    let p := b_position b in
    mkBody (b_mass b) (b_shapes b)
           (mkVec3 (vx p + vx v' * dt) (vy p + vy v' * dt) (vz p + vz v' * dt))
           v' (b_quaternion b) (b_friction b) (b_restitution b).

Definition toyImpulse (i _ : Vec3) (b : Body) : Body :=
  let v := b_velocity b in
  let m := b_mass b in
  mkBody (b_mass b) (b_shapes b) (b_position b)
         (mkVec3 (vx v + vx i / m) (vy v + vy i / m) (vz v + vz i / m))
         (b_quaternion b) (b_friction b) (b_restitution b).

#[export] Program Instance toyPlatform : Platform := {|
  parseFloat := fun _ => 0%float;
  worldStep := fun dt w bs => toyStepBody dt w <$> bs;
  applyImpulse := toyImpulse;
  setFromAxisAngle := fun _ _ => quat1;
  hslHex := fun _ _ _ => 0;
  intersectObjects := fun _ _ _ => []
|}.
Next Obligation. intros dt w bs. apply dom_fmap_L. Qed.

(** A page with every element the simulator looks up. *)
Definition element0 : Element := mkElement (Lit "") (Lit "") "" [].

Definition pageIds : list string :=
  [ "loadingScreen"; "canvas3d"; "toggleControl"; "toggleAnalysis"; "controlPanel";
    "analysisPanel" ] ++ buttons ++
  flat_map (fun '(sl, va, _) => [sl; va]) sliders ++
  [ "showVelocityVectors"; "showMomentumVectors"; "timeDisplay"; "fpsCounter"; "deltaTime";
    "activeObjects"; "collisionCount"; "totalEnergy"; "maxVelocity"; "avgVelocity";
    "currentAngle"; "angularAcceleration"; "damageReduction"; "trajectoryEfficiency";
    "optimalTrajectory"; "optimizationStatus" ].

Definition page0 : gmap string Element :=
  list_to_map (map (fun id => (id, element0)) pageIds).

(** The simulator once the page has loaded and the set-up timer has fired;
    the first frame took 2 ms. *)
Definition booted : Sim :=
  run [TimeoutInit 0 2] (constructor (host0 page0 800 600 true true)).

(* ===================================================================== *)
(** ** Binary64 arithmetic on integers

    Every finite binary64 number is an integer multiple of [2^-1074], and
    the exact product of two of them an integer multiple of [2^-2148]. The
    definitions below describe numbers and rounding on these integers; the
    lemmas further down relate them to [SpecFloat], the specification of
    the primitive operations. *)
(* ===================================================================== *)

(** The record after [k] shifts of [m]. *)
Definition shifted (m : Z) (k : nat) : shr_record :=
  Build_shr_record (m / 2 ^ Z.of_nat k)
                   (Z.testbit m (Z.of_nat k - 1))
                   (negb (m mod 2 ^ Z.of_nat (Nat.pred k) =? 0)).

(** Nearest integer to [m / 2^n], ties to even. *)
Definition rne (m n : Z) : Z :=
  let q := m / 2 ^ n in
  match 2 * (m mod 2 ^ n) ?= 2 ^ n with
  | Lt => q
  | Eq => if Z.even q then q else q + 1
  | Gt => q + 1
  end.

(** The integer of a number in units of [2^-1074]; the infinities get
    [±2^2098], the value [2^1024] they stand for. *)
Definition B (x : spec_float) : Z :=
  match x with
  | S754_zero _ => 0
  | S754_nan => 0
  | S754_infinity s => cond_Zopp s (2 ^ 2098)
  | S754_finite s m e => cond_Zopp s (Zpos m * 2 ^ (e + 1074))
  end.

(** Rounding of the positive integer [z], in units of [2^-2148], to a
    number in units of [2^-1074], with an unbounded exponent. *)
Definition RN (z : Z) : Z :=
  let n := Z.max (Z.log2 z - 52) 1074 in
  rne z n * 2 ^ (n - 1074).

Definition F2pos (z : Z) : Z := Z.min (RN z) (2 ^ 2098).

(** The same for any integer. *)
Definition F2 (z : Z) : Z :=
  match z with
  | Z0 => 0
  | Zpos _ => F2pos z
  | Zneg p => - F2pos (Zpos p)
  end.

Definition is_nan_sf (x : spec_float) : bool :=
  match x with S754_nan => true | _ => false end.

(** [binary_round_aux] on an exact positive mantissa, when no left shift
    is needed. *)
Definition bra_closed (s : bool) (m e : Z) : spec_float :=
  let e1 := fexp prec emax (Zdigits2 m + e) in
  let m1 := rne m (e1 - e) in
  let '(m2, e2) := if m1 =? 2 ^ 53 then (2 ^ 52, e1 + 1) else (m1, e1) in
  match m2 with
  | Z0 => S754_zero s
  | Zpos p => if e2 <=? 971 then S754_finite s p e2 else S754_infinity s
  | Zneg _ => S754_nan
  end.

Definition finite_sf (x : spec_float) : bool :=
  match x with
  | S754_zero _ | S754_finite _ _ _ => true
  | _ => false
  end.

Definition Bf (x : float) : Z := B (Prim2SF x).
Definition nanf (x : float) : bool := is_nan_sf (Prim2SF x).
Definition finf (x : float) : bool := finite_sf (Prim2SF x).

Definition F1 (z : Z) : Z := F2 (z * 2 ^ 1074).

(* ===================================================================== *)
(** ** Notions used in the statements *)
(* ===================================================================== *)

(** The target angle of the robot: [config.rotation * Math.PI / 180]. *)
Definition targetOf (s : Sim) : float := (rotation (config s) * Math_PI / 180)%float.

(** The robot's angle after [n] calls of [updateRobot]. *)
Definition angleAfter (n : nat) (s : Sim) : float :=
  currentAngle (robot (state_of (updateRobotN n s))).

(** From the angle [a] to the angle [a'], the difference to the target [t]
    keeps its sign and does not grow. *)
Definition never_overshoots (t a a' : float) : bool :=
  ((0 <=? t - a) && (0 <=? t - a') && (t - a' <=? t - a))%float
  || ((t - a <=? 0) && (t - a' <=? 0) && (t - a <=? t - a'))%float.

(** The angle [a'] lies between the angle [a] and the target [t]. *)
Definition moves_toward (t a a' : float) : bool :=
  ((a <=? a') && (a' <=? t))%float || ((t <=? a') && (a' <=? a))%float.

(** The simulator with the robot switched on and [config.rotation] set to
    [1e308], as after typing that number in the rotation box: the angle is
    still the initial 0. *)
Definition overflowing : Sim :=
  with_robot (set_isActive true) (set_config (set_rotation 1e308 (config booted)) booted).

(** The largest draw of [Math.random()]: [1 - 2^-53]. *)
Definition largestDraw : float := 0x1.fffffffffffffp-1%float.

(** After the set-up every object the other methods use exists. *)
Definition ready (s : Sim) : Prop :=
  is_Some (scene s) /\ is_Some (camera s) /\ is_Some (renderer s) /\
  is_Some (world s) /\ is_Some (base (robot s)) /\
  hasTHREE (host s) = true /\ hasCANNON (host s) = true.

(** Every entry of [this.objects] refers to a body and a mesh of the heap,
    and no two entries share a mesh. *)
Definition paired (s : Sim) : Prop :=
  (forall obj, In obj (objects s) ->
     (o_body obj < nextId (host s))%nat /\ (o_mesh obj < nextId (host s))%nat /\
     is_Some (getBody (o_body obj) s) /\ is_Some (getMesh (o_mesh obj) s)) /\
  NoDup (map o_mesh (objects s)).

(** Something can happen to the simulator only after the set-up. *)
Definition active (s : Sim) : Prop :=
  listeners (host s) <> [] \/ looping (host s) = true \/
  objects s <> [] \/ vectors s <> [] \/ isActive (robot s) = true.

(** The invariant of the reachable states. *)
Definition Inv (s : Sim) : Prop :=
  (active s -> ready s) /\ paired s.

(** From [s] to [s'] nothing the invariant relies on is lost: handles are
    only allocated, bodies and meshes stay in the heap, and the scene, the
    camera, the renderer, the world and the robot's group stay. *)
Definition grows (s s' : Sim) : Prop :=
  (nextId (host s) <= nextId (host s'))%nat /\
  (forall h, is_Some (getBody h s) -> is_Some (getBody h s')) /\
  (forall h, is_Some (getMesh h s) -> is_Some (getMesh h s')) /\
  (is_Some (scene s) -> is_Some (scene s')) /\
  (is_Some (camera s) -> is_Some (camera s')) /\
  (is_Some (renderer s) -> is_Some (renderer s')) /\
  (is_Some (world s) -> is_Some (world s')) /\
  (is_Some (base (robot s)) -> is_Some (base (robot s'))) /\
  (hasTHREE (host s) = true -> hasTHREE (host s') = true) /\
  (hasCANNON (host s) = true -> hasCANNON (host s') = true).

(** The same, and the objects list is unchanged. *)
Definition keeps (s s' : Sim) : Prop :=
  grows s s' /\ objects s' = objects s.

(** From [s] to [s'] no listener, loop or arrow was added and the robot was
    not switched. *)
Definition quiet (s s' : Sim) : Prop :=
  listeners (host s') = listeners (host s) /\
  looping (host s') = looping (host s) /\
  vectors s' = vectors s /\
  isActive (robot s') = isActive (robot s).

(** The arrows of one type that [this.vectors] holds, in order. *)
Definition arrowsOf (ty : VecType) (s : Sim) : list Arrow :=
  omap (fun v =>
          match ty, v_type v with
          | TVelocity, TVelocity | TMomentum, TMomentum => getArrow (v_arrow v) s
          | _, _ => None
          end) (vectors s).

(** The arrow of one type that the body of [obj] calls for, if any. *)
Definition arrowFor (ty : VecType) (s : Sim) (obj : SimObject) : list Arrow :=
  match getBody (o_body obj) s with
  | Some b =>
      if gtb (speedOf (b_velocity b)) 0.1 then
        match ty with
        | TVelocity => if showVelocityVectors s then [velocityArrow b] else []
        | TMomentum =>
            if showMomentumVectors s then [momentumArrow b (o_mass obj)] else []
        end
      else []
  | None => []
  end.

(** The arrows of one type that the bodies call for. *)
Definition arrowsFor (ty : VecType) (s : Sim) : list Arrow :=
  flat_map (arrowFor ty s) (objects s).

(** The scene and the world after the removals of [reset]. *)
Definition removeMeshes (objs : list SimObject) (sc : Scene) : Scene :=
  fold_left (fun sc o => scene_remove (ChMesh (o_mesh o)) sc) objs sc.
Definition removeBodies (objs : list SimObject) (w : World) : World :=
  fold_left (fun w o => world_remove (o_body o) w) objs w.
Definition removeArrows (vs : list VectorEntry) (sc : Scene) : Scene :=
  fold_left (fun sc v => scene_remove (ChArrow (v_arrow v)) sc) vs sc.

(** What [reset] leaves of the state [s]. *)
Definition reset_post (s s' : Sim) : Prop :=
  objects s' = [] /\ vectors s' = [] /\ stats s' = stats0 /\
  simulationTime s' = 0%float /\ isRunning s' = false /\
  currentAngle (robot s') = 0%float /\ targetAngle (robot s') = 0%float /\
  isActive (robot s') = false /\
  base (robot s') = base (robot s) /\ segments (robot s') = segments (robot s) /\
  config s' = config s /\ heap (host s') = heap (host s) /\
  nextId (host s') = nextId (host s) /\
  camera s' = camera s /\ renderer s' = renderer s /\
  scene s' = (fun sc => removeArrows (vectors s) (removeMeshes (objects s) sc)) <$> scene s /\
  world s' = removeBodies (objects s) <$> world s /\
  hasTHREE (host s') = hasTHREE (host s) /\ hasCANNON (host s') = hasCANNON (host s) /\
  listeners (host s') = listeners (host s) /\ looping (host s') = looping (host s).

(** The scene without its arrows. *)
Definition nonArrows (sc : Scene) : Scene :=
  mkScene (sc_background sc)
          (List.filter (fun c => match c with ChArrow _ => false | _ => true end)
                       (sc_children sc)).

(** From [s] to [s'] only arrows changed: [this.vectors], the arrows of the
    heap and of the scene, and the counter of the handles. *)
Definition only_arrows (s s' : Sim) : Prop :=
  exists vs sc n ar,
    nonArrows <$> sc = nonArrows <$> scene s /\
    s' = set_vectors vs
           (set_scene sc
              (with_host (fun h => set_nextId n (set_heap (heap_setArrows (fun _ => ar) (heap h)) h))
                 s)).

(** No entry of [this.vectors] has a handle that is still to be allocated. *)
Definition allocated (s : Sim) : Prop :=
  forall v, In v (vectors s) -> (v_arrow v < nextId (host s))%nat.



(** The steps of the physics world among the effects, in order. *)
Definition worldSteps (l : list Effect) : list float :=
  omap (fun e => match e with WorldStep dt => Some dt | _ => None end) l.

(** States for running the model: every draw of [Math.random()] is 0.5. *)
Definition half : nat -> float := fun _ => 0.5%float.

(** The simulator after the set-up and one click on "add box". *)
Definition withBox : Sim :=
  run [TimeoutInit 0 2; Click "addBox" half] (constructor (host0 page0 800 600 true true)).

(** The same, playing. *)
Definition playing : Sim :=
  run [TimeoutInit 0 2; Click "addBox" half; Click "playBtn" half]
      (constructor (host0 page0 800 600 true true)).

(** The simulator after the set-up and one click on "activate robot". *)
Definition robotOn : Sim :=
  run [TimeoutInit 0 2; Click "activateRobot" half]
      (constructor (host0 page0 800 600 true true)).

(* ===================================================================== *)
(** ** Notions used for the rest of the class *)
(* ===================================================================== *)


(** Console output and alerts, as opposed to steps of the world and
    renderings. *)
Definition silent (e : Effect) : bool :=
  match e with
  | ConsoleLog _ | ConsoleError _ | Alert _ => true
  | _ => false
  end.

(** A simulator whose set-up cannot succeed: nothing was installed, nothing
    runs and the loading screen is still shown. *)
Definition inert (s : Sim) : Prop :=
  hasTHREE (host s) && hasCANNON (host s) = false /\
  world s = None /\ objects s = [] /\ vectors s = [] /\
  listeners (host s) = [] /\ looping (host s) = false /\
  isRunning s = false /\ frameCount s = 0 /\ simulationTime s = 0%float /\
  isActive (robot s) = false /\
  pending TimerHideLoading s = false /\
  forallb silent (effects (host s)) = true /\
  (forall el, document (host s) !! "loadingScreen" = Some el -> el_display el = "flex").

(** The effects that are not console output: steps of the world,
    renderings, [preventDefault]. *)
Definition noise (l : list Effect) : list Effect :=
  List.filter (fun e => negb (silent e)) l.

(** From [s] to [s'] only the scene, the world, the heap, the robot's
    parts and the console changed. *)
Definition calm (s s' : Sim) : Prop :=
  document (host s') = document (host s) /\ timers (host s') = timers (host s) /\
  listeners (host s') = listeners (host s) /\ looping (host s') = looping (host s) /\
  hasTHREE (host s') = hasTHREE (host s) /\ hasCANNON (host s') = hasCANNON (host s) /\
  innerWidth (host s') = innerWidth (host s) /\ innerHeight (host s') = innerHeight (host s) /\
  canvas s' = canvas s /\ camera s' = camera s /\ renderer s' = renderer s /\
  isRunning s' = isRunning s /\ frameCount s' = frameCount s /\
  deltaTime s' = deltaTime s /\ simulationTime s' = simulationTime s /\
  objects s' = objects s /\ vectors s' = vectors s /\ config s' = config s /\
  stats s' = stats s /\ showVelocityVectors s' = showVelocityVectors s /\
  showMomentumVectors s' = showMomentumVectors s /\
  isActive (robot s') = isActive (robot s) /\
  currentAngle (robot s') = currentAngle (robot s) /\
  targetAngle (robot s') = targetAngle (robot s) /\
  noise (effects (host s')) = noise (effects (host s)).

(** The elements the set-up cannot do without. *)
Definition requiredIds : list string :=
  "canvas3d" :: buttons ++ ["showVelocityVectors"; "showMomentumVectors"].

(** From [s] to [s'] only listeners on targets of [L] were added and
    console lines written. *)
Definition hears (L : list string) (s s' : Sim) : Prop :=
  exists l out,
    incl l L /\ forallb silent out = true /\
    s' = with_host (fun h => set_listeners (listeners h ++ l)
                               (set_effects (effects h ++ out) h)) s.

(** The elements that get a listener, when the page has them. *)
Definition listenedIds : list string :=
  ["toggleControl"; "toggleAnalysis"] ++ buttons ++
  flat_map (fun '(sl, va, _) => [sl; va]) sliders ++
  ["showVelocityVectors"; "showMomentumVectors"].

(** The page [d'] has the elements of the page [d], with their values,
    styles and classes; only texts may differ. *)
Definition retexted (d d' : gmap string Element) : Prop :=
  forall id,
    match d !! id, d' !! id with
    | Some e, Some e' =>
        el_value e' = el_value e /\ el_display e' = el_display e /\
        classList e' = classList e
    | None, None => True
    | _, _ => False
    end.

(** From [s] to [s'] only texts of the page changed. *)
Definition repaged (s s' : Sim) : Prop :=
  exists doc, retexted (document (host s)) doc /\ s' = with_host (set_document doc) s.

(** From [s] to [s'] only the bodies, meshes and groups of the heap, the
    robot, the statistics and the effects changed: what a step of the
    physics may touch. *)
Definition physical (s s' : Sim) : Prop :=
  scene s' = scene s /\ world s' = world s /\ camera s' = camera s /\
  renderer s' = renderer s /\ objects s' = objects s /\ vectors s' = vectors s /\
  isRunning s' = isRunning s /\ deltaTime s' = deltaTime s /\
  simulationTime s' = simulationTime s /\ frameCount s' = frameCount s /\
  config s' = config s /\ showVelocityVectors s' = showVelocityVectors s /\
  showMomentumVectors s' = showMomentumVectors s /\ canvas s' = canvas s /\
  h_arrows (heap (host s')) = h_arrows (heap (host s)) /\
  nextId (host s') = nextId (host s) /\ document (host s') = document (host s) /\
  timers (host s') = timers (host s) /\ listeners (host s') = listeners (host s) /\
  looping (host s') = looping (host s) /\ hasTHREE (host s') = hasTHREE (host s) /\
  hasCANNON (host s') = hasCANNON (host s).

(** The texts [updateAnalysisDisplay] writes, by element id. *)
Definition analysisTexts (st : Stats) : list (string * jsstr) :=
  [ ("activeObjects", NumStr (activeObjects st));
    ("collisionCount", NumStr (collisionCount st));
    ("totalEnergy", withUnit (totalEnergy st) " J");
    ("maxVelocity", withUnit (maxVelocity st) " m/s");
    ("avgVelocity", withUnit (avgVelocity st) " m/s");
    ("currentAngle", withUnit (stats_currentAngle st) "°");
    ("angularAcceleration", Cat (Fixed (angularAcceleration st) 2) (Lit " rad/s²"));
    ("damageReduction", Cat (NumStr (damageReduction st)) (Lit "%"));
    ("trajectoryEfficiency", Cat (NumStr (trajectoryEfficiency st)) (Lit "%"));
    ("optimalTrajectory",
      Lit (if gtb (trajectoryEfficiency st) 80 then "Calculada" else "No calculada"));
    ("optimizationStatus",
      Lit (if gtb (damageReduction st) 80 then "Optimizada" else "En progreso")) ].

(** What [toggleRobot] does to the button when the robot becomes active
    ([a] is true) or inactive. *)
Definition robotButton (a : bool) (b : Element) : Element :=
  class_toggle "btn-secondary"
    (class_toggle "btn-primary"
       (el_setText (Lit (if a then "Desactivar Robot" else "Activar Robot")) b)).

(** The page without the button "addBox". *)
Definition pageWithoutAddBox : gmap string Element := delete "addBox" page0.

(** The robot of [robotOn] once its angle is the target. *)
Definition arrived : Sim := with_robot (set_currentAngle (targetOf robotOn)) robotOn.

(** The running simulator with one box, nine frames of 16 ms later:
    [frameCount] is 10. *)
Definition tenthFrame : Sim :=
  run (map (fun k => AnimationFrame (of_Z (16 * k)) (of_Z (16 * k + 16)))
           [1; 2; 3; 4; 5; 6; 7; 8; 9]%Z)
      playing.

(** The small platform with a ray caster that hits every mesh it is given,
    in the order of [this.objects]. *)
Definition hittingPlatform : Platform :=
  mkPlatform parseFloat worldStep worldStep_dom applyImpulse setFromAxisAngle hslHex
             (fun _ _ meshes => map fst meshes).

(** The running simulator with one box, on that platform. *)
Definition playingHit : Sim :=
  @run hittingPlatform [TimeoutInit 0 2; Click "addBox" half; Click "playBtn" half]
      (constructor (host0 page0 800 600 true true)).

(** The arrows among the children of a scene, in order. *)
Definition sceneArrows (sc : Scene) : list nat :=
  omap (fun c => match c with ChArrow h => Some h | _ => None end) (sc_children sc).

(** From [s] to [s'] the children of the scene, the bodies of the world,
    [this.vectors] and the pending timers are the same. *)
Definition settled (s s' : Sim) : Prop :=
  sc_children <$> scene s' = sc_children <$> scene s /\
  w_bodies <$> world s' = w_bodies <$> world s /\
  vectors s' = vectors s /\ timers (host s') = timers (host s).

(** The scene and the world hold what the set-up built, [C0] and [B0], and
    after it what [this.objects] and [this.vectors] account for: the mesh
    and the body of every object, in order, and the arrow of every vector.
    The handles of the objects are [n0] or later. The set-up is done: its
    timer is no longer pending. *)
Definition housed (C0 : list Child) (B0 : list nat) (n0 : nat) (s : Sim) : Prop :=
  ready s /\ pending TimerInit s = false /\
  (forall sc, scene s = Some sc ->
     sc_children (nonArrows sc)
     = (C0 ++ map (fun o => ChMesh (o_mesh o)) (objects s))%list /\
     sceneArrows sc = map v_arrow (vectors s)) /\
  (forall w, world s = Some w -> w_bodies w = (B0 ++ map o_body (objects s))%list) /\
  (forall o, In o (objects s) -> (n0 <= o_mesh o)%nat /\ (n0 <= o_body o)%nat) /\
  (n0 <= nextId (host s))%nat.

(** The meshes of [C0] and the bodies of [B0] have handles below [n0]. *)
Definition based (C0 : list Child) (B0 : list nat) (n0 : nat) : Prop :=
  (forall h, In (ChMesh h) C0 -> (h < n0)%nat) /\ (forall h, In h B0 -> (h < n0)%nat).

(** The arrows of the scene are those of [this.vectors], in order. *)
Definition arrowed (s : Sim) : Prop :=
  forall sc, scene s = Some sc -> sceneArrows sc = map v_arrow (vectors s).

(** A box is added, the simulation started, and ten frames of 16 ms pass:
    the last one draws the arrows. *)
Definition busy : list Event :=
  ([Click "addBox" half; Click "playBtn" half]
   ++ map (fun k => AnimationFrame (of_Z (16 * k)) (of_Z (16 * k + 16)))
          [1; 2; 3; 4; 5; 6; 7; 8; 9; 10]%Z)%list.

(* ===================================================================== *)
(** ** Properties *)
(* ===================================================================== *)

(** Unfolds the field updates and projections of the state records. *)
Ltac sim_red :=
  cbv beta iota delta
    [
      set_gravity set_restitution set_friction set_mass set_impulse
      set_angularVelocity set_rotation set_base set_segments set_targetAngle
      set_currentAngle set_isActive set_activeObjects set_collisionCount
      set_totalEnergy set_maxVelocity set_avgVelocity set_stats_currentAngle
      set_angularAcceleration set_damageReduction set_trajectoryEfficiency set_heap
      set_nextId set_document set_innerWidth set_innerHeight set_hasTHREE
      set_hasCANNON set_effects set_timers set_listeners set_looping set_scene
      set_camera set_renderer set_world set_objects set_vectors set_isRunning
      set_deltaTime set_simulationTime set_frameCount set_config set_robot set_stats
      set_showVelocityVectors set_showMomentumVectors set_canvas set_host gravity
      restitution friction mass impulse angularVelocity rotation base segments
      targetAngle currentAngle isActive activeObjects collisionCount totalEnergy
      maxVelocity avgVelocity stats_currentAngle angularAcceleration damageReduction
      trajectoryEfficiency heap nextId document innerWidth innerHeight hasTHREE
      hasCANNON effects timers listeners looping scene camera renderer world objects
      vectors isRunning deltaTime simulationTime frameCount config robot stats
      showVelocityVectors showMomentumVectors canvas host with_host with_heap
      with_stats with_robot emit log heap_setBodies heap_setMeshes heap_setArrows
      heap_setGroups h_bodies h_meshes h_arrows h_groups
    ].
Ltac sim_red_in H :=
  cbv beta iota delta
    [
      set_gravity set_restitution set_friction set_mass set_impulse
      set_angularVelocity set_rotation set_base set_segments set_targetAngle
      set_currentAngle set_isActive set_activeObjects set_collisionCount
      set_totalEnergy set_maxVelocity set_avgVelocity set_stats_currentAngle
      set_angularAcceleration set_damageReduction set_trajectoryEfficiency set_heap
      set_nextId set_document set_innerWidth set_innerHeight set_hasTHREE
      set_hasCANNON set_effects set_timers set_listeners set_looping set_scene
      set_camera set_renderer set_world set_objects set_vectors set_isRunning
      set_deltaTime set_simulationTime set_frameCount set_config set_robot set_stats
      set_showVelocityVectors set_showMomentumVectors set_canvas set_host gravity
      restitution friction mass impulse angularVelocity rotation base segments
      targetAngle currentAngle isActive activeObjects collisionCount totalEnergy
      maxVelocity avgVelocity stats_currentAngle angularAcceleration damageReduction
      trajectoryEfficiency heap nextId document innerWidth innerHeight hasTHREE
      hasCANNON effects timers listeners looping scene camera renderer world objects
      vectors isRunning deltaTime simulationTime frameCount config robot stats
      showVelocityVectors showMomentumVectors canvas host with_host with_heap
      with_stats with_robot emit log heap_setBodies heap_setMeshes heap_setArrows
      heap_setGroups h_bodies h_meshes h_arrows h_groups
    ] in H.

(** *** What a method leaves alone *)

(** [s'] differs from [s] at most in the console output and in the text and
    classes of the page. *)
Definition same_but_page (s s' : Sim) : Prop :=
  exists out doc,
    s' = with_host (fun h => set_document doc (set_effects (effects h ++ out) h)) s.

Lemma same_but_page_refl s : document (host s) = document (host s) -> same_but_page s s.
Proof.
  intros _. exists [], (document (host s)).
  destruct s as [? ? ? ? ? ? ? ? ? ? ? ? ? ? ? ? h]; destruct h.
  unfold with_host; cbn. now rewrite app_nil_r.
Qed.

Lemma same_but_page_trans s1 s2 s3 :
  same_but_page s1 s2 -> same_but_page s2 s3 -> same_but_page s1 s3.
Proof.
  intros (o1 & d1 & ->) (o2 & d2 & ->).
  exists (o1 ++ o2)%list, d2.
  destruct s1 as [? ? ? ? ? ? ? ? ? ? ? ? ? ? ? ? h]; destruct h.
  unfold with_host; cbn. now rewrite app_assoc.
Qed.

Lemma same_but_page_emit e s : same_but_page s (emit e s).
Proof.
  exists [e], (document (host s)).
  destruct s as [? ? ? ? ? ? ? ? ? ? ? ? ? ? ? ? h]; destruct h. reflexivity.
Qed.

Lemma same_but_page_element id f s : same_but_page s (with_element id f s).
Proof.
  exists [], (alter f id (document (host s))).
  destruct s as [? ? ? ? ? ? ? ? ? ? ? ? ? ? ? ? h]; destruct h.
  unfold with_element, with_host; cbn. now rewrite app_nil_r.
Qed.

Lemma same_but_page_setText id t s : same_but_page s (setTextIfPresent id t s).
Proof.
  unfold setTextIfPresent. destruct (getElementById id s).
  - apply same_but_page_element.
  - now apply same_but_page_refl.
Qed.

Lemma same_but_page_fold_setText l s :
  same_but_page s (fold_left (fun s '(id, value) => setTextIfPresent id value s) l s).
Proof.
  revert s. induction l as [|[id v] l IH]; intros s; cbn.
  - now apply same_but_page_refl.
  - eapply same_but_page_trans; [apply same_but_page_setText | apply IH].
Qed.

Lemma same_but_page_updateAnalysisDisplay s : same_but_page s (updateAnalysisDisplay s).
Proof. unfold updateAnalysisDisplay. apply same_but_page_fold_setText. Qed.

Section Properties.

Context {P : Platform}.

(** *** Pause and play (C8) *)

Lemma runOp_only_isRunning op s :
  exists s' out,
    runOp op s = Ok s' /\
    s' = set_isRunning (isRunning s')
           (with_host (fun h => set_effects (effects h ++ out) h) s).
Proof.
  destruct s as [? ? ? ? ? ? run ? ? ? ? ? ? ? ? ? h]; destruct h.
  destruct op; cbn.
  - eexists _, [_]. split; reflexivity.
  - eexists _, [_]. split; reflexivity.
  - destruct run; cbn; eexists _, [_; _]; (split; [reflexivity|]).
    all: unfold pause, play; sim_red; rewrite <- app_assoc; reflexivity.
Qed.

(** C8. Any finite sequence of [pause()], [play()] and presses of the space
    key returns normally and changes only [isRunning] (and appends to the
    console output): the objects list, every body, mesh and arrow of the
    heap, the vectors list, the scene, the world, [config], [stats] and all
    the other fields are what they were. *)
Theorem pause_play_changes_only_isRunning (ops : list RunOp) (s : Sim) :
  exists s' out,
    forEach runOp ops s = Ok s' /\
    s' = set_isRunning (isRunning s')
           (with_host (fun h => set_effects (effects h ++ out) h) s) /\
    objects s' = objects s /\ vectors s' = vectors s /\
    heap (host s') = heap (host s) /\
    scene s' = scene s /\ world s' = world s /\
    config s' = config s /\ stats s' = stats s /\ robot s' = robot s /\
    deltaTime s' = deltaTime s /\ simulationTime s' = simulationTime s /\
    frameCount s' = frameCount s.
Proof.
  revert s. induction ops as [|op ops IH]; intros s.
  - exists s, []. split; [reflexivity|].
    destruct s as [? ? ? ? ? ? ? ? ? ? ? ? ? ? ? ? h]; destruct h.
    unfold with_host; cbn. rewrite app_nil_r. repeat split.
  - destruct (runOp_only_isRunning op s) as (s1 & o1 & E1 & H1).
    destruct (IH s1) as (s2 & o2 & E2 & H2 & _).
    exists s2, (o1 ++ o2)%list. cbn. rewrite E1. cbn. split; [exact E2|].
    rewrite H2. rewrite H1.
    destruct s as [? ? ? ? ? ? ? ? ? ? ? ? ? ? ? ? h]; destruct h.
    unfold with_host; cbn. rewrite app_assoc. repeat split.
Qed.

(** *** Clicks on the canvas while paused (C10) *)


(** *** The single step (C9) *)

Lemma updateRobot_ok s :
  (isActive (robot s) = true -> is_Some (base (robot s))) ->
  exists s', updateRobot s = Ok s' /\
    world s' = world s /\ objects s' = objects s /\ vectors s' = vectors s /\
    deltaTime s' = deltaTime s /\ simulationTime s' = simulationTime s /\
    isRunning s' = isRunning s /\ config s' = config s /\
    h_bodies (heap (host s')) = h_bodies (heap (host s)) /\
    h_meshes (heap (host s')) = h_meshes (heap (host s)) /\
    effects (host s') = effects (host s).
Proof.
  intros Hb. unfold updateRobot.
  destruct (isActive (robot s)) eqn:Ha; cbn.
  - destruct (Hb eq_refl) as [g Hg].
    destruct s as [? ? ? ? ? ? ? ? ? ? ? r ? ? ? ? h]; destruct h, r.
    cbn in *. subst. cbn. eexists. split; [reflexivity|]. cbn. repeat split.
  - exists s. repeat split.
Qed.

Lemma copyTransform_frame obj s :
  world (copyTransform obj s) = world s /\
  objects (copyTransform obj s) = objects s /\
  vectors (copyTransform obj s) = vectors s /\
  deltaTime (copyTransform obj s) = deltaTime s /\
  simulationTime (copyTransform obj s) = simulationTime s /\
  isRunning (copyTransform obj s) = isRunning s /\
  config (copyTransform obj s) = config s /\
  robot (copyTransform obj s) = robot s /\
  h_bodies (heap (host (copyTransform obj s))) = h_bodies (heap (host s)) /\
  effects (host (copyTransform obj s)) = effects (host s).
Proof.
  unfold copyTransform. destruct (getBody (o_body obj) s); repeat split.
Qed.

Lemma copyTransforms_frame l s :
  let s' := fold_left (fun s obj => copyTransform obj s) l s in
  world s' = world s /\ objects s' = objects s /\ vectors s' = vectors s /\
  deltaTime s' = deltaTime s /\ simulationTime s' = simulationTime s /\
  isRunning s' = isRunning s /\ config s' = config s /\ robot s' = robot s /\
  h_bodies (heap (host s')) = h_bodies (heap (host s)) /\
  effects (host s') = effects (host s).
Proof.
  revert s. induction l as [|obj l IH]; intros s; cbn.
  - repeat split.
  - specialize (IH (copyTransform obj s)). cbn in IH.
    destruct IH as (-> & -> & -> & -> & -> & -> & -> & -> & -> & ->).
    apply copyTransform_frame.
Qed.

Lemma updatePhysics_ok s w :
  world s = Some w ->
  (isActive (robot s) = true -> is_Some (base (robot s))) ->
  exists s', updatePhysics s = Ok s' /\
    h_bodies (heap (host s')) = worldStep (deltaTime s) w (h_bodies (heap (host s))) /\
    effects (host s') = (effects (host s) ++ [WorldStep (deltaTime s)])%list /\
    world s' = world s /\ objects s' = objects s /\ vectors s' = vectors s /\
    deltaTime s' = deltaTime s /\ simulationTime s' = simulationTime s /\
    isRunning s' = isRunning s /\ config s' = config s.
Proof.
  intros Hw Hb. unfold updatePhysics. rewrite Hw.
  set (s1 := with_heap _ (emit _ s)).
  set (s2 := fold_left _ (objects s1) s1).
  pose proof (copyTransforms_frame (objects s1) s1) as Hc.
  cbv zeta in Hc. fold s2 in Hc.
  destruct Hc as (Hc1 & Hc2 & Hc3 & Hc4 & Hc5 & Hc6 & Hc7 & Hc8 & Hc9 & Hc10).
  destruct (updateRobot_ok s2) as (s3 & E & R1 & R2 & R3 & R4 & R5 & R6 & R7 & R8 & R9 & R10).
  { rewrite Hc8. exact Hb. }
  exists s3. split; [exact E|].
  rewrite R8, R10, R1, R2, R3, R4, R5, R6, R7.
  rewrite Hc9, Hc10, Hc1, Hc2, Hc3, Hc4, Hc5, Hc6, Hc7.
  repeat split.
  exact Hw.
Qed.

(** C9. [step()] does nothing while the simulation runs. While it is
    paused it makes exactly one call [world.step(deltaTime)], which gives
    the bodies their new state, and adds [deltaTime] to [simulationTime]
    (the robot, if active, has its group, as in every reachable state).
    Before the set-up, when there is no world to advance, only
    [simulationTime] changes. *)
Theorem step_only_when_paused (s : Sim) :
  (isRunning s = true -> step s = Ok s) /\
  (isRunning s = false -> world s = None ->
   step s = Ok (set_simulationTime (simulationTime s + deltaTime s)%float s)) /\
  (isRunning s = false ->
   forall w, world s = Some w ->
   (isActive (robot s) = true -> is_Some (base (robot s))) ->
   exists s',
     step s = Ok s' /\
     h_bodies (heap (host s')) = worldStep (deltaTime s) w (h_bodies (heap (host s))) /\
     effects (host s') = (effects (host s) ++ [WorldStep (deltaTime s)])%list /\
     simulationTime s' = (simulationTime s + deltaTime s)%float /\
     deltaTime s' = deltaTime s /\ isRunning s' = false /\
     objects s' = objects s /\ world s' = world s).
Proof.
  unfold step. split; [|split]; intros Hr; rewrite Hr; cbn.
  - reflexivity.
  - intros Hw. unfold updatePhysics. now rewrite Hw.
  - intros w Hw Hb.
    destruct (updatePhysics_ok s w Hw Hb)
      as (s1 & E & B & F & W & O & V & D & T & R & C).
    rewrite E. cbn. eexists. split; [reflexivity|].
    cbn. rewrite B, F, T, D, R, O, W. repeat split. exact Hr.
Qed.

(** *** The dependency check (C6) *)

(** C6. When [THREE] or [CANNON] is missing, [checkDependencies] returns
    false after a console error and an alert; the constructor drops that
    result and goes on: it is [init] applied to the freshly initialised
    fields, so the start-up message is logged after the alert and the set-up
    timer is pending. *)
Theorem constructor_ignores_dependency_check (h : Host) :
  hasTHREE h && hasCANNON h = false ->
  fst (checkDependencies h) = false /\
  (exists m a, effects (snd (checkDependencies h))
               = (effects h ++ [ConsoleError m; Alert a])%list) /\
  constructor h = init (fields0 (snd (checkDependencies h))) /\
  (exists m a, effects (host (constructor h))
               = (effects h ++ [ConsoleError m; Alert a;
                    ConsoleLog "🚀 Inicializando Simulador Industrial 3D..."])%list) /\
  timers (host (constructor h)) = (timers h ++ [TimerInit])%list.
Proof.
  intros H. unfold constructor, checkDependencies.
  destruct h as [hp n doc w ht three cannon eff tm ls lp]. cbn in *.
  destruct three; cbn in *; [destruct cannon; [discriminate|]|]; cbn.
  all: repeat split; try (eexists _, _; reflexivity).
  all: unfold init, showLoadingScreen, getElementById; cbn.
  all: destruct (doc !! "loadingScreen"); cbn.
  all: try (eexists _, _; rewrite <- app_assoc; reflexivity); reflexivity.
Qed.

(** The constructor calls [init] whatever the check says. *)
Lemma constructor_always_init (h : Host) :
  constructor h = init (fields0 (snd (checkDependencies h))).
Proof. unfold constructor. now destruct (checkDependencies h). Qed.

End Properties.
(* ===================================================================== *)
(** ** The reachable states: set-up, spawning, reset, arrows, frames *)
(* ===================================================================== *)

Section Invariant.
Context {P : Platform}.

Lemma grows_refl s : grows s s.
Proof. unfold grows. repeat split; auto. Qed.

Lemma grows_trans s1 s2 s3 : grows s1 s2 -> grows s2 s3 -> grows s1 s3.
Proof.
  unfold grows. intros (A1 & A2 & A3 & A4 & A5 & A6 & A7 & A8 & A9 & A11)
                       (B1 & B2 & B3 & B4 & B5 & B6 & B7 & B8 & B9 & B11).
  repeat split; auto; lia.
Qed.

Lemma keeps_refl s : keeps s s.
Proof. split; [apply grows_refl | reflexivity]. Qed.

Lemma keeps_trans s1 s2 s3 : keeps s1 s2 -> keeps s2 s3 -> keeps s1 s3.
Proof.
  intros [G1 O1] [G2 O2]. split; [eapply grows_trans; eauto | congruence].
Qed.

Lemma quiet_refl s : quiet s s.
Proof. unfold quiet. auto. Qed.

Lemma quiet_trans s1 s2 s3 : quiet s1 s2 -> quiet s2 s3 -> quiet s1 s3.
Proof. unfold quiet. intros (A1 & A2 & A3 & A4) (B1 & B2 & B3 & B4). repeat split; congruence. Qed.

Lemma keeps_after (f : Sim -> Sim) :
  (forall x, keeps x (f x)) -> forall s s1, keeps s s1 -> keeps s (f s1).
Proof. intros H s s1 G. eapply keeps_trans; [exact G | apply H]. Qed.

Lemma keeps_bind s r k :
  keeps s (state_of r) -> (forall s1, keeps s s1 -> keeps s (state_of (k s1))) ->
  keeps s (state_of (r >>= k)).
Proof. destruct r; cbn; auto. Qed.

Lemma keeps_forEach {A} (f : A -> Sim -> res) (l : list A) :
  (forall a s s1, keeps s s1 -> keeps s (state_of (f a s1))) ->
  forall s s1, keeps s s1 -> keeps s (state_of (forEach f l s1)).
Proof.
  intros Hf. induction l as [|a l IH]; intros s s1 K; cbn.
  - exact K.
  - apply keeps_bind; [now apply Hf | intros; now apply IH].
Qed.

Lemma keeps_fold {A} (f : Sim -> A -> Sim) (l : list A) :
  (forall a s s1, keeps s s1 -> keeps s (f s1 a)) ->
  forall s s1, keeps s s1 -> keeps s (fold_left f l s1).
Proof.
  intros Hf. induction l as [|a l IH]; intros s s1 K; cbn.
  - exact K.
  - apply IH. now apply Hf.
Qed.

Lemma grows_ready s s' : grows s s' -> ready s -> ready s'.
Proof.
  unfold grows, ready. intros (A1 & A2 & A3 & A4 & A5 & A6 & A7 & A8 & A9 & A11) R.
  intuition.
Qed.

Lemma keeps_paired s s' : keeps s s' -> paired s -> paired s'.
Proof.
  unfold keeps, grows, paired.
  intros [(A1 & A2 & A3 & A4 & A5 & A6 & A7 & A8 & A9 & A11) A10] [W N].
  rewrite A10. split; [|exact N].
  intros obj Hin. destruct (W obj Hin) as (H1 & H2 & H3 & H4).
  repeat split; auto; lia.
Qed.

Lemma is_Some_insert {A} (m : gmap nat A) (k h : nat) (v : A) :
  is_Some (m !! h) -> is_Some (<[k:=v]> m !! h).
Proof.
  intros H. destruct (decide (k = h)) as [->|Ne].
  - rewrite lookup_insert_eq. eauto.
  - now rewrite lookup_insert_ne.
Qed.

Lemma is_Some_alter {A} (m : gmap nat A) (k h : nat) (f : A -> A) :
  is_Some (m !! h) -> is_Some (alter f k m !! h).
Proof.
  intros [v H]. destruct (decide (k = h)) as [->|Ne].
  - rewrite lookup_alter_eq, H. cbn. eauto.
  - rewrite lookup_alter_ne by exact Ne. eauto.
Qed.

Lemma is_Some_worldStep dt w (m : gmap nat Body) (h : nat) :
  is_Some (m !! h) -> is_Some (worldStep dt w m !! h).
Proof.
  intros H. apply elem_of_dom. rewrite worldStep_dom. now apply elem_of_dom.
Qed.

(** Field updates that keep what the invariant needs. *)
Ltac destruct_sim x :=
  let ho := fresh "ho" in let hp := fresh "hp" in let ro := fresh "ro" in
  destruct x as [? ? ? ? ? ? ? ? ? ? ? ro ? ? ? ? ho];
  destruct ho as [hp ? ? ? ? ? ? ? ? ? ?]; destruct hp; destruct ro.

Ltac keeps_prim :=
  let x := fresh "x" in
  intro x; destruct_sim x;
  unfold keeps, grows, getBody, getMesh, with_element, addListener, setTimeout,
    clearTimer, group_setRotY;
  sim_red;
  repeat split; auto using is_Some_insert, is_Some_alter, is_Some_worldStep.

Ltac keeps_tac :=
  repeat first
    [ assumption
    | apply keeps_refl
    | progress cbv zeta
    | progress cbn [state_of]
    | match goal with
      | |- keeps _ (state_of (_ >>= _)) => apply keeps_bind; [|intros]
      | |- keeps _ (state_of (if ?c then _ else _)) => destruct c
      | |- keeps _ (if ?c then _ else _) => destruct c
      | |- keeps _ (state_of (match ?x with _ => _ end)) => destruct x
      | |- keeps _ (match ?x with _ => _ end) => destruct x
      | |- keeps ?s (?f ?s1) => apply (keeps_after f); [solve [keeps_prim]|]
      end ].

Lemma keeps_updateRobot s s1 : keeps s s1 -> keeps s (state_of (updateRobot s1)).
Proof. intros K. unfold updateRobot. keeps_tac. Qed.


Lemma keeps_sceneAdd c s s1 : keeps s s1 -> keeps s (state_of (sceneAdd c s1)).
Proof. intros K. unfold sceneAdd. keeps_tac. Qed.

Lemma keeps_sceneRemove c s s1 : keeps s s1 -> keeps s (state_of (sceneRemove c s1)).
Proof. intros K. unfold sceneRemove. keeps_tac. Qed.

Lemma keeps_worldAdd h s s1 : keeps s s1 -> keeps s (state_of (worldAdd h s1)).
Proof. intros K. unfold worldAdd. keeps_tac. Qed.

Lemma keeps_worldRemove h s s1 : keeps s s1 -> keeps s (state_of (worldRemove h s1)).
Proof. intros K. unfold worldRemove. keeps_tac. Qed.

Lemma keeps_copyTransform obj s s1 : keeps s s1 -> keeps s (copyTransform obj s1).
Proof. intros K. unfold copyTransform. keeps_tac. Qed.

Lemma keeps_updatePhysics s s1 : keeps s s1 -> keeps s (state_of (updatePhysics s1)).
Proof.
  intros K. unfold updatePhysics. destruct (world s1); [|exact K].
  apply keeps_updateRobot. apply keeps_fold.
  - intros. now apply keeps_copyTransform.
  - unfold emit. keeps_tac.
Qed.

Lemma keeps_needTHREE s s1 : keeps s s1 -> keeps s (state_of (needTHREE s1)).
Proof. intros K. unfold needTHREE. keeps_tac. Qed.

Lemma keeps_needCANNON s s1 : keeps s s1 -> keeps s (state_of (needCANNON s1)).
Proof. intros K. unfold needCANNON. keeps_tac. Qed.

Lemma keeps_pushArrow a ty s s1 : keeps s s1 -> keeps s (state_of (pushArrow a ty s1)).
Proof.
  intros K. unfold pushArrow. apply keeps_bind; [now apply keeps_needTHREE|].
  clear s1 K. intros s1 K. unfold allocArrow, alloc. cbn.
  apply keeps_bind.
  - apply keeps_sceneAdd. keeps_tac.
  - intros. keeps_tac.
Qed.

Lemma keeps_removeVectors s s1 : keeps s s1 -> keeps s (state_of (removeVectors s1)).
Proof.
  intros K. unfold removeVectors. apply keeps_bind.
  - apply keeps_forEach; [|exact K]. intros. now apply keeps_sceneRemove.
  - intros. keeps_tac.
Qed.

Lemma keeps_vectorsFor obj s s1 : keeps s s1 -> keeps s (state_of (vectorsFor obj s1)).
Proof.
  intros K. unfold vectorsFor.
  destruct (getBody _ _); [|exact K].
  destruct (gtb _ _); [|exact K].
  apply keeps_bind.
  - destruct (showVelocityVectors s1); [now apply keeps_pushArrow | exact K].
  - intros s2 K2. destruct (showMomentumVectors s2); [now apply keeps_pushArrow | exact K2].
Qed.

Lemma keeps_updateVectors s s1 : keeps s s1 -> keeps s (state_of (updateVectors s1)).
Proof.
  intros K. unfold updateVectors. apply keeps_bind.
  - now apply keeps_removeVectors.
  - intros s2 K2. apply keeps_forEach; [|exact K2]. intros. now apply keeps_vectorsFor.
Qed.

Lemma keeps_setText id t s s1 : keeps s s1 -> keeps s (setTextIfPresent id t s1).
Proof. intros K. unfold setTextIfPresent. keeps_tac. Qed.

Lemma keeps_updateAnalysisDisplay s s1 : keeps s s1 -> keeps s (updateAnalysisDisplay s1).
Proof.
  intros K. unfold updateAnalysisDisplay. apply keeps_fold; [|exact K].
  intros [id v] s2 s3 K3. now apply keeps_setText.
Qed.

Lemma keeps_updateStatistics s s1 : keeps s s1 -> keeps s (updateStatistics s1).
Proof.
  intros K. unfold updateStatistics. destruct (objects s1); [exact K|].
  destruct (fold_left _ _ _) as [[a b] c]. keeps_tac.
Qed.

Lemma keeps_updateUI s s1 : keeps s s1 -> keeps s (updateUI s1).
Proof.
  intros K. unfold updateUI. cbv zeta.
  apply keeps_updateAnalysisDisplay, keeps_updateStatistics.
  repeat apply keeps_setText. exact K.
Qed.

Lemma keeps_play s s1 : keeps s s1 -> keeps s (play s1).
Proof. intros K. unfold play. keeps_tac. Qed.

Lemma keeps_pause s s1 : keeps s s1 -> keeps s (pause s1).
Proof. intros K. unfold pause. keeps_tac. Qed.

Lemma keeps_resetRobot s s1 : keeps s s1 -> keeps s (resetRobot s1).
Proof. intros K. unfold resetRobot. keeps_tac. Qed.

Lemma keeps_toggleRobot s s1 : keeps s s1 -> keeps s (toggleRobot s1).
Proof. intros K. unfold toggleRobot. keeps_tac. Qed.

Lemma keeps_step s s1 : keeps s s1 -> keeps s (state_of (step s1)).
Proof.
  intros K. unfold step. destruct (isRunning s1); cbn [negb]; [exact K|].
  apply keeps_bind; [now apply keeps_updatePhysics | intros; keeps_tac].
Qed.

Lemma keeps_optimizeLayout rnd s s1 : keeps s s1 -> keeps s (optimizeLayout rnd s1).
Proof.
  intros K. unfold optimizeLayout. cbv zeta. apply keeps_updateAnalysisDisplay. keeps_tac.
Qed.

Lemma keeps_optimizeTrajectory rnd s s1 : keeps s s1 -> keeps s (optimizeTrajectory rnd s1).
Proof.
  intros K. unfold optimizeTrajectory. cbv zeta. apply keeps_updateAnalysisDisplay. keeps_tac.
Qed.

Lemma keeps_togglePanel a b s s1 : keeps s s1 -> keeps s (togglePanel a b s1).
Proof. intros K. unfold togglePanel. keeps_tac. Qed.

Lemma keeps_onWindowResize s s1 : keeps s s1 -> keeps s (state_of (onWindowResize s1)).
Proof. intros K. unfold onWindowResize. keeps_tac. Qed.

Lemma keeps_onCanvasClick x y rnd s s1 :
  keeps s s1 -> keeps s (state_of (onCanvasClick x y rnd s1)).
Proof.
  intros K. unfold onCanvasClick. destruct (isRunning s1); cbn [negb]; [|exact K].
  apply keeps_bind; [now apply keeps_needTHREE|].
  intros s2 K2. cbv zeta. destruct (camera s2); [|exact K2].
  destruct (intersectObjects _ _ _); [exact K2|].
  destruct (find _ _); [|exact K2].
  apply keeps_bind; [now apply keeps_needCANNON|]. intros. keeps_tac.
Qed.

Lemma keeps_onSliderInput o p v s s1 : keeps s s1 -> keeps s (onSliderInput o p v s1).
Proof. intros K. unfold onSliderInput. cbv zeta. destruct p; keeps_tac. Qed.

Lemma keeps_onInput id v s s1 : keeps s s1 -> keeps s (onInput id v s1).
Proof.
  intros K. unfold onInput. destruct (find _ _) as [[[sl va] p]|]; [|exact K].
  now apply keeps_onSliderInput.
Qed.

Lemma keeps_onChange id c s s1 : keeps s s1 -> keeps s (state_of (onChange id c s1)).
Proof.
  intros K. unfold onChange, onShowVelocityVectors, onShowMomentumVectors.
  repeat destruct (String.eqb _ _); try exact K; apply keeps_updateVectors; keeps_tac.
Qed.

Lemma keeps_animate t0 t1 s s1 : keeps s s1 -> keeps s (state_of (animate t0 t1 s1)).
Proof.
  intros K. unfold animate. apply keeps_bind.
  - destruct (isRunning s1); [|exact K].
    apply keeps_bind; [now apply keeps_updatePhysics|].
    intros s2 K2. cbv zeta. destruct (Z.eqb _ _).
    + apply keeps_updateVectors. keeps_tac.
    + keeps_tac.
  - intros s2 K2. destruct (renderer s2); [|exact K2]. cbv zeta. cbn [state_of].
    apply (keeps_after (set_frameCount _)); [keeps_prim|].
    apply keeps_updateUI. keeps_tac.
Qed.


(** *** The set-up *)

Lemma keeps_allocBody b s s1 : keeps s s1 -> keeps s (snd (allocBody b s1)).
Proof. intros K. unfold allocBody, alloc. cbn. keeps_tac. Qed.

Lemma keeps_allocMesh m s s1 : keeps s s1 -> keeps s (snd (allocMesh m s1)).
Proof. intros K. unfold allocMesh, alloc. cbn. keeps_tac. Qed.

Lemma keeps_setupScene s s1 : keeps s s1 -> keeps s (state_of (setupScene s1)).
Proof.
  intros K. unfold setupScene. cbv zeta.
  apply keeps_bind; [apply keeps_needTHREE; keeps_tac | intros; keeps_tac].
Qed.

Lemma keeps_setupPhysics s s1 : keeps s s1 -> keeps s (state_of (setupPhysics s1)).
Proof.
  intros K. unfold setupPhysics. cbv zeta.
  apply keeps_bind; [apply keeps_needCANNON; keeps_tac | intros; keeps_tac].
Qed.

Lemma keeps_setupLighting s s1 : keeps s s1 -> keeps s (state_of (setupLighting s1)).
Proof.
  intros K. unfold setupLighting. cbv zeta.
  apply keeps_bind; [apply keeps_needTHREE; keeps_tac|].
  intros s2 K2. repeat (apply keeps_bind; [|intros]); now apply keeps_sceneAdd.
Qed.

Lemma keeps_setupGround s s1 : keeps s s1 -> keeps s (state_of (setupGround s1)).
Proof.
  intros K. unfold setupGround. cbv zeta.
  apply keeps_bind; [apply keeps_needCANNON; keeps_tac|].
  intros s2 K2.
  pose proof (keeps_allocBody
    (body_setQuaternion (setFromAxisAngle (mkVec3 1 0 0) (- Math_PI / 2)%float)
       (body_addShape ShPlane (newBody 0))) s s2 K2) as Kb.
  destruct (allocBody _ s2) as [hb s3]. cbn [snd] in Kb.
  apply keeps_bind; [now apply keeps_worldAdd|].
  intros s4 K4. apply keeps_bind; [now apply keeps_needTHREE|].
  intros s5 K5.
  pose proof (keeps_allocMesh
    (mesh_setShadow false true
       (mesh_setRotX (- Math_PI / 2)%float (newMesh (GPlane 40 40) 1710618))) s s5 K5) as Km.
  destruct (allocMesh _ s5) as [hm s6]. cbn [snd] in Km.
  apply keeps_bind; [now apply keeps_sceneAdd|].
  intros. now apply keeps_sceneAdd.
Qed.

Lemma keeps_setupRobot s s1 : keeps s s1 -> keeps s (state_of (setupRobot s1)).
Proof.
  intros K. unfold setupRobot. cbv zeta.
  apply keeps_bind; [apply keeps_needTHREE; keeps_tac|].
  intros s2 K2. unfold allocGroup, allocMesh, alloc. cbn [fst snd].
  apply keeps_sceneAdd. keeps_tac.
Qed.

Lemma keeps_listenOn id s s1 : keeps s s1 -> keeps s (state_of (listenOn id s1)).
Proof. intros K. unfold listenOn. keeps_tac. Qed.

Lemma keeps_listenIfPresent id s s1 : keeps s s1 -> keeps s (listenIfPresent id s1).
Proof. intros K. unfold listenIfPresent. keeps_tac. Qed.

Lemma keeps_setupSliders s s1 : keeps s s1 -> keeps s (setupSliders s1).
Proof.
  intros K. unfold setupSliders. apply keeps_fold; [|exact K].
  intros [[sl va] p] s2 s3 K3. keeps_tac.
Qed.

Lemma keeps_setupEventListeners s s1 :
  keeps s s1 -> keeps s (state_of (setupEventListeners s1)).
Proof.
  intros K. unfold setupEventListeners. cbv zeta.
  apply keeps_bind.
  - apply keeps_forEach; [intros; now apply keeps_listenOn|].
    repeat apply keeps_listenIfPresent. keeps_tac.
  - intros s2 K2. apply keeps_bind; [apply keeps_listenOn, keeps_setupSliders, K2|].
    intros s3 K3. apply keeps_bind; [now apply keeps_listenOn|].
    intros s4 K4. destruct (canvas _); [|keeps_tac]. cbn [state_of]. keeps_tac.
Qed.

Lemma keeps_startLoop t0 t1 s s1 : keeps s s1 -> keeps s (state_of (startLoop t0 t1 s1)).
Proof. intros K. unfold startLoop. cbv zeta. apply keeps_animate. keeps_tac. Qed.

Lemma keeps_hideLoadingScreen s s1 : keeps s s1 -> keeps s (hideLoadingScreen s1).
Proof. intros K. unfold hideLoadingScreen. keeps_tac. Qed.


(** The first five steps of the set-up add no listener and no arrow. *)

Lemma quiet_after (f : Sim -> Sim) :
  (forall x, quiet x (f x)) -> forall s s1, quiet s s1 -> quiet s (f s1).
Proof. intros H s s1 G. eapply quiet_trans; [exact G | apply H]. Qed.

Lemma quiet_bind s r k :
  quiet s (state_of r) -> (forall s1, quiet s s1 -> quiet s (state_of (k s1))) ->
  quiet s (state_of (r >>= k)).
Proof. destruct r; cbn; auto. Qed.

Ltac quiet_prim :=
  let x := fresh "x" in
  intro x; destruct_sim x; unfold quiet; sim_red; repeat split; auto.

Ltac quiet_tac :=
  repeat first
    [ assumption
    | apply quiet_refl
    | progress cbv zeta
    | progress cbn [state_of]
    | match goal with
      | |- quiet _ (state_of (_ >>= _)) => apply quiet_bind; [|intros]
      | |- quiet _ (state_of (if ?c then _ else _)) => destruct c
      | |- quiet _ (state_of (match ?x with _ => _ end)) => destruct x
      | |- quiet ?s (?f ?s1) => apply (quiet_after f); [solve [quiet_prim]|]
      end ].

Lemma quiet_sceneAdd c s s1 : quiet s s1 -> quiet s (state_of (sceneAdd c s1)).
Proof. intros K. unfold sceneAdd. quiet_tac. Qed.

Lemma quiet_worldAdd h s s1 : quiet s s1 -> quiet s (state_of (worldAdd h s1)).
Proof. intros K. unfold worldAdd. quiet_tac. Qed.

Lemma quiet_needTHREE s s1 : quiet s s1 -> quiet s (state_of (needTHREE s1)).
Proof. intros K. unfold needTHREE. quiet_tac. Qed.

Lemma quiet_needCANNON s s1 : quiet s s1 -> quiet s (state_of (needCANNON s1)).
Proof. intros K. unfold needCANNON. quiet_tac. Qed.

Lemma quiet_setupScene s s1 : quiet s s1 -> quiet s (state_of (setupScene s1)).
Proof.
  intros K. unfold setupScene. cbv zeta.
  apply quiet_bind; [apply quiet_needTHREE; unfold log, emit; quiet_tac | intros; quiet_tac].
Qed.

Lemma quiet_setupPhysics s s1 : quiet s s1 -> quiet s (state_of (setupPhysics s1)).
Proof.
  intros K. unfold setupPhysics. cbv zeta.
  apply quiet_bind; [apply quiet_needCANNON; unfold log, emit; quiet_tac | intros; quiet_tac].
Qed.

Lemma quiet_setupLighting s s1 : quiet s s1 -> quiet s (state_of (setupLighting s1)).
Proof.
  intros K. unfold setupLighting. cbv zeta.
  apply quiet_bind; [apply quiet_needTHREE; unfold log, emit; quiet_tac|].
  intros s2 K2. repeat (apply quiet_bind; [|intros]); now apply quiet_sceneAdd.
Qed.

Lemma quiet_setupGround s s1 : quiet s s1 -> quiet s (state_of (setupGround s1)).
Proof.
  intros K. unfold setupGround. cbv zeta.
  apply quiet_bind; [apply quiet_needCANNON; unfold log, emit; quiet_tac|].
  intros s2 K2. unfold allocBody, allocMesh, alloc. cbn [fst snd].
  apply quiet_bind; [apply quiet_worldAdd; quiet_tac|].
  intros s4 K4. apply quiet_bind; [now apply quiet_needTHREE|].
  intros s5 K5. cbn [fst snd].
  apply quiet_bind; [apply quiet_sceneAdd; quiet_tac|].
  intros. now apply quiet_sceneAdd.
Qed.

Lemma quiet_setupRobot s s1 : quiet s s1 -> quiet s (state_of (setupRobot s1)).
Proof.
  intros K. unfold setupRobot. cbv zeta.
  apply quiet_bind; [apply quiet_needTHREE; unfold log, emit; quiet_tac|].
  intros s2 K2. unfold allocGroup, allocMesh, alloc. cbn [fst snd].
  apply quiet_sceneAdd. quiet_tac.
Qed.

Lemma setup5_keeps_quiet s : keeps s (state_of (setup5 s)) /\ quiet s (state_of (setup5 s)).
Proof.
  unfold setup5. split.
  - apply keeps_bind; [|intros; now apply keeps_setupRobot].
    apply keeps_bind; [|intros; now apply keeps_setupGround].
    apply keeps_bind; [|intros; now apply keeps_setupLighting].
    apply keeps_bind; [|intros; now apply keeps_setupPhysics].
    apply keeps_setupScene, keeps_refl.
  - apply quiet_bind; [|intros; now apply quiet_setupRobot].
    apply quiet_bind; [|intros; now apply quiet_setupGround].
    apply quiet_bind; [|intros; now apply quiet_setupLighting].
    apply quiet_bind; [|intros; now apply quiet_setupPhysics].
    apply quiet_setupScene, quiet_refl.
Qed.

Lemma bind_Ok r k s' : r >>= k = Ok s' -> exists s1, r = Ok s1 /\ k s1 = Ok s'.
Proof. destruct r; cbn; [eauto | discriminate]. Qed.

Lemma needTHREE_Ok s s' : needTHREE s = Ok s' -> s' = s /\ hasTHREE (host s) = true.
Proof. unfold needTHREE. destruct (hasTHREE (host s)); [intros [= <-]; auto | discriminate]. Qed.

Lemma setupScene_Ok s s' :
  setupScene s = Ok s' ->
  is_Some (scene s') /\ is_Some (camera s') /\ is_Some (renderer s') /\
  hasTHREE (host s') = true.
Proof.
  unfold setupScene. cbv zeta. intros H.
  apply bind_Ok in H. destruct H as (s1 & H1 & H2).
  apply needTHREE_Ok in H1. destruct H1 as [-> Ht].
  injection H2 as <-. sim_red. sim_red_in Ht.
  repeat split; try (eexists; reflexivity). exact Ht.
Qed.

Lemma needCANNON_Ok s s' : needCANNON s = Ok s' -> s' = s /\ hasCANNON (host s) = true.
Proof.
  unfold needCANNON. destruct (hasCANNON (host s)); [intros [= <-]; auto | discriminate].
Qed.

Lemma setupPhysics_Ok s s' :
  setupPhysics s = Ok s' -> is_Some (world s') /\ hasCANNON (host s') = true.
Proof.
  unfold setupPhysics. cbv zeta. intros H.
  apply bind_Ok in H. destruct H as (s1 & H1 & H2).
  apply needCANNON_Ok in H1. destruct H1 as [-> Hc].
  injection H2 as <-. sim_red. sim_red_in Hc. split; [eexists; reflexivity | exact Hc].
Qed.

Lemma sceneAdd_Ok c s s' : sceneAdd c s = Ok s' -> robot s' = robot s.
Proof. unfold sceneAdd. destruct (scene s); [intros [= <-]; reflexivity | discriminate]. Qed.

Lemma setupRobot_Ok s s' : setupRobot s = Ok s' -> is_Some (base (robot s')).
Proof.
  unfold setupRobot. cbv zeta. intros H.
  apply bind_Ok in H. destruct H as (s1 & H1 & H2). cbv beta in H2.
  destruct (allocGroup (mkGroup [] 0) s1) as [g s2].
  set (X := with_robot (set_base (Some g)) s2) in H2.
  match type of H2 with
  | ?r = Ok _ => assert (K : keeps X (state_of r))
  end.
  { unfold allocMesh, alloc. cbn [fst snd]. apply keeps_sceneAdd. keeps_tac. }
  rewrite H2 in K. cbn [state_of] in K.
  destruct K as [(_ & _ & _ & _ & _ & _ & _ & G8 & _) _].
  apply G8. unfold X. destruct s2 as [? ? ? ? ? ? ? ? ? ? ? [] ? ? ? ? ?].
  eexists; reflexivity.
Qed.

Lemma setup5_Ok s s' : setup5 s = Ok s' -> ready s'.
Proof.
  unfold setup5. intros H.
  apply bind_Ok in H. destruct H as (s4 & H4 & H5).
  apply bind_Ok in H4. destruct H4 as (s3 & H3 & H4).
  apply bind_Ok in H3. destruct H3 as (s2 & H2 & H3).
  apply bind_Ok in H2. destruct H2 as (s1 & H1 & H2).
  apply setupScene_Ok in H1. destruct H1 as (A & B & C & D).
  pose proof (keeps_setupPhysics s1 s1 (keeps_refl _)) as K2. rewrite H2 in K2.
  pose proof (keeps_setupLighting s2 s2 (keeps_refl _)) as K3. rewrite H3 in K3.
  pose proof (keeps_setupGround s3 s3 (keeps_refl _)) as K4. rewrite H4 in K4.
  pose proof (keeps_setupRobot s4 s4 (keeps_refl _)) as K5. rewrite H5 in K5.
  cbn [state_of] in K2, K3, K4, K5.
  apply setupPhysics_Ok in H2. destruct H2 as [H2 Hc]. apply setupRobot_Ok in H5.
  assert (K' : keeps s2 s').
  { apply (keeps_trans _ s3); [exact K3|]. apply (keeps_trans _ s4); [exact K4 | exact K5]. }
  assert (K : keeps s1 s') by (apply (keeps_trans _ s2); [exact K2 | exact K']).
  destruct K as [(_ & _ & _ & G4 & G5 & G6 & G7 & G8 & G9 & _) _].
  destruct K' as [(_ & _ & _ & _ & _ & _ & G7' & _ & _ & G10') _].
  unfold ready. repeat split.
  - exact (G4 A).
  - exact (G5 B).
  - exact (G6 C).
  - exact (G7' H2).
  - exact H5.
  - exact (G9 D).
  - exact (G10' Hc).
Qed.

Lemma needTHREE_log m s :
  hasTHREE (host s) = true -> needTHREE (log m s) = Ok (log m s).
Proof. unfold needTHREE, log, emit. destruct_sim s. sim_red. now intros ->. Qed.

Lemma needCANNON_log m s :
  hasCANNON (host s) = true -> needCANNON (log m s) = Ok (log m s).
Proof. unfold needCANNON, log, emit. destruct_sim s. sim_red. now intros ->. Qed.


(** *** Spawning *)

Lemma spawn_ok shape geometry color ty k rnd s w sc :
  world s = Some w -> scene s = Some sc ->
  exists s',
    spawn shape geometry color ty k rnd s = Ok s' /\
    objects s' = (objects s ++
                  [mkObj (nextId (host s)) (S (nextId (host s))) ty (mass (config s))])%list /\
    nextId (host s') = S (S (nextId (host s))) /\
    (exists b, h_bodies (heap (host s'))
               = alter (fun b => applyImpulse
                                   (mkVec3 ((rnd (k + 3)%nat - 0.5) * 5) 2
                                           ((rnd (k + 4)%nat - 0.5) * 5))%float
                                   (b_position b) b)
                   (nextId (host s)) (<[nextId (host s) := b]> (h_bodies (heap (host s))))) /\
    h_meshes (heap (host s'))
    = <[S (nextId (host s)) := mesh_setShadow true true (newMesh geometry color)]>
        (h_meshes (heap (host s))) /\
    world s' = Some (world_add (nextId (host s)) w) /\
    scene s' = Some (scene_add (ChMesh (S (nextId (host s)))) sc) /\
    stats s' = set_activeObjects (activeObjects (stats s) + 1)%float (stats s) /\
    config s' = config s /\ vectors s' = vectors s /\ robot s' = robot s /\
    camera s' = camera s /\ renderer s' = renderer s /\
    hasTHREE (host s') = hasTHREE (host s) /\ hasCANNON (host s') = hasCANNON (host s) /\
    effects (host s') = effects (host s) /\
    isRunning s' = isRunning s /\ deltaTime s' = deltaTime s.
Proof.
  intros Hw Hs. unfold spawn, allocBody, allocMesh, alloc, worldAdd, sceneAdd.
  destruct_sim s. cbn in Hw, Hs. subst.
  eexists. split; [reflexivity|]. cbn.
  repeat split. eexists. reflexivity.
Qed.

Lemma spawnOp_ok op rnd s w sc :
  world s = Some w -> scene s = Some sc ->
  hasTHREE (host s) = true -> hasCANNON (host s) = true ->
  exists s',
    spawnOp op rnd s = Ok s' /\
    objects s' = (objects s ++
                  [mkObj (nextId (host s)) (S (nextId (host s))) (typeOf op)
                         (mass (config s))])%list /\
    nextId (host s') = S (S (nextId (host s))) /\
    is_Some (getBody (nextId (host s)) s') /\ is_Some (getMesh (S (nextId (host s))) s') /\
    (forall h, is_Some (getBody h s) -> is_Some (getBody h s')) /\
    (forall h, is_Some (getMesh h s) -> is_Some (getMesh h s')) /\
    world s' = Some (world_add (nextId (host s)) w) /\
    scene s' = Some (scene_add (ChMesh (S (nextId (host s)))) sc) /\
    stats s' = set_activeObjects (activeObjects (stats s) + 1)%float (stats s) /\
    config s' = config s /\ vectors s' = vectors s /\ robot s' = robot s /\
    camera s' = camera s /\ renderer s' = renderer s /\
    hasTHREE (host s') = hasTHREE (host s) /\ hasCANNON (host s') = hasCANNON (host s) /\
    isRunning s' = isRunning s /\ deltaTime s' = deltaTime s.
Proof.
  intros Hw Hs Ht Hc.
  assert (E : forall m shape geometry color k,
             exists s',
               spawn shape geometry color (typeOf op) k rnd (log m s) = Ok s' /\
               objects s' = (objects s ++
                  [mkObj (nextId (host s)) (S (nextId (host s))) (typeOf op)
                         (mass (config s))])%list /\
               nextId (host s') = S (S (nextId (host s))) /\
               is_Some (getBody (nextId (host s)) s') /\
               is_Some (getMesh (S (nextId (host s))) s') /\
               (forall h, is_Some (getBody h s) -> is_Some (getBody h s')) /\
               (forall h, is_Some (getMesh h s) -> is_Some (getMesh h s')) /\
               world s' = Some (world_add (nextId (host s)) w) /\
               scene s' = Some (scene_add (ChMesh (S (nextId (host s)))) sc) /\
               stats s' = set_activeObjects (activeObjects (stats s) + 1)%float (stats s) /\
               config s' = config s /\ vectors s' = vectors s /\ robot s' = robot s /\
               camera s' = camera s /\ renderer s' = renderer s /\
               hasTHREE (host s') = hasTHREE (host s) /\
               hasCANNON (host s') = hasCANNON (host s) /\
               isRunning s' = isRunning s /\ deltaTime s' = deltaTime s).
  { intros m shape geometry color k.
    destruct (spawn_ok shape geometry color (typeOf op) k rnd (log m s) w sc)
      as (s' & E & O & N & (b & Bd) & Ms & W & Sc & St & C & V & R & Ca & Re & T & Cn & _ & Ru & Dt).
    { exact Hw. } { exact Hs. }
    exists s'. split; [exact E|].
    unfold getBody, getMesh. rewrite Bd, Ms.
    repeat split; try assumption.
    - rewrite lookup_alter_eq, lookup_insert_eq. cbn. eauto.
    - apply lookup_insert_is_Some. now left.
    - intros h Hh. apply is_Some_alter, is_Some_insert. exact Hh.
    - intros h Hh. apply is_Some_insert. exact Hh. }
  destruct op; cbn [spawnOp typeOf] in *; unfold addBox, addSphere, addCylinder; cbv zeta;
    rewrite (needTHREE_log _ s Ht); cbn [bind];
    rewrite (needCANNON_log _ s Hc); cbn [bind]; apply E.
Qed.

Lemma not_nil_app {A} (l : list A) (x : A) : (l ++ [x])%list <> [].
Proof. destruct l; discriminate. Qed.

(** The state the methods work on after the set-up. *)
Lemma spawnOp_good op rnd s :
  ready s -> paired s ->
  ready (state_of (spawnOp op rnd s)) /\ paired (state_of (spawnOp op rnd s)).
Proof.
  intros R [W N].
  destruct R as ([sc Hs] & Ca & Re & [w Hw] & Ba & Th & Cn).
  destruct (spawnOp_ok op rnd s w sc Hw Hs Th Cn)
    as (s' & E & O & Nx & Lb & Lm & Pb & Pm & W' & Sc' & St & C & V & Ro & Ca' & Re' & T
        & Cn' & _).
  rewrite E. cbn [state_of]. split.
  - unfold ready. rewrite W', Sc', Ca', Re', Ro, T, Cn'. repeat split; eauto.
  - unfold paired. rewrite O, Nx. split.
    + intros obj Hin. apply in_app_or in Hin. destruct Hin as [Hin|[<-|[]]].
      * destruct (W obj Hin) as (A1 & A2 & A3 & A4). repeat split; auto; lia.
      * cbn [o_body o_mesh]. repeat split; auto; lia.
    + rewrite List.map_app. cbn [map o_mesh].
      apply NoDup_app. split; [exact N|]. split.
      * intros x Hx Hx'. apply list_elem_of_singleton in Hx'. subst x.
        apply list_elem_of_In, in_map_iff in Hx. destruct Hx as (obj & Eq & Hin).
        destruct (W obj Hin) as (_ & A2 & _). lia.
      * apply NoDup_singleton.
Qed.

(** *** Reset *)

Lemma forEach_removeObject objs s sc w :
  scene s = Some sc -> world s = Some w ->
  forEach removeObject objs s
  = Ok (set_world (Some (removeBodies objs w)) (set_scene (Some (removeMeshes objs sc)) s)).
Proof.
  revert s sc w. induction objs as [|o objs IH]; intros s sc w Hs Hw.
  - destruct s. cbn in *. subst. reflexivity.
  - cbn [forEach]. unfold removeObject at 1, sceneRemove, worldRemove.
    destruct s. cbn in Hs, Hw. subst. cbn.
    erewrite IH by reflexivity. reflexivity.
Qed.

Lemma forEach_removeArrow vs s sc :
  scene s = Some sc ->
  forEach (fun v s => sceneRemove (ChArrow (v_arrow v)) s) vs s
  = Ok (set_scene (Some (removeArrows vs sc)) s).
Proof.
  revert s sc. induction vs as [|v vs IH]; intros s sc Hs.
  - destruct s. cbn in *. subst. reflexivity.
  - cbn [forEach]. unfold sceneRemove at 1.
    destruct s. cbn in Hs. subst. cbn.
    erewrite IH by reflexivity. reflexivity.
Qed.

Lemma resetRobot_fields s :
  let s' := resetRobot s in
  currentAngle (robot s') = 0%float /\ targetAngle (robot s') = 0%float /\
  isActive (robot s') = false /\ base (robot s') = base (robot s) /\
  segments (robot s') = segments (robot s) /\
  objects s' = objects s /\ vectors s' = vectors s /\ stats s' = stats s /\
  simulationTime s' = simulationTime s /\ isRunning s' = isRunning s /\
  config s' = config s /\ heap (host s') = heap (host s) /\
  nextId (host s') = nextId (host s) /\ camera s' = camera s /\
  renderer s' = renderer s /\ scene s' = scene s /\ world s' = world s /\
  hasTHREE (host s') = hasTHREE (host s) /\ hasCANNON (host s') = hasCANNON (host s) /\
  listeners (host s') = listeners (host s) /\ looping (host s') = looping (host s).
Proof.
  unfold resetRobot. cbv zeta.
  destruct (getElementById _ _); destruct_sim s; cbn; repeat split.
Qed.

Lemma reset_ok (s : Sim) :
  (objects s <> [] -> is_Some (scene s) /\ is_Some (world s)) ->
  (vectors s <> [] -> is_Some (scene s)) ->
  exists s', reset s = Ok s' /\ reset_post s s'.
Proof.
  intros Ho Hv. unfold reset. cbv zeta.
  set (s2 := set_simulationTime 0 (pause s)).
  assert (E2 : objects s2 = objects s /\ vectors s2 = vectors s /\ scene s2 = scene s /\
               world s2 = world s) by (destruct_sim s; repeat split).
  destruct E2 as (O2 & V2 & S2 & W2).
  (* the state after the objects are removed *)
  assert (H3 : exists s3,
             forEach removeObject (objects s2) s2 = Ok s3 /\
             scene s3 = removeMeshes (objects s) <$> scene s /\
             world s3 = removeBodies (objects s) <$> world s /\
             s3 = set_world (world s3) (set_scene (scene s3) s2)).
  { rewrite O2. destruct (objects s) as [|o objs] eqn:Eo.
    - exists s2. split; [reflexivity|]. split; [|split].
      + rewrite S2. now destruct (scene s).
      + rewrite W2. now destruct (world s).
      + clearbody s2. now destruct s2.
    - destruct Ho as [[sc Hs] [w Hw]]; [discriminate|].
      rewrite (forEach_removeObject _ s2 sc w) by congruence.
      eexists. split; [reflexivity|]. rewrite Hs, Hw. cbn. repeat split. }
  destruct H3 as (s3 & E3 & S3 & W3 & Eq3). rewrite E3. cbn [bind].
  set (s4 := set_objects [] s3).
  assert (H5 : exists s5,
             removeVectors s4 = Ok s5 /\
             scene s5 = removeArrows (vectors s) <$> scene s3 /\
             s5 = set_vectors [] (set_scene (scene s5) s4)).
  { unfold removeVectors.
    assert (V4 : vectors s4 = vectors s).
    { unfold s4. rewrite Eq3. destruct_sim s. reflexivity. }
    rewrite V4. destruct (vectors s) as [|v vs] eqn:Ev.
    - exists (set_vectors [] s4). split; [reflexivity|]. split.
      + clear. unfold s4. destruct s3 as [sc3 ? ? ? ? ? ? ? ? ? ? ? ? ? ? ? ?]. cbn.
        now destruct sc3.
      + clearbody s4. now destruct s4.
    - destruct Hv as [sc Hs]; [discriminate|].
      assert (Hs4 : scene s4 = Some (removeMeshes (objects s) sc)).
      { unfold s4. destruct s3. cbn in *. rewrite S3, Hs. reflexivity. }
      rewrite (forEach_removeArrow _ s4 _ Hs4). cbn [bind].
      eexists. split; [reflexivity|].
      assert (Hs3 : scene s3 = Some (removeMeshes (objects s) sc)) by (now rewrite S3, Hs).
      rewrite Hs3. clearbody s4. split; now destruct s4. }
  destruct H5 as (s5 & E5 & S5 & Eq5). rewrite E5. cbn [bind].
  eexists. split; [reflexivity|].
  pose proof (resetRobot_fields (set_stats stats0 s5)) as R. cbv zeta in R.
  destruct R as (R1 & R2 & R3 & R4 & R5 & R6 & R7 & R8 & R9 & R10 & R11 & R12 & R13 & R14
                 & R15 & R16 & R17 & R18 & R19 & R20 & R21).
  unfold reset_post, log, emit.
  assert (F : forall x, robot (with_host (fun h => set_effects (effects h ++ [ConsoleLog "🔄 Simulación reiniciada"]) h) x) = robot x /\
                        objects (with_host (fun h => set_effects (effects h ++ [ConsoleLog "🔄 Simulación reiniciada"]) h) x) = objects x).
  { intros x. destruct_sim x. split; reflexivity. }
  set (L := with_host _) in *.
  assert (FL : forall x,
             robot (L x) = robot x /\ objects (L x) = objects x /\ vectors (L x) = vectors x /\
             stats (L x) = stats x /\ simulationTime (L x) = simulationTime x /\
             isRunning (L x) = isRunning x /\ config (L x) = config x /\
             heap (host (L x)) = heap (host x) /\ nextId (host (L x)) = nextId (host x) /\
             camera (L x) = camera x /\ renderer (L x) = renderer x /\
             scene (L x) = scene x /\ world (L x) = world x /\
             hasTHREE (host (L x)) = hasTHREE (host x) /\
             hasCANNON (host (L x)) = hasCANNON (host x) /\
             listeners (host (L x)) = listeners (host x) /\
             looping (host (L x)) = looping (host x)).
  { intros x. destruct_sim x. repeat split. }
  destruct (FL (resetRobot (set_stats stats0 s5)))
    as (L1 & L2 & L3 & L4 & L5 & L6 & L7 & L8 & L9 & L10 & L11 & L12 & L13 & L14 & L15 & L16
        & L17).
  rewrite L1, L2, L3, L4, L5, L6, L7, L8, L9, L10, L11, L12, L13, L14, L15, L16, L17.
  rewrite R1, R2, R3, R4, R5, R6, R7, R8, R9, R10, R11, R12, R13, R14, R15, R16, R17, R18,
    R19, R20, R21.
  clear FL F L1 L2 L3 L4 L5 L6 L7 L8 L9 L10 L11 L12 L13 L14 L15 L16 L17
    R1 R2 R3 R4 R5 R6 R7 R8 R9 R10 R11 R12 R13 R14 R15 R16 R17 R18 R19 R20 R21.
  assert (S5' : scene s5
                = (fun sc => removeArrows (vectors s) (removeMeshes (objects s) sc)) <$> scene s).
  { rewrite S5, S3. now destruct (scene s). }
  rewrite Eq5. unfold s4. rewrite Eq3. unfold s2, pause, log, emit.
  rewrite <- S5', <- W3.
  destruct_sim s. cbn. repeat split.
Qed.

Lemma Child_eqb_refl c :
  match c with ChMesh _ | ChArrow _ | ChGroup _ => Child_eqb c c = true | _ => True end.
Proof. destruct c; cbn; auto using Nat.eqb_refl. Qed.

Lemma in_scene_remove c d sc :
  In c (sc_children (scene_remove d sc)) ->
  In c (sc_children sc) /\ Child_eqb d c = false.
Proof.
  unfold scene_remove. cbn. intros H. apply filter_In in H.
  destruct H as [H1 H2]. split; [exact H1|]. now apply negb_true_iff.
Qed.

Lemma in_removeMeshes c objs sc :
  In c (sc_children (removeMeshes objs sc)) ->
  In c (sc_children sc) /\ forall o, In o objs -> c <> ChMesh (o_mesh o).
Proof.
  unfold removeMeshes. revert sc. induction objs as [|o objs IH]; intros sc H; cbn in H.
  - split; [exact H | intros ? []].
  - apply IH in H. destruct H as [H1 H2].
    apply in_scene_remove in H1. destruct H1 as [H1 H3].
    split; [exact H1|]. intros o' [<-|Hin]; [|now apply H2].
    intros ->. cbn in H3. now rewrite Nat.eqb_refl in H3.
Qed.

Lemma in_removeArrows c vs sc :
  In c (sc_children (removeArrows vs sc)) ->
  In c (sc_children sc) /\ forall v, In v vs -> c <> ChArrow (v_arrow v).
Proof.
  unfold removeArrows. revert sc. induction vs as [|v vs IH]; intros sc H; cbn in H.
  - split; [exact H | intros ? []].
  - apply IH in H. destruct H as [H1 H2].
    apply in_scene_remove in H1. destruct H1 as [H1 H3].
    split; [exact H1|]. intros v' [<-|Hin]; [|now apply H2].
    intros ->. cbn in H3. now rewrite Nat.eqb_refl in H3.
Qed.

Lemma in_removeBodies h objs w :
  In h (w_bodies (removeBodies objs w)) ->
  In h (w_bodies w) /\ forall o, In o objs -> h <> o_body o.
Proof.
  unfold removeBodies. revert w. induction objs as [|o objs IH]; intros w H; cbn in H.
  - split; [exact H | intros ? []].
  - apply IH in H. destruct H as [H1 H2].
    unfold world_remove in H1. cbn in H1. apply filter_In in H1. destruct H1 as [H1 H3].
    split; [exact H1|]. intros o' [<-|Hin]; [|now apply H2].
    intros ->. now rewrite Nat.eqb_refl in H3.
Qed.

(** *** The invariant *)

Lemma has_listener_active id s : has_listener id s = true -> active s.
Proof.
  unfold has_listener, active. intros H. left. intros E. rewrite E in H. discriminate.
Qed.

Lemma Inv_keeps_quiet s s' : Inv s -> keeps s s' -> quiet s s' -> Inv s'.
Proof.
  intros [A W] K Q. split.
  - intros Ac. apply (grows_ready s s'); [apply K|]. apply A.
    destruct K as [_ Ko]. destruct Q as (Q1 & Q2 & Q3 & Q4).
    unfold active in *. now rewrite Ko, Q1, Q2, Q3, Q4 in Ac.
  - now apply (keeps_paired s s').
Qed.

Lemma Inv_ready_keeps s s' : ready s -> paired s -> keeps s s' -> Inv s'.
Proof.
  intros R W K. split.
  - intros _. apply (grows_ready s s'); [apply K | exact R].
  - now apply (keeps_paired s s').
Qed.

Lemma Inv_reset s : Inv s -> Inv (state_of (reset s)).
Proof.
  intros [A W].
  destruct (reset_ok s) as (s' & E & Post).
  - intros Ho. assert (R : ready s) by (apply A; right; right; now left).
    destruct R as (? & _ & _ & ? & _). auto.
  - intros Hv. assert (R : ready s) by (apply A; right; right; right; now left).
    now destruct R.
  - rewrite E. cbn [state_of].
    destruct Post as (P1 & P2 & P3 & P4 & P5 & P6 & P7 & P8 & P9 & P10 & P11 & P12 & P13
                   & P14 & P15 & P16 & P17 & P18 & P18' & P19 & P20).
    split.
    + intros Ac. assert (R : ready s).
      { apply A. unfold active in *. rewrite P1, P2, P8, P19, P20 in Ac.
        destruct Ac as [?|[?|[?|[?|?]]]]; try congruence; auto. }
      unfold ready in *. rewrite P9, P14, P15, P16, P17, P18, P18'.
      destruct R as ([sc ->] & ? & ? & [w ->] & ? & ? & ?). cbn. repeat split; eauto.
    + unfold paired. rewrite P1. split; [intros ? []|]. cbn. apply NoDup_nil_2.
Qed.

Lemma Inv_spawn op rnd s : ready s -> paired s -> Inv (state_of (spawnOp op rnd s)).
Proof.
  intros R W. destruct (spawnOp_good op rnd s R W) as [R' W']. split; auto.
Qed.

Lemma Inv_onClick id rnd s : ready s -> paired s -> Inv (state_of (onClick id rnd s)).
Proof.
  intros R W. unfold onClick.
  repeat match goal with
         | |- context [if String.eqb ?a ?b then _ else _] => destruct (String.eqb a b)
         end.
  all: match goal with
       | |- Inv (state_of (addBox _ _)) => apply (Inv_spawn SpawnBox); assumption
       | |- Inv (state_of (addSphere _ _)) => apply (Inv_spawn SpawnSphere); assumption
       | |- Inv (state_of (addCylinder _ _)) => apply (Inv_spawn SpawnCylinder); assumption
       | |- Inv (state_of (reset _)) => apply Inv_reset; split; auto
       | _ =>
           apply (Inv_ready_keeps s); [exact R | exact W |]; cbn [state_of];
           auto using keeps_refl, keeps_togglePanel, keeps_play, keeps_pause, keeps_step,
             keeps_toggleRobot, keeps_resetRobot, keeps_optimizeLayout,
             keeps_optimizeTrajectory
       end.
Qed.

Lemma Inv_onKeyPress code ctrl rnd s :
  ready s -> paired s -> Inv (state_of (onKeyPress code ctrl rnd s)).
Proof.
  intros R W. unfold onKeyPress.
  assert (Ke : keeps s (emit PreventDefault s)) by (unfold emit; keeps_tac).
  repeat match goal with
         | |- context [if String.eqb ?a ?b then _ else _] => destruct (String.eqb a b)
         end; cbv zeta; try destruct ctrl.
  all: match goal with
       | |- Inv (state_of (reset _)) =>
           apply Inv_reset, (Inv_ready_keeps s); assumption
       | _ =>
           apply (Inv_ready_keeps s); [exact R | exact W |]; cbn [state_of];
           try destruct (isRunning _);
           auto using keeps_refl, keeps_play, keeps_pause, keeps_optimizeLayout,
             keeps_optimizeTrajectory
       end.
Qed.

Lemma Inv_setup t0 t1 s : Inv s -> Inv (state_of (setup t0 t1 s)).
Proof.
  intros I. pose proof I as [A W].
  change (setup t0 t1 s)
    with (setup5 s >>= setupEventListeners >>= startLoop t0 t1
          >>= fun s => Ok (log "✅ Simulador inicializado correctamente" (hideLoadingScreen s))).
  destruct (setup5_keeps_quiet s) as [K Q].
  destruct (setup5 s) as [s5|e s5] eqn:E5; cbn [state_of bind] in *.
  - apply setup5_Ok in E5.
    apply (Inv_ready_keeps s5); [exact E5 | now apply (keeps_paired s s5) |].
    apply keeps_bind; [|intros; cbn [state_of]; apply keeps_after;
                        [keeps_prim | now apply keeps_hideLoadingScreen]].
    apply keeps_bind; [|intros; now apply keeps_startLoop].
    apply keeps_setupEventListeners, keeps_refl.
  - now apply (Inv_keeps_quiet s).
Qed.

Lemma listener_ready id s : Inv s -> has_listener id s = true -> ready s.
Proof. intros [A _] L. apply A. now apply (has_listener_active id). Qed.

Lemma Inv_dispatch ev s : Inv s -> Inv (state_of (dispatch ev s)).
Proof.
  intros I. pose proof I as [A W].
  destruct ev as [id rnd|id value|id checked|w h|x y rnd|code ctrl rnd|t0 t1|t0 t1|];
    cbn [dispatch]; cbv zeta.
  - destruct (has_listener id s) eqn:L; [|exact I].
    apply Inv_onClick; eauto using listener_ready.
  - assert (K0 : keeps s (with_element id (el_setValue (Lit value)) s)) by keeps_tac.
    assert (Q0 : quiet s (with_element id (el_setValue (Lit value)) s)).
    { unfold with_element. quiet_tac. }
    destruct (has_listener id s) eqn:L; cbn [state_of].
    + apply (Inv_ready_keeps s); eauto using listener_ready.
      now apply keeps_onInput.
    + now apply (Inv_keeps_quiet s).
  - destruct (has_listener id s) eqn:L; [|exact I].
    apply (Inv_ready_keeps s); eauto using listener_ready.
    apply keeps_onChange, keeps_refl.
  - set (s1 := with_host _ s).
    assert (K0 : keeps s s1) by (unfold s1; keeps_tac).
    assert (Q0 : quiet s s1) by (unfold s1; quiet_tac).
    destruct (has_listener "window" s) eqn:L; cbn [state_of].
    + apply (Inv_ready_keeps s); eauto using listener_ready.
      now apply keeps_onWindowResize.
    + now apply (Inv_keeps_quiet s).
  - destruct (canvas s) as [c|]; [|exact I].
    destruct (has_listener c s) eqn:L; [|exact I].
    apply (Inv_ready_keeps s); eauto using listener_ready.
    apply keeps_onCanvasClick, keeps_refl.
  - destruct (has_listener "document" s) eqn:L; [|exact I].
    apply Inv_onKeyPress; eauto using listener_ready.
  - destruct (looping (host s)) eqn:L; [|exact I].
    apply (Inv_ready_keeps s); auto.
    + apply A. right. now left.
    + apply keeps_animate, keeps_refl.
  - destruct (pending TimerInit s); [|exact I].
    apply Inv_setup. apply (Inv_keeps_quiet s); [exact I| |].
    + unfold clearTimer. keeps_tac.
    + unfold clearTimer. quiet_tac.
  - destruct (pending TimerHideLoading s); [|exact I]. cbn [state_of].
    apply (Inv_keeps_quiet s); [exact I| |].
    + unfold clearTimer. keeps_tac.
    + unfold clearTimer, with_element. quiet_tac.
Qed.

Lemma Inv_run evs s : Inv s -> Inv (run evs s).
Proof.
  revert s. induction evs as [|ev evs IH]; intros s I; cbn.
  - exact I.
  - apply IH. now apply Inv_dispatch.
Qed.

Lemma Inv_fields0 h : listeners h = [] -> looping h = false -> Inv (fields0 h).
Proof.
  intros L Lo. split.
  - intros [H|[H|[H|[H|H]]]]; cbn in H; congruence.
  - split; [intros ? []|]. cbn. apply NoDup_nil_2.
Qed.

Lemma Inv_constructor page w h three cannon :
  Inv (constructor (host0 page w h three cannon)).
Proof.
  unfold constructor.
  assert (E : listeners (snd (checkDependencies (host0 page w h three cannon))) = [] /\
              looping (snd (checkDependencies (host0 page w h three cannon))) = false).
  { unfold checkDependencies. destruct three, cannon; cbn; auto. }
  destruct (checkDependencies _) as [b h1]. cbn [snd] in E. destruct E as [E1 E2].
  unfold init. cbv zeta.
  apply (Inv_keeps_quiet (fields0 h1)); [now apply Inv_fields0| |].
  - unfold showLoadingScreen, log, emit. keeps_tac.
  - unfold setTimeout, showLoadingScreen, log, emit.
    destruct (getElementById _ _); unfold with_element; quiet_tac.
Qed.

Lemma reachable_Inv s : reachable s -> Inv s.
Proof.
  intros (page & w & h & three & cannon & evs & ->).
  apply Inv_run, Inv_constructor.
Qed.

(** *** The arrows *)

Lemma only_arrows_refl s : only_arrows s s.
Proof.
  exists (vectors s), (scene s), (nextId (host s)), (h_arrows (heap (host s))).
  split; [reflexivity|]. destruct_sim s. reflexivity.
Qed.

Lemma only_arrows_trans s1 s2 s3 :
  only_arrows s1 s2 -> only_arrows s2 s3 -> only_arrows s1 s3.
Proof.
  intros (v1 & c1 & n1 & a1 & E1 & ->) (v2 & c2 & n2 & a2 & E2 & ->).
  exists v2, c2, n2, a2. split.
  - rewrite E2. destruct_sim s1. exact E1.
  - destruct_sim s1. reflexivity.
Qed.

Lemma only_arrows_fields s s' :
  only_arrows s s' ->
  objects s' = objects s /\ h_bodies (heap (host s')) = h_bodies (heap (host s)) /\
  h_meshes (heap (host s')) = h_meshes (heap (host s)) /\
  showVelocityVectors s' = showVelocityVectors s /\
  showMomentumVectors s' = showMomentumVectors s /\
  hasTHREE (host s') = hasTHREE (host s) /\ world s' = world s /\
  renderer s' = renderer s /\ effects (host s') = effects (host s) /\
  deltaTime s' = deltaTime s /\ simulationTime s' = simulationTime s /\
  isRunning s' = isRunning s /\ frameCount s' = frameCount s /\
  config s' = config s /\ stats s' = stats s /\ robot s' = robot s.
Proof. intros (v & c & n & a & E & ->). destruct_sim s. repeat split. Qed.

Lemma nonArrows_scene_remove h sc :
  nonArrows (scene_remove (ChArrow h) sc) = nonArrows sc.
Proof.
  unfold nonArrows, scene_remove. cbn. f_equal.
  induction (sc_children sc) as [|d l IH]; [reflexivity|].
  destruct d; cbn; try (f_equal; exact IH).
  destruct (Nat.eqb h h0); cbn; exact IH.
Qed.

Lemma nonArrows_removeArrows vs sc : nonArrows (removeArrows vs sc) = nonArrows sc.
Proof.
  unfold removeArrows. revert sc. induction vs as [|v vs IH]; intros sc; cbn.
  - reflexivity.
  - rewrite IH. apply nonArrows_scene_remove.
Qed.

Lemma nonArrows_scene_add h sc : nonArrows (scene_add (ChArrow h) sc) = nonArrows sc.
Proof.
  unfold nonArrows, scene_add. cbn. f_equal.
  rewrite List.filter_app. cbn. apply app_nil_r.
Qed.

Lemma removeVectors_ok s :
  is_Some (scene s) ->
  exists s', removeVectors s = Ok s' /\ only_arrows s s' /\ vectors s' = [] /\
             is_Some (scene s').
Proof.
  intros [sc Hs]. unfold removeVectors.
  rewrite (forEach_removeArrow _ s sc Hs). cbn [bind].
  eexists. split; [reflexivity|]. split; [|split].
  - exists [], (Some (removeArrows (vectors s) sc)), (nextId (host s)),
      (h_arrows (heap (host s))).
    split.
    + rewrite Hs. cbn. f_equal. apply nonArrows_removeArrows.
    + destruct_sim s. reflexivity.
  - destruct_sim s. reflexivity.
  - destruct_sim s. cbn. eauto.
Qed.

Lemma omap_agree {A B} (f g : A -> option B) l :
  (forall x, In x l -> f x = g x) -> omap f l = omap g l.
Proof.
  induction l as [|x l IH]; intros H; cbn; [reflexivity|].
  rewrite (H x) by now left. rewrite IH; [reflexivity|].
  intros y Hy. apply H. now right.
Qed.

Lemma pushArrow_ok a ty s :
  is_Some (scene s) -> hasTHREE (host s) = true -> allocated s ->
  exists s',
    pushArrow a ty s = Ok s' /\ only_arrows s s' /\ allocated s' /\
    is_Some (scene s') /\
    forall ty', arrowsOf ty' s'
                = (arrowsOf ty' s ++
                   match ty', ty with
                   | TVelocity, TVelocity | TMomentum, TMomentum => [a]
                   | _, _ => []
                   end)%list.
Proof.
  intros [sc Hs] Ht Al. unfold pushArrow, needTHREE. rewrite Ht. cbn [bind].
  unfold allocArrow, alloc, sceneAdd, allocated, arrowsOf, getArrow in *.
  destruct_sim s. cbn in Hs, Ht, Al |- *. subst.
  eexists. split; [reflexivity|]. cbn. split; [|split; [|split]].
  - eexists _, _, _, _. split; [|reflexivity]. cbn. f_equal. apply nonArrows_scene_add.
  - intros v Hv. apply in_app_or in Hv. destruct Hv as [Hv|[<-|[]]].
    + specialize (Al v Hv). lia.
    + cbn. lia.
  - eauto.
  - intros ty'. rewrite omap_app. f_equal.
    + apply omap_agree. intros v Hv. specialize (Al v Hv).
      destruct ty', (v_type v); try reflexivity; apply lookup_insert_ne; lia.
    + cbn. destruct ty', ty; try reflexivity; now rewrite lookup_insert_eq.
Qed.

Lemma arrowFor_only_arrows ty s s' obj :
  only_arrows s s' -> arrowFor ty s' obj = arrowFor ty s obj.
Proof.
  intros (v & c & n & a & E & ->). unfold arrowFor, getBody. destruct_sim s. reflexivity.
Qed.

Lemma only_arrows_scene s s' :
  only_arrows s s' -> hasTHREE (host s') = hasTHREE (host s).
Proof. intros H. apply only_arrows_fields in H. tauto. Qed.

Lemma vectorsFor_ok obj s :
  is_Some (scene s) -> hasTHREE (host s) = true -> allocated s ->
  exists s',
    vectorsFor obj s = Ok s' /\ only_arrows s s' /\ allocated s' /\ is_Some (scene s') /\
    forall ty, arrowsOf ty s' = (arrowsOf ty s ++ arrowFor ty s obj)%list.
Proof.
  intros Hs Ht Al.
  assert (Nop : exists s', Ok s = Ok s' /\ only_arrows s s' /\ allocated s' /\
                           is_Some (scene s') /\
                           forall ty, arrowsOf ty s' = (arrowsOf ty s ++ [])%list).
  { exists s. repeat split; auto using only_arrows_refl. intros. now rewrite app_nil_r. }
  unfold vectorsFor, arrowFor.
  destruct (getBody (o_body obj) s) as [b|];
    [|destruct Nop as (s' & ? & ? & ? & ? & H); exists s'; repeat split; auto;
      try (intros []; apply H)].
  destruct (gtb (speedOf (b_velocity b)) 0.1);
    [|destruct Nop as (s' & ? & ? & ? & ? & H); exists s'; repeat split; auto;
      try (intros []; apply H)].
  (* the velocity arrow *)
  assert (V : exists s1,
             (if showVelocityVectors s then pushArrow (velocityArrow b) TVelocity s else Ok s)
             = Ok s1 /\ only_arrows s s1 /\ allocated s1 /\ is_Some (scene s1) /\
             forall ty, arrowsOf ty s1
                        = (arrowsOf ty s ++
                           match ty with
                           | TVelocity => if showVelocityVectors s then [velocityArrow b] else []
                           | TMomentum => []
                           end)%list).
  { destruct (showVelocityVectors s).
    - destruct (pushArrow_ok (velocityArrow b) TVelocity s Hs Ht Al)
        as (s1 & E & O & A & S & H).
      exists s1. repeat split; auto; try (intros []; apply H).
    - destruct Nop as (s' & ? & ? & ? & ? & H); exists s'; repeat split; auto;
        try (intros []; apply H). }
  destruct V as (s1 & E1 & O1 & A1 & S1 & H1). rewrite E1. cbn [bind].
  pose proof (only_arrows_fields s s1 O1) as (_ & _ & _ & _ & Fm & Ft & _).
  rewrite <- Ft in Ht.
  destruct (showMomentumVectors s1) eqn:Em.
  - destruct (pushArrow_ok (momentumArrow b (o_mass obj)) TMomentum s1 S1 Ht A1)
      as (s2 & E & O & A & S & H).
    exists s2. split; [exact E|]. split; [now apply (only_arrows_trans s s1)|].
    repeat split; auto.
    intros ty. rewrite H, H1, <- Fm. rewrite <- app_assoc. f_equal.
    destruct ty; [apply app_nil_r | reflexivity].
  - exists s1. repeat split; auto.
    intros ty. rewrite H1, <- Fm. destruct ty; reflexivity.
Qed.

Lemma forEach_vectorsFor_ok objs s :
  is_Some (scene s) -> hasTHREE (host s) = true -> allocated s ->
  exists s',
    forEach vectorsFor objs s = Ok s' /\ only_arrows s s' /\ allocated s' /\
    is_Some (scene s') /\
    forall ty, arrowsOf ty s' = (arrowsOf ty s ++ flat_map (arrowFor ty s) objs)%list.
Proof.
  revert s. induction objs as [|obj objs IH]; intros s Hs Ht Al.
  - exists s. repeat split; auto using only_arrows_refl. intros. cbn. now rewrite app_nil_r.
  - destruct (vectorsFor_ok obj s Hs Ht Al) as (s1 & E1 & O1 & A1 & S1 & H1).
    pose proof (only_arrows_fields s s1 O1) as (_ & _ & _ & _ & _ & Ft & _).
    rewrite <- Ft in Ht.
    destruct (IH s1 S1 Ht A1) as (s2 & E2 & O2 & A2 & S2 & H2).
    exists s2. cbn [forEach]. rewrite E1. cbn [bind].
    split; [exact E2|]. split; [now apply (only_arrows_trans s s1)|].
    repeat split; auto.
    intros ty. rewrite H2, H1. cbn [flat_map]. rewrite <- app_assoc. do 2 f_equal.
    apply flat_map_ext. intros o. now apply arrowFor_only_arrows.
Qed.

Lemma updateVectors_ok s :
  is_Some (scene s) -> hasTHREE (host s) = true ->
  exists s',
    updateVectors s = Ok s' /\ only_arrows s s' /\ allocated s' /\ is_Some (scene s') /\
    forall ty, arrowsOf ty s' = arrowsFor ty s.
Proof.
  intros Hs Ht. unfold updateVectors.
  destruct (removeVectors_ok s Hs) as (s1 & E1 & O1 & V1 & S1).
  rewrite E1. cbn [bind].
  pose proof (only_arrows_fields s s1 O1) as (Fo & _ & _ & _ & _ & Ft & _).
  rewrite <- Ft in Ht.
  assert (A1 : allocated s1) by (unfold allocated; rewrite V1; intros ? []).
  destruct (forEach_vectorsFor_ok (objects s1) s1 S1 Ht A1) as (s2 & E2 & O2 & A2 & S2 & H2).
  exists s2. split; [exact E2|]. split; [now apply (only_arrows_trans s s1)|].
  repeat split; auto.
  intros ty. rewrite H2. unfold arrowsOf at 1. rewrite V1. cbn [omap].
  unfold arrowsFor. rewrite Fo. cbn. apply flat_map_ext. intros o.
  now apply arrowFor_only_arrows.
Qed.


(** *** The frame *)
















Lemma constructor_deltaTime (h : Host) : deltaTime (constructor h) = (1 / 60)%float.
Proof.
  unfold constructor. destruct (checkDependencies h) as [b h1].
  unfold init, showLoadingScreen, setTimeout. cbv zeta.
  destruct (getElementById _ _); reflexivity.
Qed.

(** *** Spawning (C4) *)







(** *** Reset (C2) *)

(** C2. In every reachable state [reset()] returns normally; afterwards
    [this.objects] and [this.vectors] are empty, no mesh of a former object
    and no former arrow is in the scene, no body of a former object is in
    the world, [stats] is the all-zero record of the constructor,
    [simulationTime] is 0, the simulation is paused and the robot is back
    at angle 0, target 0 and inactive. *)
Theorem reset_restores_initial_state (s : Sim) :
  reachable s ->
  exists s',
    reset s = Ok s' /\
    objects s' = [] /\ vectors s' = [] /\
    stats s' = mkStats 0 0 (VNum 0) (VNum 0) (VNum 0) (VNum 0) 0 0 0 /\
    simulationTime s' = 0%float /\ isRunning s' = false /\
    robot s' = mkRobot (base (robot s)) (segments (robot s)) 0 0 false /\
    (forall sc', scene s' = Some sc' ->
       (forall obj, In obj (objects s) -> ~ In (ChMesh (o_mesh obj)) (sc_children sc')) /\
       (forall v, In v (vectors s) -> ~ In (ChArrow (v_arrow v)) (sc_children sc'))) /\
    (forall w', world s' = Some w' ->
       forall obj, In obj (objects s) -> ~ In (o_body obj) (w_bodies w')) /\
    reset_post s s'.
Proof.
  intros Re. apply reachable_Inv in Re. destruct Re as [A W].
  destruct (reset_ok s) as (s' & E & Post).
  { intros Ho. assert (R : ready s) by (apply A; right; right; now left).
    destruct R as (? & _ & _ & ? & _). auto. }
  { intros Hv. assert (R : ready s) by (apply A; right; right; right; now left).
    now destruct R. }
  exists s'. split; [exact E|].
  pose proof Post as (P1 & P2 & P3 & P4 & P5 & P6 & P7 & P8 & P9 & P10 & P11 & P12 & P13
                      & P14 & P15 & P16 & P17 & P18 & P19 & P20 & P21).
  repeat split; try assumption.
  - destruct (robot s') as [b sg ta ca ia]. cbn in *. now subst.
  - intros obj Hin Hc. rewrite P16 in H. destruct (scene s) as [sc|]; [|discriminate].
    injection H as <-. apply in_removeArrows in Hc. destruct Hc as [Hc _].
    apply in_removeMeshes in Hc. destruct Hc as [_ Hc]. now apply (Hc obj Hin).
  - intros v Hin Hc. rewrite P16 in H. destruct (scene s) as [sc|]; [|discriminate].
    injection H as <-. apply in_removeArrows in Hc. destruct Hc as [_ Hc].
    now apply (Hc v Hin).
  - intros w' Hw' obj Hin Hc. rewrite P17 in Hw'. destruct (world s) as [w|]; [|discriminate].
    injection Hw' as <-. apply in_removeBodies in Hc. destruct Hc as [_ Hc].
    now apply (Hc obj Hin).
Qed.

(** The robot is active only after the set-up, when its group exists. *)
Lemma reachable_robot_base (s : Sim) :
  reachable s -> isActive (robot s) = true -> is_Some (base (robot s)).
Proof.
  intros Re Ha. apply reachable_Inv in Re. destruct Re as [A _].
  assert (R : ready s) by (apply A; do 4 right; exact Ha).
  now destruct R as (_ & _ & _ & _ & ? & _).
Qed.

(* ===================================================================== *)
(** ** Which callbacks can throw *)
(* ===================================================================== *)


(** *** No listener throws after the set-up *)









(** *** A missing library *)

Lemma inert_constructor page w h three cannon :
  three && cannon = false -> inert (constructor (host0 page w h three cannon)).
Proof.
  intros H. unfold constructor, checkDependencies, init, showLoadingScreen, getElementById.
  destruct three; [destruct cannon; [discriminate|]|]; cbn.
  all: destruct (page !! "loadingScreen") as [el|] eqn:E; cbn.
  all: unfold inert; cbn; repeat split; auto.
  all: intros el'; try rewrite lookup_alter_eq; rewrite ?E; cbn; intros [= <-]; reflexivity.
Qed.

Lemma pending_remove_first t u l :
  existsb (fun v => match t, v with
                    | TimerInit, TimerInit | TimerHideLoading, TimerHideLoading => true
                    | _, _ => false
                    end) l = false ->
  existsb (fun v => match t, v with
                    | TimerInit, TimerInit | TimerHideLoading, TimerHideLoading => true
                    | _, _ => false
                    end) (remove_first u l) = false.
Proof.
  induction l as [|v l IH]; cbn; [auto|].
  intros H. apply orb_false_iff in H. destruct H as [H1 H2].
  destruct u, v; cbn; auto; rewrite H1; cbn; auto.
Qed.

Lemma inert_clearTimer t s : inert s -> inert (clearTimer t s).
Proof.
  intros (I1 & I2 & I3 & I4 & I5 & I6 & I7 & I8 & I9 & I10 & I11 & I12 & I13).
  unfold inert, pending in *. unfold clearTimer.
  pose proof (pending_remove_first TimerHideLoading t _ I11) as Hp.
  destruct_sim s. cbn in *. repeat split; auto.
Qed.

Lemma inert_setup t0 t1 s : inert s -> inert (state_of (setup t0 t1 s)).
Proof.
  intros (I1 & I2 & I3 & I4 & I5 & I6 & I7 & I8 & I9 & I10 & I11 & I12 & I13).
  unfold setup.
  destruct (hasTHREE (host s)) eqn:Th.
  - (* CANNON is missing: [setupPhysics] throws *)
    cbn [andb] in I1.
    assert (E1 : exists s1, setupScene s = Ok s1 /\ inert s1).
    { unfold setupScene, needTHREE, inert, pending in *. destruct_sim s. cbn in *. subst.
      eexists. split; [reflexivity|]. cbn. repeat split; auto.
      rewrite forallb_app, I12. reflexivity. }
    destruct E1 as (s1 & E1 & J). rewrite E1. cbn [bind].
    assert (E2 : exists e s2, setupPhysics s1 = Throw e s2 /\ inert s2).
    { destruct J as (J1 & J2 & J3 & J4 & J5 & J6 & J7 & J8 & J9 & J10 & J11 & J12 & J13).
      assert (Hc : hasCANNON (host s1) = false).
      { apply andb_false_iff in J1. destruct J1 as [J1|J1]; [|exact J1].
        clear - E1 Th J1. unfold setupScene, needTHREE in E1. destruct_sim s.
        cbn in *. subst. injection E1 as <-. discriminate. }
      unfold setupPhysics, needCANNON, inert, pending in *. destruct_sim s1. cbn in *. subst.
      eexists _, _. split; [reflexivity|]. cbn. repeat split; auto using andb_false_r.
      rewrite forallb_app, J12. reflexivity. }
    destruct E2 as (e & s2 & E2 & J2). rewrite E2. cbn [bind state_of]. exact J2.
  - (* THREE is missing: [setupScene] throws *)
    assert (E1 : exists e s1, setupScene s = Throw e s1 /\ inert s1).
    { unfold setupScene, needTHREE, inert, pending in *. destruct_sim s. cbn in *. subst.
      eexists _, _. split; [reflexivity|]. cbn. repeat split; auto.
      rewrite forallb_app, I12. reflexivity. }
    destruct E1 as (e & s1 & E1 & J). rewrite E1. cbn [bind state_of]. exact J.
Qed.

Lemma has_listener_nil id s : listeners (host s) = [] -> has_listener id s = false.
Proof. unfold has_listener. now intros ->. Qed.

Lemma inert_dispatch ev s : inert s -> inert (state_of (dispatch ev s)).
Proof.
  intros I. pose proof I as (I1 & I2 & I3 & I4 & I5 & I6 & I7 & I8 & I9 & I10 & I11 & I12 & I13).
  destruct ev as [id rnd|id value|id checked|w h|x y rnd|code ctrl rnd|t0 t1|t0 t1|];
    cbn [dispatch]; cbv zeta; rewrite ?(has_listener_nil _ s I5), ?I6, ?I11;
    cbn [state_of]; try exact I.
  - unfold inert, pending, with_element in *. destruct_sim s. cbn in *.
    repeat split; auto. intros el.
    destruct (decide (id = "loadingScreen")) as [->|Ne].
    + rewrite lookup_alter_eq.
      match goal with |- context [?d !! "loadingScreen"] =>
        destruct (d !! "loadingScreen") as [el0|] eqn:E end;
        [|discriminate]. cbn. intros [= <-]. cbn. now apply I13.
    + rewrite lookup_alter_ne by exact Ne. apply I13.
  - destruct (canvas s); [|exact I]. now rewrite (has_listener_nil _ s I5).
  - destruct (pending TimerInit s); [|exact I]. apply inert_setup, inert_clearTimer, I.
Qed.

Lemma inert_run evs s : inert s -> inert (run evs s).
Proof.
  revert s. induction evs as [|ev evs IH]; intros s I; cbn; [exact I|].
  apply IH, inert_dispatch, I.
Qed.

(** X2. When [THREE] or [CANNON] is missing, the set-up callback throws
    before anything is installed, and the simulator stays dead whatever
    happens on the page: no listener, no animation loop, no physics world,
    no object, never a step of the world or a rendering, and the loading
    screen (if the page has one) is shown for ever; clicks, key presses and
    frames leave the state as it is. *)
Theorem missing_library_leaves_simulator_inert
    (page : gmap string Element) (w h : float) (three cannon : bool) (evs : list Event) :
  three && cannon = false ->
  let s := run evs (constructor (host0 page w h three cannon)) in
  world s = None /\ objects s = [] /\ vectors s = [] /\
  listeners (host s) = [] /\ looping (host s) = false /\
  isRunning s = false /\ frameCount s = 0 /\
  forallb silent (effects (host s)) = true /\
  (forall el, document (host s) !! "loadingScreen" = Some el -> el_display el = "flex") /\
  (forall id rnd, dispatch (Click id rnd) s = Ok s) /\
  (forall code ctrl rnd, dispatch (KeyDown code ctrl rnd) s = Ok s) /\
  (forall t0 t1, dispatch (AnimationFrame t0 t1) s = Ok s).
Proof.
  intros H s.
  assert (I : inert s) by (apply inert_run, inert_constructor, H).
  destruct I as (I1 & I2 & I3 & I4 & I5 & I6 & I7 & I8 & I9 & I10 & I11 & I12 & I13).
  repeat split; auto; intros; cbn [dispatch];
    rewrite ?(has_listener_nil _ s I5), ?I6; reflexivity.
Qed.

(* ===================================================================== *)
(** ** The set-up callback *)
(* ===================================================================== *)


(** *** The set-up on a complete page *)

Lemma calm_refl s : calm s s.
Proof. unfold calm. repeat split. Qed.

Lemma calm_trans s1 s2 s3 : calm s1 s2 -> calm s2 s3 -> calm s1 s3.
Proof.
  unfold calm.
  intros (A1 & A2 & A3 & A4 & A5 & A6 & A7 & A8 & A9 & A10 & A11 & A12 & A13 & A14 & A15
          & A16 & A17 & A18 & A19 & A20 & A21 & A22 & A23 & A24 & A25)
         (B1 & B2 & B3 & B4 & B5 & B6 & B7 & B8 & B9 & B10 & B11 & B12 & B13 & B14 & B15
          & B16 & B17 & B18 & B19 & B20 & B21 & B22 & B23 & B24 & B25).
  repeat split; congruence.
Qed.

Lemma calm_after (f : Sim -> Sim) :
  (forall x, calm x (f x)) -> forall s s1, calm s s1 -> calm s (f s1).
Proof. intros H s s1 G. eapply calm_trans; [exact G | apply H]. Qed.

Lemma calm_bind s r k :
  calm s (state_of r) -> (forall s1, calm s s1 -> calm s (state_of (k s1))) ->
  calm s (state_of (r >>= k)).
Proof. destruct r; cbn; auto. Qed.

Ltac calm_prim :=
  let x := fresh "x" in
  intro x; destruct_sim x; unfold calm, noise; sim_red;
  rewrite ?List.filter_app; cbn [List.filter silent negb]; rewrite ?app_nil_r;
  repeat split; auto.

Ltac calm_tac :=
  repeat first
    [ assumption
    | apply calm_refl
    | progress cbv zeta
    | progress cbn [state_of]
    | match goal with
      | |- calm _ (state_of (_ >>= _)) => apply calm_bind; [|intros]
      | |- calm _ (state_of (if ?c then _ else _)) => destruct c
      | |- calm _ (state_of (match ?x with _ => _ end)) => destruct x
      | |- calm ?s (?f ?s1) => apply (calm_after f); [solve [calm_prim]|]
      end ].

Lemma calm_sceneAdd c s s1 : calm s s1 -> calm s (state_of (sceneAdd c s1)).
Proof. intros K. unfold sceneAdd. calm_tac. Qed.

Lemma calm_worldAdd h s s1 : calm s s1 -> calm s (state_of (worldAdd h s1)).
Proof. intros K. unfold worldAdd. calm_tac. Qed.

Lemma calm_needTHREE s s1 : calm s s1 -> calm s (state_of (needTHREE s1)).
Proof. intros K. unfold needTHREE. calm_tac. Qed.

Lemma calm_needCANNON s s1 : calm s s1 -> calm s (state_of (needCANNON s1)).
Proof. intros K. unfold needCANNON. calm_tac. Qed.

Lemma calm_setupPhysics s s1 : calm s s1 -> calm s (state_of (setupPhysics s1)).
Proof.
  intros K. unfold setupPhysics. cbv zeta.
  apply calm_bind; [apply calm_needCANNON; unfold log, emit; calm_tac | intros; calm_tac].
Qed.

Lemma calm_setupLighting s s1 : calm s s1 -> calm s (state_of (setupLighting s1)).
Proof.
  intros K. unfold setupLighting. cbv zeta.
  apply calm_bind; [apply calm_needTHREE; unfold log, emit; calm_tac|].
  intros s2 K2. repeat (apply calm_bind; [|intros]); now apply calm_sceneAdd.
Qed.

Lemma calm_setupGround s s1 : calm s s1 -> calm s (state_of (setupGround s1)).
Proof.
  intros K. unfold setupGround. cbv zeta.
  apply calm_bind; [apply calm_needCANNON; unfold log, emit; calm_tac|].
  intros s2 K2. unfold allocBody, allocMesh, alloc. cbn [fst snd].
  apply calm_bind; [apply calm_worldAdd; calm_tac|].
  intros s4 K4. apply calm_bind; [now apply calm_needTHREE|].
  intros s5 K5. cbn [fst snd].
  apply calm_bind; [apply calm_sceneAdd; calm_tac|].
  intros. now apply calm_sceneAdd.
Qed.

Lemma calm_setupRobot s s1 : calm s s1 -> calm s (state_of (setupRobot s1)).
Proof.
  intros K. unfold setupRobot. cbv zeta.
  apply calm_bind; [apply calm_needTHREE; unfold log, emit; calm_tac|].
  intros s2 K2. unfold allocGroup, allocMesh, alloc. cbn [fst snd].
  apply calm_sceneAdd. calm_tac.
Qed.


Lemma setupScene_returns s :
  hasTHREE (host s) = true ->
  exists s',
    setupScene s = Ok s' /\
    canvas s' = match getElementById "canvas3d" s with
                | Some _ => Some "canvas3d"
                | None => None
                end /\
    is_Some (scene s') /\ world s' = world s /\
    calm (set_canvas (canvas s') (set_camera (camera s') (set_renderer (renderer s') s))) s'.
Proof.
  intros Ht. unfold setupScene, needTHREE, getElementById.
  destruct_sim s. cbn in Ht. subst. cbn.
  eexists. split; [reflexivity|]. cbn. split; [reflexivity|]. split; [eauto|].
  split; [reflexivity|].
  unfold calm, noise. cbn. rewrite List.filter_app. cbn. rewrite app_nil_r. repeat split.
Qed.

Lemma setupPhysics_returns s :
  hasCANNON (host s) = true -> exists s', setupPhysics s = Ok s'.
Proof.
  intros Hc. unfold setupPhysics, needCANNON. destruct_sim s. cbn in Hc. subst. cbn. eauto.
Qed.

Lemma sceneAdd_returns c s :
  is_Some (scene s) -> exists s', sceneAdd c s = Ok s'.
Proof. intros [sc Hs]. unfold sceneAdd. rewrite Hs. eauto. Qed.

Lemma worldAdd_returns h s :
  is_Some (world s) -> exists s', worldAdd h s = Ok s'.
Proof. intros [w Hw]. unfold worldAdd. rewrite Hw. eauto. Qed.

Lemma needTHREE_returns s : hasTHREE (host s) = true -> needTHREE s = Ok s.
Proof. unfold needTHREE. now intros ->. Qed.

Lemma needCANNON_returns s : hasCANNON (host s) = true -> needCANNON s = Ok s.
Proof. unfold needCANNON. now intros ->. Qed.

(** A method that keeps the scene returns when it ends with [scene.add]. *)
Lemma keeps_scene s s1 : keeps s s1 -> is_Some (scene s) -> is_Some (scene s1).
Proof. intros [(_ & _ & _ & G & _) _]. exact G. Qed.

Lemma keeps_world s s1 : keeps s s1 -> is_Some (world s) -> is_Some (world s1).
Proof. intros [(_ & _ & _ & _ & _ & _ & G & _) _]. exact G. Qed.

Lemma keeps_three s s1 : keeps s s1 -> hasTHREE (host s) = true -> hasTHREE (host s1) = true.
Proof. intros [(_ & _ & _ & _ & _ & _ & _ & _ & G & _) _]. exact G. Qed.

Lemma keeps_cannon s s1 :
  keeps s s1 -> hasCANNON (host s) = true -> hasCANNON (host s1) = true.
Proof. intros [(_ & _ & _ & _ & _ & _ & _ & _ & _ & G) _]. exact G. Qed.

Lemma setupLighting_returns s :
  hasTHREE (host s) = true -> is_Some (scene s) -> exists s', setupLighting s = Ok s'.
Proof.
  intros Ht Hs. unfold setupLighting. cbv zeta.
  assert (K0 : keeps s (log "💡 Configurando iluminación..." s)) by keeps_tac.
  rewrite needTHREE_returns by (now apply (keeps_three s)). cbn [bind].
  destruct (sceneAdd_returns (ChAmbientLight 4210752 0.6) _ (keeps_scene _ _ K0 Hs))
    as (s1 & E1).
  pose proof (keeps_sceneAdd (ChAmbientLight 4210752 0.6) s _ K0) as K1.
  rewrite E1 in K1 |- *. cbn [bind state_of] in *.
  destruct (sceneAdd_returns (ChDirectionalLight 16777215 0.8 (mkVec3 10 20 10)) _
              (keeps_scene _ _ K1 Hs)) as (s2 & E2).
  pose proof (keeps_sceneAdd (ChDirectionalLight 16777215 0.8 (mkVec3 10 20 10)) s _ K1) as K2.
  rewrite E2 in K2 |- *. cbn [bind state_of] in *.
  apply sceneAdd_returns. now apply (keeps_scene s).
Qed.

Lemma setupGround_returns s :
  hasTHREE (host s) = true -> hasCANNON (host s) = true ->
  is_Some (scene s) -> is_Some (world s) ->
  exists s', setupGround s = Ok s'.
Proof.
  intros Ht Hc Hs Hw. unfold setupGround. cbv zeta.
  assert (K0 : keeps s (log "🏗️ Configurando suelo..." s)) by keeps_tac.
  rewrite needCANNON_returns by (now apply (keeps_cannon s)). cbn [bind].
  match goal with
  | |- context [allocBody ?b ?x] =>
      pose proof (keeps_allocBody b s x K0) as Kb; destruct (allocBody b x) as [hb s1]
  end.
  cbn [snd] in Kb.
  destruct (worldAdd_returns hb s1 (keeps_world _ _ Kb Hw)) as (s2 & E2).
  pose proof (keeps_worldAdd hb s s1 Kb) as K2. rewrite E2 in K2 |- *.
  cbn [bind state_of] in *.
  rewrite needTHREE_returns by (now apply (keeps_three s)). cbn [bind].
  match goal with
  | |- context [allocMesh ?m ?x] =>
      pose proof (keeps_allocMesh m s x K2) as Km; destruct (allocMesh m x) as [hm s3]
  end.
  cbn [snd] in Km.
  destruct (sceneAdd_returns (ChMesh hm) s3 (keeps_scene _ _ Km Hs)) as (s4 & E4).
  pose proof (keeps_sceneAdd (ChMesh hm) s s3 Km) as K4. rewrite E4 in K4 |- *.
  cbn [bind state_of] in *.
  apply sceneAdd_returns. now apply (keeps_scene s).
Qed.

Lemma setupRobot_returns s :
  hasTHREE (host s) = true -> is_Some (scene s) -> exists s', setupRobot s = Ok s'.
Proof.
  intros Ht Hs. unfold setupRobot. cbv zeta.
  assert (K0 : keeps s (log "🤖 Configurando brazo robótico..." s)) by keeps_tac.
  rewrite needTHREE_returns by (now apply (keeps_three s)). cbn [bind].
  unfold allocGroup, allocMesh, alloc. cbn [fst snd].
  apply sceneAdd_returns. apply (keeps_scene s); [|exact Hs]. keeps_tac.
Qed.

Lemma setup5_returns s :
  hasTHREE (host s) = true -> hasCANNON (host s) = true ->
  exists s',
    setup5 s = Ok s' /\ ready s' /\ keeps s s' /\
    canvas s' = match getElementById "canvas3d" s with
                | Some _ => Some "canvas3d"
                | None => None
                end /\
    calm (set_canvas (canvas s') (set_camera (camera s') (set_renderer (renderer s') s))) s'.
Proof.
  intros Ht Hc. unfold setup5.
  destruct (setupScene_returns s Ht) as (s1 & E1 & C1 & S1 & W1 & M1).
  pose proof (keeps_setupScene s s (keeps_refl s)) as K1. rewrite E1 in K1 |- *.
  cbn [bind state_of] in *.
  destruct (setupPhysics_returns s1 (keeps_cannon _ _ K1 Hc)) as (s2 & E2).
  pose proof (keeps_setupPhysics s1 s1 (keeps_refl _)) as K2.
  pose proof (calm_setupPhysics s1 s1 (calm_refl _)) as M2.
  rewrite E2 in K2, M2 |- *. cbn [bind state_of] in *.
  pose proof (setupPhysics_Ok _ _ E2) as [W2 _].
  destruct (setupLighting_returns s2) as (s3 & E3).
  { apply (keeps_three s1 s2 K2), (keeps_three s s1 K1), Ht. }
  { now apply (keeps_scene s1 s2 K2). }
  pose proof (keeps_setupLighting s2 s2 (keeps_refl _)) as K3.
  pose proof (calm_setupLighting s2 s2 (calm_refl _)) as M3.
  rewrite E3 in K3, M3 |- *. cbn [bind state_of] in *.
  assert (K13 : keeps s1 s3) by (apply (keeps_trans _ s2); assumption).
  destruct (setupGround_returns s3) as (s4 & E4).
  { apply (keeps_three s1 s3 K13), (keeps_three s s1 K1), Ht. }
  { apply (keeps_cannon s1 s3 K13), (keeps_cannon s s1 K1), Hc. }
  { now apply (keeps_scene s1 s3 K13). }
  { now apply (keeps_world s2 s3 K3). }
  pose proof (keeps_setupGround s3 s3 (keeps_refl _)) as K4.
  pose proof (calm_setupGround s3 s3 (calm_refl _)) as M4.
  rewrite E4 in K4, M4 |- *. cbn [bind state_of] in *.
  assert (K14 : keeps s1 s4) by (apply (keeps_trans _ s3); assumption).
  destruct (setupRobot_returns s4) as (s5 & E5).
  { apply (keeps_three s1 s4 K14), (keeps_three s s1 K1), Ht. }
  { now apply (keeps_scene s1 s4 K14). }
  pose proof (keeps_setupRobot s4 s4 (keeps_refl _)) as K5.
  pose proof (calm_setupRobot s4 s4 (calm_refl _)) as M5.
  rewrite E5 in K5, M5. cbn [state_of] in *.
  assert (K15 : keeps s1 s5) by (apply (keeps_trans _ s4); assumption).
  assert (M15 : calm s1 s5).
  { apply (calm_trans _ s2); [exact M2|]. apply (calm_trans _ s3); [exact M3|].
    apply (calm_trans _ s4); assumption. }
  exists s5. split; [exact E5|].
  assert (E : setup5 s = Ok s5).
  { unfold setup5. rewrite E1. cbn [bind]. rewrite E2. cbn [bind]. rewrite E3. cbn [bind].
    rewrite E4. cbn [bind]. exact E5. }
  split; [now apply (setup5_Ok s)|].
  split; [now apply (keeps_trans _ s1)|].
  pose proof M15 as (_ & _ & _ & _ & _ & _ & _ & _ & Cv & Cm & Rn & _).
  split; [now rewrite Cv|].
  rewrite Cv, Cm, Rn. apply (calm_trans _ s1); assumption.
Qed.


Lemma hears_refl L s : hears L s s.
Proof.
  exists [], []. split; [intros ? []|]. split; [reflexivity|].
  destruct_sim s. unfold with_host. cbn. now rewrite !app_nil_r.
Qed.

Lemma hears_trans L s1 s2 s3 : hears L s1 s2 -> hears L s2 s3 -> hears L s1 s3.
Proof.
  intros (l1 & o1 & I1 & F1 & ->) (l2 & o2 & I2 & F2 & ->).
  exists (l1 ++ l2)%list, (o1 ++ o2)%list. split; [now apply incl_app|].
  split; [now rewrite forallb_app, F1, F2|].
  destruct_sim s1. unfold with_host. cbn. now rewrite !app_assoc.
Qed.

Lemma hears_mono L L' s s' : incl L L' -> hears L s s' -> hears L' s s'.
Proof.
  intros H (l & o & I & F & E). exists l, o. split; [|now split].
  intros x Hx. now apply H, I.
Qed.

Lemma hears_log L m s : hears L s (log m s).
Proof.
  exists [], [ConsoleLog m]. split; [intros ? []|]. split; [reflexivity|].
  destruct_sim s. unfold log, emit, with_host. cbn. now rewrite app_nil_r.
Qed.

Lemma hears_addListener L id s : In id L -> hears L s (addListener id s).
Proof.
  intros H. exists [id], []. split; [intros ? [<-|[]]; exact H|]. split; [reflexivity|].
  destruct_sim s. unfold addListener, with_host. cbn. now rewrite app_nil_r.
Qed.

(** What [hears] leaves alone. *)
Lemma hears_fields L s s' :
  hears L s s' ->
  document (host s') = document (host s) /\ canvas s' = canvas s /\
  timers (host s') = timers (host s) /\ looping (host s') = looping (host s) /\
  renderer s' = renderer s /\ isRunning s' = isRunning s /\
  frameCount s' = frameCount s /\ objects s' = objects s /\ stats s' = stats s /\
  simulationTime s' = simulationTime s /\ world s' = world s /\
  noise (effects (host s')) = noise (effects (host s)) /\
  heap (host s') = heap (host s) /\ scene s' = scene s /\ config s' = config s /\
  vectors s' = vectors s /\ deltaTime s' = deltaTime s /\ robot s' = robot s /\
  camera s' = camera s /\
  (forall id, has_listener id s = true -> has_listener id s' = true) /\
  (forall id, has_listener id s' = true -> has_listener id s = true \/ In id L).
Proof.
  intros (l & o & I & F & ->). unfold has_listener, noise.
  destruct_sim s. cbn. rewrite List.filter_app.
  assert (N : List.filter (fun e => negb (silent e)) o = []).
  { clear - F. induction o as [|e o IH]; [reflexivity|]. cbn in *.
    apply andb_true_iff in F. destruct F as [F1 F2]. rewrite F1. cbn. now apply IH. }
  rewrite N, app_nil_r. repeat split.
  - intros id H. rewrite existsb_app, H. reflexivity.
  - intros id H. rewrite existsb_app in H. apply orb_true_iff in H.
    destruct H as [H|H]; [now left|]. right. apply existsb_exists in H.
    destruct H as (x & Hx & Ex). apply String.eqb_eq in Ex. subst. now apply I.
Qed.

Lemma has_listener_addListener id s : has_listener id (addListener id s) = true.
Proof.
  unfold has_listener, addListener. destruct_sim s. cbn.
  rewrite existsb_app. cbn. rewrite String.eqb_refl. apply orb_true_r.
Qed.

Lemma listenOn_returns id s :
  is_Some (getElementById id s) -> listenOn id s = Ok (addListener id s).
Proof. intros [e H]. unfold listenOn. now rewrite H. Qed.

Lemma listenOn_throws id s :
  getElementById id s = None -> exists e, listenOn id s = Throw e s.
Proof. intros H. unfold listenOn. rewrite H. eauto. Qed.

Lemma getElementById_hears L id s s' :
  hears L s s' -> getElementById id s' = getElementById id s.
Proof.
  intros H. apply hears_fields in H. destruct H as (H & _).
  unfold getElementById. now rewrite H.
Qed.

Lemma forEach_listenOn L ids s :
  incl ids L ->
  (forall id, In id ids -> is_Some (getElementById id s)) ->
  exists s',
    forEach listenOn ids s = Ok s' /\ hears L s s' /\
    forall id, In id ids -> has_listener id s' = true.
Proof.
  revert s. induction ids as [|id ids IH]; intros s I H.
  - exists s. split; [reflexivity|]. split; [apply hears_refl | intros ? []].
  - cbn [forEach]. rewrite listenOn_returns by (apply H; now left). cbn [bind].
    assert (H1 : hears L s (addListener id s)) by (apply hears_addListener, I; now left).
    destruct (IH (addListener id s)) as (s' & E & Hh & Hl).
    { intros x Hx. apply I. now right. }
    { intros x Hx. rewrite (getElementById_hears L x s _ H1). apply H. now right. }
    exists s'. split; [exact E|]. split; [now apply (hears_trans L s (addListener id s))|].
    intros x [<-|Hx]; [|now apply Hl].
    apply (hears_fields _ _ _ Hh), has_listener_addListener.
Qed.

Lemma forEach_listenOn_throws L ids s :
  incl ids L ->
  (exists id, In id ids /\ getElementById id s = None) ->
  exists e s', forEach listenOn ids s = Throw e s' /\ hears L s s'.
Proof.
  revert s. induction ids as [|id ids IH]; intros s I (x & Hx & N); [destruct Hx|].
  cbn [forEach]. destruct (getElementById id s) as [el|] eqn:E.
  - rewrite listenOn_returns by (rewrite E; eauto). cbn [bind].
    assert (H1 : hears L s (addListener id s)) by (apply hears_addListener, I; now left).
    destruct Hx as [<-|Hx]; [congruence|].
    destruct (IH (addListener id s)) as (e & s' & E' & Hh).
    { intros y Hy. apply I. now right. }
    { exists x. split; [exact Hx|]. now rewrite (getElementById_hears L x s _ H1). }
    exists e, s'. split; [exact E'|]. now apply (hears_trans L s (addListener id s)).
  - destruct (listenOn_throws id s E) as (e & ->). cbn [bind].
    exists e, s. split; [reflexivity | apply hears_refl].
Qed.

Lemma hears_listenIfPresent L id s : In id L -> hears L s (listenIfPresent id s).
Proof.
  intros H. unfold listenIfPresent.
  destruct (getElementById id s); [now apply hears_addListener | apply hears_refl].
Qed.

Lemma setupSliders_hears s :
  hears listenedIds s (setupSliders s) /\
  forall sl va p,
    In (sl, va, p) sliders ->
    is_Some (getElementById sl s) -> is_Some (getElementById va s) ->
    has_listener sl (setupSliders s) = true /\ has_listener va (setupSliders s) = true.
Proof.
  unfold setupSliders.
  assert (I : incl (flat_map (fun '(sl, va, _) => [sl; va]) sliders) listenedIds).
  { unfold listenedIds. intros x Hx. apply in_or_app. right. apply in_or_app. right.
    apply in_or_app. now left. }
  revert I. generalize sliders as l. intros l. revert s.
  induction l as [|[[sl va] p] l IH]; intros s I; cbn [fold_left].
  - split; [apply hears_refl | intros ? ? ? []].
  - set (s1 := match getElementById sl s, getElementById va s with
               | Some _, Some _ => addListener va (addListener sl s)
               | _, _ => s
               end).
    assert (H1 : hears listenedIds s s1).
    { unfold s1. destruct (getElementById sl s); [|apply hears_refl].
      destruct (getElementById va s); [|apply hears_refl].
      apply (hears_trans _ _ (addListener sl s)); apply hears_addListener, I; cbn; auto. }
    destruct (IH s1) as [Hh Hl].
    { intros x Hx. apply I. cbn. auto. }
    split; [now apply (hears_trans _ s s1)|].
    intros sl' va' p' [[= <- <- <-]|Hin] Ps Pv.
    + destruct Ps as [es Ps]. destruct Pv as [ev Pv].
      assert (E1 : s1 = addListener va (addListener sl s)) by (unfold s1; now rewrite Ps, Pv).
      pose proof (hears_fields _ _ _ Hh) as F.
      split; apply F; rewrite E1.
      * unfold has_listener, addListener. clear. destruct_sim s. cbn.
        rewrite !existsb_app. cbn. rewrite String.eqb_refl. cbn.
        now rewrite orb_true_r.
      * apply has_listener_addListener.
    + apply (Hl sl' va' p' Hin).
      * now rewrite (getElementById_hears _ sl' s s1 H1).
      * now rewrite (getElementById_hears _ va' s s1 H1).
Qed.


Lemma hears_has L s s' id : hears L s s' -> has_listener id s = true -> has_listener id s' = true.
Proof. intros H. apply (hears_fields _ _ _ H). Qed.

Lemma setupEventListeners_returns s c :
  canvas s = Some c ->
  (forall id, In id (buttons ++ ["showVelocityVectors"; "showMomentumVectors"]) ->
              is_Some (getElementById id s)) ->
  exists s',
    setupEventListeners s = Ok s' /\
    hears (listenedIds ++ ["window"; c; "document"]) s s' /\
    (forall id, In id (buttons ++ ["showVelocityVectors"; "showMomentumVectors"]
                       ++ ["window"; c; "document"]) ->
                has_listener id s' = true) /\
    (forall id, In id ["toggleControl"; "toggleAnalysis"] ->
                is_Some (getElementById id s) -> has_listener id s' = true) /\
    (forall sl va p, In (sl, va, p) sliders ->
       is_Some (getElementById sl s) -> is_Some (getElementById va s) ->
       has_listener sl s' = true /\ has_listener va s' = true).
Proof.
  intros Hc Hp. set (L := (listenedIds ++ ["window"; c; "document"])%list).
  assert (IL : incl listenedIds L) by (intros x Hx; apply in_or_app; now left).
  assert (Ib : incl buttons L).
  { intros x Hx. apply IL. unfold listenedIds. apply in_or_app. right.
    apply in_or_app. now left. }
  assert (It : forall id, In id ["toggleControl"; "toggleAnalysis"] -> In id L).
  { intros x Hx. apply IL. unfold listenedIds. apply in_or_app. now left. }
  assert (Ic : forall id, In id ["showVelocityVectors"; "showMomentumVectors"] -> In id L).
  { intros x Hx. apply IL. unfold listenedIds. apply in_or_app. right.
    apply in_or_app. right. apply in_or_app. now right. }
  assert (Iw : forall id, In id ["window"; c; "document"] -> In id L).
  { intros x Hx. apply in_or_app. now right. }
  unfold setupEventListeners. cbv zeta.
  set (s1 := log "🎮 Configurando controles..." s).
  assert (H1 : hears L s s1) by apply hears_log.
  set (s2 := listenIfPresent "toggleControl" s1).
  assert (H2 : hears L s1 s2) by (apply hears_listenIfPresent, It; cbn; auto).
  set (s3 := listenIfPresent "toggleAnalysis" s2).
  assert (H3 : hears L s2 s3) by (apply hears_listenIfPresent, It; cbn; auto).
  assert (H03 : hears L s s3).
  { apply (hears_trans L s s1); [exact H1|]. now apply (hears_trans L s1 s2). }
  destruct (forEach_listenOn L buttons s3 Ib) as (s4 & E4 & H4 & B4).
  { intros id Hid. rewrite (getElementById_hears L id s s3 H03). apply Hp.
    apply in_or_app. now left. }
  rewrite E4. cbn [bind].
  destruct (setupSliders_hears s4) as [H5 S5]. set (s5 := setupSliders s4) in *.
  apply (hears_mono _ L) in H5; [|exact IL].
  assert (H05 : hears L s s5).
  { apply (hears_trans L s s3); [exact H03|]. now apply (hears_trans L s3 s4). }
  rewrite listenOn_returns
    by (rewrite (getElementById_hears L _ s s5 H05); apply Hp, in_or_app; right; cbn; auto).
  cbn [bind]. set (s6 := addListener "showVelocityVectors" s5).
  assert (H6 : hears L s5 s6) by (apply hears_addListener, Ic; cbn; auto).
  assert (H06 : hears L s s6) by now apply (hears_trans L s s5).
  rewrite listenOn_returns
    by (rewrite (getElementById_hears L _ s s6 H06); apply Hp, in_or_app; right; cbn; auto).
  cbn [bind]. set (s7 := addListener "showMomentumVectors" s6).
  assert (H7 : hears L s6 s7) by (apply hears_addListener, Ic; cbn; auto).
  set (s8 := addListener "window" s7).
  assert (H8 : hears L s7 s8) by (apply hears_addListener, Iw; cbn; auto).
  assert (H08 : hears L s s8).
  { apply (hears_trans L s s6); [exact H06|]. now apply (hears_trans L s6 s7). }
  assert (C8 : canvas s8 = Some c).
  { destruct (hears_fields _ _ _ H08) as (_ & -> & _). exact Hc. }
  rewrite C8.
  set (s9 := addListener c s8).
  assert (H9 : hears L s8 s9) by (apply hears_addListener, Iw; cbn; auto).
  set (s10 := addListener "document" s9).
  assert (H10 : hears L s9 s10) by (apply hears_addListener, Iw; cbn; auto).
  set (s11 := log "✅ Controles configurados" s10).
  assert (H11 : hears L s10 s11) by apply hears_log.
  assert (T10 : hears L s10 s11) by exact H11.
  assert (T9 : hears L s9 s11) by now apply (hears_trans L s9 s10).
  assert (T8 : hears L s8 s11) by now apply (hears_trans L s8 s9).
  assert (T7 : hears L s7 s11) by now apply (hears_trans L s7 s8).
  assert (T6 : hears L s6 s11) by now apply (hears_trans L s6 s7).
  assert (T5 : hears L s5 s11) by now apply (hears_trans L s5 s6).
  assert (T4 : hears L s4 s11) by now apply (hears_trans L s4 s5).
  assert (T3 : hears L s3 s11) by now apply (hears_trans L s3 s4).
  assert (T2 : hears L s2 s11) by now apply (hears_trans L s2 s3).
  exists s11. split; [reflexivity|]. split; [now apply (hears_trans L s s8)|].
  split; [|split].
  - intros id Hid. apply in_app_or in Hid. destruct Hid as [Hid|Hid].
    { apply (hears_has L s4 s11 id T4), B4, Hid. }
    destruct Hid as [<-|[<-|[<-|[<-|[<-|[]]]]]].
    + apply (hears_has L s6 s11 _ T6), has_listener_addListener.
    + apply (hears_has L s7 s11 _ T7), has_listener_addListener.
    + apply (hears_has L s8 s11 _ T8), has_listener_addListener.
    + apply (hears_has L s9 s11 _ T9), has_listener_addListener.
    + apply (hears_has L s10 s11 _ T10), has_listener_addListener.
  - intros id [<-|[<-|[]]] Pr.
    + apply (hears_has L s2 s11 _ T2). unfold s2, listenIfPresent.
      rewrite (getElementById_hears L _ s s1 H1). destruct Pr as [e ->].
      apply has_listener_addListener.
    + apply (hears_has L s3 s11 _ T3). unfold s3, listenIfPresent.
      rewrite (getElementById_hears L _ s s2 (hears_trans L _ _ _ H1 H2)).
      destruct Pr as [e ->]. apply has_listener_addListener.
  - intros sl va p Hin Ps Pv.
    assert (H04 : hears L s s4) by now apply (hears_trans L s s3).
    destruct (S5 sl va p Hin) as [A B].
    { now rewrite (getElementById_hears L sl s s4 H04). }
    { now rewrite (getElementById_hears L va s s4 H04). }
    split; apply (hears_has L s5 s11 _ T5); assumption.
Qed.

Lemma buttons_all_or_missing s :
  (forall id, In id buttons -> is_Some (getElementById id s)) \/
  (exists id, In id buttons /\ getElementById id s = None).
Proof.
  induction buttons as [|b l IH].
  - left. intros ? [].
  - destruct (getElementById b s) as [e|] eqn:E.
    + destruct IH as [IH|(x & Hx & N)].
      * left. intros id [<-|Hid]; [rewrite E; eauto | now apply IH].
      * right. exists x. split; [now right | exact N].
    + right. exists b. split; [now left | exact E].
Qed.

Lemma setupEventListeners_throws s :
  (exists id, In id (buttons ++ ["showVelocityVectors"; "showMomentumVectors"]) /\
              getElementById id s = None) ->
  exists e s', setupEventListeners s = Throw e s' /\ hears listenedIds s s'.
Proof.
  intros (x & Hx & N). set (L := listenedIds).
  assert (Ib : incl buttons L).
  { intros y Hy. unfold L, listenedIds. apply in_or_app. right. apply in_or_app. now left. }
  assert (It : forall id, In id ["toggleControl"; "toggleAnalysis"] -> In id L).
  { intros y Hy. unfold L, listenedIds. apply in_or_app. now left. }
  assert (Ic : forall id, In id ["showVelocityVectors"; "showMomentumVectors"] -> In id L).
  { intros y Hy. unfold L, listenedIds. apply in_or_app. right.
    apply in_or_app. right. apply in_or_app. now right. }
  unfold setupEventListeners. cbv zeta.
  set (s1 := log "🎮 Configurando controles..." s).
  assert (H1 : hears L s s1) by apply hears_log.
  set (s2 := listenIfPresent "toggleControl" s1).
  assert (H2 : hears L s1 s2) by (apply hears_listenIfPresent, It; cbn; auto).
  set (s3 := listenIfPresent "toggleAnalysis" s2).
  assert (H3 : hears L s2 s3) by (apply hears_listenIfPresent, It; cbn; auto).
  assert (H03 : hears L s s3).
  { apply (hears_trans L s s1); [exact H1|]. now apply (hears_trans L s1 s2). }
  destruct (buttons_all_or_missing s3) as [All|Miss].
  2:{ destruct (forEach_listenOn_throws L buttons s3 Ib Miss) as (e & s' & E & H).
      rewrite E. cbn [bind]. exists e, s'. split; [reflexivity|].
      now apply (hears_trans L s s3). }
  destruct (forEach_listenOn L buttons s3 Ib All) as (s4 & E4 & H4 & _).
  rewrite E4. cbn [bind].
  destruct (setupSliders_hears s4) as [H5 _]. set (s5 := setupSliders s4) in *.
  assert (H05 : hears L s s5).
  { apply (hears_trans L s s3); [exact H03|]. now apply (hears_trans L s3 s4). }
  apply in_app_or in Hx. destruct Hx as [Hx|Hx].
  { exfalso. destruct (All x Hx) as [e He].
    rewrite (getElementById_hears L x s s3 H03) in He. congruence. }
  destruct (getElementById "showVelocityVectors" s) as [ev|] eqn:Ev.
  - rewrite listenOn_returns
      by (rewrite (getElementById_hears L _ s s5 H05), Ev; eauto).
    cbn [bind]. set (s6 := addListener "showVelocityVectors" s5).
    assert (H6 : hears L s5 s6) by (apply hears_addListener, Ic; cbn; auto).
    assert (H06 : hears L s s6) by now apply (hears_trans L s s5).
    destruct Hx as [<-|[<-|[]]]; [congruence|].
    destruct (listenOn_throws "showMomentumVectors" s6) as (e & ->).
    { now rewrite (getElementById_hears L _ s s6 H06). }
    cbn [bind]. exists e, s6. split; [reflexivity | exact H06].
  - destruct (listenOn_throws "showVelocityVectors" s5) as (e & ->).
    { now rewrite (getElementById_hears L _ s s5 H05). }
    cbn [bind]. exists e, s5. split; [reflexivity | exact H05].
Qed.


(** *** The texts of the page *)

Lemma retexted_refl d : retexted d d.
Proof. intros id. destruct (d !! id); auto. Qed.

Lemma retexted_trans d1 d2 d3 : retexted d1 d2 -> retexted d2 d3 -> retexted d1 d3.
Proof.
  intros H1 H2 id. specialize (H1 id). specialize (H2 id).
  destruct (d1 !! id), (d2 !! id), (d3 !! id); try tauto.
  destruct H1 as (? & ? & ?), H2 as (? & ? & ?). repeat split; congruence.
Qed.

Lemma retexted_setText t id d : retexted d (alter (el_setText t) id d).
Proof.
  intros k. destruct (decide (id = k)) as [->|Ne].
  - rewrite lookup_alter_eq. destruct (d !! k); cbn; auto.
  - rewrite lookup_alter_ne by exact Ne. destruct (d !! k); auto.
Qed.

Lemma repaged_refl s : repaged s s.
Proof.
  exists (document (host s)). split; [apply retexted_refl|]. destruct_sim s. reflexivity.
Qed.

Lemma repaged_trans s1 s2 s3 : repaged s1 s2 -> repaged s2 s3 -> repaged s1 s3.
Proof.
  intros (d1 & R1 & ->) (d2 & R2 & ->). exists d2. split.
  - apply (retexted_trans _ d1); [exact R1|]. destruct_sim s1. exact R2.
  - destruct_sim s1. reflexivity.
Qed.

Lemma repaged_setText id t s : repaged s (setTextIfPresent id t s).
Proof.
  unfold setTextIfPresent. destruct (getElementById id s); [|apply repaged_refl].
  exists (alter (el_setText t) id (document (host s))).
  split; [apply retexted_setText|]. destruct_sim s. reflexivity.
Qed.

Lemma repaged_fold_setText l s :
  repaged s (fold_left (fun s '(id, value) => setTextIfPresent id value s) l s).
Proof.
  assert (G : forall s1, repaged s s1 ->
    repaged s (fold_left (fun s '(id, value) => setTextIfPresent id value s) l s1)).
  { induction l as [|[id v] l IH]; intros s1 H; cbn; [exact H|].
    apply IH. apply (repaged_trans _ s1); [exact H | apply repaged_setText]. }
  apply G, repaged_refl.
Qed.

Lemma repaged_updateAnalysisDisplay s : repaged s (updateAnalysisDisplay s).
Proof. unfold updateAnalysisDisplay. apply repaged_fold_setText. Qed.

Lemma repaged_updateStatistics s s' :
  repaged s s' -> repaged (updateStatistics s) (updateStatistics s').
Proof.
  intros (d & R & ->). exists d. split.
  - unfold updateStatistics. destruct (objects s); [exact R|].
    destruct (fold_left _ _ _) as [[a b] c]. destruct_sim s. exact R.
  - set (X := with_host (set_document d) s).
    assert (EF : fold_left (accumulate (gravity (config X)) X) (objects X) (0, 0, 0)%float
                 = fold_left (accumulate (gravity (config s)) s) (objects s) (0, 0, 0)%float).
    { unfold X. destruct_sim s. reflexivity. }
    unfold updateStatistics. rewrite EF. clear EF R.
    change (objects X) with (objects s). destruct (objects s); [reflexivity|].
    destruct (fold_left _ _ _) as [[a b] c]. unfold X. destruct_sim s. reflexivity.
Qed.

(** [updateUI] changes the statistics as [updateStatistics] does, and
    texts. *)
Lemma repaged_updateUI s : repaged (updateStatistics s) (updateUI s).
Proof.
  unfold updateUI. cbv zeta.
  eapply repaged_trans; [|apply repaged_updateAnalysisDisplay].
  apply repaged_updateStatistics.
  eapply repaged_trans; [|apply repaged_setText].
  eapply repaged_trans; [|apply repaged_setText].
  apply repaged_setText.
Qed.

(** A frame while the simulation is paused. *)
Lemma animate_paused t0 t1 s :
  isRunning s = false -> is_Some (renderer s) ->
  exists doc,
    retexted (document (host s)) doc /\
    animate t0 t1 s
    = Ok (set_frameCount (frameCount s + 1)
            (with_host (set_document doc)
               (updateStatistics (set_deltaTime ((t1 - t0) / 1000)%float (emit Render s))))).
Proof.
  intros Hr [r Hn]. unfold animate. rewrite Hr. cbn [bind]. rewrite Hn. cbv zeta.
  destruct (repaged_updateUI (set_deltaTime ((t1 - t0) / 1000)%float (emit Render s)))
    as (doc & R & E).
  exists doc. split.
  - clear - R. unfold updateStatistics in R.
    destruct (objects _); [|destruct (fold_left _ _ _) as [[a b] c]];
      destruct_sim s; exact R.
  - rewrite E. f_equal.
    assert (F : forall x, frameCount (with_host (set_document doc) (updateStatistics x))
                          = frameCount x).
    { intros x. unfold updateStatistics. destruct (objects x);
        [|destruct (fold_left _ _ _) as [[a b] c]]; destruct_sim x; reflexivity. }
    rewrite F. destruct_sim s. reflexivity.
Qed.


Lemma alter_absent {A} (f : A -> A) (k : string) (m : gmap string A) :
  m !! k = None -> alter f k m = m.
Proof.
  intros H. apply map_eq. intros i. destruct (decide (k = i)) as [->|Ne].
  - rewrite lookup_alter_eq, H. reflexivity.
  - now rewrite lookup_alter_ne.
Qed.

Lemma updateStatistics_empty s : objects s = [] -> updateStatistics s = s.
Proof. intros H. unfold updateStatistics. now rewrite H. Qed.

(** The state the set-up callback starts from, with both libraries. *)
Lemma booting page w h :
  let s0 := constructor (host0 page w h true true) in
  let sA := clearTimer TimerInit s0 in
  pending TimerInit s0 = true /\
  hasTHREE (host sA) = true /\ hasCANNON (host sA) = true /\
  document (host sA) = alter (el_setDisplay "flex") "loadingScreen" page /\
  timers (host sA) = [] /\ listeners (host sA) = [] /\ looping (host sA) = false /\
  isRunning sA = false /\ frameCount sA = 0 /\ objects sA = [] /\ vectors sA = [] /\
  stats sA = stats0 /\ config sA = config0 /\ simulationTime sA = 0%float /\
  noise (effects (host sA)) = [] /\ canvas sA = None.
Proof.
  unfold constructor, checkDependencies, init, showLoadingScreen, getElementById,
    clearTimer, setTimeout, pending.
  cbn. destruct (page !! "loadingScreen") as [el|] eqn:E; cbn; repeat split.
  now rewrite alter_absent.
Qed.

(** X3. On a page that has the canvas, the eleven buttons and the two
    checkboxes, with both libraries loaded, the set-up callback returns
    normally: everything the methods use exists, every button, checkbox,
    the window, the canvas and the document have their listener (the two
    panel toggles and the slider pairs if the page has them), the loop runs
    and has rendered one frame, nothing moves yet, and the loading screen
    is about to be hidden. *)
Theorem setup_succeeds_on_complete_page (page : gmap string Element) (w h t0 t1 : float) :
  (forall id, In id requiredIds -> is_Some (page !! id)) ->
  exists s,
    dispatch (TimeoutInit t0 t1) (constructor (host0 page w h true true)) = Ok s /\
    ready s /\ canvas s = Some "canvas3d" /\ looping (host s) = true /\
    (forall id, In id (buttons ++ ["showVelocityVectors"; "showMomentumVectors"]
                       ++ ["window"; "canvas3d"; "document"]) ->
                has_listener id s = true) /\
    (forall id, In id ["toggleControl"; "toggleAnalysis"] ->
                is_Some (page !! id) -> has_listener id s = true) /\
    (forall sl va p, In (sl, va, p) sliders ->
       is_Some (page !! sl) -> is_Some (page !! va) ->
       has_listener sl s = true /\ has_listener va s = true) /\
    isRunning s = false /\ objects s = [] /\ vectors s = [] /\
    stats s = stats0 /\ config s = config0 /\
    frameCount s = 1 /\ deltaTime s = ((t1 - t0) / 1000)%float /\
    simulationTime s = 0%float /\
    noise (effects (host s)) = [Render] /\
    timers (host s) = match page !! "loadingScreen" with
                     | Some _ => [TimerHideLoading]
                     | None => []
                     end /\
    retexted (alter (el_setDisplay "flex") "loadingScreen" page) (document (host s)).
Proof.
  intros Hp.
  pose proof (booting page w h) as B. cbv zeta in B.
  set (s0 := constructor (host0 page w h true true)) in *.
  set (sA := clearTimer TimerInit s0) in *.
  destruct B as (B0 & Bt & Bc & Bd & Bti & Bl & Blo & Br & Bf & Bo & Bv & Bs & Bcf & Bsi
                 & Bn & Bca).
  cbn [dispatch]. rewrite B0. fold sA. clearbody sA. clear B0. clearbody s0.
  assert (Pres : forall id, is_Some (page !! id) -> is_Some (getElementById id sA)).
  { intros id [e He]. unfold getElementById. rewrite Bd.
    destruct (decide ("loadingScreen" = id)) as [<-|Ne].
    - rewrite lookup_alter_eq, He. cbn. eauto.
    - rewrite lookup_alter_ne by exact Ne. eauto. }
  (* the first five steps *)
  destruct (setup5_returns sA Bt Bc) as (s5 & E5 & R5 & K5 & C5 & M5).
  assert (C5' : canvas s5 = Some "canvas3d").
  { rewrite C5. destruct (Pres "canvas3d") as [e ->]; [|reflexivity].
    apply Hp. now left. }
  destruct M5 as (M1 & M2 & M3 & M4 & _ & _ & _ & _ & _ & _ & _ & M12 & M13 & M14 & M15
                  & M16 & M17 & M18 & M19 & _ & _ & _ & _ & _ & M25).
  change (document (host s5) = document (host sA)) in M1.
  change (timers (host s5) = timers (host sA)) in M2.
  change (listeners (host s5) = listeners (host sA)) in M3.
  change (looping (host s5) = looping (host sA)) in M4.
  change (isRunning s5 = isRunning sA) in M12.
  change (frameCount s5 = frameCount sA) in M13.
  change (deltaTime s5 = deltaTime sA) in M14.
  change (simulationTime s5 = simulationTime sA) in M15.
  change (objects s5 = objects sA) in M16.
  change (vectors s5 = vectors sA) in M17.
  change (config s5 = config sA) in M18.
  change (stats s5 = stats sA) in M19.
  change (noise (effects (host s5)) = noise (effects (host sA))) in M25.
  (* the listeners *)
  destruct (setupEventListeners_returns s5 "canvas3d" C5') as (s6 & E6 & H6 & L6 & T6 & S6).
  { intros id Hid. unfold getElementById. rewrite M1. apply Pres, Hp. right.
    exact Hid. }
  pose proof (hears_fields _ _ _ H6)
    as (F1 & F2 & F3 & F4 & F5 & F6 & F7 & F8 & F9 & F10 & F11 & F12 & F13 & F14 & F15
        & F16 & _).
  pose proof (keeps_setupEventListeners s5 s5 (keeps_refl _)) as K6.
  rewrite E6 in K6. cbn [state_of] in K6.
  (* the loop *)
  set (s6' := with_host (set_looping true) (log "🎬 Iniciando bucle de animación..." s6)).
  assert (G6 : isRunning s6' = false /\ is_Some (renderer s6') /\ objects s6' = [] /\
               frameCount s6' = 0).
  { assert (Rn : is_Some (renderer s6)) by (rewrite F5; apply R5).
    unfold s6'. clear - Rn F6 F7 F8 M12 M13 M16 Br Bf Bo.
    rewrite M12, Br in F6. rewrite M13, Bf in F7. rewrite M16, Bo in F8.
    destruct_sim s6. cbn in *. auto. }
  destruct G6 as (G1 & G2 & G3 & G4).
  destruct (animate_paused t0 t1 s6' G1 G2) as (doc & Rd & E7).
  rewrite updateStatistics_empty in E7 by (clear - G3; destruct_sim s6'; exact G3).
  pose proof (keeps_startLoop t0 t1 s6 s6 (keeps_refl _)) as K7.
  unfold setup. fold (setup5 sA). rewrite E5. cbn [bind]. rewrite E6. cbn [bind].
  unfold startLoop in K7 |- *. cbv zeta in K7 |- *. fold s6' in K7 |- *.
  rewrite E7 in K7 |- *. cbn [bind state_of] in K7 |- *.
  set (s7 := set_frameCount _ _) in *.
  eexists. split; [reflexivity|].
  assert (K8 : keeps s7 (log "✅ Simulador inicializado correctamente" (hideLoadingScreen s7))).
  { unfold log, emit. apply keeps_after; [keeps_prim|]. apply keeps_hideLoadingScreen.
    apply keeps_refl. }
  split.
  { apply (grows_ready s5); [|exact R5].
    apply (keeps_trans s5 s6); [exact K6|]. apply (keeps_trans s6 s7); [exact K7|].
    exact K8. }
  assert (Hd : document (host s6') = alter (el_setDisplay "flex") "loadingScreen" page).
  { unfold s6'. rewrite <- Bd, <- M1, <- F1. clear. destruct_sim s6. reflexivity. }
  rewrite Hd in Rd.
  assert (Hl : getElementById "loadingScreen" s7
               = None <-> page !! "loadingScreen" = None).
  { unfold getElementById, s7. specialize (Rd "loadingScreen").
    rewrite lookup_alter_eq in Rd.
    replace (document (host (set_frameCount (frameCount s6' + 1)
               (with_host (set_document doc)
                  (set_deltaTime ((t1 - t0) / 1000)%float (emit Render s6'))))))
      with doc by (clear; destruct_sim s6'; reflexivity).
    destruct (page !! "loadingScreen"), (doc !! "loadingScreen"); cbn in Rd;
      split; intros; try discriminate; try tauto. }
  assert (Fin : forall x,
    let s8 := log "✅ Simulador inicializado correctamente" x in
    canvas s8 = canvas x /\ looping (host s8) = looping (host x) /\
    listeners (host s8) = listeners (host x) /\ isRunning s8 = isRunning x /\
    objects s8 = objects x /\ vectors s8 = vectors x /\ stats s8 = stats x /\
    config s8 = config x /\ frameCount s8 = frameCount x /\ deltaTime s8 = deltaTime x /\
    simulationTime s8 = simulationTime x /\
    noise (effects (host s8)) = noise (effects (host x)) /\
    timers (host s8) = timers (host x) /\ document (host s8) = document (host x)).
  { intros x. unfold noise. destruct_sim x. cbn. rewrite List.filter_app. cbn.
    rewrite app_nil_r. repeat split. }
  assert (S7 : canvas s7 = canvas s6 /\ looping (host s7) = true /\
               listeners (host s7) = listeners (host s6) /\ isRunning s7 = isRunning s6 /\
               objects s7 = objects s6 /\ vectors s7 = vectors s6 /\ stats s7 = stats s6 /\
               config s7 = config s6 /\ frameCount s7 = frameCount s6 + 1 /\
               deltaTime s7 = ((t1 - t0) / 1000)%float /\
               simulationTime s7 = simulationTime s6 /\
               noise (effects (host s7)) = (noise (effects (host s6)) ++ [Render])%list /\
               timers (host s7) = timers (host s6) /\ document (host s7) = doc).
  { unfold s7, s6', noise. clear. destruct_sim s6. cbn. rewrite !List.filter_app. cbn.
    rewrite app_nil_r. repeat split. }
  destruct S7 as (Z1 & Z2 & Z3 & Z4 & Z5 & Z6 & Z7 & Z8 & Z9 & Z10 & Z11 & Z12 & Z13 & Z14).
  assert (S8 : canvas (hideLoadingScreen s7) = canvas s7 /\
               looping (host (hideLoadingScreen s7)) = looping (host s7) /\
               listeners (host (hideLoadingScreen s7)) = listeners (host s7) /\
               isRunning (hideLoadingScreen s7) = isRunning s7 /\
               objects (hideLoadingScreen s7) = objects s7 /\
               vectors (hideLoadingScreen s7) = vectors s7 /\
               stats (hideLoadingScreen s7) = stats s7 /\
               config (hideLoadingScreen s7) = config s7 /\
               frameCount (hideLoadingScreen s7) = frameCount s7 /\
               deltaTime (hideLoadingScreen s7) = deltaTime s7 /\
               simulationTime (hideLoadingScreen s7) = simulationTime s7 /\
               noise (effects (host (hideLoadingScreen s7))) = noise (effects (host s7)) /\
               document (host (hideLoadingScreen s7)) = document (host s7) /\
               timers (host (hideLoadingScreen s7))
               = (timers (host s7) ++
                  match page !! "loadingScreen" with
                  | Some _ => [TimerHideLoading]
                  | None => []
                  end)%list).
  { unfold hideLoadingScreen.
    destruct (getElementById "loadingScreen" s7) eqn:El;
      destruct (page !! "loadingScreen") eqn:Ep.
    - clearbody s7. clear. unfold setTimeout. destruct_sim s7. repeat split.
    - destruct Hl as [_ Hl]. discriminate (Hl eq_refl).
    - destruct Hl as [Hl _]. discriminate (Hl eq_refl).
    - rewrite app_nil_r. repeat split. }
  destruct S8 as (Y1 & Y2 & Y3 & Y4 & Y5 & Y6 & Y7 & Y8 & Y9 & Y10 & Y11 & Y12 & Y13 & Y14).
  destruct (Fin (hideLoadingScreen s7))
    as (X1 & X2 & X3 & X4 & X5 & X6 & X7 & X8 & X9 & X10 & X11 & X12 & X13 & X14).
  assert (HL : forall id, has_listener id s6 = true ->
                 has_listener id (log "✅ Simulador inicializado correctamente"
                                      (hideLoadingScreen s7)) = true).
  { intros id. unfold has_listener. now rewrite X3, Y3, Z3. }
  rewrite X1, X2, X4, X5, X6, X7, X8, X9, X10, X11, X12, X13, X14.
  rewrite Y1, Y2, Y4, Y5, Y6, Y7, Y8, Y9, Y10, Y11, Y12, Y13, Y14.
  rewrite Z1, Z2, Z4, Z5, Z6, Z7, Z8, Z9, Z10, Z11, Z12, Z13, Z14.
  rewrite F2, F3, F6, F7, F8, F9, F10, F12, F15, F16, C5'.
  rewrite M2, M12, M13, M15, M16, M17, M18, M19, M25.
  rewrite Bti, Br, Bf, Bo, Bv, Bs, Bcf, Bsi, Bn.
  split; [reflexivity|]. split; [reflexivity|].
  split; [intros id Hid; now apply HL, L6|].
  split; [intros id Hid Pr; apply HL, (T6 id Hid); unfold getElementById; rewrite M1;
          now apply Pres|].
  split; [intros sl va p Hin Ps Pv;
          destruct (S6 sl va p Hin) as [A1 A2];
          [unfold getElementById; rewrite M1; now apply Pres
          |unfold getElementById; rewrite M1; now apply Pres
          |split; now apply HL]|].
  repeat split. exact Rd.
Qed.


(** X4. With both libraries loaded and the canvas on the page, a page that
    lacks one of the eleven buttons or one of the two checkboxes makes the
    set-up callback throw while it installs the listeners: the scene, the
    world and the robot exist, but the window, the canvas and the document
    get no listener, the loop is never started, no frame is ever rendered
    and the loading screen stays shown. *)
Theorem setup_fails_without_a_control (page : gmap string Element) (w h t0 t1 : float) :
  is_Some (page !! "canvas3d") ->
  (exists id, In id (buttons ++ ["showVelocityVectors"; "showMomentumVectors"]) /\
              page !! id = None) ->
  exists e s,
    dispatch (TimeoutInit t0 t1) (constructor (host0 page w h true true)) = Throw e s /\
    ready s /\ looping (host s) = false /\
    has_listener "window" s = false /\ has_listener "canvas3d" s = false /\
    has_listener "document" s = false /\
    frameCount s = 0 /\ noise (effects (host s)) = [] /\ timers (host s) = [] /\
    document (host s) = alter (el_setDisplay "flex") "loadingScreen" page /\
    (forall t2 t3, dispatch (AnimationFrame t2 t3) s = Ok s) /\
    (forall code ctrl rnd, dispatch (KeyDown code ctrl rnd) s = Ok s).
Proof.
  intros Hcv (x & Hx & Nx).
  pose proof (booting page w h) as B. cbv zeta in B.
  set (s0 := constructor (host0 page w h true true)) in *.
  set (sA := clearTimer TimerInit s0) in *.
  destruct B as (B0 & Bt & Bc & Bd & Bti & Bl & Blo & Br & Bf & Bo & Bv & Bs & Bcf & Bsi
                 & Bn & Bca).
  cbn [dispatch]. rewrite B0. fold sA. clearbody sA. clear B0. clearbody s0.
  destruct (setup5_returns sA Bt Bc) as (s5 & E5 & R5 & K5 & C5 & M5).
  destruct M5 as (M1 & M2 & M3 & M4 & _ & _ & _ & _ & _ & _ & _ & M12 & M13 & M14 & M15
                  & M16 & M17 & M18 & M19 & _ & _ & _ & _ & _ & M25).
  change (document (host s5) = document (host sA)) in M1.
  change (timers (host s5) = timers (host sA)) in M2.
  change (listeners (host s5) = listeners (host sA)) in M3.
  change (looping (host s5) = looping (host sA)) in M4.
  change (frameCount s5 = frameCount sA) in M13.
  change (noise (effects (host s5)) = noise (effects (host sA))) in M25.
  destruct (setupEventListeners_throws s5) as (e & s6 & E6 & H6).
  { exists x. split; [exact Hx|]. unfold getElementById. rewrite M1, Bd.
    destruct (decide ("loadingScreen" = x)) as [<-|Ne].
    - now rewrite lookup_alter_eq, Nx.
    - now rewrite lookup_alter_ne. }
  pose proof (hears_fields _ _ _ H6)
    as (F1 & F2 & F3 & F4 & F5 & F6 & F7 & F8 & F9 & F10 & F11 & F12 & F13 & F14 & F15
        & F16 & F17 & F18 & F19 & _ & FL).
  pose proof (keeps_setupEventListeners s5 s5 (keeps_refl _)) as K6.
  rewrite E6 in K6. cbn [state_of] in K6.
  unfold setup. fold (setup5 sA). rewrite E5. cbn [bind]. rewrite E6. cbn [bind].
  exists e, s6. split; [reflexivity|].
  assert (NL : forall id, In id ["window"; "canvas3d"; "document"] ->
                          has_listener id s6 = false).
  { intros id Hid. destruct (has_listener id s6) eqn:L; [|reflexivity].
    apply FL in L. destruct L as [L|L].
    - unfold has_listener in L. rewrite M3, Bl in L. discriminate.
    - exfalso. clear - Hid L. cbn in Hid, L.
      repeat match goal with
             | H : _ \/ _ |- _ => destruct H
             | H : False |- _ => destruct H
             | H : _ = id |- _ => subst id
             end; discriminate. }
  split; [apply (grows_ready s5 s6); [apply K6 | exact R5]|].
  split; [now rewrite F4, M4|].
  split; [apply NL; cbn; auto|]. split; [apply NL; cbn; auto|].
  split; [apply NL; cbn; auto|].
  split; [now rewrite F7, M13|]. split; [now rewrite F12, M25|].
  split; [now rewrite F3, M2|]. split; [now rewrite F1, M1|].
  split; intros; cbn [dispatch].
  - now rewrite F4, M4, Blo.
  - rewrite NL by (cbn; auto). reflexivity.
Qed.

(* ===================================================================== *)
(** ** The handlers of the page *)
(* ===================================================================== *)


(** *** The sliders *)




(** *** A click on the canvas *)

(** X6. A click on the canvas changes at most one body, and only a body
    of an object of [this.objects]: the ground and every other body, every
    mesh, the objects list, the scene, the world and the statistics are
    what they were, whether the handler returns or throws. When the ray
    hits the mesh of an object while the simulation runs, that object's body
    gets the impulse [((r0 - 0.5) * i, i, (r1 - 0.5) * i)], with
    [i = config.impulse], at its own position. *)
Theorem canvas_click_changes_one_body (x y : float) (rnd : nat -> float) (s : Sim) :
  let s' := state_of (onCanvasClick x y rnd s) in
  (exists bodies out,
     s' = with_heap (heap_setBodies (fun _ => bodies))
            (with_host (fun h => set_effects (effects h ++ out) h) s)) /\
  (forall h, (forall obj, In obj (objects s) -> o_body obj <> h) ->
             getBody h s' = getBody h s) /\
  (exists k, forall h, h <> k -> getBody h s' = getBody h s) /\
  (forall cam hit rest obj,
     isRunning s = true -> hasTHREE (host s) = true -> hasCANNON (host s) = true ->
     camera s = Some cam ->
     intersectObjects ((x / innerWidth (host s) * 2 - 1)%float,
                       (- (y / innerHeight (host s)) * 2 + 1)%float)
                      cam (objectMeshes s) = hit :: rest ->
     find (fun obj => Nat.eqb (o_mesh obj) hit) (objects s) = Some obj ->
     h_bodies (heap (host s'))
     = alter (fun b => applyImpulse
                         (mkVec3 ((rnd 0%nat - 0.5) * impulse (config s))
                                 (impulse (config s))
                                 ((rnd 1%nat - 0.5) * impulse (config s)))%float
                         (b_position b) b)
             (o_body obj) (h_bodies (heap (host s)))).
Proof.
  intros s'.
  assert (Id : s = with_heap (heap_setBodies (fun _ => h_bodies (heap (host s))))
                     (with_host (fun h => set_effects (effects h ++ []) h) s)).
  { destruct_sim s. unfold with_heap, with_host. cbn. now rewrite app_nil_r. }
  assert (Nop :
            (exists bodies out,
               s = with_heap (heap_setBodies (fun _ => bodies))
                     (with_host (fun h => set_effects (effects h ++ out) h) s)) /\
            (forall h, (forall obj, In obj (objects s) -> o_body obj <> h) ->
                       getBody h s = getBody h s) /\
            (exists k : nat, forall h, h <> k -> getBody h s = getBody h s)).
  { split; [eexists _, _; exact Id|]. split; [reflexivity|].
    exists 0%nat. reflexivity. }
  subst s'. unfold onCanvasClick.
  destruct (isRunning s) eqn:Ru; cbn [negb].
  2:{ cbn [state_of]. destruct Nop as (A & B & C).
      repeat split; auto. intros; discriminate. }
  unfold needTHREE. destruct (hasTHREE (host s)) eqn:Th; cbn [bind].
  2:{ cbn [state_of]. destruct Nop as (A & B & C).
      repeat split; auto. intros; discriminate. }
  destruct (camera s) as [cam|] eqn:Ca.
  2:{ cbn [state_of]. destruct Nop as (A & B & C).
      repeat split; auto. intros; discriminate. }
  destruct (intersectObjects _ cam (objectMeshes s)) as [|hit rest] eqn:Hit.
  { cbn [state_of]. destruct Nop as (A & B & C).
    repeat split; auto. intros ? ? ? ? _ _ _ [= <-] Hit'. rewrite Hit in Hit'.
    discriminate. }
  destruct (find _ (objects s)) as [obj|] eqn:Fi.
  2:{ cbn [state_of]. destruct Nop as (A & B & C).
      repeat split; auto. intros ? ? ? ? _ _ _ [= <-] Hit'. rewrite Hit in Hit'.
      injection Hit' as <- <-. intros Fi'. rewrite Fi in Fi'. discriminate. }
  unfold needCANNON. destruct (hasCANNON (host s)) eqn:Cn; cbn [bind].
  2:{ cbn [state_of]. destruct Nop as (A & B & C).
      repeat split; auto. intros; discriminate. }
  cbn [state_of]. cbv zeta. pose proof (find_some _ _ Fi) as [Hin _].
  split; [|split; [|split]].
  - eexists _, [_]. clear. destruct_sim s. reflexivity.
  - intros h Hh. specialize (Hh obj Hin). unfold getBody. clear - Hh.
    destruct_sim s. cbn. now apply lookup_alter_ne.
  - exists (o_body obj). intros h Hh. unfold getBody. clear - Hh.
    destruct_sim s. cbn. apply lookup_alter_ne. congruence.
  - intros cam' hit' rest' obj' _ _ _ [= <-] Hit'. rewrite Hit in Hit'.
    injection Hit' as <- <-. intros Fi'.
    assert (obj' = obj) by congruence.
    subst. clear. destruct_sim s. reflexivity.
Qed.


(** *** Resizing the window *)

(** X7. In every reachable state a resize of the window is handled without
    an exception. Once the set-up has installed the listener, the camera's
    aspect becomes [innerWidth / innerHeight] (whatever the two are: no
    guard against a height of 0) and the renderer takes the window's size;
    before that only the window's own size changes. Nothing else is
    touched. *)
Theorem resize_follows_the_window (w h : float) (s : Sim) :
  reachable s ->
  exists s' cam rn,
    dispatch (Resize w h) s = Ok s' /\
    s' = set_renderer rn
           (set_camera cam
              (with_host (fun o => set_innerHeight h (set_innerWidth w o)) s)) /\
    (has_listener "window" s = false -> cam = camera s /\ rn = renderer s) /\
    (has_listener "window" s = true ->
     exists c r,
       camera s = Some c /\ renderer s = Some r /\
       cam = Some (mkCamera (cam_fov c) (w / h) (cam_near c) (cam_far c)
                            (cam_position c) (cam_target c)) /\
       rn = Some (mkRenderer w h (r_shadowMap r))).
Proof.
  intros Re. apply reachable_Inv in Re. cbn [dispatch]. cbv zeta.
  destruct (has_listener "window" s) eqn:L.
  - pose proof (listener_ready _ _ Re L) as (_ & [c Hc] & [r Hr] & _).
    unfold onWindowResize. cbv zeta.
    replace (camera (with_host (fun o => set_innerHeight h (set_innerWidth w o)) s))
      with (Some c) by (rewrite <- Hc; clear; destruct_sim s; reflexivity).
    eexists _, _, _. split; [|split; [|split]].
    + clear L Re. destruct_sim s. cbn in Hr. subst. reflexivity.
    + clear L Re. destruct_sim s. cbn in *. subst. reflexivity.
    + discriminate.
    + intros _. exists c, r. clear L Re. destruct_sim s. cbn in *. subst. repeat split.
  - exists (with_host (fun o => set_innerHeight h (set_innerWidth w o)) s),
      (camera s), (renderer s).
    split; [reflexivity|]. split; [destruct_sim s; reflexivity|].
    split; [auto | discriminate].
Qed.


(** *** The panels *)

Lemma class_contains_remove c d e :
  class_contains c (class_remove d e)
  = class_contains c e && negb (String.eqb d c).
Proof.
  unfold class_contains, class_remove, el_setClasses. cbn.
  induction (classList e) as [|x l IH]; [reflexivity|]. cbn.
  destruct (String.eqb d x) eqn:Ex; cbn.
  - apply String.eqb_eq in Ex. subst x. rewrite IH.
    destruct (String.eqb c d) eqn:Ec; cbn.
    + apply String.eqb_eq in Ec. subst. rewrite String.eqb_refl. cbn.
      now rewrite andb_false_r.
    + reflexivity.
  - rewrite IH. destruct (String.eqb c x) eqn:Ec; cbn; [|reflexivity].
    apply String.eqb_eq in Ec. subst x. now rewrite Ex.
Qed.

Lemma class_contains_add c d e :
  class_contains c (class_add d e) = class_contains c e || String.eqb c d.
Proof.
  unfold class_add. destruct (class_contains d e) eqn:E.
  - destruct (String.eqb c d) eqn:Ec; [|now rewrite orb_false_r].
    apply String.eqb_eq in Ec. subst. now rewrite E.
  - unfold class_contains, el_setClasses. cbn. rewrite existsb_app. cbn.
    now rewrite orb_false_r.
Qed.

Lemma class_contains_toggle c d e :
  class_contains c (class_toggle d e)
  = if String.eqb c d then negb (class_contains d e) else class_contains c e.
Proof.
  unfold class_toggle. destruct (class_contains d e) eqn:E.
  - rewrite class_contains_remove. rewrite (String.eqb_sym d c).
    destruct (String.eqb c d) eqn:Ec; cbn; [now rewrite andb_false_r | now rewrite andb_true_r].
  - rewrite class_contains_add.
    destruct (String.eqb c d) eqn:Ec; cbn; [now rewrite orb_true_r | now rewrite orb_false_r].
Qed.

Lemma class_toggle_fields c e :
  textContent (class_toggle c e) = textContent e /\
  el_value (class_toggle c e) = el_value e /\
  el_display (class_toggle c e) = el_display e.
Proof.
  unfold class_toggle, class_remove, class_add.
  destruct (class_contains c e); cbn; repeat split.
Qed.

(** X8. [togglePanel] flips the class "collapsed" of the panel and
    nothing else of it. The
    label is written to the element whose id is ['toggle'] followed by
    the panel's id without ['Panel'], in lower case as the panel's id has
    it: a click on "toggleControl" or "toggleAnalysis" therefore never
    changes the element that was clicked. Without the panel nothing
    happens. *)
Theorem toggle_flips_collapsed (btn panelId lowerId : string) (rnd : nat -> float) (s : Sim) :
  In (btn, panelId, lowerId)
     [("toggleControl", "controlPanel", "togglecontrol");
      ("toggleAnalysis", "analysisPanel", "toggleanalysis")] ->
  has_listener btn s = true ->
  exists s',
    dispatch (Click btn rnd) s = Ok s' /\
    (exists doc, s' = with_host (set_document doc) s) /\
    getElementById btn s' = getElementById btn s /\
    (forall id, id <> panelId -> id <> lowerId ->
                getElementById id s' = getElementById id s) /\
    (getElementById panelId s = None -> s' = s) /\
    (forall panel,
       getElementById panelId s = Some panel ->
       exists panel',
         getElementById panelId s' = Some panel' /\
         class_contains "collapsed" panel' = negb (class_contains "collapsed" panel) /\
         (forall c, c <> "collapsed" -> class_contains c panel' = class_contains c panel) /\
         textContent panel' = textContent panel /\ el_value panel' = el_value panel /\
         el_display panel' = el_display panel /\
         (forall b, getElementById lowerId s = Some b ->
            getElementById lowerId s'
            = Some (el_setText (Lit (if class_contains "collapsed" panel then "−" else "+"))
                               b))).
Proof.
  intros Hin L.
  assert (E : dispatch (Click btn rnd) s = Ok (togglePanel panelId lowerId s) /\
              btn <> panelId /\ btn <> lowerId /\ panelId <> lowerId).
  { cbn [dispatch]. rewrite L.
    destruct Hin as [[= <- <- <-]|[[= <- <- <-]|[]]]; repeat split; discriminate. }
  destruct E as (E & N1 & N2 & N3). clear Hin L.
  exists (togglePanel panelId lowerId s). split; [exact E|]. clear E.
  unfold togglePanel.
  destruct (getElementById panelId s) as [panel|] eqn:Ep.
  2:{ split; [exists (document (host s)); destruct_sim s; reflexivity|].
      repeat split; auto. intros ? [=]. }
  cbv zeta.
  set (s1 := with_element panelId (class_toggle "collapsed") s).
  assert (G1 : forall id, getElementById id s1
                          = if decide (panelId = id)
                            then class_toggle "collapsed" <$> getElementById id s
                            else getElementById id s).
  { intros id. unfold s1, getElementById, with_element. destruct_sim s. cbn.
    destruct (decide (panelId = id)) as [->|Ne];
      [apply lookup_alter_eq | now apply lookup_alter_ne]. }
  pose proof (G1 panelId) as Gp. rewrite decide_True in Gp by reflexivity.
  rewrite Ep in Gp. cbn in Gp. rewrite Gp.
  pose proof (G1 lowerId) as Gl. rewrite decide_False in Gl by exact N3.
  pose proof (class_contains_toggle "collapsed" "collapsed" panel) as Ct.
  rewrite String.eqb_refl in Ct.
  destruct (class_toggle_fields "collapsed" panel) as (Tf1 & Tf2 & Tf3).
  assert (Oth : forall c, c <> "collapsed" ->
            class_contains c (class_toggle "collapsed" panel) = class_contains c panel).
  { intros c Hc. rewrite class_contains_toggle.
    destruct (String.eqb c "collapsed") eqn:Ec; [|reflexivity].
    apply String.eqb_eq in Ec. contradiction. }
  destruct (getElementById lowerId s1) as [b1|] eqn:Eb.
  - set (s2 := with_element lowerId _ s1).
    assert (G2 : forall id, getElementById id s2
                            = if decide (lowerId = id)
                              then el_setText (Lit (if class_contains "collapsed"
                                                         (class_toggle "collapsed" panel)
                                                    then "+" else "−"))
                                     <$> getElementById id s1
                              else getElementById id s1).
    { intros id. unfold s2, getElementById, with_element. clearbody s1. clear.
      destruct_sim s1. cbn.
      destruct (decide (lowerId = id)) as [->|Ne];
        [apply lookup_alter_eq | now apply lookup_alter_ne]. }
    split; [|split; [|split; [|split]]].
    + eexists. unfold s2, s1, with_element. clear. destruct_sim s. reflexivity.
    + rewrite G2, decide_False by congruence. rewrite G1, decide_False by congruence.
      reflexivity.
    + intros id Hp Hl. rewrite G2, decide_False by congruence.
      rewrite G1, decide_False by congruence. reflexivity.
    + intros [=].
    + intros p [= <-]. exists (class_toggle "collapsed" panel).
      split; [now rewrite G2, decide_False by congruence|].
      repeat split; auto.
      intros b Hb. rewrite G2, decide_True by reflexivity. rewrite Eb. cbn.
      rewrite Hb in Gl. injection Gl as ->. rewrite Ct.
      now destruct (class_contains "collapsed" panel).
  - split; [|split; [|split; [|split]]].
    + eexists. unfold s1, with_element. clear. destruct_sim s. reflexivity.
    + rewrite G1, decide_False by congruence. reflexivity.
    + intros id Hp Hl. rewrite G1, decide_False by congruence. reflexivity.
    + intros [=].
    + intros p [= <-]. exists (class_toggle "collapsed" panel).
      split; [exact Gp|]. repeat split; auto.
      intros b Hb. rewrite Hb in Gl. discriminate.
Qed.


(** *** The robot's button *)

(** What [toggleRobot] does to the button when the robot becomes [a]. *)
Lemma toggleRobot_shape s :
  toggleRobot s
  = with_element "activateRobot" (robotButton (negb (isActive (robot s))))
      (with_robot (set_isActive (negb (isActive (robot s)))) s).
Proof.
  unfold toggleRobot. cbv zeta.
  set (s1 := with_robot _ s).
  assert (Ea : isActive (robot s1) = negb (isActive (robot s)))
    by (unfold s1; destruct_sim s; reflexivity).
  rewrite Ea. clearbody s1.
  destruct (getElementById "activateRobot" s1) eqn:E; [reflexivity|].
  unfold with_element, getElementById, with_host in *. destruct_sim s1.
  sim_red. sim_red_in E. now rewrite alter_absent.
Qed.

Lemma robotButton_twice a b el :
  let el' := robotButton a (robotButton b el) in
  textContent el' = Lit (if a then "Desactivar Robot" else "Activar Robot") /\
  el_value el' = el_value el /\ el_display el' = el_display el /\
  forall c, class_contains c el' = class_contains c el.
Proof.
  cbv zeta. unfold robotButton.
  repeat match goal with
  | |- context [class_toggle ?c ?e] =>
      lazymatch goal with
      | _ : textContent (class_toggle c e) = _ /\ _ |- _ => fail
      | _ => pose proof (class_toggle_fields c e)
      end
  end.
  repeat match goal with H : _ /\ _ |- _ => destruct H end.
  split; [|split; [|split]].
  - etransitivity; [eassumption|]. etransitivity; [eassumption|]. reflexivity.
  - etransitivity; [eassumption|]. etransitivity; [eassumption|]. cbn.
    etransitivity; [eassumption|]. etransitivity; [eassumption|]. reflexivity.
  - etransitivity; [eassumption|]. etransitivity; [eassumption|]. cbn.
    etransitivity; [eassumption|]. etransitivity; [eassumption|]. reflexivity.
  - intros c. rewrite !class_contains_toggle.
    change (class_contains ?x (el_setText ?t ?e)) with (class_contains x e).
    rewrite !class_contains_toggle.
    change (class_contains ?x (el_setText ?t ?e)) with (class_contains x e).
    destruct (String.eqb c "btn-secondary") eqn:E1;
      destruct (String.eqb c "btn-primary") eqn:E2; cbn;
      try (apply String.eqb_eq in E1; subst c);
      try (apply String.eqb_eq in E2; subst c);
      try discriminate; cbn;
      rewrite ?negb_involutive; reflexivity.
Qed.

(** X14. Two clicks on "activateRobot" give the robot back as it was: the
    flag [isActive] is flipped by the first click and restored by the
    second, and nothing but the page changes. On the page only the button
    changes: it has the classes it had (each of "btn-primary" and
    "btn-secondary" was toggled twice), and its label is the one of the
    robot's state, whatever it was before. *)
Theorem robot_button_round_trip (rnd rnd' : nat -> float) (s : Sim) :
  has_listener "activateRobot" s = true ->
  exists s1 s2,
    dispatch (Click "activateRobot" rnd) s = Ok s1 /\
    dispatch (Click "activateRobot" rnd') s1 = Ok s2 /\
    isActive (robot s1) = negb (isActive (robot s)) /\
    (exists doc, s2 = with_host (set_document doc) s) /\
    (forall id, id <> "activateRobot" -> getElementById id s2 = getElementById id s) /\
    (getElementById "activateRobot" s = None -> s2 = s) /\
    (forall el,
       getElementById "activateRobot" s = Some el ->
       exists el2,
         getElementById "activateRobot" s2 = Some el2 /\
         textContent el2 = Lit (if isActive (robot s) then "Desactivar Robot"
                                else "Activar Robot") /\
         el_value el2 = el_value el /\ el_display el2 = el_display el /\
         forall c, class_contains c el2 = class_contains c el).
Proof.
  intros L.
  assert (L1 : has_listener "activateRobot" (toggleRobot s) = true).
  { rewrite toggleRobot_shape. unfold has_listener, with_element in *.
    destruct_sim s. exact L. }
  exists (toggleRobot s), (toggleRobot (toggleRobot s)).
  split; [cbn [dispatch]; now rewrite L|].
  split; [cbn [dispatch]; now rewrite L1|].
  clear L L1.
  rewrite (toggleRobot_shape (toggleRobot s)).
  rewrite !toggleRobot_shape.
  set (a := isActive (robot s)).
  assert (Ea : isActive (robot (with_element "activateRobot" (robotButton (negb a))
                                  (with_robot (set_isActive (negb a)) s))) = negb a)
    by (destruct_sim s; reflexivity).
  rewrite Ea, negb_involutive.
  split; [reflexivity|].
  assert (E2 : with_element "activateRobot" (robotButton a)
                 (with_robot (set_isActive a)
                    (with_element "activateRobot" (robotButton (negb a))
                       (with_robot (set_isActive (negb a)) s)))
               = with_host (set_document
                              (alter (robotButton a) "activateRobot"
                                 (alter (robotButton (negb a)) "activateRobot"
                                    (document (host s))))) s).
  { unfold a. clear. unfold with_element, with_robot. destruct_sim s. reflexivity. }
  rewrite E2. clear E2 Ea.
  set (doc := alter _ _ _).
  assert (G : forall id, getElementById id (with_host (set_document doc) s) = doc !! id)
    by (intros id; clear; destruct_sim s; reflexivity).
  split; [now exists doc|].
  split; [|split].
  - intros id Hid. rewrite G. unfold doc.
    rewrite !lookup_alter_ne by congruence. reflexivity.
  - intros Hn. unfold getElementById in Hn. unfold doc.
    rewrite !alter_absent by (rewrite ?alter_absent; assumption).
    clear. destruct_sim s. reflexivity.
  - intros el He. unfold getElementById in He.
    exists (robotButton a (robotButton (negb a) el)).
    split.
    + rewrite G. unfold doc. rewrite !lookup_alter_eq, He. reflexivity.
    + apply robotButton_twice.
Qed.

(* ===================================================================== *)
(** ** Frames and the texts of the page *)
(* ===================================================================== *)


(** *** Frames *)

Lemma physical_refl s : physical s s.
Proof. unfold physical. repeat split. Qed.

Lemma physical_trans s1 s2 s3 : physical s1 s2 -> physical s2 s3 -> physical s1 s3.
Proof.
  unfold physical.
  intros (A1 & A2 & A3 & A4 & A5 & A6 & A7 & A8 & A9 & A10 & A11 & A12 & A13 & A14 & A15
          & A16 & A17 & A18 & A19 & A20 & A21 & A22)
         (B1 & B2 & B3 & B4 & B5 & B6 & B7 & B8 & B9 & B10 & B11 & B12 & B13 & B14 & B15
          & B16 & B17 & B18 & B19 & B20 & B21 & B22).
  repeat split; congruence.
Qed.

Lemma physical_after (f : Sim -> Sim) :
  (forall x, physical x (f x)) -> forall s s1, physical s s1 -> physical s (f s1).
Proof. intros H s s1 G. eapply physical_trans; [exact G | apply H]. Qed.

Lemma physical_bind s r k :
  physical s (state_of r) -> (forall s1, physical s s1 -> physical s (state_of (k s1))) ->
  physical s (state_of (r >>= k)).
Proof. destruct r; cbn; auto. Qed.

Lemma physical_fold {A} (f : Sim -> A -> Sim) (l : list A) :
  (forall a s s1, physical s s1 -> physical s (f s1 a)) ->
  forall s s1, physical s s1 -> physical s (fold_left f l s1).
Proof.
  intros Hf. induction l as [|a l IH]; intros s s1 K; cbn.
  - exact K.
  - apply IH. now apply Hf.
Qed.

Ltac physical_prim :=
  let x := fresh "x" in
  intro x; destruct_sim x; unfold physical, getBody; sim_red; repeat split; auto.

Ltac physical_tac :=
  repeat first
    [ assumption
    | apply physical_refl
    | progress cbv zeta
    | progress cbn [state_of]
    | match goal with
      | |- physical _ (state_of (_ >>= _)) => apply physical_bind; [|intros]
      | |- physical _ (state_of (if ?c then _ else _)) => destruct c
      | |- physical _ (state_of (match ?x with _ => _ end)) => destruct x
      | |- physical _ (match ?x with _ => _ end) => destruct x
      | |- physical ?s (?f ?s1) => apply (physical_after f); [solve [physical_prim]|]
      end ].

Lemma physical_updateRobot s s1 : physical s s1 -> physical s (state_of (updateRobot s1)).
Proof. intros K. unfold updateRobot. physical_tac. Qed.

Lemma physical_copyTransform obj s s1 : physical s s1 -> physical s (copyTransform obj s1).
Proof. intros K. unfold copyTransform. physical_tac. Qed.

Lemma physical_updatePhysics s s1 : physical s s1 -> physical s (state_of (updatePhysics s1)).
Proof.
  intros K. unfold updatePhysics. destruct (world s1); [|exact K].
  apply physical_updateRobot. apply physical_fold.
  - intros. now apply physical_copyTransform.
  - unfold emit. physical_tac.
Qed.

(** What [updateStatistics] changes. *)
Lemma updateStatistics_shape s : exists st, updateStatistics s = set_stats st s.
Proof.
  unfold updateStatistics. destruct (objects s).
  - exists (stats s). destruct_sim s. reflexivity.
  - destruct (fold_left _ _ _) as [[a b] c]. eexists. destruct_sim s. reflexivity.
Qed.

(** The end of every frame: render, measure, refresh the page, count. *)
Lemma frame_tail t0 t1 s :
  is_Some (renderer s) ->
  exists doc st,
    retexted (document (host s)) doc /\
    match renderer s with
    | None => Throw (TypeError "Cannot read properties of null (reading 'render')") s
    | Some _ =>
        let s := emit Render s in
        let s := set_deltaTime ((t1 - t0) / 1000)%float s in
        let s := updateUI s in
        Ok (set_frameCount (frameCount s + 1) s)
    end
    = Ok (set_frameCount (frameCount s + 1)
            (set_stats st
               (with_host (set_document doc)
                  (set_deltaTime ((t1 - t0) / 1000)%float (emit Render s))))).
Proof.
  intros [r Hn]. rewrite Hn. cbv zeta.
  set (x := set_deltaTime ((t1 - t0) / 1000)%float (emit Render s)).
  destruct (repaged_updateUI x) as (doc & R & E).
  destruct (updateStatistics_shape x) as (st & Es). rewrite Es in R, E.
  exists doc, st. split.
  - unfold x in R. clear - R. destruct_sim s. exact R.
  - rewrite E. f_equal; unfold x; clear; destruct_sim s; reflexivity.
Qed.

(** X9. A frame while the simulation is paused (in a reachable state
    with the loop running) renders, stores the measured duration in
    [deltaTime], recomputes the statistics, refreshes the texts of the page
    and counts the frame. It steps no physics: every body, mesh and arrow,
    the objects, the scene, the world and [simulationTime] are what they
    were. *)
Theorem paused_frame_only_renders (t0 t1 : float) (s : Sim) :
  reachable s -> looping (host s) = true -> isRunning s = false ->
  exists s' doc st,
    dispatch (AnimationFrame t0 t1) s = Ok s' /\
    retexted (document (host s)) doc /\
    s' = set_frameCount (frameCount s + 1)
           (set_stats st
              (with_host (set_document doc)
                 (set_deltaTime ((t1 - t0) / 1000)%float (emit Render s)))) /\
    st = stats (updateStatistics s) /\
    heap (host s') = heap (host s) /\ objects s' = objects s /\
    vectors s' = vectors s /\ scene s' = scene s /\ world s' = world s /\
    simulationTime s' = simulationTime s /\
    effects (host s') = (effects (host s) ++ [Render])%list /\
    frameCount s' = frameCount s + 1 /\ deltaTime s' = ((t1 - t0) / 1000)%float.
Proof.
  intros Re Lo Ru. apply reachable_Inv in Re. destruct Re as [A W].
  assert (R : ready s) by (apply A; right; now left).
  destruct R as (_ & _ & Rn & _).
  destruct (animate_paused t0 t1 s Ru Rn) as (doc & Rd & E).
  destruct (updateStatistics_shape (set_deltaTime ((t1 - t0) / 1000)%float (emit Render s)))
    as (st & Es).
  cbn [dispatch]. rewrite Lo, E, Es.
  eexists _, doc, st. split; [reflexivity|]. split; [exact Rd|].
  split; [clear; destruct_sim s; reflexivity|].
  split.
  { assert (S1 : stats (updateStatistics
                          (set_deltaTime ((t1 - t0) / 1000)%float (emit Render s)))
                 = stats (updateStatistics s)).
    { clear. unfold updateStatistics.
      change (objects (set_deltaTime ((t1 - t0) / 1000)%float (emit Render s)))
        with (objects s).
      assert (EF : fold_left (accumulate
                      (gravity (config (set_deltaTime ((t1 - t0) / 1000)%float
                                          (emit Render s))))
                      (set_deltaTime ((t1 - t0) / 1000)%float (emit Render s)))
                     (objects s) (0, 0, 0)%float
                   = fold_left (accumulate (gravity (config s)) s) (objects s)
                       (0, 0, 0)%float).
      { destruct_sim s. reflexivity. }
      rewrite EF. clear EF. destruct (objects s); [destruct_sim s; reflexivity|].
      destruct (fold_left _ _ _) as [[a b] c]. destruct_sim s. reflexivity. }
    rewrite <- S1, Es. clear. destruct_sim s. reflexivity. }
  clear. destruct_sim s. repeat split.
Qed.


Lemma arrows_of_tail ty n st doc dt x :
  arrowsOf ty (set_frameCount n (set_stats st (with_host (set_document doc)
                 (set_deltaTime dt (emit Render x)))))
  = arrowsOf ty x /\
  arrowsFor ty (set_frameCount n (set_stats st (with_host (set_document doc)
                  (set_deltaTime dt (emit Render x)))))
  = arrowsFor ty x.
Proof. unfold arrowsOf, arrowsFor, arrowFor, getArrow, getBody. destruct_sim x. split; reflexivity. Qed.

(** X10. A frame of the running simulation rebuilds the arrows only when
    [frameCount] (which counts paused frames too) is a multiple of 10:
    then the arrows in [this.vectors] are exactly those the two flags and
    the bodies after the step call for. On the other nine frames out of ten
    [this.vectors], the arrows and the scene are left as they were, so the
    arrows lag behind the bodies. *)
Theorem arrows_follow_every_tenth_frame (t0 t1 : float) (s : Sim) :
  reachable s -> looping (host s) = true -> isRunning s = true ->
  exists s',
    dispatch (AnimationFrame t0 t1) s = Ok s' /\
    objects s' = objects s /\
    ((Z.rem (frameCount s) 10 =? 0) = true ->
     forall ty, arrowsOf ty s' = arrowsFor ty s') /\
    ((Z.rem (frameCount s) 10 =? 0) = false ->
     vectors s' = vectors s /\ scene s' = scene s /\
     h_arrows (heap (host s')) = h_arrows (heap (host s))).
Proof.
  intros Re Lo Ru. apply reachable_Inv in Re. destruct Re as [A W].
  assert (R : ready s) by (apply A; right; now left).
  pose proof R as (Hs & _ & Rn & [w Hw] & Ba & Th & _).
  destruct (updatePhysics_ok s w Hw (fun _ => Ba)) as (s1 & E1 & _).
  pose proof (physical_updatePhysics s s (physical_refl s)) as Ph.
  rewrite E1 in Ph. cbn [state_of] in Ph.
  destruct Ph as (P1 & P2 & P3 & P4 & P5 & P6 & P7 & P8 & P9 & P10 & P11 & P12 & P13 & P14
                  & P15 & P16 & P17 & P18 & P19 & P20 & P21 & P22).
  cbn [dispatch]. rewrite Lo. unfold animate. rewrite Ru, E1. cbn [bind]. cbv zeta.
  set (s1' := set_simulationTime (simulationTime s1 + deltaTime s1)%float s1).
  assert (F1 : scene s1' = scene s /\ renderer s1' = renderer s /\
               hasTHREE (host s1') = hasTHREE (host s) /\ frameCount s1' = frameCount s /\
               objects s1' = objects s /\ vectors s1' = vectors s /\
               h_arrows (heap (host s1')) = h_arrows (heap (host s))).
  { unfold s1'. rewrite <- P1, <- P4, <- P21, <- P10, <- P5, <- P6, <- P15. clear.
    destruct_sim s1. repeat split. }
  destruct F1 as (G1 & G2 & G3 & G4 & G5 & G6 & G7). rewrite G4.
  destruct (Z.rem (frameCount s) 10 =? 0) eqn:Ten.
  - destruct (updateVectors_ok s1') as (s2 & E2 & O2 & _ & _ & H2).
    { now rewrite G1. } { now rewrite G3. }
    rewrite E2. cbn [bind].
    pose proof (only_arrows_fields _ _ O2)
      as (O21 & _ & _ & _ & _ & _ & _ & O28 & _).
    destruct (frame_tail t0 t1 s2) as (doc & st & Rd & Et).
    { rewrite O28, G2. exact Rn. }
    cbv zeta in Et. rewrite Et. eexists. split; [reflexivity|].
    split; [rewrite <- G5, <- O21; clear; destruct_sim s2; reflexivity|].
    split; [|discriminate].
    intros _ ty. destruct (arrows_of_tail ty (frameCount s2 + 1) st doc
                             ((t1 - t0) / 1000)%float s2) as [-> ->].
    rewrite H2. unfold arrowsFor. rewrite O21. apply flat_map_ext. intros o.
    symmetry. now apply arrowFor_only_arrows.
  - cbn [bind].
    destruct (frame_tail t0 t1 s1') as (doc & st & Rd & Et).
    { rewrite G2. exact Rn. }
    cbv zeta in Et. rewrite Et. eexists. split; [reflexivity|].
    split; [rewrite <- G5; clear; destruct_sim s1'; reflexivity|].
    split; [discriminate|]. intros _.
    rewrite <- G6, <- G1, <- G7. clear. destruct_sim s1'. repeat split.
Qed.


(** *** The analysis panel *)

Lemma getElementById_setText id k t s :
  getElementById id (setTextIfPresent k t s)
  = if decide (k = id) then el_setText t <$> getElementById id s else getElementById id s.
Proof.
  unfold setTextIfPresent. destruct (getElementById k s) as [e|] eqn:E.
  - unfold getElementById, with_element in *. destruct_sim s. cbn in *.
    destruct (decide (k = id)) as [->|Ne];
      [apply lookup_alter_eq | now apply lookup_alter_ne].
  - destruct (decide (k = id)) as [->|Ne]; [|reflexivity]. now rewrite E.
Qed.

Lemma fold_setText_lookup l s :
  List.NoDup (map fst l) ->
  (forall id v, In (id, v) l ->
     getElementById id (fold_left (fun s '(id, value) => setTextIfPresent id value s) l s)
     = el_setText v <$> getElementById id s) /\
  (forall id, ~ In id (map fst l) ->
     getElementById id (fold_left (fun s '(id, value) => setTextIfPresent id value s) l s)
     = getElementById id s).
Proof.
  revert s. induction l as [|[k t] l IH]; intros s N; cbn [fold_left map fst].
  - split; [intros ? ? [] | reflexivity].
  - inversion N as [|? ? Nk Nl]; subst.
    destruct (IH (setTextIfPresent k t s) Nl) as [IH1 IH2]. split.
    + intros id v [[= <- <-]|Hin].
      * rewrite IH2 by exact Nk. rewrite getElementById_setText.
        now rewrite decide_True.
      * rewrite (IH1 id v Hin), getElementById_setText.
        rewrite decide_False; [reflexivity|]. intros ->. apply Nk.
        apply in_map_iff. exists (id, v). auto.
    + intros id Hid. rewrite IH2 by (intros H; apply Hid; now right).
      rewrite getElementById_setText, decide_False; [reflexivity|].
      intros ->. apply Hid. now left.
Qed.

(** X12. [updateAnalysisDisplay] writes each of the eleven texts to the
    element with its id when the page has it, and skips it when not: an
    element that is there shows the current statistic afterwards, no
    element is created, and nothing but these texts changes. *)
Theorem analysis_panel_shows_the_statistics (s : Sim) :
  let s' := updateAnalysisDisplay s in
  (forall id v el,
     In (id, v) (analysisTexts (stats s)) -> getElementById id s = Some el ->
     getElementById id s' = Some (el_setText v el)) /\
  (forall id, getElementById id s = None -> getElementById id s' = None) /\
  (forall id, ~ In id (map fst (analysisTexts (stats s))) ->
              getElementById id s' = getElementById id s) /\
  (exists doc, s' = with_host (set_document doc) s).
Proof.
  intros s'.
  assert (N : List.NoDup (map fst (analysisTexts (stats s)))).
  { cbn. repeat (constructor; [cbn; intuition discriminate|]). constructor. }
  destruct (fold_setText_lookup (analysisTexts (stats s)) s N) as [H1 H2].
  change (fold_left _ (analysisTexts (stats s)) s) with s' in H1, H2.
  split; [|split; [|split]].
  - intros id v el Hin He. rewrite (H1 id v Hin), He. reflexivity.
  - intros id He.
    destruct (in_dec string_dec id (map fst (analysisTexts (stats s)))) as [Hin|Hn].
    + apply in_map_iff in Hin. destruct Hin as ([k v] & <- & Hin).
      cbn [fst] in *. now rewrite (H1 k v Hin), He.
    + now rewrite H2.
  - exact H2.
  - destruct (repaged_updateAnalysisDisplay s) as (doc & _ & E). now exists doc.
Qed.

(* ===================================================================== *)
(** ** The scene and the world hold the objects and the arrows, no more *)
(* ===================================================================== *)

(** *** What the handlers leave in the scene and in the world *)

Lemma settled_refl s : settled s s.
Proof. unfold settled. auto. Qed.

Lemma settled_trans s1 s2 s3 : settled s1 s2 -> settled s2 s3 -> settled s1 s3.
Proof. unfold settled. intros (A1 & A2 & A3 & A4) (B1 & B2 & B3 & B4). repeat split; congruence. Qed.

Lemma settled_after (f : Sim -> Sim) :
  (forall x, settled x (f x)) -> forall s s1, settled s s1 -> settled s (f s1).
Proof. intros H s s1 G. eapply settled_trans; [exact G | apply H]. Qed.

Lemma settled_bind s r k :
  settled s (state_of r) -> (forall s1, settled s s1 -> settled s (state_of (k s1))) ->
  settled s (state_of (r >>= k)).
Proof. destruct r; cbn; auto. Qed.

Lemma settled_forEach {A} (f : A -> Sim -> res) (l : list A) :
  (forall a s s1, settled s s1 -> settled s (state_of (f a s1))) ->
  forall s s1, settled s s1 -> settled s (state_of (forEach f l s1)).
Proof.
  intros Hf. induction l as [|a l IH]; intros s s1 K; cbn.
  - exact K.
  - apply settled_bind; [now apply Hf | intros; now apply IH].
Qed.

Lemma settled_fold {A} (f : Sim -> A -> Sim) (l : list A) :
  (forall a s s1, settled s s1 -> settled s (f s1 a)) ->
  forall s s1, settled s s1 -> settled s (fold_left f l s1).
Proof.
  intros Hf. induction l as [|a l IH]; intros s s1 K; cbn.
  - exact K.
  - apply IH. now apply Hf.
Qed.

Ltac settled_prim :=
  let x := fresh "x" in
  intro x; destruct_sim x; unfold settled; repeat split; reflexivity.

Ltac settled_tac :=
  repeat first
    [ assumption
    | apply settled_refl
    | progress cbv zeta
    | progress cbn [state_of]
    | match goal with
      | |- settled _ (state_of (_ >>= _)) => apply settled_bind; [|intros]
      | |- settled _ (state_of (if ?c then _ else _)) => destruct c
      | |- settled _ (if ?c then _ else _) => destruct c
      | |- settled _ (state_of (match ?x with _ => _ end)) => destruct x
      | |- settled _ (match ?x with _ => _ end) => destruct x
      | |- settled ?s (?f ?s1) => apply (settled_after f); [solve [settled_prim]|]
      end ].

Lemma settled_updateRobot s s1 : settled s s1 -> settled s (state_of (updateRobot s1)).
Proof. intros K. unfold updateRobot. settled_tac. Qed.

Lemma settled_copyTransform obj s s1 : settled s s1 -> settled s (copyTransform obj s1).
Proof. intros K. unfold copyTransform. settled_tac. Qed.

Lemma settled_updatePhysics s s1 : settled s s1 -> settled s (state_of (updatePhysics s1)).
Proof.
  intros K. unfold updatePhysics. destruct (world s1); [|exact K].
  apply settled_updateRobot. apply settled_fold.
  - intros. now apply settled_copyTransform.
  - unfold emit. settled_tac.
Qed.

Lemma settled_needTHREE s s1 : settled s s1 -> settled s (state_of (needTHREE s1)).
Proof. intros K. unfold needTHREE. settled_tac. Qed.

Lemma settled_needCANNON s s1 : settled s s1 -> settled s (state_of (needCANNON s1)).
Proof. intros K. unfold needCANNON. settled_tac. Qed.

Lemma settled_setText id t s s1 : settled s s1 -> settled s (setTextIfPresent id t s1).
Proof. intros K. unfold setTextIfPresent. settled_tac. Qed.

Lemma settled_updateAnalysisDisplay s s1 : settled s s1 -> settled s (updateAnalysisDisplay s1).
Proof.
  intros K. unfold updateAnalysisDisplay. apply settled_fold; [|exact K].
  intros [id v] s2 s3 K3. now apply settled_setText.
Qed.

Lemma settled_updateStatistics s s1 : settled s s1 -> settled s (updateStatistics s1).
Proof.
  intros K. unfold updateStatistics. destruct (objects s1); [exact K|].
  destruct (fold_left _ _ _) as [[a b] c]. settled_tac.
Qed.

Lemma settled_updateUI s s1 : settled s s1 -> settled s (updateUI s1).
Proof.
  intros K. unfold updateUI. cbv zeta.
  apply settled_updateAnalysisDisplay, settled_updateStatistics.
  repeat apply settled_setText. exact K.
Qed.

Lemma settled_play s s1 : settled s s1 -> settled s (play s1).
Proof. intros K. unfold play. settled_tac. Qed.

Lemma settled_pause s s1 : settled s s1 -> settled s (pause s1).
Proof. intros K. unfold pause. settled_tac. Qed.

Lemma settled_resetRobot s s1 : settled s s1 -> settled s (resetRobot s1).
Proof. intros K. unfold resetRobot. settled_tac. Qed.

Lemma settled_toggleRobot s s1 : settled s s1 -> settled s (toggleRobot s1).
Proof. intros K. unfold toggleRobot. settled_tac. Qed.

Lemma settled_step s s1 : settled s s1 -> settled s (state_of (step s1)).
Proof.
  intros K. unfold step. destruct (isRunning s1); cbn [negb]; [exact K|].
  apply settled_bind; [now apply settled_updatePhysics | intros; settled_tac].
Qed.

Lemma settled_optimizeLayout rnd s s1 : settled s s1 -> settled s (optimizeLayout rnd s1).
Proof.
  intros K. unfold optimizeLayout. cbv zeta. apply settled_updateAnalysisDisplay. settled_tac.
Qed.

Lemma settled_optimizeTrajectory rnd s s1 : settled s s1 -> settled s (optimizeTrajectory rnd s1).
Proof.
  intros K. unfold optimizeTrajectory. cbv zeta. apply settled_updateAnalysisDisplay. settled_tac.
Qed.

Lemma settled_togglePanel a b s s1 : settled s s1 -> settled s (togglePanel a b s1).
Proof. intros K. unfold togglePanel. settled_tac. Qed.

Lemma settled_onWindowResize s s1 : settled s s1 -> settled s (state_of (onWindowResize s1)).
Proof. intros K. unfold onWindowResize. settled_tac. Qed.

Lemma settled_onCanvasClick x y rnd s s1 :
  settled s s1 -> settled s (state_of (onCanvasClick x y rnd s1)).
Proof.
  intros K. unfold onCanvasClick. destruct (isRunning s1); cbn [negb]; [|exact K].
  apply settled_bind; [now apply settled_needTHREE|].
  intros s2 K2. cbv zeta. destruct (camera s2); [|exact K2].
  destruct (intersectObjects _ _ _); [exact K2|].
  destruct (find _ _); [|exact K2].
  apply settled_bind; [now apply settled_needCANNON|]. intros. settled_tac.
Qed.

Lemma settled_onSliderInput o p v s s1 : settled s s1 -> settled s (onSliderInput o p v s1).
Proof.
  intros K. eapply settled_trans; [exact K|]. clear.
  unfold onSliderInput, with_element, settled. destruct_sim s1.
  destruct p; cbn; try (repeat split; reflexivity).
  match goal with |- context [match ?w with Some _ => _ | None => _ end] => destruct w end;
    repeat split; reflexivity.
Qed.

Lemma settled_onInput id v s s1 : settled s s1 -> settled s (onInput id v s1).
Proof.
  intros K. unfold onInput. destruct (find _ _) as [[[sl va] p]|]; [|exact K].
  now apply settled_onSliderInput.
Qed.

Lemma settled_listenOn id s s1 : settled s s1 -> settled s (state_of (listenOn id s1)).
Proof. intros K. unfold listenOn. settled_tac. Qed.

Lemma settled_listenIfPresent id s s1 : settled s s1 -> settled s (listenIfPresent id s1).
Proof. intros K. unfold listenIfPresent. settled_tac. Qed.

Lemma settled_setupSliders s s1 : settled s s1 -> settled s (setupSliders s1).
Proof.
  intros K. unfold setupSliders. apply settled_fold; [|exact K].
  intros [[sl va] p] s2 s3 K3. settled_tac.
Qed.

Lemma settled_setupEventListeners s s1 :
  settled s s1 -> settled s (state_of (setupEventListeners s1)).
Proof.
  intros K. unfold setupEventListeners. cbv zeta.
  apply settled_bind.
  - apply settled_forEach; [intros; now apply settled_listenOn|].
    repeat apply settled_listenIfPresent. settled_tac.
  - intros s2 K2. apply settled_bind; [apply settled_listenOn, settled_setupSliders, K2|].
    intros s3 K3. apply settled_bind; [now apply settled_listenOn|].
    intros s4 K4. destruct (canvas _); [|settled_tac]. cbn [state_of]. settled_tac.
Qed.


(** *** The scene and the world of the reachable states *)

Lemma In_sceneArrows k sc : In k (sceneArrows sc) <-> In (ChArrow k) (sc_children sc).
Proof.
  unfold sceneArrows. induction (sc_children sc) as [|c l IH]; [reflexivity|].
  destruct c; cbn; rewrite ?IH; split; intros H;
    try (destruct H as [H|H]; [discriminate H|]); auto.
  - destruct H as [->|H]; auto.
  - destruct H as [[= ->]|H]; auto.
Qed.

Lemma sceneArrows_nil sc :
  sceneArrows sc = [] -> sc_children (nonArrows sc) = sc_children sc.
Proof.
  unfold sceneArrows, nonArrows. cbn. induction (sc_children sc) as [|c l IH]; [reflexivity|].
  destruct c; cbn; intros H; try discriminate; now rewrite IH.
Qed.

Lemma sceneArrows_nonArrows sc : sceneArrows (nonArrows sc) = [].
Proof.
  unfold sceneArrows, nonArrows. cbn. induction (sc_children sc) as [|c l IH]; [reflexivity|].
  destruct c; cbn; exact IH.
Qed.

Lemma housed_frame C0 B0 n0 s s' :
  housed C0 B0 n0 s -> keeps s s' ->
  sc_children <$> scene s' = sc_children <$> scene s ->
  w_bodies <$> world s' = w_bodies <$> world s ->
  vectors s' = vectors s -> pending TimerInit s' = false ->
  housed C0 B0 n0 s'.
Proof.
  intros (R & T & Sc & W & Bd & N) [G O] Es Ew Ev T'.
  split; [now apply (grows_ready s s')|]. split; [exact T'|].
  rewrite O, Ev. split; [|split; [|split]].
  - intros sc' Hs'. rewrite Hs' in Es. destruct (scene s) as [sc|]; [|discriminate].
    injection Es as Es. destruct (Sc sc eq_refl) as [S1 S2].
    unfold nonArrows, sceneArrows in *. cbn in *. rewrite Es. now split.
  - intros w' Hw'. rewrite Hw' in Ew. destruct (world s) as [w|]; [|discriminate].
    injection Ew as Ew. rewrite Ew. now apply W.
  - exact Bd.
  - destruct G as (G1 & _). lia.
Qed.

Lemma housed_ordinary C0 B0 n0 s s' :
  housed C0 B0 n0 s -> keeps s s' -> settled s s' -> housed C0 B0 n0 s'.
Proof.
  intros H K (Es & Ew & Ev & Et). apply (housed_frame C0 B0 n0 s); auto.
  destruct H as (_ & T & _). unfold pending in *. now rewrite Et.
Qed.

Lemma housed_bind C0 B0 n0 r k :
  housed C0 B0 n0 (state_of r) ->
  (forall s1, housed C0 B0 n0 s1 -> housed C0 B0 n0 (state_of (k s1))) ->
  housed C0 B0 n0 (state_of (r >>= k)).
Proof. destruct r; cbn; auto. Qed.

(** **** Spawning *)

Lemma timers_spawnOp op rnd s :
  timers (host (state_of (spawnOp op rnd s))) = timers (host s).
Proof.
  unfold spawnOp, addBox, addSphere, addCylinder, spawn, needTHREE, needCANNON,
    allocBody, allocMesh, alloc, worldAdd, sceneAdd, log, emit.
  destruct_sim s. destruct op; cbn;
    repeat match goal with
           | |- context [if ?b then _ else _] => destruct b; cbn
           | |- context [match ?o with Some _ => _ | None => _ end] => destruct o; cbn
           end; reflexivity.
Qed.

Lemma housed_spawnOp C0 B0 n0 op rnd s :
  housed C0 B0 n0 s -> housed C0 B0 n0 (state_of (spawnOp op rnd s)).
Proof.
  intros (R & T & Sc & W & Bd & N).
  pose proof (timers_spawnOp op rnd s) as Et.
  destruct R as ([sc Hs] & Ca & Re & [w Hw] & Ba & Th & Cn).
  destruct (spawnOp_ok op rnd s w sc Hw Hs Th Cn)
    as (s' & E & O & Nx & _ & _ & _ & _ & W' & Sc' & _ & _ & V & Ro & Ca' & Re' & Th' & Cn' & _).
  rewrite E in *. cbn [state_of] in *.
  destruct (Sc sc Hs) as [S1 S2]. specialize (W w Hw).
  split; [|split; [|split; [|split; [|split]]]].
  - unfold ready. rewrite W', Sc', Ca', Re', Ro, Th', Cn'. repeat split; eauto.
  - unfold pending in *. now rewrite Et.
  - intros sc' Hs'. rewrite Sc' in Hs'. injection Hs' as <-. rewrite O, V. split.
    + unfold nonArrows, scene_add in *. cbn in *.
      rewrite List.filter_app, S1, List.map_app, <- app_assoc. reflexivity.
    + unfold sceneArrows, scene_add in *. cbn. rewrite omap_app, S2. cbn.
      apply app_nil_r.
  - intros w' Hw'. rewrite W' in Hw'. injection Hw' as <-. rewrite O.
    unfold world_add. cbn. rewrite W, List.map_app, <- app_assoc. reflexivity.
  - rewrite O. intros o Hin. apply in_app_or in Hin. destruct Hin as [Hin|[<-|[]]].
    + now apply Bd.
    + cbn. lia.
  - rewrite Nx. lia.
Qed.

(** **** The arrows *)

Lemma arrowed_pushArrow a ty s : arrowed s -> arrowed (state_of (pushArrow a ty s)).
Proof.
  unfold arrowed, pushArrow, needTHREE, allocArrow, alloc, sceneAdd.
  destruct_sim s. cbn.
  repeat match goal with
         | |- context [if ?b then _ else _] => destruct b; cbn
         | |- context [match ?o with Some _ => _ | None => _ end] => destruct o; cbn
         end; intros H sc' E; try discriminate; try (now apply H).
  injection E as <-. unfold sceneArrows, scene_add in *. cbn.
  rewrite omap_app, List.map_app. cbn. f_equal. now apply H.
Qed.

Lemma arrowed_vectorsFor obj s : arrowed s -> arrowed (state_of (vectorsFor obj s)).
Proof.
  intros A. unfold vectorsFor.
  destruct (getBody _ _); [|exact A].
  destruct (gtb _ _); [|exact A].
  assert (A1 : arrowed (state_of (if showVelocityVectors s
                                  then pushArrow (velocityArrow b) TVelocity s else Ok s))).
  { destruct (showVelocityVectors s); [now apply arrowed_pushArrow | exact A]. }
  destruct (if showVelocityVectors s then _ else _) as [s1|e s1]; cbn [bind state_of] in *;
    [|exact A1].
  destruct (showMomentumVectors s1); [now apply arrowed_pushArrow | exact A1].
Qed.

Lemma arrowed_forEach_vectorsFor objs s :
  arrowed s -> arrowed (state_of (forEach vectorsFor objs s)).
Proof.
  revert s. induction objs as [|o objs IH]; intros s A; cbn; [exact A|].
  pose proof (arrowed_vectorsFor o s A) as A1.
  destruct (vectorsFor o s) as [s1|e s1]; cbn [bind state_of] in *; auto.
Qed.

Lemma arrowed_removeVectors s :
  is_Some (scene s) -> arrowed s -> arrowed (state_of (removeVectors s)).
Proof.
  intros [sc Hs] A. unfold removeVectors.
  rewrite (forEach_removeArrow _ s sc Hs). cbn [bind state_of].
  intros sc' E.
  assert (E' : sc' = removeArrows (vectors s) sc) by (destruct_sim s; cbn in *; congruence).
  assert (V : vectors (set_vectors [] (set_scene (Some (removeArrows (vectors s) sc)) s)) = [])
    by (destruct_sim s; reflexivity).
  rewrite V. subst sc'. clear E V. cbn.
  destruct (sceneArrows (removeArrows (vectors s) sc)) as [|k l] eqn:El; [reflexivity|].
  exfalso.
  assert (Hk : In k (sceneArrows (removeArrows (vectors s) sc))) by (rewrite El; now left).
  apply In_sceneArrows, in_removeArrows in Hk. destruct Hk as [Hk Hn].
  apply In_sceneArrows in Hk. rewrite (A sc Hs) in Hk.
  apply in_map_iff in Hk. destruct Hk as (v & <- & Hv). now apply (Hn v Hv).
Qed.

Lemma housed_updateVectors C0 B0 n0 s :
  housed C0 B0 n0 s -> housed C0 B0 n0 (state_of (updateVectors s)).
Proof.
  intros H. pose proof H as (R & T & Sc & W & Bd & N).
  pose proof (keeps_updateVectors s s (keeps_refl s)) as K.
  assert (A : arrowed (state_of (updateVectors s))).
  { unfold updateVectors.
    assert (A1 : arrowed (state_of (removeVectors s))).
    { apply arrowed_removeVectors; [apply R|]. intros sc Hs. now apply Sc. }
    destruct (removeVectors s) as [s1|e s1]; cbn [bind state_of] in *; [|exact A1].
    now apply arrowed_forEach_vectorsFor. }
  destruct (updateVectors_ok s) as (s' & E & (vs & sc' & n & ar & En & ->) & _);
    [apply R | apply R |].
  rewrite E in *. cbn [state_of] in *.
  destruct R as ([sc Hs] & _). rewrite Hs in En. destruct sc' as [sc'|]; [|discriminate].
  assert (En' : nonArrows sc' = nonArrows sc) by (cbn in En; congruence).
  clear En. rename En' into En. destruct (Sc sc Hs) as [S1 _].
  split; [now apply (grows_ready s _); [apply K | apply H]|].
  split; [|split; [|split; [|split]]].
  - clear -T. destruct_sim s. exact T.
  - intros sc2 E2. split.
    + assert (sc2 = sc') by (clear -E2; destruct_sim s; cbn in E2; congruence). subst sc2.
      rewrite En, S1. clear. destruct_sim s. reflexivity.
    + now apply A.
  - intros w' Hw'. assert (Hw : world s = Some w') by (clear -Hw'; destruct_sim s; exact Hw').
    rewrite (W w' Hw). clear. destruct_sim s. reflexivity.
  - intros o Hin. apply Bd. clear -Hin. destruct_sim s. exact Hin.
  - destruct K as [(K1 & _) _]. lia.
Qed.

(** **** Reset *)

Lemma filter_filter_and {A} (f g : A -> bool) (l : list A) :
  List.filter f (List.filter g l) = List.filter (fun x => g x && f x) l.
Proof.
  induction l as [|x l IH]; [reflexivity|]. cbn.
  destruct (g x); cbn; [destruct (f x)|]; now rewrite IH.
Qed.

Lemma filter_all {A} (f : A -> bool) (l : list A) :
  (forall x, In x l -> f x = true) -> List.filter f l = l.
Proof.
  induction l as [|x l IH]; [reflexivity|]. intros H. cbn.
  rewrite (H x) by now left. f_equal. apply IH. intros y Hy. apply H. now right.
Qed.

Lemma filter_none {A} (f : A -> bool) (l : list A) :
  (forall x, In x l -> f x = false) -> List.filter f l = [].
Proof.
  induction l as [|x l IH]; [reflexivity|]. intros H. cbn.
  rewrite (H x) by now left. apply IH. intros y Hy. apply H. now right.
Qed.

Lemma children_removeMeshes objs sc :
  sc_children (removeMeshes objs sc)
  = List.filter (fun c => forallb (fun o => negb (Child_eqb (ChMesh (o_mesh o)) c)) objs)
                (sc_children sc).
Proof.
  unfold removeMeshes. revert sc. induction objs as [|o objs IH]; intros sc; cbn.
  - symmetry. now apply filter_all.
  - rewrite IH. unfold scene_remove. cbn. apply filter_filter_and.
Qed.

Lemma children_removeArrows vs sc :
  sc_children (removeArrows vs sc)
  = List.filter (fun c => forallb (fun v => negb (Child_eqb (ChArrow (v_arrow v)) c)) vs)
                (sc_children sc).
Proof.
  unfold removeArrows. revert sc. induction vs as [|v vs IH]; intros sc; cbn.
  - symmetry. now apply filter_all.
  - rewrite IH. unfold scene_remove. cbn. apply filter_filter_and.
Qed.

Lemma bodies_removeBodies objs w :
  w_bodies (removeBodies objs w)
  = List.filter (fun h => forallb (fun o => negb (Nat.eqb (o_body o) h)) objs) (w_bodies w).
Proof.
  unfold removeBodies. revert w. induction objs as [|o objs IH]; intros w; cbn.
  - symmetry. now apply filter_all.
  - rewrite IH. unfold world_remove. cbn. apply filter_filter_and.
Qed.

(** Removing the meshes of the objects and the arrows of the vectors
    leaves what the set-up built. *)
Lemma children_cleared C0 n0 objs vs sc :
  (forall h, In (ChMesh h) C0 -> (h < n0)%nat) ->
  (forall o, In o objs -> (n0 <= o_mesh o)%nat) ->
  sc_children (nonArrows sc) = (C0 ++ map (fun o => ChMesh (o_mesh o)) objs)%list ->
  sceneArrows sc = map v_arrow vs ->
  sc_children (removeArrows vs (removeMeshes objs sc)) = C0.
Proof.
  intros HC Ho En Ea.
  rewrite children_removeArrows, children_removeMeshes, filter_filter_and.
  set (PM := fun c => forallb (fun o => negb (Child_eqb (ChMesh (o_mesh o)) c)) objs).
  set (PA := fun c => forallb (fun v => negb (Child_eqb (ChArrow (v_arrow v)) c)) vs).
  set (NA := fun c => match c with ChArrow _ => false | _ => true end).
  transitivity (List.filter PM (List.filter NA (sc_children sc))).
  - rewrite filter_filter_and. apply filter_ext_in. intros c Hc.
    change (PM c && PA c = NA c && PM c).
    destruct (NA c) eqn:Ec.
    + assert (PA c = true) as ->.
      { unfold PA. apply forallb_forall. intros v _. destruct c; try reflexivity; discriminate. }
      cbn. apply andb_true_r.
    + destruct c as [|k| | | | |]; try discriminate.
      assert (PA (ChArrow k) = false) as ->.
      { apply In_sceneArrows in Hc. rewrite Ea in Hc. apply in_map_iff in Hc.
        destruct Hc as (v & <- & Hv). unfold PA.
        destruct (forallb _ vs) eqn:F; [|reflexivity].
        rewrite forallb_forall in F. specialize (F v Hv). cbn in F.
        now rewrite Nat.eqb_refl in F. }
      cbn. apply andb_false_r.
  - change (List.filter NA (sc_children sc)) with (sc_children (nonArrows sc)).
    rewrite En, List.filter_app.
    rewrite (filter_all PM C0), (filter_none PM (map _ objs)); [apply app_nil_r| |].
    + intros c Hc. apply in_map_iff in Hc. destruct Hc as (o & <- & Hin).
      unfold PM. destruct (forallb _ objs) eqn:F; [|reflexivity].
      rewrite forallb_forall in F. specialize (F o Hin). cbn in F.
      now rewrite Nat.eqb_refl in F.
    + intros c Hc. unfold PM. apply forallb_forall. intros o Hin.
      destruct c as [h| | | | | |]; try reflexivity. cbn.
      specialize (HC h Hc). specialize (Ho o Hin).
      destruct (Nat.eqb_spec (o_mesh o) h); [lia | reflexivity].
Qed.

Lemma bodies_cleared B0 n0 objs w :
  (forall h, In h B0 -> (h < n0)%nat) ->
  (forall o, In o objs -> (n0 <= o_body o)%nat) ->
  w_bodies w = (B0 ++ map o_body objs)%list ->
  w_bodies (removeBodies objs w) = B0.
Proof.
  intros HB Ho Ew. rewrite bodies_removeBodies, Ew, List.filter_app.
  rewrite filter_all, filter_none; [apply app_nil_r| |].
  - intros h Hh. apply in_map_iff in Hh. destruct Hh as (o & <- & Hin).
    destruct (forallb _ objs) eqn:F; [|reflexivity].
    rewrite forallb_forall in F. specialize (F o Hin). cbn in F.
    now rewrite Nat.eqb_refl in F.
  - intros h Hh. apply forallb_forall. intros o Hin.
    specialize (HB h Hh). specialize (Ho o Hin).
    destruct (Nat.eqb_spec (o_body o) h); [lia | reflexivity].
Qed.

Lemma timers_bind (T : list Timer) r k :
  timers (host (state_of r)) = T ->
  (forall s1, timers (host s1) = T -> timers (host (state_of (k s1))) = T) ->
  timers (host (state_of (r >>= k))) = T.
Proof. destruct r; cbn; auto. Qed.

Lemma timers_forEach {A} (T : list Timer) (f : A -> Sim -> res) (l : list A) :
  (forall a s, timers (host s) = T -> timers (host (state_of (f a s))) = T) ->
  forall s, timers (host s) = T -> timers (host (state_of (forEach f l s))) = T.
Proof.
  intros Hf. induction l as [|a l IH]; intros s E; cbn; [exact E|].
  apply timers_bind; auto.
Qed.

Lemma timers_sceneRemove c s : timers (host (state_of (sceneRemove c s))) = timers (host s).
Proof. unfold sceneRemove. destruct (scene s); [|reflexivity]. destruct_sim s. reflexivity. Qed.

Lemma timers_worldRemove h s : timers (host (state_of (worldRemove h s))) = timers (host s).
Proof. unfold worldRemove. destruct (world s); [|reflexivity]. destruct_sim s. reflexivity. Qed.

Lemma timers_reset s : timers (host (state_of (reset s))) = timers (host s).
Proof.
  unfold reset. cbv zeta.
  apply timers_bind.
  - apply timers_forEach; [|destruct_sim s; reflexivity].
    intros o s1 E1. unfold removeObject. apply timers_bind.
    + now rewrite timers_sceneRemove.
    + intros s2 E2. now rewrite timers_worldRemove.
  - intros s1 E1. unfold removeVectors. apply timers_bind.
    + apply timers_bind.
      * apply timers_forEach; [|destruct_sim s1; exact E1].
        intros v s2 E2. now rewrite timers_sceneRemove.
      * intros s2 E2. cbn [state_of]. destruct_sim s2. exact E2.
    + intros s2 E2. cbn [state_of].
      pose proof (settled_resetRobot (set_stats stats0 s2) _
                    (settled_refl _)) as (_ & _ & _ & Et).
      unfold log, emit.
      match goal with |- timers (host (with_host ?f ?x)) = _ =>
        transitivity (timers (host x)); [destruct x as [? ? ? ? ? ? ? ? ? ? ? ? ? ? ? ? []]; reflexivity|]
      end.
      rewrite Et. destruct_sim s2. exact E2.
Qed.

Lemma housed_reset C0 B0 n0 s :
  based C0 B0 n0 -> housed C0 B0 n0 s ->
  exists s',
    reset s = Ok s' /\ housed C0 B0 n0 s' /\
    sc_children <$> scene s' = Some C0 /\ w_bodies <$> world s' = Some B0 /\
    objects s' = [] /\ vectors s' = [].
Proof.
  intros [HC HB] (R & T & Sc & W & Bd & N).
  pose proof (timers_reset s) as Et.
  destruct (reset_ok s) as (s' & E & Post); [intros _; split; apply R | intros _; apply R |].
  rewrite E in Et. cbn [state_of] in Et.
  destruct Post as (P1 & P2 & P3 & P4 & P5 & P6 & P7 & P8 & P9 & P10 & P11 & P12 & P13
                    & P14 & P15 & P16 & P17 & P18 & P18' & P19 & P20).
  destruct R as ([sc Hs] & Ca & Re & [w Hw] & Ba & Th & Cn).
  destruct (Sc sc Hs) as [S1 S2]. specialize (W w Hw).
  rewrite Hs in P16. rewrite Hw in P17. cbn in P16, P17.
  assert (EC : sc_children (removeArrows (vectors s) (removeMeshes (objects s) sc)) = C0).
  { apply (children_cleared C0 n0); auto. intros o Ho. now apply Bd. }
  assert (EB : w_bodies (removeBodies (objects s) w) = B0).
  { apply (bodies_cleared B0 n0); auto. intros o Ho. now apply Bd. }
  exists s'. split; [exact E|].
  split; [|rewrite P16, P17; cbn; rewrite EC, EB; auto].
  split; [|split; [|split; [|split; [|split]]]].
  - unfold ready. rewrite P9, P14, P15, P16, P17, P18, P18'. repeat split; eauto.
  - unfold pending in *. now rewrite Et.
  - intros sc' Hs'. rewrite P16 in Hs'. injection Hs' as <-. rewrite P1, P2. cbn [map].
    rewrite app_nil_r.
    assert (A0 : sceneArrows (removeArrows (vectors s) (removeMeshes (objects s) sc)) = []).
    { destruct (sceneArrows (removeArrows _ _)) as [|k l] eqn:El; [reflexivity|]. exfalso.
      assert (Hk : In (ChArrow k) C0).
      { rewrite <- EC. apply In_sceneArrows. rewrite El. now left. }
      assert (Hn : In (ChArrow k) (sc_children (nonArrows sc))).
      { rewrite S1. apply in_or_app. now left. }
      unfold nonArrows in Hn. cbn in Hn. apply filter_In in Hn. destruct Hn as [_ Hn].
      discriminate. }
    split; [|exact A0]. rewrite (sceneArrows_nil _ A0). exact EC.
  - intros w' Hw'. rewrite P17 in Hw'. injection Hw' as <-. rewrite P1. cbn.
    rewrite app_nil_r. exact EB.
  - rewrite P1. intros o [].
  - rewrite P13. exact N.
Qed.

(** **** Frames, clicks and keys *)

Lemma housed_animate C0 B0 n0 t0 t1 s :
  housed C0 B0 n0 s -> housed C0 B0 n0 (state_of (animate t0 t1 s)).
Proof.
  intros H. unfold animate. apply housed_bind.
  - destruct (isRunning s); [|exact H]. apply housed_bind.
    + apply (housed_ordinary C0 B0 n0 s); [exact H| |].
      * apply keeps_updatePhysics, keeps_refl.
      * apply settled_updatePhysics, settled_refl.
    + intros s1 H1. cbv zeta.
      assert (H2 : housed C0 B0 n0
                     (set_simulationTime (simulationTime s1 + deltaTime s1)%float s1)).
      { apply (housed_ordinary C0 B0 n0 s1); [exact H1 | keeps_tac | settled_tac]. }
      destruct (Z.eqb _ _); [now apply housed_updateVectors | exact H2].
  - intros s1 H1. destruct (renderer s1); [|exact H1]. cbv zeta. cbn [state_of].
    apply (housed_ordinary C0 B0 n0 s1); [exact H1| |].
    + apply (keeps_after (set_frameCount _)); [keeps_prim|].
      apply keeps_updateUI. keeps_tac.
    + apply (settled_after (set_frameCount _)); [settled_prim|].
      apply settled_updateUI. settled_tac.
Qed.

Lemma housed_onClick C0 B0 n0 id rnd s :
  based C0 B0 n0 -> housed C0 B0 n0 s -> housed C0 B0 n0 (state_of (onClick id rnd s)).
Proof.
  intros B H. unfold onClick.
  repeat match goal with
         | |- context [if String.eqb ?a ?b then _ else _] => destruct (String.eqb a b)
         end.
  all: match goal with
       | |- housed _ _ _ (state_of (addBox _ _)) => now apply (housed_spawnOp C0 B0 n0 SpawnBox)
       | |- housed _ _ _ (state_of (addSphere _ _)) =>
           now apply (housed_spawnOp C0 B0 n0 SpawnSphere)
       | |- housed _ _ _ (state_of (addCylinder _ _)) =>
           now apply (housed_spawnOp C0 B0 n0 SpawnCylinder)
       | |- housed _ _ _ (state_of (reset _)) =>
           destruct (housed_reset C0 B0 n0 s B H) as (s' & -> & H' & _); exact H'
       | _ =>
           apply (housed_ordinary C0 B0 n0 s); [exact H | |]; cbn [state_of];
           auto using keeps_refl, keeps_togglePanel, keeps_play, keeps_pause, keeps_step,
             keeps_toggleRobot, keeps_resetRobot, keeps_optimizeLayout,
             keeps_optimizeTrajectory, settled_refl, settled_togglePanel, settled_play,
             settled_pause, settled_step, settled_toggleRobot, settled_resetRobot,
             settled_optimizeLayout, settled_optimizeTrajectory
       end.
Qed.

Lemma housed_onKeyPress C0 B0 n0 code ctrl rnd s :
  based C0 B0 n0 -> housed C0 B0 n0 s ->
  housed C0 B0 n0 (state_of (onKeyPress code ctrl rnd s)).
Proof.
  intros B H. unfold onKeyPress.
  assert (He : housed C0 B0 n0 (emit PreventDefault s)).
  { apply (housed_ordinary C0 B0 n0 s); [exact H| |]; unfold emit; [keeps_tac | settled_tac]. }
  repeat match goal with
         | |- context [if String.eqb ?a ?b then _ else _] => destruct (String.eqb a b)
         end; cbv zeta; try destruct ctrl; try exact H.
  all: match goal with
       | |- housed _ _ _ (state_of (reset _)) =>
           destruct (housed_reset C0 B0 n0 _ B He) as (s' & -> & H' & _); exact H'
       | _ =>
           apply (housed_ordinary C0 B0 n0 _ _ He); cbn [state_of];
           try destruct (isRunning _);
           auto using keeps_refl, keeps_play, keeps_pause, keeps_optimizeLayout,
             keeps_optimizeTrajectory, settled_refl, settled_play, settled_pause,
             settled_optimizeLayout, settled_optimizeTrajectory
       end.
Qed.

Lemma pending_remove_other l :
  existsb (fun u => match u with TimerInit => true | _ => false end)
          (remove_first TimerHideLoading l)
  = existsb (fun u => match u with TimerInit => true | _ => false end) l.
Proof. induction l as [|[] l IH]; cbn; auto. Qed.

Lemma housed_dispatch C0 B0 n0 ev s :
  based C0 B0 n0 -> housed C0 B0 n0 s -> housed C0 B0 n0 (state_of (dispatch ev s)).
Proof.
  intros B H.
  destruct ev as [id rnd|id value|id checked|w h|x y rnd|code ctrl rnd|t0 t1|t0 t1|];
    cbn [dispatch]; cbv zeta.
  - destruct (has_listener id s); [|exact H]. now apply housed_onClick.
  - assert (H0 : housed C0 B0 n0 (with_element id (el_setValue (Lit value)) s)).
    { apply (housed_ordinary C0 B0 n0 s); [exact H | keeps_tac |].
      unfold with_element. settled_tac. }
    destruct (has_listener id s); cbn [state_of]; [|exact H0].
    apply (housed_ordinary C0 B0 n0 _ _ H0).
    + apply keeps_onInput, keeps_refl.
    + apply settled_onInput, settled_refl.
  - destruct (has_listener id s); [|exact H].
    unfold onChange, onShowVelocityVectors, onShowMomentumVectors.
    repeat destruct (String.eqb _ _); try exact H; apply housed_updateVectors;
      (apply (housed_ordinary C0 B0 n0 s); [exact H | keeps_tac | settled_tac]).
  - set (s1 := with_host _ s).
    assert (H1 : housed C0 B0 n0 s1).
    { apply (housed_ordinary C0 B0 n0 s); [exact H| |]; unfold s1; [keeps_tac | settled_tac]. }
    destruct (has_listener "window" s); cbn [state_of]; [|exact H1].
    apply (housed_ordinary C0 B0 n0 _ _ H1).
    + apply keeps_onWindowResize, keeps_refl.
    + apply settled_onWindowResize, settled_refl.
  - destruct (canvas s) as [c|]; [|exact H].
    destruct (has_listener c s); [|exact H].
    apply (housed_ordinary C0 B0 n0 s); [exact H| |].
    + apply keeps_onCanvasClick, keeps_refl.
    + apply settled_onCanvasClick, settled_refl.
  - destruct (has_listener "document" s); [|exact H]. now apply housed_onKeyPress.
  - destruct (looping (host s)); [|exact H]. now apply housed_animate.
  - destruct H as (R & T & H). rewrite T. cbn [state_of]. now split.
  - destruct (pending TimerHideLoading s); [|exact H]. cbn [state_of].
    apply (housed_frame C0 B0 n0 s); [exact H | | | | |].
    + unfold clearTimer. keeps_tac.
    + clear. unfold clearTimer, with_element. destruct_sim s. reflexivity.
    + clear. unfold clearTimer, with_element. destruct_sim s. reflexivity.
    + clear. unfold clearTimer, with_element. destruct_sim s. reflexivity.
    + destruct H as (_ & T & _). revert T. clear.
      unfold pending, clearTimer, with_element. destruct_sim s. cbn.
      now rewrite pending_remove_other.
Qed.

Lemma housed_run C0 B0 n0 evs s :
  based C0 B0 n0 -> housed C0 B0 n0 s -> housed C0 B0 n0 (run evs s).
Proof.
  intros B. revert s. induction evs as [|ev evs IH]; intros s H; cbn; [exact H|].
  apply IH. now apply housed_dispatch.
Qed.

(** **** The set-up *)

(** What the first five steps of the set-up put in the scene and in the
    world: no arrow, and meshes and bodies with handles that are taken. *)
Lemma setup5_built s :
  hasTHREE (host s) = true -> hasCANNON (host s) = true ->
  exists s5 C0 B0,
    setup5 s = Ok s5 /\
    sc_children <$> scene s5 = Some C0 /\ w_bodies <$> world s5 = Some B0 /\
    (forall k, ~ In (ChArrow k) C0) /\
    based C0 B0 (nextId (host s5)).
Proof.
  intros Ht Hc. destruct_sim s. cbn in Ht, Hc. subst.
  match goal with
  | |- context [setup5 ?x] =>
      let v := eval vm_compute in (setup5 x) in
      assert (E : setup5 x = v) by (vm_compute; reflexivity)
  end.
  eexists _, _, _. split; [exact E|]. clear E.
  split; [reflexivity|]. split; [reflexivity|].
  split; [|split].
  - intros k H. repeat (destruct H as [H|H]; [discriminate H|]). exact H.
  - intros h H. cbn.
    repeat (destruct H as [H|H]; [try discriminate H; injection H as <-; lia|]).
    destruct H.
  - intros h H. cbn. repeat (destruct H as [H|H]; [subst h; lia|]). destruct H.
Qed.

Lemma pending_setTimeout_other s :
  pending TimerInit (setTimeout TimerHideLoading s) = pending TimerInit s.
Proof.
  unfold pending, setTimeout. destruct_sim s. cbn. rewrite existsb_app. cbn.
  now rewrite !orb_false_r.
Qed.

Lemma housed_setup C0 B0 n0 t0 t1 s5 :
  housed C0 B0 n0 s5 ->
  housed C0 B0 n0
    (state_of (setupEventListeners s5 >>= startLoop t0 t1 >>= fun s =>
               Ok (log "✅ Simulador inicializado correctamente" (hideLoadingScreen s)))).
Proof.
  intros H5. apply housed_bind; [apply housed_bind|].
  - apply (housed_ordinary C0 B0 n0 s5); [exact H5| |].
    + apply keeps_setupEventListeners, keeps_refl.
    + apply settled_setupEventListeners, settled_refl.
  - intros s6 H6. unfold startLoop. cbv zeta. apply housed_animate.
    apply (housed_ordinary C0 B0 n0 s6); [exact H6| |]; unfold log, emit;
      [keeps_tac | settled_tac].
  - intros s7 H7. cbn [state_of].
    apply (housed_frame C0 B0 n0 s7); [exact H7| | | | |].
    + apply keeps_after; [keeps_prim | now apply keeps_hideLoadingScreen, keeps_refl].
    + clear. unfold log, emit, hideLoadingScreen, setTimeout.
      destruct (getElementById _ _); destruct_sim s7; reflexivity.
    + clear. unfold log, emit, hideLoadingScreen, setTimeout.
      destruct (getElementById _ _); destruct_sim s7; reflexivity.
    + clear. unfold log, emit, hideLoadingScreen, setTimeout.
      destruct (getElementById _ _); destruct_sim s7; reflexivity.
    + destruct H7 as (_ & T & _).
      transitivity (pending TimerInit (hideLoadingScreen s7)).
      * clear. unfold log, emit, pending. destruct (hideLoadingScreen s7) as [? ? ? ? ? ? ? ? ? ? ? ? ? ? ? ? []].
        reflexivity.
      * unfold hideLoadingScreen. destruct (getElementById _ _); [|exact T].
        now rewrite pending_setTimeout_other.
Qed.

Lemma keeps_setup_rest t0 t1 s5 :
  keeps s5
    (state_of (setupEventListeners s5 >>= startLoop t0 t1 >>= fun s =>
               Ok (log "✅ Simulador inicializado correctamente" (hideLoadingScreen s)))).
Proof.
  apply keeps_bind; [|intros; cbn [state_of]; apply keeps_after;
                      [keeps_prim | now apply keeps_hideLoadingScreen]].
  apply keeps_bind; [|intros; now apply keeps_startLoop].
  apply keeps_setupEventListeners, keeps_refl.
Qed.

(** With no object and no vector a frame leaves [this.vectors] empty,
    running or not. *)
Lemma animate_no_vectors t0 t1 s :
  objects s = [] -> vectors s = [] -> vectors (state_of (animate t0 t1 s)) = [].
Proof.
  intros O V. unfold animate.
  assert (H1 : forall r : res,
             vectors (state_of r) = [] ->
             vectors (state_of (r >>= fun s =>
                        match renderer s with
                        | None => Throw (TypeError "Cannot read properties of null (reading 'render')") s
                        | Some _ =>
                            let s := emit Render s in
                            let s := set_deltaTime ((t1 - t0) / 1000)%float s in
                            let s := updateUI s in
                            Ok (set_frameCount (frameCount s + 1)%Z s)
                        end)) = []).
  { intros [s1|e s1] V1; cbn [bind state_of] in *; [|exact V1].
    destruct (renderer s1); [|exact V1]. cbv zeta. cbn [state_of].
    assert (St : settled s1 (set_frameCount
                               (frameCount (updateUI (set_deltaTime ((t1 - t0) / 1000)%float
                                                        (emit Render s1))) + 1)%Z
                               (updateUI (set_deltaTime ((t1 - t0) / 1000)%float
                                            (emit Render s1))))).
    { apply (settled_after (set_frameCount _)); [settled_prim|].
      apply settled_updateUI. unfold emit. settled_tac. }
    destruct St as (_ & _ & -> & _). exact V1. }
  apply H1. clear H1.
  destruct (isRunning s); [|exact V].
  pose proof (keeps_updatePhysics s s (keeps_refl s)) as [_ O1].
  pose proof (settled_updatePhysics s s (settled_refl s)) as (_ & _ & V1 & _).
  destruct (updatePhysics s) as [s1|e s1]; cbn [bind state_of] in *;
    [|now rewrite V1].
  cbv zeta. destruct (Z.eqb _ _); [|destruct_sim s1; cbn in *; congruence].
  unfold updateVectors, removeVectors.
  assert (V2 : vectors (set_simulationTime (simulationTime s1 + deltaTime s1)%float s1) = [])
    by (destruct_sim s1; cbn in *; congruence).
  assert (O2 : objects (set_simulationTime (simulationTime s1 + deltaTime s1)%float s1) = [])
    by (destruct_sim s1; cbn in *; congruence).
  rewrite V2. cbn [forEach bind].
  assert (O3 : objects (set_vectors [] (set_simulationTime
                                          (simulationTime s1 + deltaTime s1)%float s1)) = [])
    by (destruct_sim s1; cbn in *; congruence).
  rewrite O3. cbn [forEach state_of]. destruct_sim s1. reflexivity.
Qed.

Lemma vectors_setup_rest t0 t1 s5 :
  objects s5 = [] -> vectors s5 = [] ->
  vectors (state_of (setupEventListeners s5 >>= startLoop t0 t1 >>= fun s =>
                     Ok (log "✅ Simulador inicializado correctamente"
                             (hideLoadingScreen s)))) = [].
Proof.
  intros O5 V5.
  pose proof (keeps_setupEventListeners s5 s5 (keeps_refl s5)) as [_ O6].
  pose proof (settled_setupEventListeners s5 s5 (settled_refl s5)) as (_ & _ & V6 & _).
  destruct (setupEventListeners s5) as [s6|e s6]; cbn [bind state_of] in *;
    [|congruence].
  assert (V7 : vectors (state_of (startLoop t0 t1 s6)) = []).
  { unfold startLoop. cbv zeta. apply animate_no_vectors; unfold log, emit;
      destruct_sim s6; cbn in *; congruence. }
  destruct (startLoop t0 t1 s6) as [s7|e s7]; cbn [bind state_of] in *; [|exact V7].
  unfold log, emit, hideLoadingScreen, setTimeout.
  destruct (getElementById _ _); destruct_sim s7; exact V7.
Qed.

(** The state after a set-up that returned normally. *)
Lemma setup_housed t0 t1 sA s0 :
  hasTHREE (host sA) = true -> hasCANNON (host sA) = true ->
  timers (host sA) = [] -> objects sA = [] -> vectors sA = [] ->
  setup t0 t1 sA = Ok s0 ->
  exists sc0 w0 n0,
    scene s0 = Some sc0 /\ world s0 = Some w0 /\
    based (sc_children sc0) (w_bodies w0) n0 /\
    housed (sc_children sc0) (w_bodies w0) n0 s0.
Proof.
  intros Th Cn Tm Ob Ve E0.
  change (setup t0 t1 sA)
    with (setup5 sA >>= setupEventListeners >>= startLoop t0 t1
          >>= fun s => Ok (log "✅ Simulador inicializado correctamente" (hideLoadingScreen s)))
    in E0.
  destruct (setup5_built sA Th Cn) as (s5 & C0 & B0 & E5 & Sc5 & W5 & NA & Bs).
  destruct (setup5_returns sA Th Cn) as (s5' & E5' & R5 & K5 & _ & Cm).
  rewrite E5 in E5'. injection E5' as <-.
  assert (F5 : objects s5 = [] /\ vectors s5 = [] /\ timers (host s5) = []).
  { destruct Cm as (_ & C2 & _ & _ & _ & _ & _ & _ & _ & _ & _ & _ & _ & _ & _ & C16 & C17 & _).
    rewrite C16, C17, C2. clear -Ob Ve Tm. destruct_sim sA. auto. }
  destruct F5 as (O5 & V5 & T5).
  assert (H5 : housed C0 B0 (nextId (host s5)) s5).
  { split; [exact R5|]. split; [unfold pending; now rewrite T5|].
    rewrite O5, V5. cbn [map]. rewrite !app_nil_r.
    split; [|split; [|split]].
    - intros sc Hs. rewrite Hs in Sc5. injection Sc5 as Sc5.
      assert (A0 : sceneArrows sc = []).
      { destruct (sceneArrows sc) as [|k l] eqn:El; [reflexivity|]. exfalso.
        apply (NA k). rewrite <- Sc5. apply In_sceneArrows. rewrite El. now left. }
      split; [|exact A0]. now rewrite (sceneArrows_nil sc A0).
    - intros wd Hw. rewrite Hw in W5. now injection W5.
    - intros o [].
    - lia. }
  rewrite E5 in E0. cbn [bind] in E0.
  pose proof (housed_setup C0 B0 _ t0 t1 s5 H5) as H0.
  pose proof (keeps_setup_rest t0 t1 s5) as [_ O0].
  pose proof (vectors_setup_rest t0 t1 s5 O5 V5) as V0.
  change (Ok s5 >>= setupEventListeners) with (setupEventListeners s5) in E0.
  rewrite E0 in H0, O0, V0. cbn [state_of] in H0, O0, V0. rewrite O5 in O0.
  pose proof H0 as (([sc0 Hs] & _ & _ & [w0 Hw] & _) & _ & Sc & W & _).
  destruct (Sc sc0 Hs) as [S1 S2]. specialize (W w0 Hw).
  rewrite O0 in S1, W. rewrite V0 in S2. cbn [map] in *. rewrite app_nil_r in S1, W.
  rewrite (sceneArrows_nil sc0 S2) in S1. subst C0 B0.
  exists sc0, w0, (nextId (host s5)). auto.
Qed.

(** X15. Once the set-up has returned normally, the scene and the world
    hold at any later time what they held right after the set-up and,
    after it, exactly what [this.objects] and [this.vectors] account for:
    the mesh and the body of every object, in order, and the arrow of every
    vector, so no mesh, body or arrow is ever left behind. A reset at any
    time gives back the children of the scene and the bodies of the world
    of the set-up. *)
Theorem reset_gives_back_what_the_setup_built
    (page : gmap string Element) (w h t0 t1 : float) (s0 : Sim) :
  dispatch (TimeoutInit t0 t1) (constructor (host0 page w h true true)) = Ok s0 ->
  exists sc0 w0,
    scene s0 = Some sc0 /\ world s0 = Some w0 /\
    forall evs,
      let s := run evs s0 in
      exists sc wd,
        scene s = Some sc /\ world s = Some wd /\
        sc_children (nonArrows sc)
        = (sc_children sc0 ++ map (fun o => ChMesh (o_mesh o)) (objects s))%list /\
        sceneArrows sc = map v_arrow (vectors s) /\
        w_bodies wd = (w_bodies w0 ++ map o_body (objects s))%list /\
        exists s',
          reset s = Ok s' /\
          sc_children <$> scene s' = Some (sc_children sc0) /\
          w_bodies <$> world s' = Some (w_bodies w0) /\
          objects s' = [] /\ vectors s' = [].
Proof.
  intros E0.
  destruct (booting page w h) as (Pd & Th & Cn & _ & Tm & _ & _ & _ & _ & Ob & Ve & _).
  cbv zeta in Pd, Th, Cn, Tm, Ob, Ve. cbn [dispatch] in E0. rewrite Pd in E0.
  destruct (setup_housed t0 t1 _ s0 Th Cn Tm Ob Ve E0)
    as (sc0 & w0 & n0 & Hs0 & Hw0 & Bs & H0).
  exists sc0, w0. split; [exact Hs0|]. split; [exact Hw0|].
  intros evs. cbv zeta.
  pose proof (housed_run _ _ _ evs s0 Bs H0) as H.
  destruct (housed_reset _ _ _ (run evs s0) Bs H) as (s' & Er & _ & Rs & Rw & Ro & Rv).
  destruct H as (([sc Hs] & _ & _ & [wd Hw] & _) & _ & Sc & W & _).
  exists sc, wd. destruct (Sc sc Hs) as [S1 S2].
  split; [exact Hs|]. split; [exact Hw|]. split; [exact S1|]. split; [exact S2|].
  split; [now apply W|]. exists s'. auto.
Qed.

End Invariant.

(* ===================================================================== *)
(** ** Rounding: the operations of [SpecFloat] on integers *)
(* ===================================================================== *)

Lemma digits2_pos_log2 (m : positive) : Zpos (digits2_pos m) = Z.log2 (Zpos m) + 1.
Proof.
  induction m as [m IH|m IH|]; cbn [digits2_pos].
  - rewrite Pos2Z.inj_succ, IH.
    change (Zpos m~1) with (2 * Zpos m + 1).
    rewrite Z.log2_succ_double by lia. lia.
  - rewrite Pos2Z.inj_succ, IH.
    change (Zpos m~0) with (2 * Zpos m).
    rewrite Z.log2_double by lia. lia.
  - reflexivity.
Qed.

Lemma digits2_bounds (m : positive) :
  2 ^ (Zpos (digits2_pos m) - 1) <= Zpos m < 2 ^ Zpos (digits2_pos m).
Proof.
  rewrite digits2_pos_log2.
  replace (Z.log2 (Zpos m) + 1 - 1) with (Z.log2 (Zpos m)) by lia.
  replace (Z.log2 (Zpos m) + 1) with (Z.succ (Z.log2 (Zpos m))) by lia.
  apply Z.log2_spec. lia.
Qed.

(** iter_pos as iteration over nat *)
Lemma iter_pos_nat {A} (f : A -> A) (p : positive) (x : A) :
  SpecFloat.iter_pos f p x = Nat.iter (Pos.to_nat p) f x.
Proof.
  revert x. induction p as [p IH|p IH|]; intros x; cbn [SpecFloat.iter_pos].
  - rewrite !IH. rewrite Pos2Nat.inj_xI.
    replace (S (2 * Pos.to_nat p))%nat with (Pos.to_nat p + (Pos.to_nat p + 1))%nat by lia.
    rewrite !Nat.iter_add. cbn. reflexivity.
  - rewrite !IH. rewrite Pos2Nat.inj_xO.
    replace (2 * Pos.to_nat p)%nat with (Pos.to_nat p + Pos.to_nat p)%nat by lia.
    rewrite Nat.iter_add. reflexivity.
  - reflexivity.
Qed.

Lemma shr_1_nonneg (q : Z) (r s : bool) :
  0 <= q ->
  shr_1 (Build_shr_record q r s) = Build_shr_record (q / 2) (Z.odd q) (r || s).
Proof.
  intros Hq. destruct q as [|p|p]; [reflexivity| |lia].
  destruct p as [p|p|]; cbn [shr_1].
  - f_equal. change (Zpos p~1) with (2 * Zpos p + 1).
    rewrite Z.mul_comm, Z.div_add_l by lia. change (1 / 2) with 0. lia.
  - f_equal. change (Zpos p~0) with (2 * Zpos p).
    rewrite Z.mul_comm, Z.div_mul by lia. lia.
  - reflexivity.
Qed.

Lemma mod_pow2_succ (m k : Z) : 0 <= k ->
  m mod 2 ^ (k + 1) = m mod 2 ^ k + (if Z.testbit m k then 2 ^ k else 0).
Proof.
  intros Hk.
  pose proof (Z.testbit_spec' m k Hk) as Hb.
  pose proof (Z.pow_pos_nonneg 2 k ltac:(lia) Hk) as Hp.
  rewrite Z.pow_add_r by lia. change (2 ^ 1) with 2.
  rewrite Z.rem_mul_r by lia.
  destruct (Z.testbit m k); cbn in Hb; rewrite <- Hb; lia.
Qed.

Lemma shr_iter (m : Z) (k : nat) : 0 <= m ->
  Nat.iter k shr_1 (Build_shr_record m false false) = shifted m k.
Proof.
  intros Hm. induction k as [|k IH].
  - cbn. unfold shifted. cbn. rewrite Z.div_1_r, Z.mod_1_r. reflexivity.
  - rewrite Nat.iter_succ, IH. unfold shifted.
    rewrite shr_1_nonneg by (apply Z.div_pos; [lia | apply Z.pow_pos_nonneg; lia]).
    f_equal.
    + rewrite Nat2Z.inj_succ, Z.pow_succ_r by lia.
      rewrite Z.div_div by (try apply Z.pow_pos_nonneg; lia). f_equal. lia.
    + rewrite Z.testbit_odd, Z.shiftr_div_pow2 by lia.
      f_equal. f_equal. f_equal. lia.
    + cbn [Nat.pred].
      destruct k as [|k].
      * cbn. rewrite Z.mod_1_r. reflexivity.
      * cbn [Nat.pred].
        replace (Z.of_nat (S k) - 1) with (Z.of_nat k) by lia.
        replace (Z.of_nat (S k)) with (Z.of_nat k + 1) by lia.
        rewrite mod_pow2_succ by lia.
        pose proof (Z.mod_pos_bound m (2 ^ Z.of_nat k) ltac:(apply Z.pow_pos_nonneg; lia)).
        pose proof (Z.pow_pos_nonneg 2 (Z.of_nat k) ltac:(lia) ltac:(lia)).
        destruct (Z.testbit m (Z.of_nat k)); cbn.
        -- symmetry. apply negb_true_iff, Z.eqb_neq. lia.
        -- rewrite Z.add_0_r. reflexivity.
Qed.

Lemma rne_shifted (m : Z) (k : nat) : 0 <= m ->
  round_nearest_even (shr_m (shifted m k)) (loc_of_shr_record (shifted m k))
  = rne m (Z.of_nat k).
Proof.
  intros Hm. unfold shifted, rne. cbn [shr_m loc_of_shr_record].
  destruct k as [|k].
  - cbn. rewrite Z.mod_1_r, Z.div_1_r. reflexivity.
  - cbn [Nat.pred].
    replace (Z.of_nat (S k) - 1) with (Z.of_nat k) by lia.
    replace (Z.of_nat (S k)) with (Z.of_nat k + 1) by lia.
    rewrite mod_pow2_succ by lia.
    rewrite (Z.pow_add_r 2 (Z.of_nat k) 1) by lia. change (2 ^ 1) with 2.
    pose proof (Z.mod_pos_bound m (2 ^ Z.of_nat k) ltac:(apply Z.pow_pos_nonneg; lia)) as Hb.
    set (low := m mod 2 ^ Z.of_nat k) in *.
    set (p := 2 ^ Z.of_nat k) in *.
    destruct (Z.testbit m (Z.of_nat k)).
    + destruct (Z.eqb_spec low 0) as [E|E]; cbn [negb round_nearest_even].
      * replace (2 * (low + p) ?= p * 2) with Eq by (symmetry; apply Z.compare_eq_iff; lia).
        reflexivity.
      * replace (2 * (low + p) ?= p * 2) with Gt by (symmetry; apply Z.compare_gt_iff; lia).
        reflexivity.
    + replace (2 * (low + 0) ?= p * 2) with Lt by (symmetry; apply Z.compare_lt_iff; lia).
      destruct (Z.eqb_spec low 0); reflexivity.
Qed.

Lemma shr_nonneg (m e n : Z) : 0 <= m -> 0 <= n ->
  shr (Build_shr_record m false false) e n = (shifted m (Z.to_nat n), e + n).
Proof.
  intros Hm Hn. unfold shr. destruct n as [|p|p]; [| |lia].
  - change (Z.to_nat 0) with 0%nat. rewrite <- (shr_iter m 0 Hm).
    rewrite Z.add_0_r. reflexivity.
  - rewrite iter_pos_nat, shr_iter by lia. reflexivity.
Qed.

Lemma shr_nonpos (mrs : shr_record) (e n : Z) : n <= 0 -> shr mrs e n = (mrs, e).
Proof. intros Hn. unfold shr. destruct n; [reflexivity|lia|reflexivity]. Qed.

Lemma rne_bounds (m n : Z) : 0 <= m -> 0 <= n ->
  m / 2 ^ n <= rne m n <= m / 2 ^ n + 1.
Proof.
  intros Hm Hn. unfold rne.
  destruct (Z.compare _ _); [destruct (Z.even _)| |]; lia.
Qed.

(** Scaling the numerator and the divisor together. *)
Lemma rne_scale (m n k : Z) : 0 <= n -> 0 <= k ->
  rne (m * 2 ^ k) (n + k) = rne m n.
Proof.
  intros Hn Hk. unfold rne.
  pose proof (Z.pow_pos_nonneg 2 k ltac:(lia) Hk) as Hpk.
  pose proof (Z.pow_pos_nonneg 2 n ltac:(lia) Hn) as Hpn.
  rewrite Z.pow_add_r by lia.
  rewrite Z.div_mul_cancel_r by lia.
  rewrite Zmult_mod_distr_r.
  replace (2 * (m mod 2 ^ n * 2 ^ k)) with (2 ^ k * (2 * (m mod 2 ^ n))) by lia.
  replace (2 ^ n * 2 ^ k) with (2 ^ k * 2 ^ n) by lia.
  set (a := 2 * (m mod 2 ^ n)) in *. set (b := 2 ^ n) in *. set (c := 2 ^ k) in *.
  destruct (Z.compare_spec (c * a) (c * b)), (Z.compare_spec a b);
    try reflexivity; nia.
Qed.

Lemma rne_exact (m n : Z) : 0 <= n -> rne (m * 2 ^ n) n = m.
Proof.
  intros Hn. unfold rne.
  pose proof (Z.pow_pos_nonneg 2 n ltac:(lia) Hn) as Hpn.
  rewrite Z.mod_mul, Z.div_mul by lia.
  replace (2 * 0 ?= 2 ^ n) with Lt by (symmetry; apply Z.compare_lt_iff; lia).
  reflexivity.
Qed.

Lemma rne_mono (m m' n : Z) : 0 <= n -> m <= m' -> rne m n <= rne m' n.
Proof.
  intros Hn Hle. unfold rne.
  pose proof (Z.pow_pos_nonneg 2 n ltac:(lia) Hn) as Hp.
  set (p := 2 ^ n) in *.
  pose proof (Z.div_mod m p ltac:(lia)) as E.
  pose proof (Z.div_mod m' p ltac:(lia)) as E'.
  pose proof (Z.mod_pos_bound m p Hp) as Hb.
  pose proof (Z.mod_pos_bound m' p Hp) as Hb'.
  assert (Hq : m / p <= m' / p) by (apply Z.div_le_mono; lia).
  destruct (Z.eq_dec (m / p) (m' / p)) as [Eq|Ne].
  - rewrite <- Eq in *. 
    assert (m mod p <= m' mod p) by lia.
    destruct (Z.compare_spec (2 * (m mod p)) p), (Z.compare_spec (2 * (m' mod p)) p);
      try destruct (Z.even (m / p)); lia.
  - assert (m / p + 1 <= m' / p) by lia.
    destruct (Z.compare (2 * (m mod p)) p), (Z.compare (2 * (m' mod p)) p);
      try destruct (Z.even (m / p)); try destruct (Z.even (m' / p)); lia.
Qed.

Lemma fexp64 (e : Z) : fexp prec emax e = Z.max (e - 53) (-1074).
Proof. reflexivity. Qed.

Lemma Zdigits2_log2 (m : Z) : 0 < m -> Zdigits2 m = Z.log2 m + 1.
Proof. destruct m; try lia. intros _. apply digits2_pos_log2. Qed.

(** Abstracts the powers of two, for [ring] and [nia]. *)
Ltac gen_pows :=
  repeat match goal with
         | |- context [Z.pow 2 ?k] =>
             let p := fresh "p" in set (p := Z.pow 2 k) in *; clearbody p
         end.

Lemma pow2_pos (k : Z) : 0 <= k -> 0 < 2 ^ k.
Proof. intros. apply Z.pow_pos_nonneg; lia. Qed.

Lemma pow2_le (a b : Z) : 0 <= a <= b -> 2 ^ a <= 2 ^ b.
Proof. intros. apply Z.pow_le_mono_r; lia. Qed.

Lemma pow2_lt (a b : Z) : 0 <= a < b -> 2 ^ a < 2 ^ b.
Proof. intros. apply Z.pow_lt_mono_r; lia. Qed.

(** Upper part of a number with [d] digits after dropping [n] bits. *)
Lemma div_pow2_lt (m d n : Z) : 0 <= m < 2 ^ d -> 0 <= n -> d - n <= 53 ->
  m / 2 ^ n < 2 ^ 53.
Proof.
  intros Hm Hn Hd.
  apply Z.div_lt_upper_bound; [now apply pow2_pos|].
  rewrite <- Z.pow_add_r by lia.
  destruct (Z_lt_le_dec d 0).
  - rewrite (Z.pow_neg_r 2 d) in Hm by lia. lia.
  - eapply Z.lt_le_trans; [apply Hm|]. apply pow2_le. lia.
Qed.

Lemma div_pow2_ge (m d n : Z) : 2 ^ (d - 1) <= m -> 0 <= n -> n = d - 53 ->
  2 ^ 52 <= m / 2 ^ n.
Proof.
  intros Hm Hn Hd.
  apply Z.div_le_lower_bound; [now apply pow2_pos|].
  rewrite <- Z.pow_add_r by lia.
  replace (n + 52) with (d - 1) by lia. exact Hm.
Qed.

(** The second normalisation of [binary_round_aux]. *)
Lemma shr_fexp_second (m1 e1 : Z) : 0 <= m1 <= 2 ^ 53 -> -1074 <= e1 ->
  (m1 < 2 ^ 53 -> e1 = -1074 \/ 2 ^ 52 <= m1) ->
  shr_fexp prec emax m1 e1 loc_Exact =
  if m1 =? 2 ^ 53 then (Build_shr_record (2 ^ 52) false false, e1 + 1)
  else (Build_shr_record m1 false false, e1).
Proof.
  intros Hm He Hc. unfold shr_fexp. rewrite fexp64. cbn [shr_record_of_loc].
  destruct (Z.eqb_spec m1 (2 ^ 53)) as [E|E].
  - subst m1. change (Zdigits2 (2 ^ 53)) with 54.
    replace (Z.max (54 + e1 - 53) (-1074) - e1) with 1 by lia.
    reflexivity.
  - apply shr_nonpos.
    destruct (Z.eq_dec m1 0) as [E0|E0].
    + subst m1. cbn [Zdigits2]. lia.
    + rewrite Zdigits2_log2 by lia.
      assert (Z.log2 m1 < 53) by (apply Z.log2_lt_pow2; lia).
      lia.
Qed.

Lemma rne_range (m e : Z) :
  0 < m ->
  let e1 := fexp prec emax (Zdigits2 m + e) in
  e <= e1 ->
  0 <= rne m (e1 - e) <= 2 ^ 53 /\
  (e1 = -1074 \/ 2 ^ 52 <= rne m (e1 - e)).
Proof.
  intros Hm e1 Hr.
  assert (Hd : Zdigits2 m = Z.log2 m + 1) by (now apply Zdigits2_log2).
  pose proof (Z.log2_spec m Hm) as Hl.
  pose proof (Z.log2_nonneg m) as Hl0.
  assert (He1 : e1 = Z.max (Zdigits2 m + e - 53) (-1074)) by reflexivity.
  pose proof (rne_bounds m (e1 - e) ltac:(lia) ltac:(lia)) as Hb.
  assert (Hq : m / 2 ^ (e1 - e) < 2 ^ 53).
  { apply (div_pow2_lt m (Zdigits2 m)); try lia.
    rewrite Hd. replace (Z.log2 m + 1) with (Z.succ (Z.log2 m)) by lia. lia. }
  assert (Hq0 : 0 <= m / 2 ^ (e1 - e)).
  { apply Z.div_pos; [lia|]. apply pow2_pos. lia. }
  split; [lia|].
  destruct (Z.eq_dec e1 (-1074)) as [E|E]; [now left|right].
  assert (2 ^ 52 <= m / 2 ^ (e1 - e)).
  { apply (div_pow2_ge m (Zdigits2 m)); try lia.
    rewrite Hd. replace (Z.log2 m + 1 - 1) with (Z.log2 m) by lia. lia. }
  lia.
Qed.

Lemma bra_closed_eq (s : bool) (m : positive) (e : Z) :
  e <= fexp prec emax (Zpos (digits2_pos m) + e) ->
  binary_round_aux prec emax s (Zpos m) e loc_Exact = bra_closed s (Zpos m) e.
Proof.
  intros Hr. unfold binary_round_aux, bra_closed.
  change (Zdigits2 (Zpos m)) with (Zpos (digits2_pos m)).
  set (e1 := fexp prec emax (Zpos (digits2_pos m) + e)) in *.
  unfold shr_fexp at 1. cbn [shr_record_of_loc Zdigits2]. fold e1.
  rewrite shr_nonneg by lia.
  rewrite rne_shifted by lia. rewrite Z2Nat.id by lia.
  replace (e + (e1 - e)) with e1 by lia.
  destruct (rne_range (Zpos m) e ltac:(lia) Hr) as [Hb Hc]. fold e1 in Hb, Hc.
  set (m1 := rne (Zpos m) (e1 - e)) in *.
  assert (He1 : -1074 <= e1) by (unfold e1; rewrite fexp64; lia).
  rewrite shr_fexp_second by (auto; lia).
  change (emax - prec) with 971.
  destruct (Z.eqb_spec m1 (2 ^ 53)); cbn [shr_m]; reflexivity.
Qed.

Lemma RN_scaled (m e : Z) :
  0 < m -> -2148 <= e ->
  let e1 := fexp prec emax (Zdigits2 m + e) in
  e <= e1 ->
  RN (m * 2 ^ (e + 2148)) = rne m (e1 - e) * 2 ^ (e1 + 1074).
Proof.
  intros Hm He e1 Hr. unfold RN.
  assert (Hd : Zdigits2 m = Z.log2 m + 1) by (now apply Zdigits2_log2).
  assert (He1 : e1 = Z.max (Zdigits2 m + e - 53) (-1074)) by reflexivity.
  rewrite Z.log2_mul_pow2 by lia.
  replace (Z.max (e + 2148 + Z.log2 m - 52) 1074) with ((e1 - e) + (e + 2148)) by lia.
  rewrite rne_scale by lia.
  f_equal. f_equal. lia.
Qed.

Lemma B_bra_closed (s : bool) (m e : Z) :
  0 < m -> -2148 <= e -> e <= fexp prec emax (Zdigits2 m + e) ->
  B (bra_closed s m e) = cond_Zopp s (F2pos (m * 2 ^ (e + 2148))) /\
  is_nan_sf (bra_closed s m e) = false.
Proof.
  intros Hm He Hr. unfold F2pos.
  rewrite RN_scaled by assumption.
  unfold bra_closed.
  destruct (rne_range m e Hm Hr) as [Hb Hc].
  set (e1 := fexp prec emax (Zdigits2 m + e)) in *.
  assert (He1 : -1074 <= e1) by (unfold e1; rewrite fexp64; lia).
  set (m1 := rne m (e1 - e)) in *.
  pose proof (pow2_pos (e1 + 1074) ltac:(lia)) as Hp.
  destruct (Z.eqb_spec m1 (2 ^ 53)) as [E|E].
  - (* the mantissa overflowed to 2^53 *)
    rewrite E. change (2 ^ 52) with (Zpos (Pos.pow 2 52)).
    destruct (Z.leb_spec (e1 + 1) 971) as [L|L]; cbn [B is_nan_sf]; (split; [|reflexivity]); f_equal.
    + change (Zpos (Pos.pow 2 52)) with (2 ^ 52).
      replace (e1 + 1 + 1074) with ((e1 + 1074) + 1) by lia.
      rewrite Z.pow_add_r by lia. change (2 ^ 1) with 2.
      change (2 ^ 53) with (2 ^ 52 * 2).
      rewrite Z.min_l; [lia|].
      change (2 ^ 2098) with (2 ^ 52 * 2 * 2 ^ 2045).
      apply Z.mul_le_mono_nonneg_l; [lia|]. apply pow2_le. lia.
    + rewrite Z.min_r; [reflexivity|].
      change (2 ^ 2098) with (2 ^ 53 * 2 ^ 2045).
      apply Z.mul_le_mono_nonneg_l; [lia|]. apply pow2_le. lia.
  - destruct m1 as [|p|p] eqn:Em1; [| |lia].
    + cbn [B is_nan_sf]. split; [|reflexivity].
      rewrite Z.mul_0_l, Z.min_l by lia. now destruct s.
    + destruct (Z.leb_spec e1 971) as [L|L]; cbn [B is_nan_sf]; (split; [|reflexivity]); f_equal.
      * rewrite Z.min_l; [reflexivity|].
        change (2 ^ 2098) with (2 ^ 53 * 2 ^ 2045).
        apply Z.mul_le_mono_nonneg; try lia. apply pow2_le. lia.
      * rewrite Z.min_r; [reflexivity|].
        change (2 ^ 2098) with (2 ^ 52 * 2 ^ 2046).
        apply Z.mul_le_mono_nonneg; try lia. apply pow2_le. lia.
Qed.

Lemma RN_nonneg (z : Z) : 0 < z -> 0 <= RN z.
Proof.
  intros Hz. unfold RN.
  set (n := Z.max (Z.log2 z - 52) 1074).
  pose proof (rne_bounds z n ltac:(lia) ltac:(lia)).
  assert (0 <= z / 2 ^ n) by (apply Z.div_pos; [lia | apply pow2_pos; lia]).
  apply Z.mul_nonneg_nonneg; [lia|]. apply Z.lt_le_incl, pow2_pos. lia.
Qed.

Lemma RN_mono (z z' : Z) : 0 < z <= z' -> RN z <= RN z'.
Proof.
  intros [Hz Hle]. unfold RN.
  pose proof (Z.log2_le_mono z z' Hle) as Hlog.
  pose proof (Z.log2_spec z Hz) as Hl.
  pose proof (Z.log2_spec z' ltac:(lia)) as Hl'.
  pose proof (Z.log2_nonneg z) as Hl0.
  set (n := Z.max (Z.log2 z - 52) 1074).
  set (n' := Z.max (Z.log2 z' - 52) 1074).
  assert (Hn : n <= n') by lia.
  destruct (Z.eq_dec n n') as [E|E].
  - rewrite <- E. apply Z.mul_le_mono_nonneg_r.
    + apply Z.lt_le_incl, pow2_pos. lia.
    + apply rne_mono; lia.
  - assert (Hn' : n' = Z.log2 z' - 52) by lia.
    (* the smaller one is at most 2^53 units, the larger at least 2^52 *)
    assert (H1 : rne z n <= 2 ^ 53).
    { pose proof (rne_bounds z n ltac:(lia) ltac:(lia)).
      assert (z / 2 ^ n < 2 ^ 53).
      { apply (div_pow2_lt z (Z.succ (Z.log2 z))); lia. }
      lia. }
    assert (H2 : 2 ^ 52 <= rne z' n').
    { pose proof (rne_bounds z' n' ltac:(lia) ltac:(lia)).
      assert (2 ^ 52 <= z' / 2 ^ n').
      { apply (div_pow2_ge z' (Z.succ (Z.log2 z'))); try lia.
        replace (Z.succ (Z.log2 z') - 1) with (Z.log2 z') by lia. lia. }
      lia. }
    pose proof (pow2_pos (n - 1074) ltac:(lia)) as Hp.
    pose proof (pow2_pos (n' - 1074) ltac:(lia)) as Hp'.
    assert (H3 : 2 * 2 ^ (n - 1074) <= 2 ^ (n' - 1074)).
    { replace (n' - 1074) with (Z.succ (n' - 1 - 1074)) by lia.
      rewrite Z.pow_succ_r by lia.
      apply Z.mul_le_mono_nonneg_l; [lia|]. apply pow2_le. lia. }
    change (2 ^ 53) with (2 * 2 ^ 52) in H1.
    assert (0 <= rne z n).
    { pose proof (rne_bounds z n ltac:(lia) ltac:(lia)).
      assert (0 <= z / 2 ^ n) by (apply Z.div_pos; [lia | apply pow2_pos; lia]). lia. }
    nia.
Qed.

Lemma F2pos_mono (z z' : Z) : 0 < z <= z' -> F2pos z <= F2pos z'.
Proof. intros H. unfold F2pos. pose proof (RN_mono z z' H). lia. Qed.

Lemma F2pos_nonneg (z : Z) : 0 < z -> 0 <= F2pos z.
Proof. intros H. unfold F2pos. pose proof (RN_nonneg z H). lia. Qed.

Lemma F2_opp (z : Z) : F2 (- z) = - F2 z.
Proof.
  destruct z as [|p|p]; [reflexivity| |].
  - change (- Zpos p) with (Zneg p). cbn [F2]. lia.
  - change (- Zneg p) with (Zpos p). cbn [F2]. lia.
Qed.

Lemma F2_cond_Zopp (s : bool) (z : Z) : 0 < z -> F2 (cond_Zopp s z) = cond_Zopp s (F2pos z).
Proof.
  intros Hz. destruct z as [|p|p]; try lia. destruct s; reflexivity.
Qed.

Lemma F2_nonneg (z : Z) : 0 <= z -> 0 <= F2 z.
Proof.
  intros Hz. destruct z as [|p|p]; cbn [F2]; try lia. apply F2pos_nonneg. lia.
Qed.

(** Rounding is monotone. *)
Lemma F2_mono (z z' : Z) : z <= z' -> F2 z <= F2 z'.
Proof.
  intros Hle.
  destruct z as [|p|p], z' as [|p'|p']; cbn [F2]; try lia.
  - apply F2pos_nonneg. lia.
  - apply F2pos_mono. lia.
  - pose proof (F2pos_nonneg (Zpos p) ltac:(lia)). lia.
  - pose proof (F2pos_nonneg (Zpos p) ltac:(lia)).
    pose proof (F2pos_nonneg (Zpos p') ltac:(lia)). lia.
  - pose proof (F2pos_mono (Zpos p') (Zpos p) ltac:(lia)). lia.
Qed.

Lemma F2_le_max (z : Z) : - 2 ^ 2098 <= F2 z <= 2 ^ 2098.
Proof.
  pose proof (pow2_pos 2098 ltac:(lia)).
  destruct z as [|p|p]; cbn [F2]; [lia| |].
  - pose proof (F2pos_nonneg (Zpos p) ltac:(lia)). unfold F2pos in *. lia.
  - pose proof (F2pos_nonneg (Zpos p) ltac:(lia)). unfold F2pos in *. lia.
Qed.

(** Validity of a finite number, spelled out. *)
Lemma bounded_spec (m : positive) (e : Z) :
  bounded prec emax m e = true ->
  fexp prec emax (Zpos (digits2_pos m) + e) = e /\ e <= 971 /\ -1074 <= e /\
  Zpos m < 2 ^ 53 /\ (e = -1074 \/ 2 ^ 52 <= Zpos m).
Proof.
  unfold bounded, canonical_mantissa. intros H.
  apply andb_true_iff in H. destruct H as [H1 H2].
  apply Z.eqb_eq in H1. apply Z.leb_le in H2.
  change (emax - prec) with 971 in H2.
  pose proof (digits2_bounds m) as Hd.
  rewrite fexp64 in *.
  repeat split; try lia.
  - eapply Z.lt_le_trans; [apply Hd|]. apply pow2_le. lia.
  - destruct (Z.eq_dec e (-1074)); [now left|right].
    assert (Zpos (digits2_pos m) = 53) by lia.
    replace 52 with (Zpos (digits2_pos m) - 1) by lia. apply Hd.
Qed.

Lemma B_finite_bound (x : spec_float) :
  valid_binary x = true -> finite_sf x = true -> - 2 ^ 2098 < B x < 2 ^ 2098.
Proof.
  destruct x as [s|s| |s m e]; cbn [finite_sf valid_binary B]; try discriminate.
  - lia.
  - intros Hv _. destruct (bounded_spec m e Hv) as (_ & He & He' & Hm & _).
    assert (Zpos m * 2 ^ (e + 1074) < 2 ^ 2098).
    { change (2 ^ 2098) with (2 ^ 53 * 2 ^ 2045).
      pose proof (pow2_pos (e + 1074) ltac:(lia)).
      pose proof (pow2_le (e + 1074) 2045 ltac:(lia)). nia. }
    pose proof (pow2_pos (e + 1074) ltac:(lia)).
    destruct s; cbn [cond_Zopp]; nia.
Qed.

(** A number is its own rounding. *)
Lemma F2_B (x : spec_float) :
  valid_binary x = true -> finite_sf x = true -> F2 (B x * 2 ^ 1074) = B x.
Proof.
  destruct x as [s|s| |s m e]; cbn [finite_sf valid_binary B]; try discriminate.
  - reflexivity.
  - intros Hv _. destruct (bounded_spec m e Hv) as (Hc & He & He' & Hm & _).
    pose proof (pow2_pos (e + 1074) ltac:(lia)) as Hp.
    replace (cond_Zopp s (Zpos m * 2 ^ (e + 1074)) * 2 ^ 1074)
      with (cond_Zopp s (Zpos m * 2 ^ (e + 2148))).
    2:{ replace (e + 2148) with ((e + 1074) + 1074) by lia.
        rewrite Z.pow_add_r by lia. destruct s; cbn [cond_Zopp]; gen_pows; ring. }
    rewrite F2_cond_Zopp by (pose proof (pow2_pos (e + 2148) ltac:(lia)); nia).
    f_equal. unfold F2pos.
    rewrite RN_scaled; cbn [Zdigits2]; rewrite ?Hc; try lia.
    replace (e - e) with 0 by lia.
    replace (rne (Zpos m) 0) with (Zpos m).
    2:{ rewrite <- (rne_exact (Zpos m) 0) at 1 by lia. now rewrite Z.mul_1_r. }
    apply Z.min_l.
    change (2 ^ 2098) with (2 ^ 53 * 2 ^ 2045).
    pose proof (pow2_le (e + 1074) 2045 ltac:(lia)). nia.
Qed.

Lemma iter_xO (m d : positive) : Zpos (Pos.iter xO m d) = Zpos m * 2 ^ Zpos d.
Proof.
  induction d as [|d IH] using Pos.peano_ind.
  - cbn. lia.
  - rewrite Pos.iter_succ, Pos2Z.inj_succ, Z.pow_succ_r by lia.
    change (Zpos (Pos.iter xO m d)~0) with (2 * Zpos (Pos.iter xO m d)).
    rewrite IH. lia.
Qed.

(** [shl_align] keeps the value and lowers the exponent to [e'] at most. *)
Lemma shl_align_spec (m : positive) (e e' : Z) :
  let '(m2, e2) := shl_align m e e' in
  e2 = Z.min e e' /\ Zpos m2 = Zpos m * 2 ^ (e - e2).
Proof.
  unfold shl_align. destruct (e' - e) as [|d|d] eqn:E.
  - split; [lia|]. replace (e - e) with 0 by lia. lia.
  - split; [lia|]. replace (e - e) with 0 by lia. lia.
  - split; [lia|]. rewrite iter_xO. f_equal. f_equal. lia.
Qed.

Lemma digits_shift (m k : Z) : 0 < m -> 0 <= k ->
  Zdigits2 (m * 2 ^ k) = Zdigits2 m + k.
Proof.
  intros Hm Hk. pose proof (pow2_pos k Hk).
  rewrite !Zdigits2_log2 by nia.
  rewrite Z.log2_mul_pow2 by lia. lia.
Qed.

Lemma B_binary_round (s : bool) (m : positive) (e : Z) :
  -1074 <= e ->
  B (binary_round prec emax s m e) = cond_Zopp s (F2pos (Zpos m * 2 ^ (e + 2148))) /\
  is_nan_sf (binary_round prec emax s m e) = false.
Proof.
  intros He. unfold binary_round.
  pose proof (shl_align_spec m e (fexp prec emax (Zpos (digits2_pos m) + e))) as Hs.
  destruct (shl_align _ _ _) as [m2 e2]. destruct Hs as [He2 Hm2].
  assert (Hf : -1074 <= fexp prec emax (Zpos (digits2_pos m) + e)) by (rewrite fexp64; lia).
  assert (Hd : Zpos (digits2_pos m2) + e2 = Zpos (digits2_pos m) + e).
  { change (Zpos (digits2_pos m2)) with (Zdigits2 (Zpos m2)).
    rewrite Hm2, digits_shift by lia. cbn [Zdigits2]. lia. }
  rewrite bra_closed_eq by (rewrite Hd; lia).
  replace (Zpos m * 2 ^ (e + 2148)) with (Zpos m2 * 2 ^ (e2 + 2148)).
  2:{ rewrite Hm2. rewrite <- Z.mul_assoc, <- Z.pow_add_r by lia. f_equal. f_equal. lia. }
  apply B_bra_closed; try lia.
  cbn [Zdigits2]. rewrite Hd. lia.
Qed.

Lemma B_binary_normalize (z e : Z) (sz : bool) :
  -1074 <= e ->
  B (binary_normalize prec emax z e sz) = F2 (z * 2 ^ (e + 2148)) /\
  is_nan_sf (binary_normalize prec emax z e sz) = false.
Proof.
  intros He. pose proof (pow2_pos (e + 2148) ltac:(lia)) as Hp.
  destruct z as [|p|p]; cbn [binary_normalize].
  - split; reflexivity.
  - destruct (B_binary_round false p e He) as [H1 H2]. split; [|exact H2].
    rewrite H1. cbn [cond_Zopp].
    destruct (Zpos p * 2 ^ (e + 2148)) eqn:E; try nia. reflexivity.
  - destruct (B_binary_round true p e He) as [H1 H2]. split; [|exact H2].
    rewrite H1. cbn [cond_Zopp].
    replace (Zneg p * 2 ^ (e + 2148)) with (- (Zpos p * 2 ^ (e + 2148))) by lia.
    rewrite F2_opp.
    destruct (Zpos p * 2 ^ (e + 2148)) eqn:E; try nia. reflexivity.
Qed.

(** The product of two finite numbers is the rounding of the exact product. *)
Lemma SFmul_B (x y : spec_float) :
  valid_binary x = true -> valid_binary y = true ->
  finite_sf x = true -> finite_sf y = true ->
  B (SFmul prec emax x y) = F2 (B x * B y) /\ is_nan_sf (SFmul prec emax x y) = false.
Proof.
  destruct x as [sx|sx| |sx mx ex], y as [sy|sy| |sy my ey];
    cbn [finite_sf valid_binary]; try discriminate; intros Hx Hy _ _.
  - split; reflexivity.
  - cbn [SFmul B]. rewrite Z.mul_0_l. split; reflexivity.
  - cbn [SFmul B]. rewrite Z.mul_0_r. split; reflexivity.
  - cbn [SFmul B].
    destruct (bounded_spec mx ex Hx) as (Hcx & _ & Hex & Hmx & Hnx).
    destruct (bounded_spec my ey Hy) as (Hcy & _ & Hey & Hmy & Hny).
    assert (Hr : ex + ey <= fexp prec emax (Zpos (digits2_pos (mx * my)) + (ex + ey))).
    { rewrite fexp64. rewrite digits2_pos_log2, Pos2Z.inj_mul.
      pose proof (Z.log2_mul_below (Zpos mx) (Zpos my) ltac:(lia) ltac:(lia)) as Hl.
      pose proof (Z.log2_nonneg (Zpos mx)). pose proof (Z.log2_nonneg (Zpos my)).
      destruct Hnx as [Ex|Nx]; destruct Hny as [Ey|Ny]; try lia.
      - assert (52 <= Z.log2 (Zpos my)) by (apply Z.log2_le_pow2; lia). lia.
      - assert (52 <= Z.log2 (Zpos mx)) by (apply Z.log2_le_pow2; lia). lia.
      - assert (52 <= Z.log2 (Zpos mx)) by (apply Z.log2_le_pow2; lia). lia. }
    rewrite bra_closed_eq by exact Hr.
    destruct (B_bra_closed (xorb sx sy) (Zpos (mx * my)) (ex + ey)) as [H1 H2];
      [lia | lia | exact Hr |].
    split; [|exact H2]. rewrite H1.
    pose proof (pow2_pos (ex + 1074) ltac:(lia)).
    pose proof (pow2_pos (ey + 1074) ltac:(lia)).
    replace (cond_Zopp sx (Zpos mx * 2 ^ (ex + 1074)) * cond_Zopp sy (Zpos my * 2 ^ (ey + 1074)))
      with (cond_Zopp (xorb sx sy) (Zpos (mx * my) * 2 ^ (ex + ey + 2148))).
    2:{ replace (ex + ey + 2148) with ((ex + 1074) + (ey + 1074)) by lia.
        rewrite Z.pow_add_r, Pos2Z.inj_mul by lia.
        destruct sx, sy; cbn [xorb cond_Zopp]; gen_pows; ring. }
    rewrite F2_cond_Zopp; [reflexivity|].
    pose proof (pow2_pos (ex + ey + 2148) ltac:(lia)). nia.
Qed.

Lemma fst_shl_align (m : positive) (e e' : Z) : e' <= e ->
  Zpos (fst (shl_align m e e')) = Zpos m * 2 ^ (e - e').
Proof.
  intros H. pose proof (shl_align_spec m e e') as Hs.
  destruct (shl_align m e e') as [m2 e2]. destruct Hs as [He2 Hm2]. cbn [fst].
  rewrite Hm2. f_equal. f_equal. lia.
Qed.

Lemma B_aligned (s : bool) (m : positive) (e ez : Z) : -1074 <= ez <= e ->
  cond_Zopp s (Zpos (fst (shl_align m e ez))) * 2 ^ (ez + 2148)
  = cond_Zopp s (Zpos m * 2 ^ (e + 1074)) * 2 ^ 1074.
Proof.
  intros H. rewrite fst_shl_align by lia.
  replace (ez + 2148) with ((ez + 1074) + 1074) by lia.
  replace (e + 1074) with ((e - ez) + (ez + 1074)) by lia.
  rewrite (Z.pow_add_r 2 (ez + 1074) 1074), (Z.pow_add_r 2 (e - ez) (ez + 1074)) by lia.
  destruct s; cbn [cond_Zopp]; gen_pows; ring.
Qed.

(** The sum of two finite numbers is the rounding of the exact sum. *)
Lemma SFadd_B (x y : spec_float) :
  valid_binary x = true -> valid_binary y = true ->
  finite_sf x = true -> finite_sf y = true ->
  B (SFadd prec emax x y) = F2 ((B x + B y) * 2 ^ 1074) /\
  is_nan_sf (SFadd prec emax x y) = false.
Proof.
  intros Hx Hy Fx Fy.
  destruct x as [sx|sx| |sx mx ex], y as [sy|sy| |sy my ey];
    cbn [finite_sf] in Fx, Fy; try discriminate.
  - destruct sx, sy; split; reflexivity.
  - cbn [SFadd]. split; [|reflexivity].
    change (B (S754_zero sx)) with 0. rewrite Z.add_0_l. symmetry. now apply F2_B.
  - cbn [SFadd]. split; [|reflexivity].
    change (B (S754_zero sy)) with 0. rewrite Z.add_0_r. symmetry. now apply F2_B.
  - cbn [SFadd B]. cbn [valid_binary] in Hx, Hy.
    destruct (bounded_spec mx ex Hx) as (_ & _ & Hex & _).
    destruct (bounded_spec my ey Hy) as (_ & _ & Hey & _).
    set (ez := Z.min ex ey).
    destruct (B_binary_normalize
                (cond_Zopp sx (Zpos (fst (shl_align mx ex ez)))
                 + cond_Zopp sy (Zpos (fst (shl_align my ey ez)))) ez false)
      as [H1 H2]; [lia|].
    split; [|exact H2]. rewrite H1. f_equal.
    rewrite !Z.mul_add_distr_r, !B_aligned by lia. reflexivity.
Qed.

(** The same for the difference. *)
Lemma SFsub_B (x y : spec_float) :
  valid_binary x = true -> valid_binary y = true ->
  finite_sf x = true -> finite_sf y = true ->
  B (SFsub prec emax x y) = F2 ((B x - B y) * 2 ^ 1074) /\
  is_nan_sf (SFsub prec emax x y) = false.
Proof.
  intros Hx Hy Fx Fy.
  destruct x as [sx|sx| |sx mx ex], y as [sy|sy| |sy my ey];
    cbn [finite_sf] in Fx, Fy; try discriminate.
  - destruct sx, sy; split; reflexivity.
  - cbn [SFsub]. split; [|reflexivity].
    change (B (S754_zero sx)) with 0. rewrite Z.sub_0_l.
    rewrite Z.mul_opp_l, F2_opp.
    rewrite (F2_B (S754_finite sy my ey)) by assumption.
    cbn [B]. destruct sy; cbn [negb cond_Zopp]; lia.
  - cbn [SFsub]. split; [|reflexivity].
    change (B (S754_zero sy)) with 0. rewrite Z.sub_0_r. symmetry. now apply F2_B.
  - cbn [SFsub B]. cbn [valid_binary] in Hx, Hy.
    destruct (bounded_spec mx ex Hx) as (_ & _ & Hex & _).
    destruct (bounded_spec my ey Hy) as (_ & _ & Hey & _).
    set (ez := Z.min ex ey).
    destruct (B_binary_normalize
                (cond_Zopp sx (Zpos (fst (shl_align mx ex ez)))
                 - cond_Zopp sy (Zpos (fst (shl_align my ey ez)))) ez false)
      as [H1 H2]; [lia|].
    split; [|exact H2]. rewrite H1. f_equal.
    rewrite !Z.mul_sub_distr_r, !B_aligned by lia. reflexivity.
Qed.

Lemma B_pos_bounds (m : positive) (e : Z) :
  bounded prec emax m e = true -> 0 < Zpos m * 2 ^ (e + 1074) < 2 ^ 2098.
Proof.
  intros Hv.
  pose proof (B_finite_bound (S754_finite false m e) Hv eq_refl) as Hb.
  cbn [B cond_Zopp] in Hb.
  destruct (bounded_spec m e Hv) as (_ & _ & He & _).
  pose proof (pow2_pos (e + 1074) ltac:(lia)). nia.
Qed.

Lemma B_exp_lt (m1 m2 : positive) (e1 e2 : Z) :
  bounded prec emax m1 e1 = true -> bounded prec emax m2 e2 = true -> e1 < e2 ->
  Zpos m1 * 2 ^ (e1 + 1074) < Zpos m2 * 2 ^ (e2 + 1074).
Proof.
  intros H1 H2 Hlt.
  destruct (bounded_spec m1 e1 H1) as (_ & _ & He1 & Hm1 & _).
  destruct (bounded_spec m2 e2 H2) as (_ & _ & He2 & _ & [E|Hm2]); [lia|].
  pose proof (pow2_pos (e1 + 1074) ltac:(lia)) as Hp1.
  assert (Hp : 2 * 2 ^ (e1 + 1074) <= 2 ^ (e2 + 1074)).
  { replace (e2 + 1074) with (Z.succ (e2 - 1 + 1074)) by lia.
    rewrite Z.pow_succ_r by lia.
    pose proof (pow2_le (e1 + 1074) (e2 - 1 + 1074) ltac:(lia)). lia. }
  change (2 ^ 53) with (2 * 2 ^ 52) in Hm1.
  gen_pows. nia.
Qed.

Lemma compare_pos_B (m1 m2 : positive) (e1 e2 : Z) :
  bounded prec emax m1 e1 = true -> bounded prec emax m2 e2 = true ->
  match e1 ?= e2 with
  | Lt => Lt
  | Gt => Gt
  | Eq => Pos.compare_cont Eq m1 m2
  end = (Zpos m1 * 2 ^ (e1 + 1074) ?= Zpos m2 * 2 ^ (e2 + 1074)).
Proof.
  intros H1 H2. symmetry.
  destruct (Z.compare_spec e1 e2) as [E|L|G].
  - subst e2. destruct (bounded_spec m1 e1 H1) as (_ & _ & He1 & _).
    pose proof (pow2_pos (e1 + 1074) ltac:(lia)) as Hp.
    change (Pos.compare_cont Eq m1 m2) with (Zpos m1 ?= Zpos m2).
    destruct (Z.compare_spec (Zpos m1) (Zpos m2)) as [E|L|G].
    + rewrite E. apply Z.compare_refl.
    + apply Z.compare_lt_iff. nia.
    + apply Z.compare_gt_iff. nia.
  - apply Z.compare_lt_iff. now apply B_exp_lt.
  - apply Z.compare_gt_iff. now apply B_exp_lt.
Qed.

(** On valid numbers other than NaN the comparison of [SpecFloat] is the
    comparison of the integers. *)
Lemma SFcompare_B (x y : spec_float) :
  valid_binary x = true -> valid_binary y = true ->
  is_nan_sf x = false -> is_nan_sf y = false ->
  SFcompare x y = Some (B x ?= B y).
Proof.
  intros Hx Hy Nx Ny.
  pose proof (pow2_pos 2098 ltac:(lia)) as Hinf.
  destruct x as [sx|sx| |sx mx ex], y as [sy|sy| |sy my ey];
    cbn [is_nan_sf] in Nx, Ny; try discriminate;
    cbn [valid_binary] in Hx, Hy;
    try (pose proof (B_pos_bounds mx ex Hx) as Bx);
    try (pose proof (B_pos_bounds my ey Hy) as By);
    cbn [SFcompare B]; f_equal; symmetry.
  - destruct sy; cbn [cond_Zopp]; [apply Z.compare_gt_iff | apply Z.compare_lt_iff]; lia.
  - destruct sy; cbn [cond_Zopp]; [apply Z.compare_gt_iff | apply Z.compare_lt_iff]; lia.
  - destruct sx; cbn [cond_Zopp]; [apply Z.compare_lt_iff | apply Z.compare_gt_iff]; lia.
  - destruct sx, sy; cbn [cond_Zopp];
      [apply Z.compare_eq_iff | apply Z.compare_lt_iff | apply Z.compare_gt_iff
       | apply Z.compare_eq_iff]; lia.
  - destruct sx; cbn [cond_Zopp]; [apply Z.compare_lt_iff | apply Z.compare_gt_iff];
      destruct sy; cbn [cond_Zopp]; lia.
  - destruct sx; cbn [cond_Zopp]; [apply Z.compare_lt_iff | apply Z.compare_gt_iff]; lia.
  - destruct sy; cbn [cond_Zopp]; [apply Z.compare_gt_iff | apply Z.compare_lt_iff];
      destruct sx; cbn [cond_Zopp]; lia.
  - destruct sx, sy; cbn [cond_Zopp].
    + rewrite Z.compare_opp, Z.compare_antisym.
      rewrite <- (compare_pos_B mx my ex ey Hx Hy).
      now destruct (ex ?= ey).
    + apply Z.compare_lt_iff. lia.
    + apply Z.compare_gt_iff. lia.
    + symmetry. now apply compare_pos_B.
Qed.

(** *** Primitive floats through their specification *)

Lemma finf_not_nan (x : float) : finf x = true -> nanf x = false.
Proof. unfold finf, nanf. now destruct (Prim2SF x). Qed.

Lemma finf_bound (x : float) : finf x = true -> - 2 ^ 2098 < Bf x < 2 ^ 2098.
Proof. intros H. apply B_finite_bound; [apply Prim2SF_valid | exact H]. Qed.

Lemma finf_of_bound (x : float) :
  nanf x = false -> - 2 ^ 2098 < Bf x < 2 ^ 2098 -> finf x = true.
Proof.
  unfold nanf, finf, Bf. destruct (Prim2SF x) as [s|s| |s m e]; cbn [B is_nan_sf finite_sf];
    try reflexivity; try discriminate.
  intros _. destruct s; cbn [cond_Zopp]; lia.
Qed.

Lemma compare_Bf (x y : float) :
  nanf x = false -> nanf y = false ->
  SFcompare (Prim2SF x) (Prim2SF y) = Some (Bf x ?= Bf y).
Proof. intros. apply SFcompare_B; auto using Prim2SF_valid. Qed.

Lemma SFcompare_nan (x y : spec_float) :
  is_nan_sf x || is_nan_sf y = true -> SFcompare x y = None.
Proof. destruct x, y; cbn; try discriminate; reflexivity. Qed.

Lemma leb_Bf (x y : float) :
  (x <=? y)%float = true <-> nanf x = false /\ nanf y = false /\ Bf x <= Bf y.
Proof.
  rewrite leb_spec. unfold SFleb.
  destruct (nanf x) eqn:Nx; [|destruct (nanf y) eqn:Ny].
  - rewrite SFcompare_nan by (unfold nanf in Nx; now rewrite Nx).
    split; [discriminate | intros (? & _); discriminate].
  - rewrite SFcompare_nan by (unfold nanf in Ny; rewrite Ny; apply orb_true_r).
    split; [discriminate | intros (_ & ? & _); discriminate].
  - rewrite compare_Bf by assumption.
    destruct (Z.compare_spec (Bf x) (Bf y)); split; intros H'; try discriminate;
      try (repeat split; lia); try reflexivity; lia.
Qed.

Lemma ltb_Bf (x y : float) :
  (x <? y)%float = true <-> nanf x = false /\ nanf y = false /\ Bf x < Bf y.
Proof.
  rewrite ltb_spec. unfold SFltb.
  destruct (nanf x) eqn:Nx; [|destruct (nanf y) eqn:Ny].
  - rewrite SFcompare_nan by (unfold nanf in Nx; now rewrite Nx).
    split; [discriminate | intros (? & _); discriminate].
  - rewrite SFcompare_nan by (unfold nanf in Ny; rewrite Ny; apply orb_true_r).
    split; [discriminate | intros (_ & ? & _); discriminate].
  - rewrite compare_Bf by assumption.
    destruct (Z.compare_spec (Bf x) (Bf y)); split; intros H'; try discriminate;
      try (repeat split; lia); try reflexivity; lia.
Qed.

Lemma mul_Bf (x y : float) : finf x = true -> finf y = true ->
  Bf (x * y) = F2 (Bf x * Bf y) /\ nanf (x * y) = false.
Proof.
  intros Hx Hy. unfold Bf, nanf. rewrite mul_spec.
  apply SFmul_B; auto using Prim2SF_valid.
Qed.

Lemma add_Bf (x y : float) : finf x = true -> finf y = true ->
  Bf (x + y) = F2 ((Bf x + Bf y) * 2 ^ 1074) /\ nanf (x + y) = false.
Proof.
  intros Hx Hy. unfold Bf, nanf. rewrite add_spec.
  apply SFadd_B; auto using Prim2SF_valid.
Qed.

Lemma sub_Bf (x y : float) : finf x = true -> finf y = true ->
  Bf (x - y) = F2 ((Bf x - Bf y) * 2 ^ 1074) /\ nanf (x - y) = false.
Proof.
  intros Hx Hy. unfold Bf, nanf. rewrite sub_spec.
  apply SFsub_B; auto using Prim2SF_valid.
Qed.

(** A number rounds to itself. *)
Lemma F2_Bf (x : float) : finf x = true -> F2 (Bf x * 2 ^ 1074) = Bf x.
Proof. intros H. apply F2_B; [apply Prim2SF_valid | exact H]. Qed.

(** A valid number between 64 and 128 has the exponent -46. *)
Lemma exponent_64_128 (x : spec_float) :
  valid_binary x = true -> is_nan_sf x = false ->
  64 * 2 ^ 1074 <= B x < 128 * 2 ^ 1074 ->
  exists m, x = S754_finite false m (-46) /\ B x = Zpos m * 2 ^ 1028.
Proof.
  intros Hv Hn Hb.
  pose proof (pow2_pos 1074 ltac:(lia)) as H1074.
  destruct x as [s|s| |s m e]; cbn [is_nan_sf] in Hn; try discriminate; cbn [B] in Hb.
  - lia.
  - destruct s; cbn [cond_Zopp] in Hb.
    + pose proof (pow2_pos 2098 ltac:(lia)). lia.
    + change (2 ^ 2098) with (2 ^ 1024 * 2 ^ 1074) in Hb.
      assert (128 < 2 ^ 1024) by (apply Z.ltb_lt; vm_compute; reflexivity). nia.
  - cbn [valid_binary] in Hv.
    destruct (bounded_spec m e Hv) as (Hc & _ & He & _).
    pose proof (digits2_bounds m) as Hd.
    pose proof (pow2_pos (e + 1074) ltac:(lia)) as Hp.
    assert (Hpos : 0 < Zpos m * 2 ^ (e + 1074)) by (apply Z.mul_pos_pos; lia).
    destruct s; cbn [cond_Zopp] in Hb; [lia|].
    set (d := Zpos (digits2_pos m)) in *.
    assert (Hd0 : 1 <= d) by (unfold d; lia).
    assert (Hlo : 2 ^ (d - 1 + (e + 1074)) <= Zpos m * 2 ^ (e + 1074)).
    { rewrite (Z.pow_add_r 2 (d - 1) (e + 1074)) by lia.
      apply Z.mul_le_mono_nonneg_r; lia. }
    assert (Hhi : Zpos m * 2 ^ (e + 1074) < 2 ^ (d + (e + 1074))).
    { rewrite (Z.pow_add_r 2 d (e + 1074)) by lia. apply Z.mul_lt_mono_pos_r; lia. }
    change (64 * 2 ^ 1074) with (2 ^ 1080) in Hb.
    change (128 * 2 ^ 1074) with (2 ^ 1081) in Hb.
    assert (d + e = 7).
    { destruct (Z_lt_le_dec (d + e) 7) as [L|L].
      - pose proof (pow2_le (d + (e + 1074)) 1080 ltac:(lia)). lia.
      - destruct (Z_lt_le_dec 7 (d + e)) as [G|G]; [|lia].
        pose proof (pow2_le 1081 (d - 1 + (e + 1074)) ltac:(lia)). lia. }
    rewrite fexp64 in Hc.
    assert (e = -46) by lia. subst e.
    exists m. split; reflexivity.
Qed.

Lemma floor_70_100 (v : float) :
  nanf v = false -> 70 * 2 ^ 1074 <= Bf v <= 100 * 2 ^ 1074 ->
  exists n, 70 <= n <= 100 /\ Math_floor v = of_Z n.
Proof.
  intros Hn Hb. unfold Math_floor, of_Z.
  pose proof (pow2_pos 1074 ltac:(lia)) as H1074.
  destruct (exponent_64_128 (Prim2SF v) (Prim2SF_valid v) Hn) as (m & E & Em).
  { unfold Bf in Hb. lia. }
  unfold Bf in Hb. rewrite Em in Hb. rewrite E.
  exists (Zpos m / 2 ^ 46). split.
  - change (2 ^ 1074) with (2 ^ 46 * 2 ^ 1028) in Hb.
    pose proof (pow2_pos 1028 ltac:(lia)) as Hp.
    assert (70 * 2 ^ 46 <= Zpos m <= 100 * 2 ^ 46) by nia.
    split.
    + apply Z.div_le_lower_bound; lia.
    + apply Z.div_le_upper_bound; lia.
  - reflexivity.
Qed.

(** [Math.floor(r * 30 + 70)] for a draw [r] of [Math.random()]. *)
Lemma percent_range (r : float) :
  (0 <=? r)%float = true -> (r <? 1)%float = true ->
  exists n, 70 <= n <= 100 /\ Math_floor (r * 30 + 70) = of_Z n.
Proof.
  intros H0 H1.
  apply leb_Bf in H0. destruct H0 as (_ & Nr & H0).
  apply ltb_Bf in H1. destruct H1 as (_ & _ & H1).
  change (Bf 0) with 0 in H0.
  assert (E1 : Bf 1 = 2 ^ 1074) by (vm_compute; reflexivity).
  rewrite E1 in H1.
  pose proof (pow2_pos 1074 ltac:(lia)) as H1074.
  assert (Fr : finf r = true).
  { apply finf_of_bound; [exact Nr|].
    pose proof (pow2_lt 1074 2098 ltac:(lia)). lia. }
  assert (F30 : finf 30 = true) by reflexivity.
  assert (F70 : finf 70 = true) by reflexivity.
  destruct (mul_Bf r 30 Fr F30) as [Em Nm].
  assert (B30 : 0 < Bf 30) by (apply Z.ltb_lt; vm_compute; reflexivity).
  assert (Hm : 0 <= Bf (r * 30) <= Bf 30).
  { rewrite Em. split.
    - apply F2_nonneg. nia.
    - etransitivity; [apply (F2_mono _ ((2 ^ 1074 - 1) * Bf 30)); nia|].
      apply Z.leb_le. vm_compute. reflexivity. }
  assert (Fm : finf (r * 30) = true).
  { apply finf_of_bound; [exact Nm|].
    pose proof (finf_bound 30 F30). lia. }
  destruct (add_Bf (r * 30) 70 Fm F70) as [Ea Na].
  apply floor_70_100; [exact Na|].
  rewrite Ea. split.
  - etransitivity; [|apply (F2_mono ((0 + Bf 70) * 2 ^ 1074)); nia].
    apply Z.leb_le. vm_compute. reflexivity.
  - etransitivity; [apply (F2_mono _ ((Bf 30 + Bf 70) * 2 ^ 1074)); nia|].
    apply Z.leb_le. vm_compute. reflexivity.
Qed.

Lemma rne_half_lt (m : Z) : 0 < m -> rne m 1 < m.
Proof.
  intros Hm. unfold rne. change (2 ^ 1) with 2.
  pose proof (Z.div_mod m 2 ltac:(lia)) as E.
  pose proof (Z.mod_pos_bound m 2 ltac:(lia)) as Hb.
  destruct (Z.compare_spec (2 * (m mod 2)) 2) as [C|C|C]; try lia.
  destruct (Z.even (m / 2)) eqn:Ev; [lia|].
  assert (m / 2 <> 0) by (intros Z; rewrite Z in Ev; discriminate).
  lia.
Qed.

(** Half of a positive number rounds below the number. *)
Lemma F2_half_lt (m : positive) (e : Z) :
  bounded prec emax m e = true ->
  F2 (Zpos m * 2 ^ (e + 1074) * 2 ^ 1073) < Zpos m * 2 ^ (e + 1074).
Proof.
  intros Hv. destruct (bounded_spec m e Hv) as (Hc & _ & He & Hm & Hn).
  pose proof (digits2_bounds m) as Hd.
  pose proof (pow2_pos (e + 1074) ltac:(lia)) as Hp.
  replace (Zpos m * 2 ^ (e + 1074) * 2 ^ 1073) with (Zpos m * 2 ^ ((e - 1) + 2148)).
  2:{ rewrite <- Z.mul_assoc, <- Z.pow_add_r by lia. f_equal. f_equal. lia. }
  pose proof (pow2_pos (e - 1 + 2148) ltac:(lia)) as Hp2.
  destruct (Zpos m * 2 ^ (e - 1 + 2148)) as [|z|z] eqn:Ez; try nia.
  cbn [F2]. rewrite <- Ez. clear Ez z.
  unfold F2pos. apply Z.min_lt_iff. left.
  rewrite fexp64 in Hc.
  rewrite RN_scaled; cbn [Zdigits2]; rewrite ?fexp64; try lia.
  destruct (Z.eq_dec e (-1074)) as [E|E].
  - subst e.
    replace (Z.max (Zpos (digits2_pos m) + (-1074 - 1) - 53) (-1074)) with (-1074) by lia.
    replace (-1074 - (-1074 - 1)) with 1 by lia.
    change (2 ^ (-1074 + 1074)) with 1. rewrite !Z.mul_1_r.
    apply rne_half_lt. lia.
  - replace (Z.max (Zpos (digits2_pos m) + (e - 1) - 53) (-1074)) with (e - 1) by lia.
    replace (e - 1 - (e - 1)) with 0 by lia.
    replace (rne (Zpos m) 0) with (Zpos m).
    2:{ rewrite <- (rne_exact (Zpos m) 0) at 1 by lia. now rewrite Z.mul_1_r. }
    replace (e + 1074) with (Z.succ (e - 1 + 1074)) by lia.
    rewrite Z.pow_succ_r by lia.
    pose proof (pow2_pos (e - 1 + 1074) ltac:(lia)). nia.
Qed.

(** Multiplying a positive number by a factor of at most one half gives
    less than the number. *)
Lemma F2_shrink (x : float) (k : Z) :
  finf x = true -> 0 < Bf x -> 0 <= k <= 2 ^ 1073 -> F2 (Bf x * k) < Bf x.
Proof.
  intros Fx Hx Hk.
  eapply Z.le_lt_trans; [apply (F2_mono _ (Bf x * 2 ^ 1073)); nia|].
  unfold Bf, finf in *. pose proof (Prim2SF_valid x) as Hv.
  destruct (Prim2SF x) as [s|s| |s m e]; cbn [finite_sf B] in *; try discriminate; try lia.
  cbn [valid_binary] in Hv.
  destruct (bounded_spec m e Hv) as (_ & _ & He & _).
  pose proof (pow2_pos (e + 1074) ltac:(lia)).
  destruct s; cbn [cond_Zopp] in *; [nia|].
  now apply F2_half_lt.
Qed.

Lemma F1_mono (z z' : Z) : z <= z' -> F1 z <= F1 z'.
Proof.
  intros H. apply F2_mono. pose proof (pow2_pos 1074 ltac:(lia)). nia.
Qed.

Lemma F1_opp (z : Z) : F1 (- z) = - F1 z.
Proof. unfold F1. rewrite Z.mul_opp_l. apply F2_opp. Qed.

Lemma F1_Bf (x : float) : finf x = true -> F1 (Bf x) = Bf x.
Proof. apply F2_Bf. Qed.

Lemma F1_0 : F1 0 = 0.
Proof. reflexivity. Qed.

Lemma blend_small : 0 < Bf 0.05%float <= 2 ^ 1073 /\ finf 0.05%float = true.
Proof.
  split; [split|reflexivity].
  - apply Z.ltb_lt. vm_compute. reflexivity.
  - apply Z.leb_le. vm_compute. reflexivity.
Qed.

(** One step of the interpolation [c + (t - c) * 0.05]: the new angle lies
    between the old one and the target, and its distance to the target is
    finite again. *)
Lemma approach_step (t c : float) :
  finf t = true -> finf c = true -> finf (t - c) = true ->
  let c' := (c + (t - c) * 0.05)%float in
  finf c' = true /\ finf (t - c') = true /\
  (Bf c <= Bf t -> Bf c <= Bf c' <= Bf t /\ 0 <= Bf (t - c') <= Bf (t - c)) /\
  (Bf t <= Bf c -> Bf t <= Bf c' <= Bf c /\ Bf (t - c) <= Bf (t - c') <= 0).
Proof.
  intros Ft Fc Fd c'.
  destruct blend_small as [[K0 K1] Fk].
  destruct (sub_Bf t c Ft Fc) as [Ed _]. fold (F1 (Bf t - Bf c)) in Ed.
  destruct (mul_Bf (t - c)%float 0.05%float Fd Fk) as [Ep Np].
  pose proof (F1_Bf t Ft) as HFT. pose proof (F1_Bf c Fc) as HFC.
  pose proof (F1_Bf (t - c) Fd) as HFD.
  pose proof (finf_bound _ Fd) as HD.
  pose proof (finf_bound _ Ft) as HT.
  pose proof (finf_bound _ Fc) as HC.
  pose proof (F2_shrink (t - c) (Bf 0.05%float) Fd) as Hs.
  assert (Fo : finf (- (t - c)) = true).
  { unfold finf in *. rewrite opp_spec. now destruct (Prim2SF (t - c)). }
  assert (Bo : Bf (- (t - c)) = - Bf (t - c)).
  { unfold Bf. rewrite opp_spec.
    destruct (Prim2SF (t - c)) as [| | |s m e]; cbn [SFopp B]; try lia;
      destruct s; cbn [negb cond_Zopp]; lia. }
  pose proof (F2_shrink (- (t - c)) (Bf 0.05%float) Fo) as Hs'.
  rewrite Bo in Hs'.
  replace (- Bf (t - c) * Bf 0.05%float) with (- (Bf (t - c) * Bf 0.05%float)) in Hs' by lia.
  rewrite F2_opp in Hs'. rewrite <- Ep in Hs, Hs'.
  set (p := ((t - c) * 0.05)%float) in *.
  set (T := Bf t) in *. set (C := Bf c) in *. set (D := Bf (t - c)) in *.
  set (Pz := Bf p) in *. set (K := Bf 0.05%float) in *.
  pose proof (pow2_pos 1074 ltac:(lia)) as H1074.
  pose proof (F1_mono 0 (T - C)) as M1. pose proof (F1_mono (T - C) 0) as M2.
  rewrite F1_0, <- Ed in M1, M2.
  (* the increment has the sign of the difference and is no larger *)
  assert (HPD : (0 <= D -> 0 <= Pz <= D) /\ (D <= 0 -> D <= Pz <= 0)).
  { rewrite Ep. split; intros H.
    - pose proof (F2_nonneg (D * K) ltac:(nia)).
      pose proof (F2_mono (D * K) (D * 2 ^ 1074) ltac:(nia)) as M.
      fold (F1 D) in M. lia.
    - pose proof (F2_nonneg (- D * K) ltac:(nia)) as M0.
      replace (- D * K) with (- (D * K)) in M0 by lia. rewrite F2_opp in M0.
      pose proof (F2_mono (D * 2 ^ 1074) (D * K) ltac:(nia)) as M.
      fold (F1 D) in M. lia. }
  assert (Fp : finf p = true).
  { apply finf_of_bound; [exact Np|]. fold Pz. destruct (Z_le_gt_dec 0 D); lia. }
  pose proof (F1_Bf p Fp) as HFP. fold Pz in HFP.
  assert (HP1 : C <= T -> 0 <= Pz <= T - C).
  { intros H. split; [lia|].
    destruct (Z_le_gt_dec Pz (T - C)) as [L|G]; [exact L|exfalso].
    pose proof (F1_mono (T - C) Pz ltac:(lia)) as M. rewrite <- Ed, HFP in M.
    lia. }
  assert (HP2 : T <= C -> T - C <= Pz <= 0).
  { intros H. split; [|lia].
    destruct (Z_le_gt_dec (T - C) Pz) as [L|G]; [exact L|exfalso].
    pose proof (F1_mono Pz (T - C) ltac:(lia)) as M. rewrite <- Ed, HFP in M.
    lia. }
  destruct (add_Bf c p Fc Fp) as [Ec Nc]. fold c' in Ec, Nc.
  fold C Pz in Ec. fold (F1 (C + Pz)) in Ec.
  assert (HC' : (C <= T -> C <= Bf c' <= T) /\ (T <= C -> T <= Bf c' <= C)).
  { rewrite Ec. split; intros H.
    - pose proof (F1_mono C (C + Pz) ltac:(lia)).
      pose proof (F1_mono (C + Pz) T ltac:(lia)). lia.
    - pose proof (F1_mono (C + Pz) C ltac:(lia)).
      pose proof (F1_mono T (C + Pz) ltac:(lia)). lia. }
  assert (Fc' : finf c' = true).
  { apply finf_of_bound; [exact Nc|]. destruct (Z_le_gt_dec C T); lia. }
  destruct (sub_Bf t c' Ft Fc') as [Ed' Nd']. fold T in Ed'. fold (F1 (T - Bf c')) in Ed'.
  assert (HD' : (C <= T -> 0 <= Bf (t - c') <= D) /\ (T <= C -> D <= Bf (t - c') <= 0)).
  { rewrite Ed', Ed. split; intros H.
    - pose proof (F1_mono 0 (T - Bf c') ltac:(lia)) as N1. rewrite F1_0 in N1.
      pose proof (F1_mono (T - Bf c') (T - C) ltac:(lia)). lia.
    - pose proof (F1_mono (T - Bf c') 0 ltac:(lia)) as N1. rewrite F1_0 in N1.
      pose proof (F1_mono (T - C) (T - Bf c') ltac:(lia)). lia. }
  split; [exact Fc'|]. split.
  - apply finf_of_bound; [exact Nd'|]. destruct (Z_le_gt_dec C T); lia.
  - split; intros H; split; try (apply HC'; exact H); apply HD'; exact H.
Qed.

(* ===================================================================== *)
(** ** The random percentages (C1) and the robot's angle (C3) *)
(* ===================================================================== *)

Lemma nanf_eqb (x : float) : nanf x = is_nan x.
Proof.
  unfold is_nan. rewrite FloatAxioms.eqb_spec. unfold SFeqb, nanf.
  destruct (is_nan_sf (Prim2SF x)) eqn:E.
  - rewrite SFcompare_nan by (now rewrite E). reflexivity.
  - rewrite SFcompare_B by auto using Prim2SF_valid.
    now rewrite Z.compare_refl.
Qed.

(** [Number.isFinite]: neither NaN nor an infinity. *)
Lemma is_finite_finf (x : float) : is_finite x = true -> finf x = true.
Proof.
  unfold is_finite. intros H. apply negb_true_iff, orb_false_iff in H.
  destruct H as [Hn Hi]. rewrite <- nanf_eqb in Hn.
  unfold is_infinity in Hi. rewrite FloatAxioms.eqb_spec, abs_spec in Hi.
  unfold finf, nanf in *.
  destruct (Prim2SF x) as [s|s| |s m e]; try reflexivity; try discriminate.
Qed.

Lemma leb_of_Bf (x y : float) :
  finf x = true -> finf y = true -> Bf x <= Bf y -> (x <=? y)%float = true.
Proof.
  intros Fx Fy H. apply leb_Bf. auto using finf_not_nan.
Qed.

Lemma Bf_zero : Bf 0%float = 0.
Proof. reflexivity. Qed.

(** *** The "optimization" actions (C1) *)

(** C1 (amended). [optimizeLayout] and [optimizeTrajectory] compute nothing
    from the objects or the robot: the state after the call is the state
    before it with [stats.damageReduction] (respectively
    [stats.trajectoryEfficiency]) set to [Math.floor(r * 30 + 70)], one more
    console line and the refreshed text of the page. For a draw [r] of
    [Math.random()], [0 <= r < 1], that number is an integer between 70 and
    100 inclusive. *)
Theorem optimize_sets_only_its_percentage (rnd : nat -> float) (s : Sim) :
  (0 <=? rnd 0%nat)%float = true -> (rnd 0%nat <? 1)%float = true ->
  let v := Math_floor (rnd 0%nat * 30 + 70)%float in
  (exists n, 70 <= n <= 100 /\ v = of_Z n) /\
  same_but_page (with_stats (set_damageReduction v) s) (optimizeLayout rnd s) /\
  same_but_page (with_stats (set_trajectoryEfficiency v) s) (optimizeTrajectory rnd s) /\
  (let s' := optimizeLayout rnd s in
   stats s' = set_damageReduction v (stats s) /\
   objects s' = objects s /\ vectors s' = vectors s /\ config s' = config s /\
   robot s' = robot s /\ heap (host s') = heap (host s) /\
   scene s' = scene s /\ world s' = world s /\ isRunning s' = isRunning s) /\
  (let s' := optimizeTrajectory rnd s in
   stats s' = set_trajectoryEfficiency v (stats s) /\
   objects s' = objects s /\ vectors s' = vectors s /\ config s' = config s /\
   robot s' = robot s /\ heap (host s') = heap (host s) /\
   scene s' = scene s /\ world s' = world s /\ isRunning s' = isRunning s).
Proof.
  intros H0 H1 v.
  assert (Hl : same_but_page (with_stats (set_damageReduction v) s) (optimizeLayout rnd s)).
  { unfold optimizeLayout. fold v.
    eapply same_but_page_trans; [|apply same_but_page_updateAnalysisDisplay].
    exists [ConsoleLog "🔧 Optimizando disposición..."], (document (host s)).
    destruct s as [? ? ? ? ? ? ? ? ? ? ? ? ? ? ? ? h]; destruct h. reflexivity. }
  assert (Ht : same_but_page (with_stats (set_trajectoryEfficiency v) s)
                 (optimizeTrajectory rnd s)).
  { unfold optimizeTrajectory. fold v.
    eapply same_but_page_trans; [|apply same_but_page_updateAnalysisDisplay].
    exists [ConsoleLog "🛤️ Optimizando trayectoria..."], (document (host s)).
    destruct s as [? ? ? ? ? ? ? ? ? ? ? ? ? ? ? ? h]; destruct h. reflexivity. }
  split; [now apply percent_range|].
  split; [exact Hl|]. split; [exact Ht|].
  destruct Hl as (o1 & d1 & ->). destruct Ht as (o2 & d2 & ->).
  split; cbv zeta; destruct s as [? ? ? ? ? ? ? ? ? ? ? ? ? ? ? ? h]; destruct h;
    repeat split.
Qed.

(** *** The robot's angle (C3) *)

Lemma updateRobot_active (s : Sim) (g : nat) :
  isActive (robot s) = true -> base (robot s) = Some g ->
  exists s',
    updateRobot s = Ok s' /\
    robot s' = mkRobot (Some g) (segments (robot s)) (targetOf s)
                 (currentAngle (robot s)
                  + (targetOf s - currentAngle (robot s)) * 0.05)%float true /\
    config s' = config s.
Proof.
  intros Ha Hb. unfold updateRobot, targetOf. rewrite Ha. cbn [negb].
  destruct s as [? ? ? ? ? ? ? ? ? ? ? r ? ? ? ? h]; destruct h, r.
  cbn in Ha, Hb. subst. cbn. eexists. split; [reflexivity|]. split; reflexivity.
Qed.

Lemma approach_bools (t c : float) :
  finf t = true -> finf c = true -> finf (t - c) = true ->
  let c' := (c + (t - c) * 0.05)%float in
  finf c' = true /\ finf (t - c') = true /\
  never_overshoots t c c' = true /\ moves_toward t c c' = true.
Proof.
  intros Ft Fc Fd c'.
  destruct (approach_step t c Ft Fc Fd) as (Fc' & Fd' & H1 & H2). fold c' in Fc', Fd', H1, H2.
  split; [exact Fc'|]. split; [exact Fd'|].
  assert (F0 : finf 0%float = true) by reflexivity.
  unfold never_overshoots, moves_toward.
  destruct (Z_le_gt_dec (Bf c) (Bf t)) as [L|G].
  - destruct (H1 L) as [A D]. split.
    + apply orb_true_iff. left. rewrite !andb_true_iff.
      repeat split; apply leb_of_Bf; auto; rewrite ?Bf_zero; lia.
    + apply orb_true_iff. left. rewrite !andb_true_iff.
      repeat split; apply leb_of_Bf; auto; lia.
  - destruct (H2 ltac:(lia)) as [A D]. split.
    + apply orb_true_iff. right. rewrite !andb_true_iff.
      repeat split; apply leb_of_Bf; auto; rewrite ?Bf_zero; lia.
    + apply orb_true_iff. right. rewrite !andb_true_iff.
      repeat split; apply leb_of_Bf; auto; lia.
Qed.

Lemma updateRobotN_invariant (n : nat) (s : Sim) (g : nat) :
  isActive (robot s) = true -> base (robot s) = Some g ->
  finf (targetOf s) = true -> finf (currentAngle (robot s)) = true ->
  finf (targetOf s - currentAngle (robot s)) = true ->
  exists s',
    updateRobotN n s = Ok s' /\
    isActive (robot s') = true /\ base (robot s') = Some g /\ config s' = config s /\
    finf (currentAngle (robot s')) = true /\
    finf (targetOf s - currentAngle (robot s')) = true.
Proof.
  revert s. induction n as [|n IH]; intros s Ha Hb Ft Fc Fd.
  - exists s. cbn. repeat split; assumption.
  - destruct (updateRobot_active s g Ha Hb) as (s1 & E1 & R1 & C1).
    destruct (approach_bools _ _ Ft Fc Fd) as (Fc' & Fd' & _).
    assert (T1 : targetOf s1 = targetOf s) by (unfold targetOf; now rewrite C1).
    destruct (IH s1) as (s' & E' & Ha' & Hb' & C' & Fc'' & Fd'').
    + now rewrite R1.
    + now rewrite R1.
    + now rewrite T1.
    + now rewrite R1.
    + rewrite T1, R1. exact Fd'.
    + exists s'. cbn [updateRobotN]. rewrite E1. cbn [bind].
      rewrite T1 in Fd''. rewrite C' , C1. repeat split; assumption.
Qed.

(** C3 (amended). While the robot is active and [config.rotation] stays as
    it is, every call of [updateRobot] sets [currentAngle] to
    [currentAngle + (targetAngle - currentAngle) * 0.05] with
    [targetAngle = config.rotation * Math.PI / 180]. If the target and the
    initial angle are finite and their difference does not overflow, then
    at every step the new angle lies between the old angle and the target,
    and the difference to the target keeps its sign and does not grow. *)
Theorem robot_angle_approaches_target (s : Sim) (n : nat) :
  isActive (robot s) = true -> is_Some (base (robot s)) ->
  is_finite (targetOf s) = true ->
  is_finite (currentAngle (robot s)) = true ->
  is_finite (targetOf s - currentAngle (robot s)) = true ->
  exists s' s'',
    updateRobotN n s = Ok s' /\ updateRobot s' = Ok s'' /\
    updateRobotN (S n) s = Ok s'' /\
    config s'' = config s /\ isActive (robot s'') = true /\
    targetAngle (robot s'') = targetOf s /\
    currentAngle (robot s'')
    = (currentAngle (robot s')
       + (targetOf s - currentAngle (robot s')) * 0.05)%float /\
    is_finite (currentAngle (robot s'')) = true /\
    moves_toward (targetOf s) (currentAngle (robot s')) (currentAngle (robot s'')) = true /\
    never_overshoots (targetOf s) (currentAngle (robot s')) (currentAngle (robot s''))
    = true.
Proof.
  intros Ha [g Hb] Ft Fc Fd.
  apply is_finite_finf in Ft, Fc, Fd.
  destruct (updateRobotN_invariant n s g Ha Hb Ft Fc Fd)
    as (s' & E' & Ha' & Hb' & C' & Fc' & Fd').
  destruct (updateRobot_active s' g Ha' Hb') as (s'' & E'' & R'' & C'').
  assert (T' : targetOf s' = targetOf s) by (unfold targetOf; now rewrite C').
  destruct (approach_bools _ _ Ft Fc' Fd') as (Fc'' & _ & Hn & Hm).
  exists s', s''. rewrite R'', T'. cbn [currentAngle targetAngle isActive].
  repeat split; try assumption.
  - clear - E' E''. revert s E'. induction n as [|n IH]; intros s E'; cbn in *.
    + injection E' as ->. now rewrite E''.
    + destruct (updateRobot s); cbn in *; [now apply IH | discriminate].
  - now rewrite C'', C'.
  - unfold is_finite. apply negb_true_iff, orb_false_iff. split.
    + rewrite <- nanf_eqb. now apply finf_not_nan.
    + unfold is_infinity. rewrite FloatAxioms.eqb_spec, abs_spec.
      unfold finf in Fc''.
      now destruct (Prim2SF _) as [| | |[] ? ?].
Qed.

(* ===================================================================== *)
(** ** The largest speed and the robot at rest *)
(* ===================================================================== *)


(** *** The statistics *)

Lemma gtb_false_of_le (x m : float) :
  nanf m = false -> (nanf x = false -> Bf x <= Bf m) -> gtb x m = false.
Proof.
  intros Nm H. unfold gtb. destruct (m <? x)%float eqn:E; [|reflexivity].
  apply ltb_Bf in E. destruct E as (_ & Nx & Lt). specialize (H Nx). lia.
Qed.

Lemma max_speed_fold g s l t0 m0 e0 :
  nanf m0 = false ->
  let '(t, m, e) := fold_left (accumulate g s) l (t0, m0, e0) in
  nanf m = false /\ Bf m0 <= Bf m /\
  (m = m0 \/ exists obj b, In obj l /\ getBody (o_body obj) s = Some b /\
                           m = speedOf (b_velocity b)) /\
  (forall obj b, In obj l -> getBody (o_body obj) s = Some b ->
                 nanf (speedOf (b_velocity b)) = false ->
                 Bf (speedOf (b_velocity b)) <= Bf m).
Proof.
  revert t0 m0 e0. induction l as [|obj l IH]; intros t0 m0 e0 N0; cbn [fold_left].
  - repeat split; auto; [lia | intros ? ? []].
  - unfold accumulate at 2. destruct (getBody (o_body obj) s) as [b|] eqn:Eb.
    + set (sp := speedOf (b_velocity b)).
      set (m1 := if gtb sp m0 then sp else m0).
      assert (N1 : nanf m1 = false /\ Bf m0 <= Bf m1 /\
                   (nanf sp = false -> Bf sp <= Bf m1) /\ (m1 = m0 \/ m1 = sp)).
      { unfold m1, gtb. destruct (m0 <? sp)%float eqn:E.
        - apply ltb_Bf in E. destruct E as (_ & Ns & Lt). repeat split; auto; lia.
        - repeat split; auto; try lia. intros Ns.
          destruct (Z_le_gt_dec (Bf sp) (Bf m0)) as [Le|Gt]; [exact Le|].
          assert (T : (m0 <? sp)%float = true) by (apply ltb_Bf; repeat split; auto; lia).
          congruence. }
      destruct N1 as (N1 & L1 & S1 & C1).
      specialize (IH (t0 + sp)%float m1
                     (e0 + (0.5 * o_mass obj * sp * sp
                            + o_mass obj * abs g * vy (b_position b)))%float N1).
      destruct (fold_left _ l _) as [[t m] e].
      destruct IH as (Nm & Lm & Cm & Am). split; [exact Nm|]. split; [lia|]. split.
      * destruct Cm as [-> | (o & b' & Ho & Hb & ->)].
        -- destruct C1 as [-> | ->]; [now left|]. right. exists obj, b. repeat split; auto.
           now left.
        -- right. exists o, b'. repeat split; auto. now right.
      * intros o b' [<-|Ho] Hb Ns.
        -- rewrite Eb in Hb. injection Hb as <-. fold sp in Ns |- *. specialize (S1 Ns). lia.
        -- now apply (Am o b').
    + specialize (IH t0 m0 e0 N0). destruct (fold_left _ l _) as [[t m] e].
      destruct IH as (Nm & Lm & Cm & Am). split; [exact Nm|]. split; [exact Lm|]. split.
      * destruct Cm as [-> | (o & b' & Ho & Hb & ->)]; [now left|].
        right. exists o, b'. repeat split; auto. now right.
      * intros o b' [<-|Ho] Hb Ns; [congruence|]. now apply (Am o b').
Qed.

(** X11. [updateStatistics] leaves the statistics alone while there is
    no object. Otherwise [activeObjects] becomes the number of objects,
    and [maxVelocity] is the text of a number [m] that is 0 or the speed of
    some object's body, with no object's speed greater than it (a speed
    that is NaN is never greater and is skipped). *)
Theorem statistics_show_the_largest_speed (s : Sim) :
  (objects s = [] -> updateStatistics s = s) /\
  (objects s <> [] ->
   exists total m energy,
     fold_left (accumulate (gravity (config s)) s) (objects s) (0, 0, 0)%float
     = (total, m, energy) /\
     stats (updateStatistics s)
     = set_activeObjects (of_Z (Z.of_nat (length (objects s))))
         (set_totalEnergy (VStr (Fixed energy 2))
            (set_avgVelocity
               (VStr (Fixed (total / of_Z (Z.of_nat (length (objects s)))) 2))
               (set_maxVelocity (VStr (Fixed m 2)) (stats s)))) /\
     (0 <=? m)%float = true /\
     (m = 0%float \/
      exists obj b, In obj (objects s) /\ getBody (o_body obj) s = Some b /\
                    m = speedOf (b_velocity b)) /\
     (forall obj b, In obj (objects s) -> getBody (o_body obj) s = Some b ->
                    gtb (speedOf (b_velocity b)) m = false)).
Proof.
  split.
  - intros H. unfold updateStatistics. now rewrite H.
  - intros Hne.
    pose proof (max_speed_fold (gravity (config s)) s (objects s) 0 0 0 eq_refl) as H.
    destruct (fold_left _ _ _) as [[t m] e] eqn:E.
    destruct H as (Nm & Lm & Cm & Am).
    exists t, m, e. split; [reflexivity|]. split.
    + unfold updateStatistics. rewrite E.
      destruct (objects s) as [|o l] eqn:Eo; [congruence|].
      destruct s as [? ? ? ? ? ? ? ? ? ? ? ? ? ? ? ? ?]. reflexivity.
    + split; [apply leb_Bf; repeat split; auto|]. split; [exact Cm|].
      intros obj b Hin Hb. apply gtb_false_of_le; [exact Nm|]. intros Ns.
      now apply (Am obj b).
Qed.

Lemma eqb_Bf (x y : float) :
  (x =? y)%float = true <-> nanf x = false /\ nanf y = false /\ Bf x = Bf y.
Proof.
  rewrite FloatAxioms.eqb_spec. unfold SFeqb.
  destruct (nanf x) eqn:Nx; [|destruct (nanf y) eqn:Ny].
  - rewrite SFcompare_nan by (unfold nanf in Nx; now rewrite Nx).
    split; [discriminate | intros (? & _); discriminate].
  - rewrite SFcompare_nan by (unfold nanf in Ny; rewrite Ny; apply orb_true_r).
    split; [discriminate | intros (_ & ? & _); discriminate].
  - rewrite compare_Bf by assumption.
    destruct (Z.compare_spec (Bf x) (Bf y)); split; intros H'; try discriminate;
      try (repeat split; lia); try reflexivity; lia.
Qed.

(** At the target the interpolation [c + (t - c) * 0.05] stays there. *)
Lemma approach_rest (t c : float) :
  finf t = true -> (c =? t)%float = true ->
  let c' := (c + (t - c) * 0.05)%float in
  (c' =? t)%float = true.
Proof.
  intros Ft E c'. apply eqb_Bf in E. destruct E as (Nc & Nt & E).
  assert (Fc : finf c = true).
  { apply finf_of_bound; [exact Nc|]. rewrite E. now apply finf_bound. }
  assert (Fd : finf (t - c) = true).
  { destruct (sub_Bf t c Ft Fc) as [Ed Nd].
    apply finf_of_bound; [exact Nd|]. rewrite Ed, E, Z.sub_diag, Z.mul_0_l.
    split; vm_compute; reflexivity. }
  destruct (approach_step t c Ft Fc Fd) as (Fc' & _ & H1 & H2). fold c' in Fc', H1, H2.
  apply eqb_Bf. repeat split; auto using finf_not_nan.
  assert (L1 : Bf c <= Bf t) by lia. assert (L2 : Bf t <= Bf c) by lia.
  destruct (H1 L1) as [? _]. destruct (H2 L2) as [? _]. lia.
Qed.

(** X13. Once the active robot's [currentAngle] equals the target
    [config.rotation * Math.PI / 180] (a finite number), any number of
    further calls of [updateRobot] leave it equal to the target: the arm
    rests where it was sent. *)
Theorem robot_rests_at_target (n : nat) (s : Sim) (g : nat) :
  isActive (robot s) = true -> base (robot s) = Some g ->
  finf (targetOf s) = true ->
  (currentAngle (robot s) =? targetOf s)%float = true ->
  returns (updateRobotN n s) = true /\
  (angleAfter n s =? targetOf s)%float = true.
Proof.
  unfold angleAfter. revert s. induction n as [|n IH]; intros s Ha Hb Ft E.
  - cbn. split; [reflexivity | exact E].
  - destruct (updateRobot_active s g Ha Hb) as (s1 & E1 & R1 & C1).
    assert (T1 : targetOf s1 = targetOf s) by (unfold targetOf; now rewrite C1).
    cbn [updateRobotN]. rewrite E1. cbn [bind]. rewrite <- T1. apply IH.
    + now rewrite R1.
    + now rewrite R1.
    + now rewrite T1.
    + rewrite T1, R1. cbn [currentAngle]. now apply approach_rest.
Qed.
(* ===================================================================== *)
(** ** The model at work: concrete runs *)
(* ===================================================================== *)

Example floor_examples :
  Math_floor 2.5%float = 2%float /\ Math_floor (-2.5)%float = (-3)%float /\
  Math_floor 0.5%float = 0%float /\ Math_floor 99.99%float = 99%float /\
  Math_floor 1e300%float = 1e300%float /\ Math_floor infinity = infinity.
Proof. vm_compute. repeat split. Qed.

Example round_examples :
  Math_round 2.5%float = 3%float /\ Math_round (-2.5)%float = (-2)%float /\
  Math_round 59.4%float = 59%float /\ Math_round 60%float = 60%float.
Proof. vm_compute. repeat split. Qed.

Example rem_examples :
  js_rem 125.5%float 60%float = 5.5%float /\ js_rem 7.25%float 1%float = 0.25%float /\
  js_rem (-7.25)%float 2%float = (-1.25)%float.
Proof. vm_compute. repeat split. Qed.

(** After the set-up the simulator is paused and empty, the loop runs, and
    the first call of [animate] has already replaced the nominal step. *)
Example booted_state :
  isRunning booted = false /\ objects booted = [] /\ looping (host booted) = true /\
  frameCount booted = 1 /\ deltaTime booted = 0.002%float /\
  has_listener "addBox" booted = true.
Proof. vm_compute. repeat split. Qed.

(** One box: its body moves upwards at 0.4 m/s after the initial impulse,
    so it calls for one arrow of each type. *)
Example withBox_state :
  length (objects withBox) = 1%nat /\
  length (arrowsFor TVelocity withBox) = 1%nat /\
  length (arrowsFor TMomentum withBox) = 1%nat /\
  vectors withBox = [].
Proof. vm_compute. repeat split. Qed.

(** *** C1 *)

(** C1, the claim as stated fails: the largest draw below 1 gives 100, not
    a number up to 99. [(1 - 2^-53) * 30] is [30 - 2^-48] after rounding,
    and adding 70 to it gives a number less than [2^-47] below 100, which
    rounds to 100. *)
Lemma optimize_can_give_100 :
  (0 <=? largestDraw)%float = true /\ (largestDraw <? 1)%float = true /\
  (largestDraw * 30)%float = 0x1.dffffffffffffp+4%float /\
  (largestDraw * 30 + 70)%float = 100%float /\
  damageReduction (stats (optimizeLayout (fun _ => largestDraw) booted)) = 100%float /\
  trajectoryEfficiency (stats (optimizeTrajectory (fun _ => largestDraw) booted)) = 100%float /\
  (100 <=? 99)%float = false.
Proof. vm_compute. repeat split. Qed.

Lemma optimize_sets_only_its_percentage_witness :
  (exists n, 70 <= n <= 100 /\ Math_floor (half 0%nat * 30 + 70)%float = of_Z n) /\
  stats (optimizeLayout half booted)
  = set_damageReduction (Math_floor (half 0%nat * 30 + 70)%float) (stats booted).
Proof.
  destruct (optimize_sets_only_its_percentage half booted) as (H & _ & _ & (E & _) & _).
  - vm_compute. reflexivity.
  - vm_compute. reflexivity.
  - split; [exact H | exact E].
Defined.

(** *** C2 *)

Lemma reset_restores_initial_state_witness :
  length (objects withBox) = 1%nat /\
  exists s', reset withBox = Ok s' /\ objects s' = [] /\ vectors s' = [] /\
             stats s' = stats0.
Proof.
  split; [vm_compute; reflexivity|].
  destruct (reset_restores_initial_state withBox) as (s' & E & O & V & S & _).
  - exists page0, 800%float, 600%float, true, true, [TimeoutInit 0 2; Click "addBox" half].
    reflexivity.
  - exists s'. repeat split; assumption.
Defined.

(** *** C3 *)

(** C3, the claim as stated fails: with the robot active at angle 0 and
    [config.rotation = 1e308] the target is [Infinity]; one call of
    [updateRobot] puts the angle at [Infinity], and the difference to the
    target, [Infinity - Infinity], is [NaN]: it has no sign and no size. *)
Lemma robot_angle_can_overflow :
  isActive (robot overflowing) = true /\
  returns (updateRobotN 1 overflowing) = true /\
  targetOf overflowing = infinity /\
  angleAfter 0 overflowing = 0%float /\ angleAfter 1 overflowing = infinity /\
  is_nan (targetOf overflowing - angleAfter 1 overflowing) = true /\
  never_overshoots (targetOf overflowing) (angleAfter 0 overflowing) (angleAfter 1 overflowing)
  = false.
Proof. vm_compute. repeat split. Qed.

Lemma robot_angle_approaches_target_witness :
  targetOf robotOn = (45 * Math_PI / 180)%float /\
  never_overshoots (targetOf robotOn) (angleAfter 2 robotOn) (angleAfter 3 robotOn) = true /\
  moves_toward (targetOf robotOn) (angleAfter 2 robotOn) (angleAfter 3 robotOn) = true.
Proof.
  split; [vm_compute; reflexivity|].
  destruct (robot_angle_approaches_target robotOn 2)
    as (s' & s'' & E' & _ & E'' & _ & _ & _ & _ & _ & M & N).
  - vm_compute. reflexivity.
  - vm_compute. eexists. reflexivity.
  - vm_compute. reflexivity.
  - vm_compute. reflexivity.
  - vm_compute. reflexivity.
  - unfold angleAfter. rewrite E', E''. cbn [state_of]. split; [exact N | exact M].
Defined.

(** *** C4 *)


(** *** C5 *)



(** *** C6 *)

Lemma constructor_ignores_dependency_check_witness :
  fst (checkDependencies (host0 page0 800 600 false true)) = false /\
  timers (host (constructor (host0 page0 800 600 false true))) = [TimerInit].
Proof.
  destruct (constructor_ignores_dependency_check (host0 page0 800 600 false true))
    as (H & _ & _ & _ & T).
  - reflexivity.
  - split; [exact H | exact T].
Defined.

(** *** C7 *)


(** *** C9 *)

Lemma step_only_when_paused_witness :
  exists s',
    step booted = Ok s' /\
    simulationTime s' = (simulationTime booted + deltaTime booted)%float /\
    worldSteps (effects (host s')) = [deltaTime booted].
Proof.
  destruct (step_only_when_paused booted) as (_ & _ & H).
  assert (W : exists w, world booted = Some w) by (vm_compute; eexists; reflexivity).
  destruct W as [w W].
  destruct (H eq_refl w W) as (s' & E & _ & F & T & _).
  - intros _. vm_compute. eexists. reflexivity.
  - exists s'. split; [exact E|]. split; [exact T|]. now rewrite F.
Defined.

(** *** C10 *)


(* ===================================================================== *)
(** ** The rest of the class at work *)
(* ===================================================================== *)

Lemma booted_reachable : reachable booted.
Proof. exists page0, 800%float, 600%float, true, true, [TimeoutInit 0 2]. reflexivity. Defined.


Lemma tenthFrame_reachable : reachable tenthFrame.
Proof.
  exists page0, 800%float, 600%float, true, true,
    ([TimeoutInit 0 2; Click "addBox" half; Click "playBtn" half]
     ++ map (fun k => AnimationFrame (of_Z (16 * k)) (of_Z (16 * k + 16)))
            [1; 2; 3; 4; 5; 6; 7; 8; 9]%Z)%list.
  unfold tenthFrame, playing, run. rewrite fold_left_app. reflexivity.
Defined.

(** *** X1 *)


(** *** X2 *)

Lemma missing_library_leaves_simulator_inert_witness :
  let s := run [TimeoutInit 0 2; Click "addBox" half; Click "playBtn" half;
                AnimationFrame 2 18]
               (constructor (host0 page0 800 600 true false)) in
  world s = None /\ objects s = [] /\ listeners (host s) = [] /\
  looping (host s) = false /\ isRunning s = false /\ frameCount s = 0.
Proof.
  pose proof (missing_library_leaves_simulator_inert page0 800 600 true false
                [TimeoutInit 0 2; Click "addBox" half; Click "playBtn" half;
                 AnimationFrame 2 18] eq_refl) as H.
  cbv zeta in H. destruct H as (W & O & _ & L & Lo & R & F & _).
  cbv zeta. repeat split; assumption.
Defined.

(** *** X3 *)

Lemma page0_complete (id : string) : In id requiredIds -> is_Some (page0 !! id).
Proof.
  intros Hin.
  assert (F : forallb (fun id => match page0 !! id with Some _ => true | None => false end)
                      requiredIds = true) by (vm_compute; reflexivity).
  rewrite forallb_forall in F. specialize (F id Hin).
  destruct (page0 !! id); [eexists; reflexivity | discriminate].
Defined.

Lemma setup_succeeds_on_complete_page_witness :
  exists s,
    dispatch (TimeoutInit 0 2) (constructor (host0 page0 800 600 true true)) = Ok s /\
    looping (host s) = true /\ has_listener "addBox" s = true /\
    has_listener "document" s = true /\ frameCount s = 1 /\
    timers (host s) = [TimerHideLoading].
Proof.
  destruct (setup_succeeds_on_complete_page page0 800 600 0 2 page0_complete)
    as (s & E & _ & _ & Lo & B & _ & _ & _ & _ & _ & _ & _ & F & _ & _ & _ & T & _).
  exists s. split; [exact E|]. split; [exact Lo|].
  split; [apply B; cbn; auto|].
  split; [apply B; apply in_or_app; right; apply in_or_app; right; cbn; auto|].
  split; [exact F | exact T].
Defined.

(** *** X4 *)

Lemma setup_fails_without_a_control_witness :
  exists e s,
    dispatch (TimeoutInit 0 2) (constructor (host0 pageWithoutAddBox 800 600 true true))
    = Throw e s /\
    looping (host s) = false /\ has_listener "document" s = false /\
    frameCount s = 0 /\ dispatch (AnimationFrame 2 18) s = Ok s.
Proof.
  destruct (setup_fails_without_a_control pageWithoutAddBox 800 600 0 2)
    as (e & s & E & _ & Lo & _ & _ & D & F & _ & _ & _ & A & _).
  - vm_compute. eexists. reflexivity.
  - exists "addBox". split; [cbn; auto | vm_compute; reflexivity].
  - exists e, s. split; [exact E|]. split; [exact Lo|]. split; [exact D|].
    split; [exact F | apply A].
Defined.

(** *** X5 *)


(** *** X6 *)

Lemma canvas_click_changes_one_body_witness :
  exists b b',
    getBody 6 playingHit = Some b /\ b_velocity b = mkVec3 0 (2 / 5) 0 /\
    getBody 6 (state_of (@onCanvasClick hittingPlatform 10 20 half playingHit)) = Some b' /\
    b_velocity b' = mkVec3 0 (2 / 5 + 10 / 5) 0 /\
    getBody 0 (state_of (@onCanvasClick hittingPlatform 10 20 half playingHit))
    = getBody 0 playingHit.
Proof.
  destruct (@canvas_click_changes_one_body hittingPlatform 10 20 half playingHit)
    as (_ & G & _ & H).
  assert (B : exists b, getBody 6 playingHit = Some b /\ b_mass b = 5%float /\
                        b_velocity b = mkVec3 0 (2 / 5) 0)
    by (vm_compute; eexists; repeat split; reflexivity).
  destruct B as (b & B & M & V).
  epose proof (H _ 7%nat [] (mkObj 6 7 TBox _) eq_refl eq_refl eq_refl _ _ _) as E.
  Unshelve.
  all: try (vm_compute; reflexivity).
  assert (G0 : getBody 0 (state_of (@onCanvasClick hittingPlatform 10 20 half playingHit))
               = getBody 0 playingHit).
  { apply G. intros obj Hin.
    assert (O : objects playingHit = [mkObj 6 7 TBox 5]) by (vm_compute; reflexivity).
    rewrite O in Hin. destruct Hin as [<-|[]]. cbn. discriminate. }
  clear G H.
  exists b. eexists. split; [exact B|]. split; [exact V|].
  split; [|split; [|exact G0]].
  - unfold getBody. rewrite E. cbn [o_body]. rewrite lookup_alter_eq.
    unfold getBody in B. rewrite B. reflexivity.
  - revert M V. destruct b as [m sh p v q f r]. cbn. intros -> ->.
    vm_compute. reflexivity.
Defined.

(** *** X7 *)

Lemma resize_follows_the_window_witness :
  exists s' c r,
    dispatch (Resize 1024 768) booted = Ok s' /\
    innerWidth (host s') = 1024%float /\ innerHeight (host s') = 768%float /\
    camera s' = Some c /\ cam_aspect c = (1024 / 768)%float /\
    renderer s' = Some r /\ r_width r = 1024%float /\ r_height r = 768%float.
Proof.
  destruct (resize_follows_the_window 1024 768 booted booted_reachable)
    as (s' & cam & rn & E & -> & _ & H).
  destruct H as (c & r & _ & _ & -> & ->); [vm_compute; reflexivity|].
  eexists _, _, _. split; [exact E|]. repeat split.
Defined.

(** *** X8 *)

Lemma toggle_flips_collapsed_witness :
  exists s' panel',
    dispatch (Click "toggleControl" half) booted = Ok s' /\
    getElementById "toggleControl" s' = getElementById "toggleControl" booted /\
    getElementById "controlPanel" s' = Some panel' /\
    class_contains "collapsed" panel' = true.
Proof.
  destruct (toggle_flips_collapsed "toggleControl" "controlPanel" "togglecontrol" half booted)
    as (s' & E & _ & B & _ & _ & H).
  - cbn; auto.
  - vm_compute. reflexivity.
  - destruct (H element0) as (panel' & G & C & _); [vm_compute; reflexivity|].
    exists s', panel'. split; [exact E|]. split; [exact B|]. split; [exact G|].
    rewrite C. reflexivity.
Defined.

(** *** X9 *)

Lemma paused_frame_only_renders_witness :
  exists s',
    dispatch (AnimationFrame 2 18) booted = Ok s' /\
    frameCount s' = 2 /\ deltaTime s' = ((18 - 2) / 1000)%float /\
    simulationTime s' = 0%float /\ heap (host s') = heap (host booted) /\
    worldSteps (effects (host s')) = [].
Proof.
  destruct (paused_frame_only_renders 2 18 booted booted_reachable)
    as (s' & doc & st & E & _ & _ & _ & H & _ & _ & _ & _ & T & Ef & F & D).
  - vm_compute. reflexivity.
  - vm_compute. reflexivity.
  - exists s'. split; [exact E|]. split; [exact F|]. split; [exact D|].
    split; [rewrite T; vm_compute; reflexivity|]. split; [exact H|].
    rewrite Ef. vm_compute. reflexivity.
Defined.

(** *** X10 *)

Lemma arrows_follow_every_tenth_frame_witness :
  frameCount tenthFrame = 10 /\ vectors tenthFrame = [] /\
  exists s',
    dispatch (AnimationFrame 160 176) tenthFrame = Ok s' /\
    objects s' = objects tenthFrame /\
    arrowsOf TVelocity s' = arrowsFor TVelocity s' /\
    arrowsOf TMomentum s' = arrowsFor TMomentum s'.
Proof.
  split; [vm_compute; reflexivity|]. split; [vm_compute; reflexivity|].
  destruct (arrows_follow_every_tenth_frame 160 176 tenthFrame tenthFrame_reachable)
    as (s' & E & O & H & _).
  - vm_compute. reflexivity.
  - vm_compute. reflexivity.
  - exists s'. split; [exact E|]. split; [exact O|].
    split; apply H; vm_compute; reflexivity.
Defined.

(** *** X11 *)

Lemma statistics_show_the_largest_speed_witness :
  updateStatistics booted = booted /\
  exists m,
    maxVelocity (stats (updateStatistics tenthFrame)) = VStr (Fixed m 2) /\
    activeObjects (stats (updateStatistics tenthFrame)) = 1%float /\
    (0 <=? m)%float = true.
Proof.
  destruct (statistics_show_the_largest_speed booted) as [H _].
  split; [apply H; vm_compute; reflexivity|].
  destruct (statistics_show_the_largest_speed tenthFrame) as [_ H'].
  destruct H' as (total & m & energy & _ & S & M & _);
    [vm_compute; discriminate|].
  exists m. rewrite S. split; [reflexivity|]. split; [vm_compute; reflexivity | exact M].
Defined.

(** *** X12 *)

Lemma analysis_panel_shows_the_statistics_witness :
  textContent <$> getElementById "damageReduction"
                    (updateAnalysisDisplay (with_stats (set_damageReduction 85) booted))
  = Some (Cat (NumStr 85) (Lit "%")) /\
  textContent <$> getElementById "optimizationStatus"
                    (updateAnalysisDisplay (with_stats (set_damageReduction 85) booted))
  = Some (Lit "Optimizada") /\
  getElementById "playBtn" (updateAnalysisDisplay (with_stats (set_damageReduction 85) booted))
  = getElementById "playBtn" (with_stats (set_damageReduction 85) booted).
Proof.
  destruct (analysis_panel_shows_the_statistics (with_stats (set_damageReduction 85) booted))
    as (H & _ & K & _).
  assert (S : stats (with_stats (set_damageReduction 85) booted)
              = set_damageReduction 85 stats0) by (vm_compute; reflexivity).
  rewrite S in H, K. clear S.
  split; [|split].
  - erewrite (H "damageReduction" (Cat (NumStr 85) (Lit "%")));
      [reflexivity | cbn; do 7 right; left; reflexivity | vm_compute; reflexivity].
  - erewrite (H "optimizationStatus" (Lit "Optimizada"));
      [reflexivity | cbn; do 10 right; left; reflexivity | vm_compute; reflexivity].
  - apply K. cbn. intros F.
    repeat (destruct F as [F|F]; [discriminate|]). exact F.
Defined.

(** *** X13 *)

Lemma robot_rests_at_target_witness :
  currentAngle (robot arrived) = (45 * Math_PI / 180)%float /\
  returns (updateRobotN 100 arrived) = true /\
  (angleAfter 100 arrived =? targetOf arrived)%float = true.
Proof.
  split; [vm_compute; reflexivity|].
  apply (robot_rests_at_target 100 arrived 2); vm_compute; reflexivity.
Defined.

(** *** X14 *)

Lemma robot_button_round_trip_witness :
  exists s1 s2 el2,
    dispatch (Click "activateRobot" half) booted = Ok s1 /\
    dispatch (Click "activateRobot" half) s1 = Ok s2 /\
    isActive (robot s1) = true /\
    getElementById "activateRobot" s2 = Some el2 /\
    textContent el2 = Lit "Activar Robot" /\
    class_contains "btn-primary" el2 = false.
Proof.
  destruct (robot_button_round_trip half half booted)
    as (s1 & s2 & E1 & E2 & A & _ & _ & _ & H).
  - vm_compute. reflexivity.
  - destruct (H element0) as (el2 & G & T & _ & _ & C); [vm_compute; reflexivity|].
    exists s1, s2, el2. split; [exact E1|]. split; [exact E2|]. split; [exact A|].
    split; [exact G|]. split; [exact T|]. rewrite C. reflexivity.
Defined.

(** *** X15 *)

Lemma reset_gives_back_what_the_setup_built_witness :
  length (objects (run busy booted)) = 1%nat /\
  length (vectors (run busy booted)) = 2%nat /\
  exists s',
    reset (run busy booted) = Ok s' /\
    sc_children <$> scene s' = sc_children <$> scene booted /\
    w_bodies <$> world s' = w_bodies <$> world booted /\
    objects s' = [] /\ vectors s' = [].
Proof.
  split; [vm_compute; reflexivity|]. split; [vm_compute; reflexivity|].
  destruct (reset_gives_back_what_the_setup_built page0 800 600 0 2 booted)
    as (sc0 & w0 & Hs0 & Hw0 & H).
  - vm_compute. reflexivity.
  - destruct (H busy) as (_ & _ & _ & _ & _ & _ & _ & s' & E & Rs & Rw & Ro & Rv).
    exists s'. split; [exact E|]. rewrite Hs0, Hw0.
    split; [exact Rs|]. split; [exact Rw|]. split; [exact Ro | exact Rv].
Defined.
